(** * NTP clock sketches: a shallow embedding and its properties

    The repository holds four Arduino sketches (ESP8266_HW_630, ESP01_OLED_V2,
    OLED13_NTP_V1, ESP32_OLED_V1).  Each one loads a [DevConfig] record from
    EEPROM, joins WiFi or opens a setup access point, polls the system clock
    and redraws a small display, and serves a few HTTP routes.

    The vendor libraries (WiFi, web server, display driver, MQTT client,
    EEPROM emulation, libc) are collaborators: their calls appear here as
    recorded events, and the values they return are inputs of the embedded
    functions. *)

From Stdlib Require Import Ascii String ZArith Lia Bool Arith List.
Import ListNotations.


(* ================================================================== *)
(** * C strings in fixed-size objects *)
(* ================================================================== *)

Module CStr.

(** A [buffer] is one C object of [char]: an array, a [malloc]ed block.
    Its length is the size of the object.  Reading or writing outside the
    object is undefined behaviour in C; the operations below return [None]
    there. *)
Definition buffer := list ascii.

Definition NUL : ascii := Ascii.zero.

Definition is_nul (c : ascii) : bool := Ascii.eqb c NUL.

Definition bind {A B} (m : option A) (k : A -> option B) : option B :=
  match m with
  | Some a => k a
  | None => None
  end.

Declare Scope ub_scope.
Delimit Scope ub_scope with ub.
Notation "x <- m ;; k" := (bind m (fun x => k))
  (at level 61, m at next level, right associativity) : ub_scope.
Open Scope ub_scope.

(** A string literal: its characters and the terminator. *)
Definition lit (s : string) : buffer := list_ascii_of_string s ++ [NUL].

(** [strlen p]: the number of characters before the first NUL.  The scan
    leaves the object when there is none. *)
Fixpoint strlen (b : buffer) : option nat :=
  match b with
  | [] => None
  | c :: b' => if is_nul c then Some 0 else option_map S (strlen b')
  end.

(** The text a buffer holds, as [printf("%s")] would show it. *)
Definition c_str (b : buffer) : option (list ascii) :=
  n <- strlen b ;; Some (firstn n b).

Fixpoint is_prefix (p s : list ascii) : bool :=
  match p, s with
  | [], _ => true
  | _ :: _, [] => false
  | a :: p', c :: s' => Ascii.eqb a c && is_prefix p' s'
  end.

(** Offset of the first place where [needle] starts in [hay]. *)
Fixpoint find_sub (needle hay : list ascii) : option nat :=
  if is_prefix needle hay then Some 0
  else match hay with
       | [] => None
       | _ :: hay' => option_map S (find_sub needle hay')
       end.

(** [strstr(h, t)]: both arguments are read up to their terminators; the
    result is the offset of the first occurrence in [h], or a null
    pointer ([Some None]). *)
Definition strstr (h t : buffer) : option (option nat) :=
  hs <- c_str h ;;
  ts <- c_str t ;;
  Some (find_sub ts hs).

(** [memmove(b + dst, b + src, n)] inside one object; the source bytes are
    read before any is written. *)
Definition memmove (b : buffer) (dst src n : nat) : option buffer :=
  if (src + n <=? length b) && (dst + n <=? length b)
  then Some (firstn dst b ++ firstn n (skipn src b) ++ skipn (dst + n) b)
  else None.

(** [memcpy(b + dst, src, n)] from another object. *)
Definition memcpy (b : buffer) (dst : nat) (src : buffer) (n : nat)
  : option buffer :=
  if (n <=? length src) && (dst + n <=? length b)
  then Some (firstn dst b ++ firstn n src ++ skipn (dst + n) b)
  else None.

(** The characters of [b] before its first NUL (all of them when there is
    none). *)
Fixpoint text_of (b : buffer) : list ascii :=
  match b with
  | [] => []
  | c :: b' => if is_nul c then [] else c :: text_of b'
  end.

(** [strlcpy(dst, src, size)].  Every call in the sketches passes a string
    literal or [String::c_str()] as [src], which are terminated, and
    [sizeof dst] as [size].  At most [size - 1] characters are copied and a
    terminator follows them; the bytes of [dst] after the terminator stay. *)
Definition strlcpy (dst src : buffer) (size : nat) : buffer :=
  match size with
  | 0 => dst
  | S m =>
      let s := text_of src in
      let n := Nat.min (length s) m in
      firstn n s ++ NUL :: skipn (S n) dst
  end.

(** [malloc(size)]: a null pointer, or a block of [size] bytes whose
    content is whatever the heap held ([fill]). *)
Definition malloc (size : nat) (heap : option (nat -> ascii)) : option buffer :=
  match heap with
  | None => None
  | Some fill => Some (map fill (seq 0 size))
  end.

(** The substitution routine of [handleSettings]; the lambda has the same
    text in 8266_HW_630.ino and ESP01_OLED_V2.ino:
<<
    auto replaceTag = [](char *html, const char *tag, const char *val) {
      char *pos = strstr(html, tag);
      if (!pos) return;
      size_t tagLen = strlen(tag);
      size_t valLen = strlen(val);
      size_t tailLen = strlen(pos + tagLen);
      memmove(pos + valLen, pos + tagLen, tailLen + 1);
      memcpy(pos, val, valLen);
    };
>>
    The page is returned, since the C code updates it in place. *)
Definition replaceTag (html tag val : buffer) : option buffer :=
  r <- strstr html tag ;;
  match r with
  | None => Some html
  | Some pos =>
      tagLen <- strlen tag ;;
      valLen <- strlen val ;;
      tailLen <- strlen (skipn (pos + tagLen) html) ;;
      html1 <- memmove html (pos + valLen) (pos + tagLen) (tailLen + 1) ;;
      memcpy html1 pos val valLen
  end.

(** The same routine as OLED13_NTP_V1.ino writes it:
<<
    auto rep = [](char *h, const char *tag, const char *val) {
      char *pos = strstr(h, tag);
      if (!pos) return;
      size_t tl = strlen(tag), vl = strlen(val);
      memmove(pos + vl, pos + tl, strlen(pos + tl) + 1);
      memcpy(pos, val, vl);
    };
>> *)
Definition rep (h tag val : buffer) : option buffer :=
  r <- strstr h tag ;;
  match r with
  | None => Some h
  | Some pos =>
      tl <- strlen tag ;;
      vl <- strlen val ;;
      n <- strlen (skipn (pos + tl) h) ;;
      h1 <- memmove h (pos + vl) (pos + tl) (n + 1) ;;
      memcpy h1 pos val vl
  end.

(** [tag] starts in [s] right after [pre], and nowhere earlier. *)
Definition first_occ (tag s pre post : list ascii) : Prop :=
  s = pre ++ tag ++ post /\
  forall pre' post', s = pre' ++ tag ++ post' -> length pre <= length pre'.

Definition no_occ (tag s : list ascii) : Prop :=
  forall pre post, s <> pre ++ tag ++ post.

Definition nul_free (s : list ascii) : Prop := ~ In NUL s.

(** The array [b] holds a terminated string of at most [cap] characters. *)
Definition fits (b : buffer) (cap : nat) : Prop :=
  exists n, strlen b = Some n /\ n <= cap.

End CStr.

(* ================================================================== *)
(** * What the sketches share: integers, the clock, the libraries *)
(* ================================================================== *)

Module Arduino.
Import CStr.

Open Scope Z_scope.

(** Unsigned C integers keep the low bits. *)
Definition u8 (z : Z) : Z := z mod 2 ^ 8.
Definition u16 (z : Z) : Z := z mod 2 ^ 16.
Definition u32 (z : Z) : Z := z mod 2 ^ 32.

(** [millis()] is the uptime in milliseconds as a [uint32_t]. *)
Definition millis_of (uptime : Z) : Z := u32 uptime.

(** [struct tm], the fields the sketches read. *)
Record tm := mk_tm {
  tm_sec : Z; tm_min : Z; tm_hour : Z;
  tm_mday : Z; tm_mon : Z; tm_year : Z; tm_wday : Z
}.

(** Text handed to a library call.  Formatting is libc's or the display
    driver's work: a formatted string is kept as its format and arguments,
    [size] being the [sizeof] given to [snprintf] or [strftime] (0 when
    there is no buffer); [TJson] is an object whose members are formatted
    strings. *)
Inductive Arg :=
| AInt (z : Z)
| ADay (i : Z)          (* DAYS[i] *)
| AMonth (i : Z)        (* MONTHS[i] *)
| ALocalIP              (* WiFi.localIP().toString().c_str() *)
| ASoftAPIP             (* WiFi.softAPIP() *)
| ARssi                 (* WiFi.RSSI() *)
| AHeapKB               (* ESP.getFreeHeap() / 1024 *)
| ARandom.              (* random(0xFFFF) *)

Inductive Text :=
| TLit (s : string)
| TArg (a : Arg)
| TFmt (size : nat) (fmt : string) (args : list Arg)
| TStrftime (size : nat) (fmt : string) (ti : tm)
| TJson (size : nat) (fields : list (string * (string * list Arg))).

(** The OLED drivers of the ESP8266 sketches (SSD1306Wire, SH1106Wire). *)
Inductive Font := ArialMT_Plain_10 | ArialMT_Plain_16 | ArialMT_Plain_24.

Inductive OledOp :=
| oled_clear
| oled_setFont (f : Font)
| oled_setTextAlignment_CENTER
| oled_drawString (x y : Z) (t : Text)
| oled_fillRect (x y w h : Z)
| oled_drawRect (x y w h : Z)
| oled_display.

(** The three screens of the clock.  A redraw is told by the first string
    it draws. *)
Inductive Layout := SetupLayout | SyncingLayout | ClockLayout.

Fixpoint first_drawn (ops : list OledOp) : option Text :=
  match ops with
  | [] => None
  | oled_drawString _ _ t :: _ => Some t
  | _ :: ops' => first_drawn ops'
  end.

Definition layout_of (ops : list OledOp) : option Layout :=
  match first_drawn ops with
  | Some (TLit s) =>
      if String.eqb s "WiFi Setup" then Some SetupLayout
      else if String.eqb s "Syncing NTP..." then Some SyncingLayout
      else None
  | Some (TFmt _ f _) =>
      if String.eqb f "%02d:%02d:%02d" then Some ClockLayout else None
  | _ => None
  end.

(** The web server. *)
Inductive Method := HTTP_GET | HTTP_POST.

Definition method_eqb (a b : Method) : bool :=
  match a, b with
  | HTTP_GET, HTTP_GET | HTTP_POST, HTTP_POST => true
  | _, _ => false
  end.

Record Request := mk_req {
  req_path : string;
  req_method : Method;
  req_args : list (string * list ascii)
}.

(** [server.hasArg(name)] and [server.arg(name)]. *)
Definition hasArg (r : Request) (name : string) : bool :=
  existsb (fun kv => String.eqb (fst kv) name) (req_args r).

Definition arg (r : Request) (name : string) : list ascii :=
  match find (fun kv => String.eqb (fst kv) name) (req_args r) with
  | Some kv => snd kv
  | None => []
  end.

(** [String::c_str()]: the characters and a terminator. *)
Definition String_c_str (s : list ascii) : buffer := s ++ [NUL].

Inductive Body :=
| BEmpty
| BLit (s : string)
| BProgmem (name : string)      (* send_P of a PROGMEM page *)
| BPage (page : list ascii)     (* a page built in a buffer *)
| BString (name : string)       (* a page assembled in a String *)
| BJson.                        (* the status object of handleAPI *)

Inductive HttpOp :=
| sendHeader (name value : string)
| send (code : Z) (content_type : option string) (body : Body).

(** The MQTT client. *)
Inductive MqttOp :=
| mqtt_setServer (host : buffer) (port : Z)
| mqtt_connect (clientId : Text) (user_pass : option (buffer * buffer))
| mqtt_loop
| mqtt_publish (topic : buffer) (payload : Text).

(** The radio as the boot code sees it: the uptime, and whether the station
    link is up at a given uptime.  [WiFi.status()] samples the link at the
    current uptime; the uptime advances in [delay]. *)
Record World := mk_world {
  uptime : Z;
  link_up : Z -> bool
}.

Definition millis (w : World) : Z := millis_of (uptime w).

Definition delay (ms : Z) (w : World) : World :=
  mk_world (uptime w + ms) (link_up w).

(** [WiFi.status() == WL_CONNECTED]. *)
Definition WL_CONNECTED (w : World) : bool := link_up w (uptime w).

(** [String::toInt()], that is [atol], which the C library of both
    targets runs as [strtol(s, NULL, 10)]: white space, an optional sign,
    and the leading digits; a value outside the range of [long], 32 bits
    wide on both targets, comes back as [LONG_MAX] or [LONG_MIN]. *)
Definition LONG_MAX : Z := 2147483647.
Definition LONG_MIN : Z := -2147483648.

Definition saturate (z : Z) : Z := Z.max LONG_MIN (Z.min LONG_MAX z).

Definition is_space (c : ascii) : bool :=
  let n := nat_of_ascii c in
  Nat.eqb n 32 || (Nat.leb 9 n && Nat.leb n 13).

Fixpoint skip_space (s : list ascii) : list ascii :=
  match s with
  | c :: s' => if is_space c then skip_space s' else s
  | [] => []
  end.

Definition digit_val (c : ascii) : option Z :=
  let n := Z.of_nat (nat_of_ascii c) in
  if (48 <=? n) && (n <=? 57) then Some (n - 48) else None.

Fixpoint digits_val (acc : Z) (s : list ascii) : Z :=
  match s with
  | [] => acc
  | c :: s' =>
      match digit_val c with
      | Some d => digits_val (10 * acc + d) s'
      | None => acc
      end
  end.

Definition toInt (s : list ascii) : Z :=
  saturate
    match skip_space s with
    | c :: s' =>
        if Ascii.eqb c "-"%char then - digits_val 0 s'
        else if Ascii.eqb c "+"%char then digits_val 0 s'
        else digits_val 0 (c :: s')
    | [] => 0
    end.

(** Decimal digits of a number that is not negative, for [%d]. *)
Definition digit_char (d : Z) : ascii := ascii_of_nat (Z.to_nat (48 + d)).

Fixpoint dec_digits (fuel : nat) (n : Z) (acc : list ascii) : list ascii :=
  match fuel with
  | O => acc
  | S f =>
      let acc' := digit_char (n mod 10) :: acc in
      if n / 10 =? 0 then acc' else dec_digits f (n / 10) acc'
  end.

(** [snprintf(buf, size, "%d", n)] into an array of [size] bytes, for
    [0 <= n < 10^20]: the digits that fit, then the terminator (the bytes
    after it, which the call leaves as they were, are shown as NUL). *)
Definition snprintf_d (size : nat) (n : Z) : buffer :=
  let s := firstn (size - 1) (dec_digits 20 n []) in
  s ++ repeat NUL (size - length s).

Close Scope Z_scope.

End Arduino.


(* ================================================================== *)
(** * ESP8266_HW_630/8266_HW_630.ino *)
(* ================================================================== *)

Module HW630.
Import CStr Arduino.

Open Scope Z_scope.

Definition EEPROM_MAGIC : Z := 0xBE.

Record DevConfig := mk_cfg {
  magic : Z;            (* uint8_t *)
  ssid : buffer;        (* char[33] *)
  pass : buffer;        (* char[65] *)
  tzInfo : buffer       (* char[40] *)
}.

Record NTPData := mk_ntp {
  hour : Z; minute : Z; second : Z;
  day : Z; month : Z;
  year : Z;
  wday : Z;
  synced : bool
}.

Inductive Handler :=
| h_handleRoot | h_handlePortal | h_handlePortalSave
| h_handleSettings | h_handleSettingsSave | h_handleAPI.

Definition Route : Type := string * option Method * Handler.

(** The globals of the sketch, and the routes given to [server.on]. *)
Record State := mk_state {
  cfg : DevConfig;
  ntpData : NTPData;
  apMode : bool;
  lastOledUpdate : Z;
  routes : list Route
}.

Definition set_cfg (c : DevConfig) (s : State) : State :=
  mk_state c (ntpData s) (apMode s) (lastOledUpdate s) (routes s).
Definition set_ntpData (d : NTPData) (s : State) : State :=
  mk_state (cfg s) d (apMode s) (lastOledUpdate s) (routes s).
Definition set_apMode (b : bool) (s : State) : State :=
  mk_state (cfg s) (ntpData s) b (lastOledUpdate s) (routes s).
Definition set_lastOledUpdate (t : Z) (s : State) : State :=
  mk_state (cfg s) (ntpData s) (apMode s) t (routes s).
Definition set_routes (r : list Route) (s : State) : State :=
  mk_state (cfg s) (ntpData s) (apMode s) (lastOledUpdate s) r.

(** [memset(&cfg, 0, sizeof(cfg))]. *)
Definition zero_cfg : DevConfig :=
  mk_cfg 0 (repeat NUL 33) (repeat NUL 65) (repeat NUL 40).

(** Static storage starts zeroed; [apMode] and [lastOledUpdate] have
    initialisers. *)
Definition boot_state : State :=
  mk_state zero_cfg (mk_ntp 0 0 0 0 0 0 0 false) false 0 [].

(** [loadConfig]: [EEPROM.get(0, cfg)] copies the stored image into [cfg]. *)
Definition loadConfig (eeprom : DevConfig) : DevConfig :=
  let cfg := eeprom in
  if negb (magic cfg =? EEPROM_MAGIC) then
    let cfg := zero_cfg in
    let cfg := mk_cfg EEPROM_MAGIC (ssid cfg) (pass cfg) (tzInfo cfg) in
    mk_cfg (magic cfg) (ssid cfg) (pass cfg)
           (strlcpy (tzInfo cfg) (lit "ICT-7") 40)
  else cfg.

(** [saveConfig]: the new [cfg], which is also the image put in EEPROM. *)
Definition saveConfig (cfg : DevConfig) : DevConfig :=
  mk_cfg EEPROM_MAGIC (ssid cfg) (pass cfg) (tzInfo cfg).

(** [ntpUpdate]; [now] is what [time(nullptr)] returns and [lt] what
    [localtime(&now)] points to. *)
Definition ntpUpdate (now : Z) (lt : tm) (d : NTPData) : NTPData :=
  if now <? 100000 then d
  else mk_ntp (u8 (tm_hour lt)) (u8 (tm_min lt)) (u8 (tm_sec lt))
              (u8 (tm_mday lt)) (u8 (tm_mon lt + 1))
              (u16 (tm_year lt + 1900))
              (u8 (tm_wday lt))
              true.

(** The signal bars of [oledUpdate]. *)
Definition rssi_bars (rssi : Z) : Z :=
  if -55 <? rssi then 4 else if -70 <? rssi then 3
  else if -80 <? rssi then 2 else if -90 <? rssi then 1 else 0.

Definition draw_bar (bars i : Z) : OledOp :=
  let x := u8 (112 + i * 4) in
  let h := u8 (3 + i * 3) in
  if i <? bars then oled_fillRect x (12 - h) 3 h
  else oled_drawRect x (12 - h) 3 h.

(** [oledUpdate]; [m1] and [m2] are the two readings of [millis()], [rssi]
    the reading of [WiFi.RSSI()] for the bars.  The drawing calls are
    returned in order. *)
Definition oledUpdate (m1 m2 rssi : Z) (s : State) : State * list OledOp :=
  if u32 (m1 - lastOledUpdate s) <? 500 then (s, [])
  else
    let s := set_lastOledUpdate m2 s in
    if negb (synced (ntpData s)) then
      (s,
       [oled_clear; oled_setFont ArialMT_Plain_16; oled_setTextAlignment_CENTER]
       ++ (if apMode s then
             [oled_drawString 64 8 (TLit "WiFi Setup");
              oled_setFont ArialMT_Plain_10;
              oled_drawString 64 30 (TLit "Connect to:");
              oled_drawString 64 44 (TLit "ESP8266_LCD")]
           else
             [oled_drawString 64 12 (TLit "Syncing NTP...");
              oled_setFont ArialMT_Plain_10;
              oled_drawString 64 36 (TArg ALocalIP)])
       ++ [oled_display])
    else
      let d := ntpData s in
      (s,
       [oled_clear]
       ++ (if negb (apMode s)
           then map (draw_bar (rssi_bars rssi)) [0; 1; 2; 3]
           else [])
       ++ [oled_setFont ArialMT_Plain_24; oled_setTextAlignment_CENTER;
           oled_drawString 64 2
             (TFmt 9 "%02d:%02d:%02d"
                   [AInt (hour d); AInt (minute d); AInt (second d)]);
           oled_setFont ArialMT_Plain_10;
           oled_drawString 64 32
             (TFmt 20 "%s %02d %s %04d"
                   [ADay (wday d); AInt (day d);
                    AMonth (month d - 1); AInt (year d)])]
       ++ (if negb (apMode s)
           then [oled_drawString 64 50 (TFmt 28 "%s  %ddBm" [ALocalIP; ARssi])]
           else [])
       ++ [oled_display]).

Section Pages.

(** The PROGMEM array [SETTINGS_HTML], terminator included. *)
Variable SETTINGS_HTML : buffer.

(** The page of [handleSettings] after the substitutions; [None] is
    undefined behaviour, [Some None] the out-of-memory answer. *)
Definition settings_page (heap : option (nat -> ascii)) (cfg : DevConfig)
  : option (option buffer) :=
  pgmLen <- strlen SETTINGS_HTML ;;
  match malloc (pgmLen + 200) heap with
  | None => Some None
  | Some page =>
      page <- memcpy page 0 SETTINGS_HTML (pgmLen + 1) ;;
      page <- replaceTag page (lit "{{SSID}}") (ssid cfg) ;;
      page <- replaceTag page (lit "{{PASS}}") (pass cfg) ;;
      page <- replaceTag page (lit "{{TZ}}") (tzInfo cfg) ;;
      Some (Some page)
  end.

Definition handleSettings (heap : option (nat -> ascii)) (cfg : DevConfig)
  : option (list HttpOp) :=
  r <- settings_page heap cfg ;;
  match r with
  | None => Some [send 500 (Some "text/plain"%string) (BLit "OOM")]
  | Some page =>
      body <- c_str page ;;
      Some [send 200 (Some "text/html"%string) (BPage body)]
  end.

Definition handleRoot : list HttpOp :=
  [send 200 (Some "text/html"%string) (BProgmem "DASHBOARD_HTML")].

Definition handleAPI : list HttpOp :=
  [send 200 (Some "application/json"%string) BJson].

Definition handlePortal : list HttpOp :=
  [send 200 (Some "text/html"%string) (BProgmem "PORTAL_HTML")].

(** The three [strlcpy] lines that [handleSettingsSave] and
    [handlePortalSave] both start with. *)
Definition store_args (rq : Request) (cfg : DevConfig) : DevConfig :=
  let cfg :=
    if hasArg rq "ssid"
    then mk_cfg (magic cfg) (strlcpy (ssid cfg) (String_c_str (arg rq "ssid")) 33)
                (pass cfg) (tzInfo cfg)
    else cfg in
  let cfg :=
    if hasArg rq "pass"
    then mk_cfg (magic cfg) (ssid cfg)
                (strlcpy (pass cfg) (String_c_str (arg rq "pass")) 65)
                (tzInfo cfg)
    else cfg in
  if hasArg rq "tz"
  then mk_cfg (magic cfg) (ssid cfg) (pass cfg)
              (strlcpy (tzInfo cfg) (String_c_str (arg rq "tz")) 40)
  else cfg.

(** [handleSettingsSave]: the new [cfg], written to EEPROM, and the answer;
    the device then restarts. *)
Definition handleSettingsSave (rq : Request) (cfg : DevConfig)
  : DevConfig * list HttpOp :=
  (saveConfig (store_args rq cfg),
   [sendHeader "Location" "/settings?saved=1"; send 302 None BEmpty]).

Definition handlePortalSave (rq : Request) (cfg : DevConfig)
  : DevConfig * list HttpOp :=
  (saveConfig (store_args rq cfg),
   [send 200 (Some "text/html"%string)
         (BLit ("<html><body style='background:#1a1a2e;color:#fff;"
                ++ "text-align:center;padding:40px'>"
                ++ "<h2>Saved! Rebooting...</h2></body></html>"))]).

Definition handleNotFound (s : State) : list HttpOp :=
  if apMode s then
    [sendHeader "Location" "http://192.168.4.1/"; send 302 None BEmpty]
  else
    [send 404 (Some "text/plain"%string) (BLit "Not Found")].

(** [server.handleClient()] with a pending request: the first route with
    the request's path and method runs, the not-found handler otherwise. *)
Definition route_matches (rq : Request) (r : Route) : bool :=
  let '(path, m, _) := r in
  String.eqb path (req_path rq) &&
  match m with
  | None => true
  | Some m => method_eqb m (req_method rq)
  end.

Definition lookup_route (rq : Request) (rs : list Route) : option Handler :=
  option_map snd (find (route_matches rq) rs).

(** What one pass of [loop] leaves: the sketch running with new globals, or
    a restart with the image that is in EEPROM. *)
Inductive Outcome :=
| Running (s : State)
| Restarted (eeprom : DevConfig).

Definition handleClient (heap : option (nat -> ascii)) (rq : Request) (s : State)
  : option (list HttpOp * Outcome) :=
  match lookup_route rq (routes s) with
  | Some h_handleRoot => Some (handleRoot, Running s)
  | Some h_handlePortal => Some (handlePortal, Running s)
  | Some h_handleAPI => Some (handleAPI, Running s)
  | Some h_handleSettings =>
      ops <- handleSettings heap (cfg s) ;; Some (ops, Running s)
  | Some h_handleSettingsSave =>
      let '(c, ops) := handleSettingsSave rq (cfg s) in Some (ops, Restarted c)
  | Some h_handlePortalSave =>
      let '(c, ops) := handlePortalSave rq (cfg s) in Some (ops, Restarted c)
  | None => Some (handleNotFound s, Running s)
  end.

(** What the environment hands to one pass of [loop]. *)
Record LoopIn := mk_in {
  in_time : Z;                    (* time(nullptr) *)
  in_local : tm;                  (* localtime(&now) *)
  in_millis1 : Z;                 (* millis(), first reading in oledUpdate *)
  in_millis2 : Z;                 (* millis(), second reading *)
  in_rssi : Z;                    (* WiFi.RSSI() *)
  in_request : option Request;    (* the request handleClient finds *)
  in_heap : option (nat -> ascii) (* what malloc returns *)
}.

Inductive Effect :=
| Oled (op : OledOp)
| Http (op : HttpOp).

(** The first line of [loop]: [if (!apMode) ntpUpdate();]. *)
Definition loop_ntp (i : LoopIn) (s : State) : State :=
  if negb (apMode s)
  then set_ntpData (ntpUpdate (in_time i) (in_local i) (ntpData s)) s
  else s.

(** One pass of [loop]; the calls that serve DNS and OTA requests are left
    out. *)
Definition loop (i : LoopIn) (s : State) : option (list Effect * Outcome) :=
  let s := loop_ntp i s in
  let '(s, draw) := oledUpdate (in_millis1 i) (in_millis2 i) (in_rssi i) s in
  match in_request i with
  | None => Some (map Oled draw, Running s)
  | Some rq =>
      r <- handleClient (in_heap i) rq s ;;
      Some (map Oled draw ++ map Http (fst r), snd r)
  end.

End Pages.

(** [wifiConnect]: the wait loop, with [fuel] bounding the passes. *)
Fixpoint wifiConnect_wait (fuel : nat) (start : Z) (w : World) : option World :=
  if negb (WL_CONNECTED w) && (u32 (millis w - start) <? 15000) then
    match fuel with
    | O => None
    | S fuel' => wifiConnect_wait fuel' start (delay 250 w)
    end
  else Some w.

Inductive BootOp :=
| WiFi_mode_STA
| WiFi_begin (ssid pass : buffer)
| WiFi_mode_AP
| WiFi_softAP (name : string)
| dnsServer_start
| configTime (tz : buffer)
| server_begin
| ArduinoOTA_begin (hostname : string)
| write_apMode (b : bool).

(** The values written to [apMode] during boot, in order. *)
Fixpoint apMode_writes (ops : list BootOp) : list bool :=
  match ops with
  | [] => []
  | write_apMode b :: ops' => b :: apMode_writes ops'
  | _ :: ops' => apMode_writes ops'
  end.

Definition wifiConnect (fuel : nat) (cfg : DevConfig) (w : World)
  : option (bool * World * list BootOp) :=
  if is_nul (nth 0 (ssid cfg) NUL) then Some (false, w, [])
  else
    let ops := [WiFi_mode_STA; WiFi_begin (ssid cfg) (pass cfg)] in
    let start := millis w in
    w <- wifiConnect_wait fuel start w ;;
    if WL_CONNECTED w then Some (true, w, ops) else Some (false, w, ops).

Definition startAP (s : State) (w : World) : State * World * list BootOp :=
  let s := set_apMode true s in
  let w := delay 100 w in
  let s := set_routes
             [("/"%string, None, h_handlePortal);
              ("/save"%string, Some HTTP_POST, h_handlePortalSave);
              ("/settings"%string, Some HTTP_GET, h_handleSettings);
              ("/settings"%string, Some HTTP_POST, h_handleSettingsSave);
              ("/api/data"%string, None, h_handleAPI)] s in
  (s, w,
   [write_apMode true; WiFi_mode_AP; WiFi_softAP "ESP8266_LCD";
    dnsServer_start; server_begin]).

Definition startSTA (s : State) (w : World) : State * World * list BootOp :=
  let s := set_apMode false s in
  let s := set_routes
             [("/"%string, None, h_handleRoot);
              ("/settings"%string, Some HTTP_GET, h_handleSettings);
              ("/settings"%string, Some HTTP_POST, h_handleSettingsSave);
              ("/api/data"%string, None, h_handleAPI)] s in
  (s, w,
   [write_apMode false; configTime (tzInfo (cfg s)); server_begin;
    ArduinoOTA_begin "ESP8266_LCD"]).

(** [setup], from the image in EEPROM. *)
Definition setup (fuel : nat) (eeprom : DevConfig) (w : World)
  : option (State * World * list BootOp) :=
  let w := delay 200 w in
  let s := set_cfg (loadConfig eeprom) boot_state in
  r <- wifiConnect fuel (cfg s) w ;;
  let '(ok, w, ops) := r in
  let '(s, w, ops') := if ok then startSTA s w else startAP s w in
  Some (s, w, ops ++ ops').

(** The states of one session: what [setup] leaves, then what each pass of
    [loop] leaves while the sketch keeps running. *)
Inductive reachable (SETTINGS_HTML : buffer) : State -> Prop :=
| reach_setup fuel eeprom w s w' ops :
    setup fuel eeprom w = Some (s, w', ops) ->
    reachable SETTINGS_HTML s
| reach_loop i s ev s' :
    reachable SETTINGS_HTML s ->
    loop SETTINGS_HTML i s = Some (ev, Running s') ->
    reachable SETTINGS_HTML s'.

(** [s'] comes after [s] in a session: some passes of [loop] lead from one
    to the other without a restart. *)
Inductive runs (SETTINGS_HTML : buffer) : State -> State -> Prop :=
| runs_here s : runs SETTINGS_HTML s s
| runs_loop i s ev s' s'' :
    loop SETTINGS_HTML i s = Some (ev, Running s') ->
    runs SETTINGS_HTML s' s'' ->
    runs SETTINGS_HTML s s''.

Close Scope Z_scope.

End HW630.

(* ================================================================== *)
(** * ESP01_OLED_V2/ESP01_OLED_V2.ino *)
(* ================================================================== *)

Module ESP01.
Import CStr Arduino.

Open Scope Z_scope.

Definition EEPROM_MAGIC : Z := 0xCD.

Record DevConfig := mk_cfg {
  magic : Z;            (* uint8_t *)
  ssid : buffer;        (* char[33] *)
  pass : buffer;        (* char[65] *)
  mqttHost : buffer;    (* char[65] *)
  mqttPort : Z;         (* uint16_t *)
  mqttUser : buffer;    (* char[33] *)
  mqttPass : buffer;    (* char[65] *)
  mqttTopic : buffer;   (* char[65] *)
  tzInfo : buffer       (* char[40] *)
}.

Record NTPData := mk_ntp {
  hour : Z; minute : Z; second : Z;
  day : Z; month : Z;
  year : Z;
  wday : Z;
  synced : bool
}.

Inductive Handler :=
| h_handleRoot | h_handlePortal | h_handlePortalSave
| h_handleSettings | h_handleSettingsSave | h_handleAPI.

Definition Route : Type := string * option Method * Handler.

Record State := mk_state {
  cfg : DevConfig;
  ntpData : NTPData;
  apMode : bool;
  lastMqttReconnect : Z;
  lastOledUpdate : Z;
  lastMqttPub : Z;
  routes : list Route
}.

Definition set_cfg (c : DevConfig) (s : State) : State :=
  mk_state c (ntpData s) (apMode s) (lastMqttReconnect s) (lastOledUpdate s)
           (lastMqttPub s) (routes s).
Definition set_ntpData (d : NTPData) (s : State) : State :=
  mk_state (cfg s) d (apMode s) (lastMqttReconnect s) (lastOledUpdate s)
           (lastMqttPub s) (routes s).
Definition set_apMode (b : bool) (s : State) : State :=
  mk_state (cfg s) (ntpData s) b (lastMqttReconnect s) (lastOledUpdate s)
           (lastMqttPub s) (routes s).
Definition set_lastMqttReconnect (t : Z) (s : State) : State :=
  mk_state (cfg s) (ntpData s) (apMode s) t (lastOledUpdate s)
           (lastMqttPub s) (routes s).
Definition set_lastOledUpdate (t : Z) (s : State) : State :=
  mk_state (cfg s) (ntpData s) (apMode s) (lastMqttReconnect s) t
           (lastMqttPub s) (routes s).
Definition set_lastMqttPub (t : Z) (s : State) : State :=
  mk_state (cfg s) (ntpData s) (apMode s) (lastMqttReconnect s)
           (lastOledUpdate s) t (routes s).
Definition set_routes (r : list Route) (s : State) : State :=
  mk_state (cfg s) (ntpData s) (apMode s) (lastMqttReconnect s)
           (lastOledUpdate s) (lastMqttPub s) r.

Definition zero_cfg : DevConfig :=
  mk_cfg 0 (repeat NUL 33) (repeat NUL 65) (repeat NUL 65) 0
         (repeat NUL 33) (repeat NUL 65) (repeat NUL 65) (repeat NUL 40).

Definition boot_state : State :=
  mk_state zero_cfg (mk_ntp 0 0 0 0 0 0 0 false) false 0 0 0 [].

Definition loadConfig (eeprom : DevConfig) : DevConfig :=
  let cfg := eeprom in
  if negb (magic cfg =? EEPROM_MAGIC) then
    let cfg := zero_cfg in
    let cfg := mk_cfg EEPROM_MAGIC (ssid cfg) (pass cfg) (mqttHost cfg)
                 (mqttPort cfg) (mqttUser cfg) (mqttPass cfg) (mqttTopic cfg)
                 (tzInfo cfg) in
    let cfg := mk_cfg (magic cfg) (ssid cfg) (pass cfg) (mqttHost cfg)
                 1883 (mqttUser cfg) (mqttPass cfg) (mqttTopic cfg)
                 (tzInfo cfg) in
    let cfg := mk_cfg (magic cfg) (ssid cfg) (pass cfg) (mqttHost cfg)
                 (mqttPort cfg) (mqttUser cfg) (mqttPass cfg)
                 (strlcpy (mqttTopic cfg) (lit "ntp/esp01") 65)
                 (tzInfo cfg) in
    mk_cfg (magic cfg) (ssid cfg) (pass cfg) (mqttHost cfg)
           (mqttPort cfg) (mqttUser cfg) (mqttPass cfg) (mqttTopic cfg)
           (strlcpy (tzInfo cfg) (lit "ICT-7") 40)
  else cfg.

Definition saveConfig (cfg : DevConfig) : DevConfig :=
  mk_cfg EEPROM_MAGIC (ssid cfg) (pass cfg) (mqttHost cfg) (mqttPort cfg)
         (mqttUser cfg) (mqttPass cfg) (mqttTopic cfg) (tzInfo cfg).

Definition ntpUpdate (now : Z) (lt : tm) (d : NTPData) : NTPData :=
  if now <? 100000 then d
  else mk_ntp (u8 (tm_hour lt)) (u8 (tm_min lt)) (u8 (tm_sec lt))
              (u8 (tm_mday lt)) (u8 (tm_mon lt + 1))
              (u16 (tm_year lt + 1900))
              (u8 (tm_wday lt))
              true.

Definition oledUpdate (m1 m2 : Z) (s : State) : State * list OledOp :=
  if u32 (m1 - lastOledUpdate s) <? 500 then (s, [])
  else
    let s := set_lastOledUpdate m2 s in
    if negb (synced (ntpData s)) then
      (s,
       [oled_clear; oled_setFont ArialMT_Plain_16; oled_setTextAlignment_CENTER]
       ++ (if apMode s then
             [oled_drawString 64 10 (TLit "WiFi Setup");
              oled_setFont ArialMT_Plain_10;
              oled_drawString 64 35 (TLit "Connect to:");
              oled_drawString 64 48 (TLit "ESP01_Clock")]
           else
             [oled_drawString 64 16 (TLit "Syncing NTP...");
              oled_setFont ArialMT_Plain_10;
              oled_drawString 64 40 (TArg ALocalIP)])
       ++ [oled_display])
    else
      let d := ntpData s in
      (s,
       [oled_clear;
        oled_setFont ArialMT_Plain_24; oled_setTextAlignment_CENTER;
        oled_drawString 64 2
          (TFmt 9 "%02d:%02d:%02d"
                [AInt (hour d); AInt (minute d); AInt (second d)]);
        oled_setFont ArialMT_Plain_10;
        oled_drawString 64 32
          (TFmt 20 "%s %02d %s %04d"
                [ADay (wday d); AInt (day d);
                 AMonth (month d - 1); AInt (year d)])]
       ++ (if negb (apMode s)
           then [oled_setFont ArialMT_Plain_10; oled_setTextAlignment_CENTER;
                 oled_drawString 64 50 (TArg ALocalIP)]
           else [])
       ++ [oled_display]).

Section Pages.

Variable SETTINGS_HTML : buffer.

Definition settings_page (heap : option (nat -> ascii)) (cfg : DevConfig)
  : option (option buffer) :=
  pgmLen <- strlen SETTINGS_HTML ;;
  match malloc (pgmLen + 300) heap with
  | None => Some None
  | Some page =>
      page <- memcpy page 0 SETTINGS_HTML (pgmLen + 1) ;;
      let portStr := snprintf_d 6 (u16 (mqttPort cfg)) in
      page <- replaceTag page (lit "{{SSID}}") (ssid cfg) ;;
      page <- replaceTag page (lit "{{PASS}}") (pass cfg) ;;
      page <- replaceTag page (lit "{{TZ}}") (tzInfo cfg) ;;
      page <- replaceTag page (lit "{{MQTT_HOST}}") (mqttHost cfg) ;;
      page <- replaceTag page (lit "{{MQTT_PORT}}") portStr ;;
      page <- replaceTag page (lit "{{MQTT_USER}}") (mqttUser cfg) ;;
      page <- replaceTag page (lit "{{MQTT_PASS}}") (mqttPass cfg) ;;
      page <- replaceTag page (lit "{{MQTT_TOPIC}}") (mqttTopic cfg) ;;
      Some (Some page)
  end.

Definition handleSettings (heap : option (nat -> ascii)) (cfg : DevConfig)
  : option (list HttpOp) :=
  r <- settings_page heap cfg ;;
  match r with
  | None => Some [send 500 (Some "text/plain"%string) (BLit "OOM")]
  | Some page =>
      body <- c_str page ;;
      Some [send 200 (Some "text/html"%string) (BPage body)]
  end.

Definition handleRoot : list HttpOp :=
  [send 200 (Some "text/html"%string) (BProgmem "DASHBOARD_HTML")].

Definition handleAPI : list HttpOp :=
  [send 200 (Some "application/json"%string) BJson].

Definition handlePortal : list HttpOp :=
  [send 200 (Some "text/html"%string) (BProgmem "PORTAL_HTML")].

(** [if (server.hasArg(name)) strlcpy(field, server.arg(name).c_str(),
    sizeof(field))]: the new content of the field. *)
Definition arg_or_keep (rq : Request) (name : string) (field : buffer)
  (size : nat) : buffer :=
  if hasArg rq name then strlcpy field (String_c_str (arg rq name)) size
  else field.

Definition handleSettingsSave (rq : Request) (cfg : DevConfig)
  : DevConfig * list HttpOp :=
  let cfg :=
    mk_cfg (magic cfg)
           (arg_or_keep rq "ssid" (ssid cfg) 33)
           (arg_or_keep rq "pass" (pass cfg) 65)
           (arg_or_keep rq "mqttHost" (mqttHost cfg) 65)
           (if hasArg rq "mqttPort" then u16 (toInt (arg rq "mqttPort"))
            else mqttPort cfg)
           (arg_or_keep rq "mqttUser" (mqttUser cfg) 33)
           (arg_or_keep rq "mqttPass" (mqttPass cfg) 65)
           (arg_or_keep rq "mqttTopic" (mqttTopic cfg) 65)
           (arg_or_keep rq "tz" (tzInfo cfg) 40) in
  (saveConfig cfg,
   [sendHeader "Location" "/settings?saved=1"; send 302 None BEmpty]).

(** [handlePortalSave]: the captive portal of this sketch sends the two
    WiFi fields only. *)
Definition handlePortalSave (rq : Request) (cfg : DevConfig)
  : DevConfig * list HttpOp :=
  let cfg :=
    if hasArg rq "ssid"
    then mk_cfg (magic cfg)
                (strlcpy (ssid cfg) (String_c_str (arg rq "ssid")) 33)
                (pass cfg) (mqttHost cfg) (mqttPort cfg) (mqttUser cfg)
                (mqttPass cfg) (mqttTopic cfg) (tzInfo cfg)
    else cfg in
  let cfg :=
    if hasArg rq "pass"
    then mk_cfg (magic cfg) (ssid cfg)
                (strlcpy (pass cfg) (String_c_str (arg rq "pass")) 65)
                (mqttHost cfg) (mqttPort cfg) (mqttUser cfg)
                (mqttPass cfg) (mqttTopic cfg) (tzInfo cfg)
    else cfg in
  (saveConfig cfg,
   [send 200 (Some "text/html"%string)
         (BLit ("<html><body style='background:#1a1a2e;color:#fff;"
                ++ "text-align:center;padding:40px'>"
                ++ "<h2>Saved! Rebooting...</h2></body></html>"))]).

Definition handleNotFound (s : State) : list HttpOp :=
  if apMode s then
    [sendHeader "Location" "http://192.168.4.1/"; send 302 None BEmpty]
  else
    [send 404 (Some "text/plain"%string) (BLit "Not Found")].

(** [mqttPublish]; [connected] is what [mqtt.connected()] returns. *)
Definition mqttPublish (connected : bool) (s : State) : list MqttOp :=
  if is_nul (nth 0 (mqttHost (cfg s)) NUL) then []
  else if negb connected then []
  else if negb (synced (ntpData s)) then []
  else
    let d := ntpData s in
    [mqtt_publish (mqttTopic (cfg s))
       (TJson 128
          [("time"%string,
            ("%02d:%02d:%02d"%string,
             [AInt (hour d); AInt (minute d); AInt (second d)]));
           ("date"%string,
            ("%04d-%02d-%02d"%string,
             [AInt (year d); AInt (month d); AInt (day d)]))])].

(** [mqttReconnect]; [connected] is what [mqtt.connected()] returns, [m1]
    and [m2] the two readings of [millis()]. *)
Definition mqttReconnect (connected : bool) (m1 m2 : Z) (s : State)
  : State * list MqttOp :=
  if is_nul (nth 0 (mqttHost (cfg s)) NUL) then (s, [])
  else if connected then (s, [])
  else if u32 (m1 - lastMqttReconnect s) <? 10000 then (s, [])
  else
    let s := set_lastMqttReconnect m2 s in
    (s,
     [mqtt_setServer (mqttHost (cfg s)) (u16 (mqttPort (cfg s)));
      if negb (is_nul (nth 0 (mqttUser (cfg s)) NUL))
      then mqtt_connect (TLit "ESP01_LCD")
                        (Some (mqttUser (cfg s), mqttPass (cfg s)))
      else mqtt_connect (TLit "ESP01_LCD") None]).

(** The calls one connection attempt makes to the client. *)
Definition attempt (s : State) : list MqttOp :=
  [mqtt_setServer (mqttHost (cfg s)) (u16 (mqttPort (cfg s)));
   if is_nul (nth 0 (mqttUser (cfg s)) NUL)
   then mqtt_connect (TLit "ESP01_LCD") None
   else mqtt_connect (TLit "ESP01_LCD")
                     (Some (mqttUser (cfg s), mqttPass (cfg s)))].

(** [n] calls of [mqttReconnect] that find the client disconnected, the
    first at uptime [T] and each 10000 ms after the one before: the calls
    made to the client, call by call. *)
Fixpoint retries (n : nat) (T : Z) (s : State) : list (list MqttOp) :=
  match n with
  | O => []
  | S n' =>
      let '(s', ops) := mqttReconnect false (u32 T) (u32 T) s in
      ops :: retries n' (T + 10000) s'
  end.

Definition route_matches (rq : Request) (r : Route) : bool :=
  let '(path, m, _) := r in
  String.eqb path (req_path rq) &&
  match m with
  | None => true
  | Some m => method_eqb m (req_method rq)
  end.

Definition lookup_route (rq : Request) (rs : list Route) : option Handler :=
  option_map snd (find (route_matches rq) rs).

Inductive Outcome :=
| Running (s : State)
| Restarted (eeprom : DevConfig).

Definition handleClient (heap : option (nat -> ascii)) (rq : Request) (s : State)
  : option (list HttpOp * Outcome) :=
  match lookup_route rq (routes s) with
  | Some h_handleRoot => Some (handleRoot, Running s)
  | Some h_handlePortal => Some (handlePortal, Running s)
  | Some h_handleAPI => Some (handleAPI, Running s)
  | Some h_handleSettings =>
      ops <- handleSettings heap (cfg s) ;; Some (ops, Running s)
  | Some h_handleSettingsSave =>
      let '(c, ops) := handleSettingsSave rq (cfg s) in Some (ops, Restarted c)
  | Some h_handlePortalSave =>
      let '(c, ops) := handlePortalSave rq (cfg s) in Some (ops, Restarted c)
  | None => Some (handleNotFound s, Running s)
  end.

Record LoopIn := mk_in {
  in_time : Z;                     (* time(nullptr) *)
  in_local : tm;                   (* localtime(&now) *)
  in_millis1 : Z;                  (* millis() in oledUpdate, first *)
  in_millis2 : Z;                  (* millis() in oledUpdate, second *)
  in_request : option Request;     (* the request handleClient finds *)
  in_heap : option (nat -> ascii); (* what malloc returns *)
  in_connected_r : bool;           (* mqtt.connected() in mqttReconnect *)
  in_millis_r1 : Z;                (* millis() in mqttReconnect, first *)
  in_millis_r2 : Z;                (* millis() in mqttReconnect, second *)
  in_millis_p1 : Z;                (* millis() in the publish test *)
  in_connected_p : bool;           (* mqtt.connected() in mqttPublish *)
  in_millis_p2 : Z                 (* millis() stored in lastMqttPub *)
}.

Inductive Effect :=
| Oled (op : OledOp)
| Http (op : HttpOp)
| Mqtt (op : MqttOp).

(** The MQTT part of [loop]. *)
Definition loop_mqtt (i : LoopIn) (s : State) : State * list MqttOp :=
  if negb (apMode s) && negb (is_nul (nth 0 (mqttHost (cfg s)) NUL)) then
    let '(s, ops1) :=
      mqttReconnect (in_connected_r i) (in_millis_r1 i) (in_millis_r2 i) s in
    if (60000 <? u32 (in_millis_p1 i - lastMqttPub s)) && synced (ntpData s)
    then
      let ops2 := mqttPublish (in_connected_p i) s in
      (set_lastMqttPub (in_millis_p2 i) s, ops1 ++ [mqtt_loop] ++ ops2)
    else (s, ops1 ++ [mqtt_loop])
  else (s, []).

(** The first line of [loop]: [if (!apMode) ntpUpdate();]. *)
Definition loop_ntp (i : LoopIn) (s : State) : State :=
  if negb (apMode s)
  then set_ntpData (ntpUpdate (in_time i) (in_local i) (ntpData s)) s
  else s.

(** One pass of [loop]; the calls that serve DNS and OTA requests are left
    out. *)
Definition loop (i : LoopIn) (s : State) : option (list Effect * Outcome) :=
  let s := loop_ntp i s in
  let '(s, draw) := oledUpdate (in_millis1 i) (in_millis2 i) s in
  r <- match in_request i with
       | None => Some ([], Running s)
       | Some rq => handleClient (in_heap i) rq s
       end ;;
  match snd r with
  | Restarted e => Some (map Oled draw ++ map Http (fst r), Restarted e)
  | Running s =>
      let '(s, pub) := loop_mqtt i s in
      Some (map Oled draw ++ map Http (fst r) ++ map Mqtt pub, Running s)
  end.

End Pages.

Fixpoint wifiConnect_wait (fuel : nat) (start : Z) (w : World) : option World :=
  if negb (WL_CONNECTED w) && (u32 (millis w - start) <? 15000) then
    match fuel with
    | O => None
    | S fuel' => wifiConnect_wait fuel' start (delay 250 w)
    end
  else Some w.

Inductive BootOp :=
| WiFi_mode_STA
| WiFi_begin (ssid pass : buffer)
| WiFi_mode_AP
| WiFi_softAP (name : string)
| dnsServer_start
| configTime (tz : buffer)
| server_begin
| ArduinoOTA_begin (hostname : string)
| write_apMode (b : bool).

(** The values written to [apMode] during boot, in order. *)
Fixpoint apMode_writes (ops : list BootOp) : list bool :=
  match ops with
  | [] => []
  | write_apMode b :: ops' => b :: apMode_writes ops'
  | _ :: ops' => apMode_writes ops'
  end.

Definition wifiConnect (fuel : nat) (cfg : DevConfig) (w : World)
  : option (bool * World * list BootOp) :=
  if is_nul (nth 0 (ssid cfg) NUL) then Some (false, w, [])
  else
    let ops := [WiFi_mode_STA; WiFi_begin (ssid cfg) (pass cfg)] in
    let start := millis w in
    w <- wifiConnect_wait fuel start w ;;
    if WL_CONNECTED w then Some (true, w, ops) else Some (false, w, ops).

Definition startAP (s : State) (w : World) : State * World * list BootOp :=
  let s := set_apMode true s in
  let w := delay 100 w in
  let s := set_routes
             [("/"%string, None, h_handlePortal);
              ("/save"%string, Some HTTP_POST, h_handlePortalSave);
              ("/settings"%string, Some HTTP_GET, h_handleSettings);
              ("/settings"%string, Some HTTP_POST, h_handleSettingsSave);
              ("/api/data"%string, None, h_handleAPI)] s in
  (s, w,
   [write_apMode true; WiFi_mode_AP; WiFi_softAP "ESP01_Clock";
    dnsServer_start; server_begin]).

Definition startSTA (s : State) (w : World) : State * World * list BootOp :=
  let s := set_apMode false s in
  let s := set_routes
             [("/"%string, None, h_handleRoot);
              ("/settings"%string, Some HTTP_GET, h_handleSettings);
              ("/settings"%string, Some HTTP_POST, h_handleSettingsSave);
              ("/api/data"%string, None, h_handleAPI)] s in
  (s, w,
   [write_apMode false; configTime (tzInfo (cfg s)); server_begin;
    ArduinoOTA_begin "ESP01_LCD"]).

Definition setup (fuel : nat) (eeprom : DevConfig) (w : World)
  : option (State * World * list BootOp) :=
  let w := delay 200 w in
  let w := delay 200 w in
  let s := set_cfg (loadConfig eeprom) boot_state in
  r <- wifiConnect fuel (cfg s) w ;;
  let '(ok, w, ops) := r in
  let '(s, w, ops') := if ok then startSTA s w else startAP s w in
  Some (s, w, ops ++ ops').

(** The states of one session: what [setup] leaves, then what each pass of
    [loop] leaves while the sketch keeps running. *)
Inductive reachable (SETTINGS_HTML : buffer) : State -> Prop :=
| reach_setup fuel eeprom w s w' ops :
    setup fuel eeprom w = Some (s, w', ops) ->
    reachable SETTINGS_HTML s
| reach_loop i s ev s' :
    reachable SETTINGS_HTML s ->
    loop SETTINGS_HTML i s = Some (ev, Running s') ->
    reachable SETTINGS_HTML s'.

(** [s'] comes after [s] in a session: some passes of [loop] lead from one
    to the other without a restart. *)
Inductive runs (SETTINGS_HTML : buffer) : State -> State -> Prop :=
| runs_here s : runs SETTINGS_HTML s s
| runs_loop i s ev s' s'' :
    loop SETTINGS_HTML i s = Some (ev, Running s') ->
    runs SETTINGS_HTML s' s'' ->
    runs SETTINGS_HTML s s''.

Close Scope Z_scope.

End ESP01.

(* ================================================================== *)
(** * OLED13_NTP_V1/OLED13_NTP_V1.ino *)
(* ================================================================== *)

Module OLED13.
Import CStr Arduino.

Open Scope Z_scope.

Definition EEPROM_MAGIC : Z := 0xE7.

Record DevConfig := mk_cfg {
  magic : Z;            (* uint8_t *)
  ssid : buffer;        (* char[33] *)
  pass : buffer;        (* char[65] *)
  tz : buffer           (* char[40] *)
}.

Inductive Handler :=
| h_handleRoot | h_handlePortal | h_handlePortalSave
| h_handleSettings | h_handleSettingsSave | h_handleAPI.

Definition Route : Type := string * option Method * Handler.

(** The NTP snapshot is a group of statics in this sketch. *)
Record NTPData := mk_ntp {
  ntpH : Z; ntpM : Z; ntpS : Z; ntpDay : Z; ntpMon : Z; ntpWday : Z;
  ntpYear : Z;
  ntpSynced : bool
}.

Record State := mk_state {
  cfg : DevConfig;
  ntp : NTPData;
  apMode : bool;
  lastOled : Z;
  ledState : bool;
  routes : list Route
}.

Definition set_cfg (c : DevConfig) (s : State) : State :=
  mk_state c (ntp s) (apMode s) (lastOled s) (ledState s) (routes s).
Definition set_ntp (d : NTPData) (s : State) : State :=
  mk_state (cfg s) d (apMode s) (lastOled s) (ledState s) (routes s).
Definition set_apMode (b : bool) (s : State) : State :=
  mk_state (cfg s) (ntp s) b (lastOled s) (ledState s) (routes s).
Definition set_lastOled (t : Z) (s : State) : State :=
  mk_state (cfg s) (ntp s) (apMode s) t (ledState s) (routes s).
Definition set_ledState (b : bool) (s : State) : State :=
  mk_state (cfg s) (ntp s) (apMode s) (lastOled s) b (routes s).
Definition set_routes (r : list Route) (s : State) : State :=
  mk_state (cfg s) (ntp s) (apMode s) (lastOled s) (ledState s) r.

Definition zero_cfg : DevConfig :=
  mk_cfg 0 (repeat NUL 33) (repeat NUL 65) (repeat NUL 40).

Definition boot_state : State :=
  mk_state zero_cfg (mk_ntp 0 0 0 0 0 0 0 false) false 0 false [].

Definition loadCfg (eeprom : DevConfig) : DevConfig :=
  let cfg := eeprom in
  if negb (magic cfg =? EEPROM_MAGIC) then
    let cfg := zero_cfg in
    let cfg := mk_cfg EEPROM_MAGIC (ssid cfg) (pass cfg) (tz cfg) in
    mk_cfg (magic cfg) (ssid cfg) (pass cfg)
           (strlcpy (tz cfg) (lit "ICT-7") 40)
  else cfg.

Definition saveCfg (cfg : DevConfig) : DevConfig :=
  mk_cfg EEPROM_MAGIC (ssid cfg) (pass cfg) (tz cfg).

Definition ntpUpdate (now : Z) (t : tm) (d : NTPData) : NTPData :=
  if now <? 100000 then d
  else mk_ntp (u8 (tm_hour t)) (u8 (tm_min t)) (u8 (tm_sec t))
              (u8 (tm_mday t)) (u8 (tm_mon t + 1)) (u8 (tm_wday t))
              (u16 (tm_year t + 1900))
              true.

Inductive Effect :=
| Oled (op : OledOp)
| Http (op : HttpOp)
| digitalWrite_LED (low : bool).

Definition oledUpdate (m1 m2 : Z) (s : State) : State * list Effect :=
  if u32 (m1 - lastOled s) <? 500 then (s, [])
  else
    let s := set_lastOled m2 s in
    if negb (ntpSynced (ntp s)) then
      (s,
       map Oled
         ([oled_clear; oled_setFont ArialMT_Plain_16;
           oled_setTextAlignment_CENTER]
          ++ (if apMode s then
                [oled_drawString 64 10 (TLit "WiFi Setup");
                 oled_setFont ArialMT_Plain_10;
                 oled_drawString 64 36 (TLit "AP: OLED13_Setup")]
              else
                [oled_drawString 64 10 (TLit "Syncing NTP...");
                 oled_setFont ArialMT_Plain_10;
                 oled_drawString 64 36 (TArg ALocalIP)])
          ++ [oled_display]))
    else
      let d := ntp s in
      let s := set_ledState (negb (ledState s)) s in
      (s,
       map Oled
         [oled_clear;
          oled_setFont ArialMT_Plain_24; oled_setTextAlignment_CENTER;
          oled_drawString 64 5
            (TFmt 20 "%02d:%02d:%02d"
                  [AInt (ntpH d); AInt (ntpM d); AInt (ntpS d)]);
          oled_setFont ArialMT_Plain_16;
          oled_drawString 64 40
            (TFmt 20 "%s %d %s %d"
                  [ADay (ntpWday d); AInt (ntpDay d);
                   AMonth (ntpMon d - 1); AInt (ntpYear d)]);
          oled_display]
       ++ [digitalWrite_LED (ledState s)]).

Section Pages.

Variable SETTINGS_HTML : buffer.

Definition settings_page (heap : option (nat -> ascii)) (cfg : DevConfig)
  : option (option buffer) :=
  len <- strlen SETTINGS_HTML ;;
  match malloc (len + 200) heap with
  | None => Some None
  | Some p =>
      p <- memcpy p 0 SETTINGS_HTML (len + 1) ;;
      p <- rep p (lit "{{SSID}}") (ssid cfg) ;;
      p <- rep p (lit "{{PASS}}") (pass cfg) ;;
      p <- rep p (lit "{{TZ}}") (tz cfg) ;;
      Some (Some p)
  end.

Definition handleSettings (heap : option (nat -> ascii)) (cfg : DevConfig)
  : option (list HttpOp) :=
  r <- settings_page heap cfg ;;
  match r with
  | None => Some [send 500 (Some "text/plain"%string) (BLit "OOM")]
  | Some p =>
      body <- c_str p ;;
      Some [send 200 (Some "text/html"%string) (BPage body)]
  end.

Definition handleRoot : list HttpOp :=
  [send 200 (Some "text/html"%string) (BProgmem "PAGE_HTML")].

Definition handleAPI : list HttpOp :=
  [send 200 (Some "application/json"%string) BJson].

Definition handlePortal : list HttpOp :=
  [send 200 (Some "text/html"%string) (BProgmem "PORTAL_HTML")].

Definition arg_or_keep (rq : Request) (name : string) (field : buffer)
  (size : nat) : buffer :=
  if hasArg rq name then strlcpy field (String_c_str (arg rq name)) size
  else field.

Definition handleSettingsSave (rq : Request) (cfg : DevConfig)
  : DevConfig * list HttpOp :=
  let cfg :=
    mk_cfg (magic cfg)
           (arg_or_keep rq "ssid" (ssid cfg) 33)
           (arg_or_keep rq "pass" (pass cfg) 65)
           (arg_or_keep rq "tz" (tz cfg) 40) in
  (saveCfg cfg,
   [sendHeader "Location" "/settings?saved=1"; send 302 None BEmpty]).

Definition handlePortalSave (rq : Request) (cfg : DevConfig)
  : DevConfig * list HttpOp :=
  let cfg :=
    if hasArg rq "ssid"
    then mk_cfg (magic cfg)
                (strlcpy (ssid cfg) (String_c_str (arg rq "ssid")) 33)
                (pass cfg) (tz cfg)
    else cfg in
  let cfg :=
    if hasArg rq "pass"
    then mk_cfg (magic cfg) (ssid cfg)
                (strlcpy (pass cfg) (String_c_str (arg rq "pass")) 65)
                (tz cfg)
    else cfg in
  (saveCfg cfg,
   [send 200 (Some "text/html"%string)
         (BLit ("<html><body style='background:#1a1a2e;color:#fff;"
                ++ "text-align:center;padding:40px'>"
                ++ "<h2>Saved! Rebooting...</h2></body></html>"))]).

Definition handleNotFound (s : State) : list HttpOp :=
  if apMode s then
    [sendHeader "Location" "http://192.168.4.1/"; send 302 None BEmpty]
  else
    [send 404 (Some "text/plain"%string) (BLit "Not Found")].

Definition route_matches (rq : Request) (r : Route) : bool :=
  let '(path, m, _) := r in
  String.eqb path (req_path rq) &&
  match m with
  | None => true
  | Some m => method_eqb m (req_method rq)
  end.

Definition lookup_route (rq : Request) (rs : list Route) : option Handler :=
  option_map snd (find (route_matches rq) rs).

Inductive Outcome :=
| Running (s : State)
| Restarted (eeprom : DevConfig).

Definition handleClient (heap : option (nat -> ascii)) (rq : Request) (s : State)
  : option (list HttpOp * Outcome) :=
  match lookup_route rq (routes s) with
  | Some h_handleRoot => Some (handleRoot, Running s)
  | Some h_handlePortal => Some (handlePortal, Running s)
  | Some h_handleAPI => Some (handleAPI, Running s)
  | Some h_handleSettings =>
      ops <- handleSettings heap (cfg s) ;; Some (ops, Running s)
  | Some h_handleSettingsSave =>
      let '(c, ops) := handleSettingsSave rq (cfg s) in Some (ops, Restarted c)
  | Some h_handlePortalSave =>
      let '(c, ops) := handlePortalSave rq (cfg s) in Some (ops, Restarted c)
  | None => Some (handleNotFound s, Running s)
  end.

Record LoopIn := mk_in {
  in_time : Z;                    (* time(nullptr) *)
  in_local : tm;                  (* localtime(&now) *)
  in_millis1 : Z;                 (* millis(), first reading in oledUpdate *)
  in_millis2 : Z;                 (* millis(), second reading *)
  in_request : option Request;    (* the request handleClient finds *)
  in_heap : option (nat -> ascii) (* what malloc returns *)
}.

(** The first line of [loop]: [if (!apMode) ntpUpdate();]. *)
Definition loop_ntp (i : LoopIn) (s : State) : State :=
  if negb (apMode s)
  then set_ntp (ntpUpdate (in_time i) (in_local i) (ntp s)) s
  else s.

(** One pass of [loop]; the calls that serve DNS and OTA requests are left
    out. *)
Definition loop (i : LoopIn) (s : State) : option (list Effect * Outcome) :=
  let s := loop_ntp i s in
  let '(s, draw) := oledUpdate (in_millis1 i) (in_millis2 i) s in
  match in_request i with
  | None => Some (draw, Running s)
  | Some rq =>
      r <- handleClient (in_heap i) rq s ;;
      Some (draw ++ map Http (fst r), snd r)
  end.

End Pages.

Fixpoint wifiConnect_wait (fuel : nat) (t0 : Z) (w : World) : option World :=
  if negb (WL_CONNECTED w) && (u32 (millis w - t0) <? 15000) then
    match fuel with
    | O => None
    | S fuel' => wifiConnect_wait fuel' t0 (delay 250 w)
    end
  else Some w.

Inductive BootOp :=
| WiFi_mode_STA
| WiFi_begin (ssid pass : buffer)
| WiFi_mode_AP
| WiFi_softAP (name : string)
| dnsServer_start
| configTime (tz : buffer)
| server_begin
| ArduinoOTA_begin (hostname : string)
| write_apMode (b : bool).

(** The values written to [apMode] during boot, in order. *)
Fixpoint apMode_writes (ops : list BootOp) : list bool :=
  match ops with
  | [] => []
  | write_apMode b :: ops' => b :: apMode_writes ops'
  | _ :: ops' => apMode_writes ops'
  end.

Definition wifiConnect (fuel : nat) (cfg : DevConfig) (w : World)
  : option (bool * World * list BootOp) :=
  if is_nul (nth 0 (ssid cfg) NUL) then Some (false, w, [])
  else
    let ops := [WiFi_mode_STA; WiFi_begin (ssid cfg) (pass cfg)] in
    let t0 := millis w in
    w <- wifiConnect_wait fuel t0 w ;;
    if WL_CONNECTED w then Some (true, w, ops) else Some (false, w, ops).

Definition startAP (s : State) (w : World) : State * World * list BootOp :=
  let s := set_apMode true s in
  let w := delay 100 w in
  let s := set_routes
             [("/"%string, None, h_handlePortal);
              ("/save"%string, Some HTTP_POST, h_handlePortalSave);
              ("/settings"%string, Some HTTP_GET, h_handleSettings);
              ("/settings"%string, Some HTTP_POST, h_handleSettingsSave);
              ("/api/data"%string, None, h_handleAPI)] s in
  (s, w,
   [write_apMode true; WiFi_mode_AP; WiFi_softAP "OLED13_Setup";
    dnsServer_start; server_begin]).

Definition startSTA (s : State) (w : World) : State * World * list BootOp :=
  let s := set_apMode false s in
  let s := set_routes
             [("/"%string, None, h_handleRoot);
              ("/settings"%string, Some HTTP_GET, h_handleSettings);
              ("/settings"%string, Some HTTP_POST, h_handleSettingsSave);
              ("/api/data"%string, None, h_handleAPI)] s in
  (s, w,
   [write_apMode false; configTime (tz (cfg s)); server_begin;
    ArduinoOTA_begin "OLED13"]).

Definition setup (fuel : nat) (eeprom : DevConfig) (w : World)
  : option (State * World * list BootOp) :=
  let w := delay 200 w in
  let w := delay 100 w in
  let s := set_cfg (loadCfg eeprom) boot_state in
  r <- wifiConnect fuel (cfg s) w ;;
  let '(ok, w, ops) := r in
  let '(s, w, ops') := if ok then startSTA s w else startAP s w in
  Some (s, w, ops ++ ops').

(** The display calls among the effects. *)
Fixpoint oled_ops (ev : list Effect) : list OledOp :=
  match ev with
  | [] => []
  | Oled op :: ev' => op :: oled_ops ev'
  | _ :: ev' => oled_ops ev'
  end.

(** The states of one session: what [setup] leaves, then what each pass of
    [loop] leaves while the sketch keeps running. *)
Inductive reachable (SETTINGS_HTML : buffer) : State -> Prop :=
| reach_setup fuel eeprom w s w' ops :
    setup fuel eeprom w = Some (s, w', ops) ->
    reachable SETTINGS_HTML s
| reach_loop i s ev s' :
    reachable SETTINGS_HTML s ->
    loop SETTINGS_HTML i s = Some (ev, Running s') ->
    reachable SETTINGS_HTML s'.

(** [s'] comes after [s] in a session: some passes of [loop] lead from one
    to the other without a restart. *)
Inductive runs (SETTINGS_HTML : buffer) : State -> State -> Prop :=
| runs_here s : runs SETTINGS_HTML s s
| runs_loop i s ev s' s'' :
    loop SETTINGS_HTML i s = Some (ev, Running s') ->
    runs SETTINGS_HTML s' s'' ->
    runs SETTINGS_HTML s s''.

Close Scope Z_scope.

End OLED13.

(* ================================================================== *)
(** * ESP32_OLED_V1/ESP32_OLED_V1.ino *)
(* ================================================================== *)

Module ESP32.
Import CStr Arduino.

Open Scope Z_scope.

Definition EEPROM_MAGIC : Z := 0xE7.

Record DevConfig := mk_cfg {
  magic : Z;            (* uint8_t *)
  ssid : buffer;        (* char[33] *)
  pass : buffer;        (* char[65] *)
  tzInfo : buffer;      (* char[40] *)
  mqttServer : buffer;  (* char[65] *)
  mqttPort : Z;         (* uint16_t *)
  mqttUser : buffer;    (* char[33] *)
  mqttPass : buffer;    (* char[65] *)
  mqttTopic : buffer;   (* char[65] *)
  ledBlink : Z          (* uint8_t *)
}.

Inductive Handler :=
| h_handleRoot | h_handleSettings | h_handleSettingsSave
| h_handleAPI | h_handleReboot.

Definition Route : Type := string * option Method * Handler.

(** The globals, with the static [lastTry] of [mqttReconnect]. *)
Record State := mk_state {
  cfg : DevConfig;
  apMode : bool;
  ntpSynced : bool;
  mqttEnabled : bool;
  lastOled : Z;
  lastLed : Z;
  lastMqtt : Z;
  ledState : bool;
  lastSec : Z;
  lastTry : Z;
  routes : list Route
}.

Definition set_cfg (c : DevConfig) (s : State) : State :=
  mk_state c (apMode s) (ntpSynced s) (mqttEnabled s) (lastOled s)
           (lastLed s) (lastMqtt s) (ledState s) (lastSec s) (lastTry s)
           (routes s).
Definition set_apMode (b : bool) (s : State) : State :=
  mk_state (cfg s) b (ntpSynced s) (mqttEnabled s) (lastOled s)
           (lastLed s) (lastMqtt s) (ledState s) (lastSec s) (lastTry s)
           (routes s).
Definition set_mqttEnabled (b : bool) (s : State) : State :=
  mk_state (cfg s) (apMode s) (ntpSynced s) b (lastOled s)
           (lastLed s) (lastMqtt s) (ledState s) (lastSec s) (lastTry s)
           (routes s).
Definition set_lastOled (t : Z) (s : State) : State :=
  mk_state (cfg s) (apMode s) (ntpSynced s) (mqttEnabled s) t
           (lastLed s) (lastMqtt s) (ledState s) (lastSec s) (lastTry s)
           (routes s).
Definition set_lastLed (t : Z) (s : State) : State :=
  mk_state (cfg s) (apMode s) (ntpSynced s) (mqttEnabled s) (lastOled s)
           t (lastMqtt s) (ledState s) (lastSec s) (lastTry s)
           (routes s).
Definition set_lastMqtt (t : Z) (s : State) : State :=
  mk_state (cfg s) (apMode s) (ntpSynced s) (mqttEnabled s) (lastOled s)
           (lastLed s) t (ledState s) (lastSec s) (lastTry s)
           (routes s).
Definition set_ledState (b : bool) (s : State) : State :=
  mk_state (cfg s) (apMode s) (ntpSynced s) (mqttEnabled s) (lastOled s)
           (lastLed s) (lastMqtt s) b (lastSec s) (lastTry s)
           (routes s).
Definition set_lastSec (t : Z) (s : State) : State :=
  mk_state (cfg s) (apMode s) (ntpSynced s) (mqttEnabled s) (lastOled s)
           (lastLed s) (lastMqtt s) (ledState s) t (lastTry s)
           (routes s).
Definition set_lastTry (t : Z) (s : State) : State :=
  mk_state (cfg s) (apMode s) (ntpSynced s) (mqttEnabled s) (lastOled s)
           (lastLed s) (lastMqtt s) (ledState s) (lastSec s) t
           (routes s).
Definition set_routes (r : list Route) (s : State) : State :=
  mk_state (cfg s) (apMode s) (ntpSynced s) (mqttEnabled s) (lastOled s)
           (lastLed s) (lastMqtt s) (ledState s) (lastSec s) (lastTry s)
           r.

Definition zero_cfg : DevConfig :=
  mk_cfg 0 (repeat NUL 33) (repeat NUL 65) (repeat NUL 40) (repeat NUL 65) 0
         (repeat NUL 33) (repeat NUL 65) (repeat NUL 65) 0.

Definition boot_state : State :=
  mk_state zero_cfg false false false 0 0 0 false (-1) 0 [].

Definition saveConfig (cfg : DevConfig) : DevConfig :=
  mk_cfg EEPROM_MAGIC (ssid cfg) (pass cfg) (tzInfo cfg) (mqttServer cfg)
         (mqttPort cfg) (mqttUser cfg) (mqttPass cfg) (mqttTopic cfg)
         (ledBlink cfg).

(** [loadConfig]: the new [cfg] and the image EEPROM holds afterwards (the
    defaults are saved at once). *)
Definition loadConfig (eeprom : DevConfig) : DevConfig * DevConfig :=
  let cfg := eeprom in
  if negb (magic cfg =? EEPROM_MAGIC) then
    let cfg := zero_cfg in
    let cfg := mk_cfg EEPROM_MAGIC (ssid cfg) (pass cfg) (tzInfo cfg)
                 (mqttServer cfg) (mqttPort cfg) (mqttUser cfg)
                 (mqttPass cfg) (mqttTopic cfg) (ledBlink cfg) in
    let cfg := mk_cfg (magic cfg) (ssid cfg) (pass cfg) (tzInfo cfg)
                 (mqttServer cfg) 1883 (mqttUser cfg)
                 (mqttPass cfg) (mqttTopic cfg) (ledBlink cfg) in
    let cfg := mk_cfg (magic cfg) (ssid cfg) (pass cfg) (tzInfo cfg)
                 (mqttServer cfg) (mqttPort cfg) (mqttUser cfg)
                 (mqttPass cfg) (mqttTopic cfg) 1 in
    let cfg := mk_cfg (magic cfg) (ssid cfg) (pass cfg)
                 (strlcpy (tzInfo cfg) (lit "ICT-7") 40)
                 (mqttServer cfg) (mqttPort cfg) (mqttUser cfg)
                 (mqttPass cfg) (mqttTopic cfg) (ledBlink cfg) in
    let cfg := mk_cfg (magic cfg) (ssid cfg) (pass cfg) (tzInfo cfg)
                 (mqttServer cfg) (mqttPort cfg) (mqttUser cfg)
                 (mqttPass cfg)
                 (strlcpy (mqttTopic cfg) (lit "esp32/oled/time") 65)
                 (ledBlink cfg) in
    let cfg := saveConfig cfg in
    (cfg, cfg)
  else (cfg, eeprom).

(** The configuration the specification describes for a failed magic
    check in the MQTT sketches: all zero but the magic byte, the timezone
    "ICT-7", the port 1883 and the default topic. *)
Definition listed_defaults : DevConfig :=
  mk_cfg EEPROM_MAGIC (repeat NUL 33) (repeat NUL 65)
         (list_ascii_of_string "ICT-7" ++ repeat NUL 35)
         (repeat NUL 65) 1883 (repeat NUL 33) (repeat NUL 65)
         (list_ascii_of_string "esp32/oled/time" ++ repeat NUL 50) 0.

(** [strlen(p) > 0]. *)
Definition strlen_pos (p : buffer) : option bool :=
  n <- strlen p ;; Some (0 <? n)%nat.

(** The display driver of this sketch (Adafruit_SSD1306). *)
Inductive GfxOp :=
| clearDisplay
| setTextSize (n : Z)
| setCursor (x y : Z)
| println (t : Text)
| print (t : Text)
| drawLine (x0 y0 x1 y1 : Z)
| display.

Inductive Effect :=
| Oled (op : GfxOp)
| Http (op : HttpOp)
| Mqtt (op : MqttOp)
| digitalWrite_LED (high : bool).

(** [mqttReconnect]; [connected] is what [mqtt.connected()] returns, [m1]
    and [m2] the two readings of [millis()]. *)
Definition mqttReconnect (connected : bool) (m1 m2 : Z) (s : State)
  : option (State * list MqttOp) :=
  if connected then Some (s, [])
  else if u32 (m1 - lastTry s) <? 10000 then Some (s, [])
  else
    let s := set_lastTry m2 s in
    let clientId := TFmt 0 "ESP32_OLCD_%X" [ARandom] in
    has_user <- strlen_pos (mqttUser (cfg s)) ;;
    Some (s,
          [if has_user
           then mqtt_connect clientId
                             (Some (mqttUser (cfg s), mqttPass (cfg s)))
           else mqtt_connect clientId None]).

(** The call one connection attempt makes to the client, the user name
    being terminated. *)
Definition attempt (s : State) : list MqttOp :=
  [if is_nul (nth 0 (mqttUser (cfg s)) NUL)
   then mqtt_connect (TFmt 0 "ESP32_OLCD_%X" [ARandom]) None
   else mqtt_connect (TFmt 0 "ESP32_OLCD_%X" [ARandom])
                     (Some (mqttUser (cfg s), mqttPass (cfg s)))].

(** [n] calls of [mqttReconnect] that find the client disconnected, the
    first at uptime [T] and each 10000 ms after the one before: the calls
    made to the client, call by call. *)
Fixpoint retries (n : nat) (T : Z) (s : State) : option (list (list MqttOp)) :=
  match n with
  | O => Some []
  | S n' =>
      r <- mqttReconnect false (u32 T) (u32 T) s ;;
      rest <- retries n' (T + 10000) (fst r) ;;
      Some (snd r :: rest)
  end.

Definition setupMQTT (connected : bool) (m1 m2 : Z) (s : State)
  : option (State * list MqttOp) :=
  r <- mqttReconnect connected m1 m2 s ;;
  Some (fst r,
        mqtt_setServer (mqttServer (cfg s)) (u16 (mqttPort (cfg s))) :: snd r).

(** [updateOLED]; [m1], [m2] are the readings of [millis()], [ti] what
    [getLocalTime(&ti)] gives ([None] when it returns false), [connected]
    what [mqtt.connected()] returns for the status line. *)
Definition updateOLED (m1 m2 : Z) (ti : option tm) (connected : bool)
  (s : State) : State * list GfxOp :=
  if u32 (m1 - lastOled s) <? 500 then (s, [])
  else
    let s := set_lastOled m2 s in
    if apMode s then
      (s,
       [clearDisplay; setTextSize 1; setCursor 0 0;
        println (TLit "== SETUP MODE ==");
        println (TLit "");
        println (TLit "WiFi: ESP32_OLCD");
        println (TLit "Pass: 12345678");
        println (TLit "");
        print (TLit "IP: ");
        println (TArg ASoftAPIP);
        println (TLit "Open browser to setup");
        display])
    else
      match ti with
      | None =>
          (s,
           [clearDisplay; setTextSize 1; setCursor 0 24;
            println (TLit "Waiting NTP sync...");
            display])
      | Some ti =>
          if tm_sec ti =? lastSec s then (s, [])
          else
            let s := set_lastSec (tm_sec ti) s in
            (s,
             [clearDisplay;
              setTextSize 2; setCursor 4 2;
              print (TStrftime 9 "%H:%M:%S" ti);
              setTextSize 1; setCursor 4 24;
              print (TStrftime 20 "%a %d %b %Y" ti);
              drawLine 0 35 128 35;
              setCursor 0 39; print (TLit "IP: "); print (TArg ALocalIP);
              setCursor 0 49; print (TLit "MQTT: ");
              print (if mqttEnabled s
                     then (if connected then TLit "Connected"
                           else TLit "Disconnected")
                     else TLit "Off");
              setCursor 0 57; print (TFmt 0 "Heap: %dKB" [AHeapKB]);
              display])
      end.

Definition blinkLED (m1 m2 : Z) (s : State) : State * list Effect :=
  if ledBlink (cfg s) =? 0 then (s, [])
  else if u32 (m1 - lastLed s) <? 1000 then (s, [])
  else
    let s := set_lastLed m2 s in
    let s := set_ledState (negb (ledState s)) s in
    (s, [digitalWrite_LED (ledState s)]).

(** The not-found lambda of [setupRoutes]. *)
Definition notFound (s : State) : list HttpOp :=
  if apMode s then
    [sendHeader "Location" "http://192.168.4.1/settings";
     send 302 (Some "text/plain"%string) (BLit "")]
  else
    [send 404 (Some "text/plain"%string) (BLit "Not Found")].

Definition setupRoutes (s : State) : State :=
  set_routes
    [("/"%string, Some HTTP_GET, h_handleRoot);
     ("/settings"%string, Some HTTP_GET, h_handleSettings);
     ("/settings"%string, Some HTTP_POST, h_handleSettingsSave);
     ("/api/data"%string, Some HTTP_GET, h_handleAPI);
     ("/reboot"%string, Some HTTP_POST, h_handleReboot)] s.

(** The dashboard and the settings form are assembled in a [String];
    their text is not modelled. *)
Definition handleRoot : list HttpOp :=
  [send 200 (Some "text/html"%string) (BString "dashboard")].

Definition handleSettings : list HttpOp :=
  [send 200 (Some "text/html"%string) (BString "settings")].

Definition handleAPI : list HttpOp :=
  [send 200 (Some "application/json"%string) BJson].

Definition handleReboot : list HttpOp :=
  [send 200 (Some "text/html"%string)
        (BLit ("<html><body style='background:#0f0c29;color:#fff;"
               ++ "text-align:center;padding:40px;font-family:sans-serif'>"
               ++ "<h2>Rebooting...</h2><p>Please wait 5 seconds then "
               ++ "<a href='/' style='color:#69f0ae'>click here</a></p>"
               ++ "</body></html>"))].

Definition arg_or_keep (rq : Request) (name : string) (field : buffer)
  (size : nat) : buffer :=
  if hasArg rq name then strlcpy field (String_c_str (arg rq name)) size
  else field.

Definition handleSettingsSave (rq : Request) (cfg : DevConfig)
  : DevConfig * list HttpOp :=
  let cfg :=
    mk_cfg (magic cfg)
           (arg_or_keep rq "ssid" (ssid cfg) 33)
           (arg_or_keep rq "pass" (pass cfg) 65)
           (arg_or_keep rq "tz" (tzInfo cfg) 40)
           (arg_or_keep rq "mqsrv" (mqttServer cfg) 65)
           (if hasArg rq "mqport" then u16 (toInt (arg rq "mqport"))
            else mqttPort cfg)
           (arg_or_keep rq "mquser" (mqttUser cfg) 33)
           (arg_or_keep rq "mqpass" (mqttPass cfg) 65)
           (arg_or_keep rq "mqtopic" (mqttTopic cfg) 65)
           (if hasArg rq "led" then 1 else 0) in
  (saveConfig cfg,
   [sendHeader "Location" "/settings?saved=1";
    send 302 (Some "text/plain"%string) (BLit "")]).

Definition route_matches (rq : Request) (r : Route) : bool :=
  let '(path, m, _) := r in
  String.eqb path (req_path rq) &&
  match m with
  | None => true
  | Some m => method_eqb m (req_method rq)
  end.

Definition lookup_route (rq : Request) (rs : list Route) : option Handler :=
  option_map snd (find (route_matches rq) rs).

(** A restart, with the image written to EEPROM just before it, if any. *)
Inductive Outcome :=
| Running (s : State)
| Restarted (written : option DevConfig).

Definition handleClient (rq : Request) (s : State) : list HttpOp * Outcome :=
  match lookup_route rq (routes s) with
  | Some h_handleRoot => (handleRoot, Running s)
  | Some h_handleSettings => (handleSettings, Running s)
  | Some h_handleAPI => (handleAPI, Running s)
  | Some h_handleSettingsSave =>
      let '(c, ops) := handleSettingsSave rq (cfg s) in
      (ops, Restarted (Some c))
  | Some h_handleReboot => (handleReboot, Restarted None)
  | None => (notFound s, Running s)
  end.

Record LoopIn := mk_in {
  in_connected1 : bool;         (* mqtt.connected() at the top of loop *)
  in_connected_r : bool;        (* mqtt.connected() in mqttReconnect *)
  in_millis_r1 : Z;             (* millis() in mqttReconnect, first *)
  in_millis_r2 : Z;             (* millis() in mqttReconnect, second *)
  in_request : option Request;  (* the request handleClient finds *)
  in_millis_o1 : Z;             (* millis() in updateOLED, first *)
  in_millis_o2 : Z;             (* millis() in updateOLED, second *)
  in_local_o : option tm;       (* getLocalTime in updateOLED *)
  in_connected_o : bool;        (* mqtt.connected() in updateOLED *)
  in_millis_l1 : Z;             (* millis() in blinkLED, first *)
  in_millis_l2 : Z;             (* millis() in blinkLED, second *)
  in_connected_p : bool;        (* mqtt.connected() in the publish test *)
  in_millis_p1 : Z;             (* millis() in the publish test *)
  in_millis_p2 : Z;             (* millis() stored in lastMqtt *)
  in_local_p : option tm        (* getLocalTime before publishing *)
}.

(** The first block of [loop]. *)
Definition loop_net (i : LoopIn) (s : State) : option (State * list MqttOp) :=
  if apMode s then Some (s, [])
  else if mqttEnabled s then
    r <- (if negb (in_connected1 i)
          then mqttReconnect (in_connected_r i) (in_millis_r1 i)
                             (in_millis_r2 i) s
          else Some (s, [])) ;;
    Some (fst r, snd r ++ [mqtt_loop])
  else Some (s, []).

(** The last block of [loop]: the publication every 60 s. *)
Definition loop_publish (i : LoopIn) (s : State) : State * list MqttOp :=
  if mqttEnabled s && in_connected_p i && negb (apMode s) then
    if 60000 <? u32 (in_millis_p1 i - lastMqtt s) then
      let s := set_lastMqtt (in_millis_p2 i) s in
      match in_local_p i with
      | Some ti =>
          (s, [mqtt_publish (mqttTopic (cfg s))
                            (TStrftime 32 "%Y-%m-%d %H:%M:%S" ti)])
      | None => (s, [])
      end
    else (s, [])
  else (s, []).

Definition loop (i : LoopIn) (s : State) : option (list Effect * Outcome) :=
  r <- loop_net i s ;;
  let '(s, net) := r in
  let '(http, o) :=
    match in_request i with
    | None => ([], Running s)
    | Some rq => handleClient rq s
    end in
  match o with
  | Restarted e => Some (map Mqtt net ++ map Http http, Restarted e)
  | Running s =>
      let '(s, draw) :=
        updateOLED (in_millis_o1 i) (in_millis_o2 i) (in_local_o i)
                   (in_connected_o i) s in
      let '(s, led) := blinkLED (in_millis_l1 i) (in_millis_l2 i) s in
      let '(s, pub) := loop_publish i s in
      Some (map Mqtt net ++ map Http http ++ map Oled draw ++ led
            ++ map Mqtt pub,
            Running s)
  end.

(** [connectWiFi]: the wait loop, with [fuel] bounding the passes. *)
Fixpoint connectWiFi_wait (fuel : nat) (attempts : Z) (w : World)
  : option World :=
  if negb (WL_CONNECTED w) && (attempts <? 30) then
    match fuel with
    | O => None
    | S fuel' => connectWiFi_wait fuel' (attempts + 1) (delay 500 w)
    end
  else Some w.

Inductive BootOp :=
| WiFi_mode_STA
| WiFi_begin (ssid pass : buffer)
| WiFi_mode_AP
| WiFi_softAP (name pass : string)
| dnsServer_start
| setupOTA
| configTime_setenv_TZ (tz : buffer)
| boot_mqtt (op : MqttOp)
| server_begin
| write_apMode (b : bool)
| write_mqttEnabled (b : bool).

(** The values written to [apMode] during boot, in order. *)
Fixpoint apMode_writes (ops : list BootOp) : list bool :=
  match ops with
  | [] => []
  | write_apMode b :: ops' => b :: apMode_writes ops'
  | _ :: ops' => apMode_writes ops'
  end.

(** [connectWiFi]; the LED toggled while waiting is left out. *)
Definition connectWiFi (fuel : nat) (cfg : DevConfig) (w : World)
  : option (bool * World * list BootOp) :=
  w <- connectWiFi_wait fuel 0 w ;;
  Some (WL_CONNECTED w, w,
        [WiFi_mode_STA; WiFi_begin (ssid cfg) (pass cfg)]).

Definition startAP (s : State) : State * list BootOp :=
  (set_apMode true s,
   [write_apMode true; WiFi_mode_AP; WiFi_softAP "ESP32_OLCD" "12345678";
    dnsServer_start]).

(** [setup], from the image in EEPROM; [connected] is what
    [mqtt.connected()] returns in [setupMQTT].  The result holds the
    globals, the world and the image EEPROM holds after [loadConfig]. *)
Definition setup (fuel : nat) (connected : bool) (eeprom : DevConfig)
  (w : World) : option (State * World * DevConfig * list BootOp) :=
  let '(c, eeprom) := loadConfig eeprom in
  let s := set_cfg c boot_state in
  has_ssid <- strlen_pos (ssid (cfg s)) ;;
  r <- (if has_ssid then connectWiFi fuel (cfg s) w
        else Some (false, w, [])) ;;
  let '(ok, w, ops) := r in
  r <- (if ok then
          let s := set_apMode false s in
          let ops1 :=
            [write_apMode false; setupOTA;
             configTime_setenv_TZ (tzInfo (cfg s))] in
          has_mqtt <- strlen_pos (mqttServer (cfg s)) ;;
          if has_mqtt then
            let s := set_mqttEnabled true s in
            r <- setupMQTT connected (millis w) (millis w) s ;;
            Some (fst r,
                  ops1 ++ write_mqttEnabled true :: map boot_mqtt (snd r))
          else Some (s, ops1)
        else Some (startAP s)) ;;
  let '(s, ops') := r in
  let s := setupRoutes s in
  Some (s, delay 2000 w, eeprom, ops ++ ops' ++ [server_begin]).

(** The screen a redraw shows, told by the first text it prints. *)
Fixpoint first_printed (ops : list GfxOp) : option Text :=
  match ops with
  | [] => None
  | println t :: _ => Some t
  | print t :: _ => Some t
  | _ :: ops' => first_printed ops'
  end.

Definition layout_of (ops : list GfxOp) : option Layout :=
  match first_printed ops with
  | Some (TLit s) =>
      if String.eqb s "== SETUP MODE ==" then Some SetupLayout
      else if String.eqb s "Waiting NTP sync..." then Some SyncingLayout
      else None
  | Some (TStrftime _ f _) =>
      if String.eqb f "%H:%M:%S" then Some ClockLayout else None
  | _ => None
  end.

(** The states of one session. *)
Inductive reachable : State -> Prop :=
| reach_setup fuel connected eeprom w s w' eeprom' ops :
    setup fuel connected eeprom w = Some (s, w', eeprom', ops) ->
    reachable s
| reach_loop i s ev s' :
    reachable s ->
    loop i s = Some (ev, Running s') ->
    reachable s'.

Close Scope Z_scope.

End ESP32.

(* ================================================================== *)
(** * Sample inputs *)
(* ================================================================== *)

Module Samples.
Import CStr Arduino.

(** A small settings template with the three tags, and one with the eight
    tags of ESP01_OLED_V2.ino. *)
Definition settings_html : buffer :=
  lit "<input value='{{SSID}}'><input value='{{PASS}}'><input value='{{TZ}}'>".

Definition settings_html_mqtt : buffer :=
  lit ("{{SSID}} {{PASS}} {{TZ}} {{MQTT_HOST}} {{MQTT_PORT}} {{MQTT_USER}} "
       ++ "{{MQTT_PASS}} {{MQTT_TOPIC}}").

(** The bytes of a fresh heap block. *)
Definition heap_fill : nat -> ascii := fun _ => "?"%char.

(** An array of [size] bytes holding [s]. *)
Definition field (size : nat) (s : string) : buffer :=
  strlcpy (repeat NUL size) (lit s) size.

Definition hw630_cfg : HW630.DevConfig :=
  HW630.mk_cfg 0xBE (field 33 "home") (field 65 "secret") (field 40 "ICT-7").

Definition esp01_cfg : ESP01.DevConfig :=
  ESP01.mk_cfg 0xCD (field 33 "home") (field 65 "secret")
               (field 65 "broker.local") 1883 (field 33 "clock")
               (field 65 "pw") (field 65 "ntp/esp01") (field 40 "ICT-7").

Definition oled13_cfg : OLED13.DevConfig :=
  OLED13.mk_cfg 0xE7 (field 33 "home") (field 65 "secret") (field 40 "ICT-7").

Definition esp32_cfg : ESP32.DevConfig :=
  ESP32.mk_cfg 0xE7 (field 33 "home") (field 65 "secret") (field 40 "ICT-7")
               (field 65 "broker.local") 1883 (field 33 "clock")
               (field 65 "pw") (field 65 "esp32/oled/time") 1.

(** Erased flash: every byte is 0xFF. *)
Definition erased (size : nat) : buffer := repeat (ascii_of_nat 255) size.

Definition hw630_blank : HW630.DevConfig :=
  HW630.mk_cfg 255 (erased 33) (erased 65) (erased 40).

Definition esp01_blank : ESP01.DevConfig :=
  ESP01.mk_cfg 255 (erased 33) (erased 65) (erased 65) 65535 (erased 33)
               (erased 65) (erased 65) (erased 40).

Definition oled13_blank : OLED13.DevConfig :=
  OLED13.mk_cfg 255 (erased 33) (erased 65) (erased 40).

Definition esp32_blank : ESP32.DevConfig :=
  ESP32.mk_cfg 255 (erased 33) (erased 65) (erased 40) (erased 65) 65535
               (erased 33) (erased 65) (erased 65) 255.

(** A device just powered, whose station link comes up [t] ms later. *)
Definition world_up_at (t : Z) : World := mk_world 0 (fun u => (t <=? u)%Z).

(** 2024-05-17 10:20:30, a Friday. *)
Definition a_time : Z := 1715941230.
Definition a_tm : tm := mk_tm 30 20 10 17 4 124 5.

(** The sketches after a boot that joins the network in 3 s. *)
Definition hw630_booted : HW630.State :=
  match HW630.setup 61 hw630_cfg (world_up_at 3000) with
  | Some (s, _, _) => s
  | None => HW630.boot_state
  end.

Definition esp01_booted : ESP01.State :=
  match ESP01.setup 61 esp01_cfg (world_up_at 3000) with
  | Some (s, _, _) => s
  | None => ESP01.boot_state
  end.

Definition oled13_booted : OLED13.State :=
  match OLED13.setup 61 oled13_cfg (world_up_at 3000) with
  | Some (s, _, _) => s
  | None => OLED13.boot_state
  end.

Definition esp32_booted : ESP32.State :=
  match ESP32.setup 31 false esp32_cfg (world_up_at 3000) with
  | Some (s, _, _, _) => s
  | None => ESP32.boot_state
  end.

(** ESP01_OLED_V2.ino after a boot on erased flash: the setup portal. *)
Definition esp01_portal : ESP01.State :=
  match ESP01.setup 61 esp01_blank (world_up_at 3000) with
  | Some (s, _, _) => s
  | None => ESP01.boot_state
  end.

(** The form of the captive portal, filled in. *)
Definition portal_request : Request :=
  mk_req "/save" HTTP_POST
         [("ssid"%string, list_ascii_of_string "cafe");
          ("pass"%string, list_ascii_of_string "latte")].

(** A pass of [loop] at uptime [t] ms, with the clock set and no request. *)
Definition hw630_pass (t : Z) : HW630.LoopIn :=
  HW630.mk_in a_time a_tm (u32 t) (u32 t) (-60) None None.

Definition esp01_pass (t : Z) : ESP01.LoopIn :=
  ESP01.mk_in a_time a_tm (u32 t) (u32 t) None None
              true (u32 t) (u32 t) (u32 t) true (u32 t).

Definition oled13_pass (t : Z) : OLED13.LoopIn :=
  OLED13.mk_in a_time a_tm (u32 t) (u32 t) None None.

(** The state a pass of [loop] leaves ([s] itself if the pass ends in a
    restart). *)
Definition hw630_after (i : HW630.LoopIn) (s : HW630.State) : HW630.State :=
  match HW630.loop settings_html i s with
  | Some (_, HW630.Running s') => s'
  | _ => s
  end.

Definition esp32_pass (t : Z) : ESP32.LoopIn :=
  ESP32.mk_in true true (u32 t) (u32 t) None (u32 t) (u32 t) (Some a_tm) true
              (u32 t) (u32 t) true (u32 t) (u32 t) (Some a_tm).

End Samples.

(* ================================================================== *)
(** * Formatted output *)
(* ================================================================== *)

(** libc's [snprintf] and [strftime], as far as the sketches use them, and
    the text of the strings that the sketches hand to the display, the web
    server and the MQTT client. *)
Module Printf.
Import CStr Arduino.

Open Scope Z_scope.

(** A C string literal with [\"] in it is written with ['] in place of
    each [\"]; no literal of the sketches that is written this way holds a
    ['] of its own. *)
Definition dquote : ascii := ascii_of_nat 34.

Definition cq (s : string) : list ascii :=
  map (fun c => if Ascii.eqb c "'"%char then dquote else c)
      (list_ascii_of_string s).

(** An argument of a formatted call after the default promotions: an
    integer, or a pointer to a string. *)
Inductive Val :=
| VInt (z : Z)
| VStr (p : buffer).

Definition dec (n : Z) : list ascii := dec_digits 20 n [].

(** [%d] with an optional [0] flag and width: the sign, the zeros, the
    digits. *)
Definition number (zero : bool) (width : nat) (n : Z) : list ascii :=
  let sign := if n <? 0 then ["-"%char] else [] in
  let digits := dec (Z.abs n) in
  let fill := (width - (length sign + length digits))%nat in
  if zero then sign ++ repeat "0"%char fill ++ digits
  else repeat " "%char fill ++ sign ++ digits.

(** Where the scan of a format stands: in plain text, or inside a
    conversion whose flag and width have been read so far. *)
Inductive Conv :=
| Plain
| Spec (zero : bool) (width : nat).

(** The characters a format produces: [%d], [%u], [%s] with an optional
    [0] flag, width and [l] modifier, and [%%].  [None] is undefined
    behaviour: a conversion without its argument, an argument of the wrong
    kind, a string without terminator, a conversion the sketches do not
    use. *)
Fixpoint vformat (st : Conv) (fmt : list ascii) (args : list Val)
  : option (list ascii) :=
  match fmt with
  | [] => match st with Plain => Some [] | Spec _ _ => None end
  | c :: fmt' =>
      match st with
      | Plain =>
          if Ascii.eqb c "%"%char then vformat (Spec false 0) fmt' args
          else out <- vformat Plain fmt' args ;; Some (c :: out)
      | Spec z w =>
          if Ascii.eqb c "%"%char then
            out <- vformat Plain fmt' args ;; Some ("%"%char :: out)
          else if Ascii.eqb c "0"%char && Nat.eqb w 0 then
            vformat (Spec true 0) fmt' args
          else
            match digit_val c with
            | Some d => vformat (Spec z (10 * w + Z.to_nat d)) fmt' args
            | None =>
                if Ascii.eqb c "l"%char then vformat (Spec z w) fmt' args
                else if Ascii.eqb c "d"%char then
                  match args with
                  | VInt n :: args' =>
                      out <- vformat Plain fmt' args' ;;
                      Some (number z w n ++ out)
                  | _ => None
                  end
                else if Ascii.eqb c "u"%char then
                  match args with
                  | VInt n :: args' =>
                      out <- vformat Plain fmt' args' ;;
                      Some (number z w (u32 n) ++ out)
                  | _ => None
                  end
                else if Ascii.eqb c "s"%char then
                  match args with
                  | VStr p :: args' =>
                      t <- c_str p ;;
                      out <- vformat Plain fmt' args' ;;
                      Some (repeat " "%char (w - length t) ++ t ++ out)
                  | _ => None
                  end
                else None
            end
      end
  end.

(** [snprintf(b + off, size, fmt, args...)]: at most [size - 1] characters
    and a terminator are written, nothing when [size] is 0; the result is
    the length of the whole output.  The bytes written must lie inside
    [b]. *)
Definition snprintf (b : buffer) (off : nat) (size : Z) (fmt : list ascii)
  (args : list Val) : option (buffer * Z) :=
  out <- vformat Plain fmt args ;;
  let n := length out in
  if size =? 0 then Some (b, Z.of_nat n)
  else
    let k := Nat.min n (Z.to_nat (size - 1)) in
    if (off + k + 1 <=? length b)%nat
    then Some (firstn off b ++ firstn k out ++ NUL :: skipn (off + k + 1) b,
               Z.of_nat n)
    else None.

(** [b[i] = c]. *)
Definition store (b : buffer) (i : Z) (c : ascii) : option buffer :=
  if (0 <=? i) && (i <? Z.of_nat (length b))
  then Some (firstn (Z.to_nat i) b ++ c :: skipn (Z.to_nat i + 1) b)
  else None.

(** A local array that has no initialiser: [size] bytes of whatever the
    stack held. *)
Definition local (size : nat) (junk : nat -> ascii) : buffer :=
  map junk (seq 0 size).

(** The tables [DAYS] and [MONTHS] ([MONS] in OLED13_NTP_V1.ino). *)
Definition DAYS : list string :=
  ["Sun"; "Mon"; "Tue"; "Wed"; "Thu"; "Fri"; "Sat"]%string.

Definition MONTHS : list string :=
  ["Jan"; "Feb"; "Mar"; "Apr"; "May"; "Jun";
   "Jul"; "Aug"; "Sep"; "Oct"; "Nov"; "Dec"]%string.

(** [table[i]]; reading outside the table is undefined. *)
Definition entry (table : list string) (i : Z) : option buffer :=
  if (0 <=? i) && (i <? Z.of_nat (length table))
  then option_map lit (nth_error table (Z.to_nat i))
  else None.

(** What the libraries return while a text is formatted.  An address
    comes as the text of [IPAddress::toString()], which is also what the
    display driver prints for an [IPAddress]. *)
Record Env := mk_env {
  localIP : list ascii;    (* WiFi.localIP() *)
  softAPIP : list ascii;   (* WiFi.softAPIP() *)
  RSSI : Z;                (* WiFi.RSSI() *)
  getFreeHeap : Z          (* ESP.getFreeHeap() *)
}.

(** The text of an IPv4 address: at most 15 characters, none of them
    NUL. *)
Definition address_text (t : list ascii) : Prop :=
  nul_free t /\ (length t <= 15)%nat.

Definition val_of (e : Env) (a : Arg) : option Val :=
  match a with
  | AInt z => Some (VInt z)
  | ADay i => option_map VStr (entry DAYS i)
  | AMonth i => option_map VStr (entry MONTHS i)
  | ALocalIP => Some (VStr (String_c_str (localIP e)))
  | ASoftAPIP => Some (VStr (String_c_str (softAPIP e)))
  | ARssi => Some (VInt (RSSI e))
  | AHeapKB => Some (VInt (u32 (getFreeHeap e) / 1024))
  | ARandom => None
  end.

Fixpoint vals_of (e : Env) (args : list Arg) : option (list Val) :=
  match args with
  | [] => Some []
  | a :: args' =>
      v <- val_of e a ;; vs <- vals_of e args' ;; Some (v :: vs)
  end.

(** What is left in an array of [size] bytes: the first [size - 1]
    characters of the output ([size] 0 stands for no array at all). *)
Definition cut (size : nat) (out : list ascii) : list ascii :=
  match size with
  | O => out
  | S m => firstn m out
  end.

(** The members of a [TJson] as one format and its arguments:
    [{"name":"format",...}]. *)
Fixpoint members_fmt (first : bool) (fields : list (string * (string * list Arg)))
  : list ascii :=
  match fields with
  | [] => []
  | (name, (f, _)) :: rest =>
      (if first then [] else [","%char])
      ++ dquote :: list_ascii_of_string name ++ dquote :: ":"%char
      :: dquote :: list_ascii_of_string f ++ dquote :: members_fmt false rest
  end.

Definition members_args (fields : list (string * (string * list Arg)))
  : list Arg :=
  flat_map (fun m => snd (snd m)) fields.

(** [strftime] into an array of [size] bytes, for the conversions the
    ESP32 sketch uses.  When the text and its terminator do not fit, the
    content of the array is indeterminate ([None]), and so it is when a
    name is asked for a day or month outside the tables. *)
Fixpoint vstrftime (pct : bool) (fmt : list ascii) (ti : tm)
  : option (list ascii) :=
  match fmt with
  | [] => if pct then None else Some []
  | c :: fmt' =>
      if pct then
        piece <-
          (if Ascii.eqb c "H"%char then Some (number true 2 (tm_hour ti))
           else if Ascii.eqb c "M"%char then Some (number true 2 (tm_min ti))
           else if Ascii.eqb c "S"%char then Some (number true 2 (tm_sec ti))
           else if Ascii.eqb c "d"%char then Some (number true 2 (tm_mday ti))
           else if Ascii.eqb c "m"%char
                then Some (number true 2 (tm_mon ti + 1))
           else if Ascii.eqb c "Y"%char
                then Some (number false 0 (tm_year ti + 1900))
           else if Ascii.eqb c "a"%char
                then p <- entry DAYS (tm_wday ti) ;; c_str p
           else if Ascii.eqb c "b"%char
                then p <- entry MONTHS (tm_mon ti) ;; c_str p
           else None) ;;
        out <- vstrftime false fmt' ti ;;
        Some (piece ++ out)
      else if Ascii.eqb c "%"%char then vstrftime true fmt' ti
      else out <- vstrftime false fmt' ti ;; Some (c :: out)
  end.

Definition strftime (size : nat) (fmt : string) (ti : tm)
  : option (list ascii) :=
  out <- vstrftime false (list_ascii_of_string fmt) ti ;;
  if (length out + 1 <=? size)%nat then Some out else None.

(** The characters of a [Text]. *)
Definition render (e : Env) (t : Text) : option (list ascii) :=
  match t with
  | TLit s => Some (list_ascii_of_string s)
  | TArg a =>
      v <- val_of e a ;;
      match v with
      | VStr p => c_str p
      | VInt n => Some (number false 0 n)
      end
  | TFmt size fmt args =>
      vs <- vals_of e args ;;
      out <- vformat Plain (list_ascii_of_string fmt) vs ;;
      Some (cut size out)
  | TStrftime size fmt ti => strftime size fmt ti
  | TJson size fields =>
      vs <- vals_of e (members_args fields) ;;
      out <- vformat Plain ("{"%char :: members_fmt true fields ++ ["}"%char])
                     vs ;;
      Some (cut size out)
  end.

(** The closed interval [lo, hi]. *)
Definition in_range (lo hi z : Z) : bool := (lo <=? z) && (z <=? hi).

(** A broken-down time as [localtime] and [getLocalTime] fill it, of a
    year from 1970 to 9999. *)
Definition valid_tm (t : tm) : bool :=
  in_range 0 60 (tm_sec t) && in_range 0 59 (tm_min t) &&
  in_range 0 23 (tm_hour t) && in_range 1 31 (tm_mday t) &&
  in_range 0 11 (tm_mon t) && in_range 70 8099 (tm_year t) &&
  in_range 0 6 (tm_wday t).

(** The same for the copy [ntpUpdate] keeps, whose month counts from 1 and
    whose year is the calendar year. *)
Definition clock_ok (hour minute second day month year wday : Z) : bool :=
  in_range 0 23 hour && in_range 0 59 minute && in_range 0 60 second &&
  in_range 1 31 day && in_range 1 12 month && in_range 1970 9999 year &&
  in_range 0 6 wday.

(** A formatted text is whole when formatting is defined and the output
    and its terminator fit in the array given to [snprintf]. *)
Definition whole (e : Env) (t : Text) : bool :=
  match t with
  | TFmt (S m) fmt args =>
      match vals_of e args with
      | Some vs =>
          match vformat Plain (list_ascii_of_string fmt) vs with
          | Some out => (length out <=? m)%nat
          | None => false
          end
      | None => false
      end
  | TJson (S m) fields =>
      match vals_of e (members_args fields) with
      | Some vs =>
          match vformat Plain
                        ("{"%char :: members_fmt true fields ++ ["}"%char])
                        vs with
          | Some out => (length out <=? m)%nat
          | None => false
          end
      | None => false
      end
  | _ => match render e t with Some _ => true | None => false end
  end.

Close Scope Z_scope.

End Printf.

(* ================================================================== *)
(** * The status object of [handleAPI] *)
(* ================================================================== *)

(** [handleAPI] of the four sketches with the text it sends.  [junk] is
    what the stack holds where the local arrays are placed, [e] what the
    libraries return and [ms] the reading of [millis()]. *)
Module Status.
Import CStr Arduino Printf.

Open Scope Z_scope.

(** [len += snprintf(buf + len, sizeof(buf) - len, fmt, args...)]: the
    array and [len] afterwards.  [buf + len] has to point into the array or
    just past it. *)
Definition append (buf : buffer) (len : Z) (fmt : string) (args : list Val)
  : option (buffer * Z) :=
  if (0 <=? len) && (len <=? Z.of_nat (length buf)) then
    r <- snprintf buf (Z.to_nat len) (u32 (Z.of_nat (length buf) - len))
                  (cq fmt) args ;;
    Some (fst r, len + snd r)
  else None.

(** 8266_HW_630.ino. *)
Definition HW630_handleAPI (junk : nat -> ascii) (e : Env) (ms : Z)
  (s : HW630.State) : option (list HttpOp) :=
  let d := HW630.ntpData s in
  let buf := local 192 junk in
  let len := 0 in
  r <- append buf len "{'heap':%u,'up':%lu"
              [VInt (getFreeHeap e); VInt (u32 ms / 1000)] ;;
  let '(buf, len) := r in
  r <- (if negb (HW630.apMode s)
        then append buf len ",'ip':'%s'"
                    [VStr (String_c_str (localIP e))]
        else Some (buf, len)) ;;
  let '(buf, len) := r in
  r <- append buf len ",'tz':'%s'" [VStr (HW630.tzInfo (HW630.cfg s))] ;;
  let '(buf, len) := r in
  r <- (if HW630.synced d then
          let timeBuf := local 9 junk in
          let dateBuf := local 16 junk in
          t <- snprintf timeBuf 0 9 (cq "%02d:%02d:%02d")
                        [VInt (HW630.hour d); VInt (HW630.minute d);
                         VInt (HW630.second d)] ;;
          let timeBuf := fst t in
          mon <- entry MONTHS (HW630.month d - 1) ;;
          t <- snprintf dateBuf 0 16 (cq "%02d %s %04d")
                        [VInt (HW630.day d); VStr mon; VInt (HW630.year d)] ;;
          let dateBuf := fst t in
          day <- entry DAYS (HW630.wday d) ;;
          append buf len ",'time':'%s','date':'%s','day':'%s'"
                 [VStr timeBuf; VStr dateBuf; VStr day]
        else Some (buf, len)) ;;
  let '(buf, len) := r in
  buf <- store buf len "}"%char ;;
  let len := len + 1 in
  buf <- store buf len NUL ;;
  body <- c_str buf ;;
  Some [send 200 (Some "application/json"%string) (BPage body)].

(** ESP01_OLED_V2.ino: an array of 256 bytes, and the closing brace comes
    from [snprintf] too. *)
Definition ESP01_handleAPI (junk : nat -> ascii) (e : Env) (ms : Z)
  (s : ESP01.State) : option (list HttpOp) :=
  let d := ESP01.ntpData s in
  let buf := local 256 junk in
  let len := 0 in
  r <- append buf len "{'heap':%u,'up':%lu"
              [VInt (getFreeHeap e); VInt (u32 ms / 1000)] ;;
  let '(buf, len) := r in
  r <- (if negb (ESP01.apMode s)
        then append buf len ",'ip':'%s'"
                    [VStr (String_c_str (localIP e))]
        else Some (buf, len)) ;;
  let '(buf, len) := r in
  r <- append buf len ",'tz':'%s'" [VStr (ESP01.tzInfo (ESP01.cfg s))] ;;
  let '(buf, len) := r in
  r <- (if ESP01.synced d then
          let timeBuf := local 9 junk in
          let dateBuf := local 16 junk in
          t <- snprintf timeBuf 0 9 (cq "%02d:%02d:%02d")
                        [VInt (ESP01.hour d); VInt (ESP01.minute d);
                         VInt (ESP01.second d)] ;;
          let timeBuf := fst t in
          mon <- entry MONTHS (ESP01.month d - 1) ;;
          t <- snprintf dateBuf 0 16 (cq "%02d %s %04d")
                        [VInt (ESP01.day d); VStr mon; VInt (ESP01.year d)] ;;
          let dateBuf := fst t in
          day <- entry DAYS (ESP01.wday d) ;;
          append buf len ",'time':'%s','date':'%s','day':'%s'"
                 [VStr timeBuf; VStr dateBuf; VStr day]
        else Some (buf, len)) ;;
  let '(buf, len) := r in
  r <- append buf len "}" [] ;;
  let '(buf, len) := r in
  body <- c_str buf ;;
  Some [send 200 (Some "application/json"%string) (BPage body)].

(** OLED13_NTP_V1.ino: an array of 200 bytes. *)
Definition OLED13_handleAPI (junk : nat -> ascii) (e : Env) (ms : Z)
  (s : OLED13.State) : option (list HttpOp) :=
  let d := OLED13.ntp s in
  let buf := local 200 junk in
  let n := 0 in
  r <- append buf n "{'heap':%u,'up':%lu"
              [VInt (getFreeHeap e); VInt (u32 ms / 1000)] ;;
  let '(buf, n) := r in
  r <- (if negb (OLED13.apMode s)
        then append buf n ",'ip':'%s'"
                    [VStr (String_c_str (localIP e))]
        else Some (buf, n)) ;;
  let '(buf, n) := r in
  r <- append buf n ",'tz':'%s'" [VStr (OLED13.tz (OLED13.cfg s))] ;;
  let '(buf, n) := r in
  r <- (if OLED13.ntpSynced d then
          let tb := local 9 junk in
          let db := local 16 junk in
          t <- snprintf tb 0 9 (cq "%02d:%02d:%02d")
                        [VInt (OLED13.ntpH d); VInt (OLED13.ntpM d);
                         VInt (OLED13.ntpS d)] ;;
          let tb := fst t in
          mon <- entry MONTHS (OLED13.ntpMon d - 1) ;;
          t <- snprintf db 0 16 (cq "%02d %s %04d")
                        [VInt (OLED13.ntpDay d); VStr mon;
                         VInt (OLED13.ntpYear d)] ;;
          let db := fst t in
          day <- entry DAYS (OLED13.ntpWday d) ;;
          append buf n ",'time':'%s','date':'%s','day':'%s'"
                 [VStr tb; VStr db; VStr day]
        else Some (buf, n)) ;;
  let '(buf, n) := r in
  r <- append buf n "}" [] ;;
  let '(buf, n) := r in
  body <- c_str buf ;;
  Some [send 200 (Some "application/json"%string) (BPage body)].

(** The statements the three [handleAPI] above share, on an array of
    [size] bytes: everything up to the closing brace.  [clock] is the
    copy of the time when it is synced: hour, minute, second, day, month,
    year, day of the week. *)
Definition status_fields (size : nat) (junk : nat -> ascii) (e : Env)
  (ms : Z) (apMode : bool) (tz : buffer)
  (clock : option (Z * Z * Z * Z * Z * Z * Z)) : option (buffer * Z) :=
  let buf := local size junk in
  let len := 0 in
  r <- append buf len "{'heap':%u,'up':%lu"
              [VInt (getFreeHeap e); VInt (u32 ms / 1000)] ;;
  let '(buf, len) := r in
  r <- (if negb apMode
        then append buf len ",'ip':'%s'"
                    [VStr (String_c_str (localIP e))]
        else Some (buf, len)) ;;
  let '(buf, len) := r in
  r <- append buf len ",'tz':'%s'" [VStr tz] ;;
  let '(buf, len) := r in
  match clock with
  | Some (hour, minute, second, day, month, year, wday) =>
      let timeBuf := local 9 junk in
      let dateBuf := local 16 junk in
      t <- snprintf timeBuf 0 9 (cq "%02d:%02d:%02d")
                    [VInt hour; VInt minute; VInt second] ;;
      let timeBuf := fst t in
      mon <- entry MONTHS (month - 1) ;;
      t <- snprintf dateBuf 0 16 (cq "%02d %s %04d")
                    [VInt day; VStr mon; VInt year] ;;
      let dateBuf := fst t in
      day <- entry DAYS wday ;;
      append buf len ",'time':'%s','date':'%s','day':'%s'"
             [VStr timeBuf; VStr dateBuf; VStr day]
  | None => Some (buf, len)
  end.

(** The name at index [i] of a table. *)
Definition name_of (table : list string) (i : Z) : list ascii :=
  list_ascii_of_string (nth (Z.to_nat i) table ""%string).

(** The text of the status object: the free heap, the uptime in seconds,
    the address in station mode, the timezone, and once the clock is
    synced the time, the date and the day of the week. *)
Definition status_body (heap ms : Z) (ip : option (list ascii))
  (tz : list ascii)
  (clock : option (Z * Z * Z * Z * Z * Z * Z)) : list ascii :=
  (((cq "{'heap':" ++ dec (u32 heap) ++ cq ",'up':" ++ dec (u32 ms / 1000))
    ++ match ip with
       | Some a => cq ",'ip':'" ++ a ++ cq "'"
       | None => []
       end)
   ++ cq ",'tz':'" ++ tz ++ cq "'")
  ++ match clock with
     | Some (hour, minute, second, day, month, year, wday) =>
         cq ",'time':'"
         ++ (number true 2 hour ++ cq ":" ++ number true 2 minute ++ cq ":"
             ++ number true 2 second)
         ++ cq "','date':'"
         ++ (number true 2 day ++ cq " " ++ name_of MONTHS (month - 1)
             ++ cq " " ++ number true 4 year)
         ++ cq "','day':'" ++ name_of DAYS wday ++ cq "'"
     | None => []
     end.

Definition status_text (heap ms : Z) (ip : option (list ascii))
  (tz : list ascii)
  (clock : option (Z * Z * Z * Z * Z * Z * Z)) : list ascii :=
  status_body heap ms ip tz clock ++ cq "}".

(** A buffer that holds the text [pre] and its terminator, and is [buf]
    behind them. *)
Definition holding (pre : list ascii) (buf : buffer) : buffer :=
  pre ++ NUL :: skipn (length pre + 1) buf.

(** [strftime(b, sizeof(b), fmt, &ti)]. *)
Definition strftime_into (b : buffer) (fmt : string) (ti : tm)
  : option buffer :=
  out <- strftime (length b) fmt ti ;;
  Some (out ++ NUL :: skipn (length out + 1) b).

(** An array with a string literal as initialiser: the rest is zeroed. *)
Definition array_init (size : nat) (s : string) : buffer :=
  list_ascii_of_string s ++ repeat NUL (size - String.length s).

(** The uptime of ESP32_OLED_V1.ino's [handleAPI]: days, hours, minutes
    and the seconds left over. *)
Definition uptime_parts (ms : Z) : Z * Z * Z * Z :=
  let sec := u32 ms / 1000 in
  let d := sec / 86400 in let sec := sec mod 86400 in
  let h := sec / 3600 in let sec := sec mod 3600 in
  let m := sec / 60 in let sec := sec mod 60 in
  (d, h, m, sec).

(** ESP32_OLED_V1.ino; [ti] is what [getLocalTime] gives, [connected] what
    [mqtt.connected()] returns. *)
Definition ESP32_handleAPI (junk : nat -> ascii) (e : Env) (ms : Z)
  (ti : option tm) (connected : bool) (s : ESP32.State)
  : option (list HttpOp) :=
  let timeBuf := array_init 9 "--:--:--" in
  let dateBuf := array_init 20 "---" in
  r <- match ti with
       | Some ti =>
           timeBuf <- strftime_into timeBuf "%H:%M:%S" ti ;;
           dateBuf <- strftime_into dateBuf "%a %d %b %Y" ti ;;
           Some (timeBuf, dateBuf)
       | None => Some (timeBuf, dateBuf)
       end ;;
  let '(timeBuf, dateBuf) := r in
  let '(d, h, m, _) := uptime_parts ms in
  let upBuf := local 32 junk in
  t <- snprintf upBuf 0 32 (cq "%ud %uh %um") [VInt d; VInt h; VInt m] ;;
  let upBuf := fst t in
  let json := local 256 junk in
  t <- snprintf json 0 256
         (cq ("{'time':'%s','date':'%s','ip':'%s',"
              ++ "'mqtt':'%s','heap':'%d KB','uptime':'%s'}"))
         [VStr timeBuf; VStr dateBuf;
          VStr (String_c_str (if ESP32.apMode s then softAPIP e
                              else localIP e));
          VStr (if ESP32.mqttEnabled s
                then (if connected then lit "Connected"
                      else lit "Disconnected")
                else lit "Off");
          VInt (u32 (getFreeHeap e) / 1024); VStr upBuf] ;;
  let json := fst t in
  body <- c_str json ;;
  Some [send 200 (Some "application/json"%string) (BPage body)].

Close Scope Z_scope.

End Status.


(* ================================================================== *)
(** * The update screen of ESP32_OLED_V1.ino *)
(* ================================================================== *)

Module OTA.
Import CStr Arduino Printf.

Open Scope Z_scope.

Inductive Color := SSD1306_BLACK | SSD1306_WHITE.

Inductive Draw :=
| clearDisplay
| setTextSize (n : Z)
| setCursor (x y : Z)
| println (t : Text)
| printf (fmt : string) (args : list Z)
| fillRect (x y w h : Z) (c : Color)
| drawRect (x y w h : Z) (c : Color)
| display.

(** An [unsigned int] read as an [int]. *)
Definition to_int (z : Z) : Z :=
  if u32 z <? 2 ^ 31 then u32 z else u32 z - 2 ^ 32.

(** The lambda given to [ArduinoOTA.onStart]. *)
Definition onStart : list Draw :=
  [clearDisplay; setTextSize 2; setCursor 10 0; println (TLit "OTA");
   setTextSize 1; println (TLit "Updating..."); display].

(** The lambda given to [ArduinoOTA.onProgress]; a [total] of 0 divides
    by zero. *)
Definition onProgress (progress total : Z) : option (list Draw) :=
  if u32 total =? 0 then None
  else
    let pct := to_int (u32 (u32 progress * 100) / u32 total) in
    Some [fillRect 0 48 128 16 SSD1306_BLACK;
          setCursor 0 48;
          printf "Progress: %d%%" [pct];
          drawRect 0 58 128 6 SSD1306_WHITE;
          fillRect 1 59 (Z.quot (126 * pct) 100) 4 SSD1306_WHITE;
          display].

(** The lambda given to [ArduinoOTA.onEnd]. *)
Definition onEnd : list Draw :=
  [clearDisplay; setTextSize 2; setCursor 10 20; println (TLit "OTA Done!");
   display].

(** The lambda given to [ArduinoOTA.onError]. *)
Definition onError (error : Z) : list Draw :=
  [clearDisplay; setCursor 0 0; printf "OTA Error: %u" [error]; display].

(** The rectangle [x, y, w, h] lies inside the rectangle [X, Y, W, H]. *)
Definition inside (x y w h X Y W H : Z) : bool :=
  (X <=? x) && (Y <=? y) && (0 <=? w) && (0 <=? h) &&
  (x + w <=? X + W) && (y + h <=? Y + H).

Close Scope Z_scope.

End OTA.

(* ================================================================== *)
(** * The configuration record as the forms write it *)
(* ================================================================== *)

Module Fields.
Import CStr Arduino.

(** What the line
    [if (server.hasArg(name)) strlcpy(field, server.arg(name).c_str(), cap + 1)]
    makes of an array of [cap + 1] bytes: without the argument the array is
    as it was; with it the array holds the argument up to its first NUL,
    cut to [cap] characters, and is as long as before. *)
Definition stored (rq : Request) (name : string) (cap : nat)
  (old new : buffer) : Prop :=
  if hasArg rq name
  then c_str new = Some (firstn cap (text_of (arg rq name))) /\
       (length old = S cap -> length new = S cap)
  else new = old.

(** Every string of the configuration is terminated inside its array. *)
Definition HW630_terminated (c : HW630.DevConfig) : Prop :=
  fits (HW630.ssid c) 32 /\ fits (HW630.pass c) 64 /\
  fits (HW630.tzInfo c) 39.

Definition OLED13_terminated (c : OLED13.DevConfig) : Prop :=
  fits (OLED13.ssid c) 32 /\ fits (OLED13.pass c) 64 /\
  fits (OLED13.tz c) 39.

Definition ESP01_terminated (c : ESP01.DevConfig) : Prop :=
  fits (ESP01.ssid c) 32 /\ fits (ESP01.pass c) 64 /\
  fits (ESP01.mqttHost c) 64 /\ fits (ESP01.mqttUser c) 32 /\
  fits (ESP01.mqttPass c) 64 /\ fits (ESP01.mqttTopic c) 64 /\
  fits (ESP01.tzInfo c) 39.

Definition ESP32_terminated (c : ESP32.DevConfig) : Prop :=
  fits (ESP32.ssid c) 32 /\ fits (ESP32.pass c) 64 /\
  fits (ESP32.tzInfo c) 39 /\ fits (ESP32.mqttServer c) 64 /\
  fits (ESP32.mqttUser c) 32 /\ fits (ESP32.mqttPass c) 64 /\
  fits (ESP32.mqttTopic c) 64.

(** The copy of the time, once synced, is a time and a date in their
    calendar ranges. *)
Definition HW630_in_range (d : HW630.NTPData) : Prop :=
  HW630.synced d = true ->
  Printf.clock_ok (HW630.hour d) (HW630.minute d) (HW630.second d)
                  (HW630.day d) (HW630.month d) (HW630.year d)
                  (HW630.wday d) = true.

Definition ESP01_in_range (d : ESP01.NTPData) : Prop :=
  ESP01.synced d = true ->
  Printf.clock_ok (ESP01.hour d) (ESP01.minute d) (ESP01.second d)
                  (ESP01.day d) (ESP01.month d) (ESP01.year d)
                  (ESP01.wday d) = true.

Definition OLED13_in_range (d : OLED13.NTPData) : Prop :=
  OLED13.ntpSynced d = true ->
  Printf.clock_ok (OLED13.ntpH d) (OLED13.ntpM d) (OLED13.ntpS d)
                  (OLED13.ntpDay d) (OLED13.ntpMon d) (OLED13.ntpYear d)
                  (OLED13.ntpWday d) = true.

End Fields.

(* ================================================================== *)
(** * More sample inputs *)
(* ================================================================== *)

Module Cases.
Import CStr Arduino.

(** What the libraries return on a device in a home network. *)
Definition an_env : Printf.Env :=
  Printf.mk_env (list_ascii_of_string "192.168.1.23")
                (list_ascii_of_string "192.168.4.1") (-60) 40000.

(** The settings form, filled in. *)
Definition settings_request : Request :=
  mk_req "/settings" HTTP_POST
         [("ssid"%string, list_ascii_of_string "office");
          ("pass"%string, list_ascii_of_string "espresso");
          ("tz"%string, list_ascii_of_string "CET-1CEST,M3.5.0,M10.5.0/3")].

(** The settings form of the sketches with MQTT, with another port. *)
Definition port_request (name : string) : Request :=
  mk_req "/settings" HTTP_POST [(name, list_ascii_of_string "8883")].

(** The ESP8266 sketches after a first pass of [loop] that finds the
    clock set. *)
Definition hw630_synced : HW630.State :=
  Samples.hw630_after (Samples.hw630_pass 5000) Samples.hw630_booted.

Definition esp01_synced : ESP01.State :=
  match ESP01.loop Samples.settings_html_mqtt (Samples.esp01_pass 5000)
                   Samples.esp01_booted with
  | Some (_, ESP01.Running s') => s'
  | _ => Samples.esp01_booted
  end.

Definition oled13_synced : OLED13.State :=
  match OLED13.loop Samples.settings_html (Samples.oled13_pass 5000)
                    Samples.oled13_booted with
  | Some (_, OLED13.Running s') => s'
  | _ => Samples.oled13_booted
  end.

End Cases.

(* ================================================================== *)
(** * Facts about C strings *)
(* ================================================================== *)

Module CStrFacts.
Import CStr.

Lemma is_nul_true (c : ascii) : is_nul c = true <-> c = NUL.
Proof. unfold is_nul. apply Ascii.eqb_eq. Qed.

Lemma is_nul_false (c : ascii) : is_nul c = false <-> c <> NUL.
Proof. unfold is_nul. apply Ascii.eqb_neq. Qed.

Lemma nul_free_cons (c : ascii) (s : list ascii) :
  nul_free (c :: s) <-> c <> NUL /\ nul_free s.
Proof.
  unfold nul_free; simpl; split.
  - intros H; split; [intros E; apply H; left; now symmetry | tauto].
  - intros [H1 H2] [E | I]; [apply H1; now symmetry | tauto].
Qed.

Lemma nul_free_app (s1 s2 : list ascii) :
  nul_free (s1 ++ s2) <-> nul_free s1 /\ nul_free s2.
Proof.
  unfold nul_free; rewrite in_app_iff; tauto.
Qed.

Lemma strlen_app_nul (s r : list ascii) :
  nul_free s -> strlen (s ++ NUL :: r) = Some (length s).
Proof.
  induction s as [| c s IH]; intros F; simpl.
  - reflexivity.
  - apply nul_free_cons in F as [Hc Hs].
    apply is_nul_false in Hc; rewrite Hc, IH by assumption.
    reflexivity.
Qed.

Lemma strlen_Some (b : buffer) (n : nat) :
  strlen b = Some n ->
  exists s r, b = s ++ NUL :: r /\ nul_free s /\ length s = n.
Proof.
  revert n; induction b as [| c b IH]; intros n; simpl; [discriminate |].
  destruct (is_nul c) eqn:Hc.
  - intros [= <-]. apply is_nul_true in Hc; subst c.
    exists [], b; repeat split; intros [].
  - destruct (strlen b) as [m |]; simpl; [| discriminate].
    intros [= <-]. destruct (IH m eq_refl) as (s & r & -> & F & L).
    exists (c :: s), r; repeat split; simpl; [| now f_equal].
    apply nul_free_cons; split; [now apply is_nul_false | assumption].
Qed.

Lemma strlen_bound (b : buffer) (n : nat) :
  strlen b = Some n -> n < length b.
Proof.
  intros H; destruct (strlen_Some _ _ H) as (s & r & -> & _ & <-).
  rewrite length_app; simpl; lia.
Qed.

Lemma c_str_app_nul (s r : list ascii) :
  nul_free s -> c_str (s ++ NUL :: r) = Some s.
Proof.
  intros F; unfold c_str; rewrite strlen_app_nul by assumption; simpl.
  now rewrite firstn_app, Nat.sub_diag, firstn_all, app_nil_r.
Qed.

Lemma c_str_Some (b : buffer) (s : list ascii) :
  c_str b = Some s -> exists r, b = s ++ NUL :: r /\ nul_free s.
Proof.
  unfold c_str; destruct (strlen b) as [n |] eqn:E; simpl; [| discriminate].
  intros [= <-]; destruct (strlen_Some _ _ E) as (s & r & -> & F & <-).
  exists r; split; [| now rewrite firstn_app, Nat.sub_diag, firstn_all, app_nil_r].
  now rewrite firstn_app, Nat.sub_diag, firstn_all, app_nil_r.
Qed.

Lemma c_str_strlen (b : buffer) (s : list ascii) :
  c_str b = Some s -> strlen b = Some (length s).
Proof.
  intros H; destruct (c_str_Some _ _ H) as (r & -> & F).
  now apply strlen_app_nul.
Qed.

Lemma c_str_lit (s : string) :
  nul_free (list_ascii_of_string s) -> c_str (lit s) = Some (list_ascii_of_string s).
Proof. intros F; unfold lit; now apply c_str_app_nul. Qed.

Lemma is_prefix_app (p r : list ascii) : is_prefix p (p ++ r) = true.
Proof.
  induction p as [| a p IH]; simpl; [reflexivity |].
  now rewrite Ascii.eqb_refl, IH.
Qed.

Lemma is_prefix_true (p s : list ascii) :
  is_prefix p s = true -> exists r, s = p ++ r.
Proof.
  revert s; induction p as [| a p IH]; intros s; simpl.
  - exists s; reflexivity.
  - destruct s as [| c s]; [discriminate |].
    intros H; apply andb_true_iff in H as [H1 H2].
    apply Ascii.eqb_eq in H1; subst c.
    destruct (IH _ H2) as [r ->]; now exists r.
Qed.

Lemma find_sub_Some (t s : list ascii) (p : nat) :
  find_sub t s = Some p ->
  exists pre post, s = pre ++ t ++ post /\ length pre = p.
Proof.
  revert p; induction s as [| c s IH]; intros p; simpl.
  - destruct (is_prefix t []) eqn:E; [| discriminate].
    intros [= <-]; destruct (is_prefix_true _ _ E) as [r Hr].
    exists [], r; split; [assumption | reflexivity].
  - destruct (is_prefix t (c :: s)) eqn:E.
    + intros [= <-]; destruct (is_prefix_true _ _ E) as [r Hr].
      exists [], r; split; [assumption | reflexivity].
    + destruct (find_sub t s) as [q |]; simpl; [| discriminate].
      intros [= <-]; destruct (IH q eq_refl) as (pre & post & -> & L).
      exists (c :: pre), post; split; [reflexivity | simpl; now f_equal].
Qed.

Lemma find_sub_le (t pre post : list ascii) :
  exists p, find_sub t (pre ++ t ++ post) = Some p /\ p <= length pre.
Proof.
  induction pre as [| c pre IH]; simpl.
  - exists 0; split; [| lia].
    destruct t as [| a t]; simpl; [now destruct post |].
    now rewrite Ascii.eqb_refl, is_prefix_app.
  - destruct (is_prefix t (c :: pre ++ t ++ post)).
    + exists 0; split; [reflexivity | lia].
    + destruct IH as (p & -> & L); exists (S p); split; [reflexivity | lia].
Qed.

Lemma find_sub_first_occ (t s pre post : list ascii) :
  first_occ t s pre post -> find_sub t s = Some (length pre).
Proof.
  intros [-> Hmin].
  destruct (find_sub_le t pre post) as (p & E & L); rewrite E; f_equal.
  destruct (find_sub_Some _ _ _ E) as (pre' & post' & E' & <-).
  specialize (Hmin _ _ E'); lia.
Qed.

Lemma find_sub_no_occ (t s : list ascii) :
  no_occ t s -> find_sub t s = None.
Proof.
  intros H; destruct (find_sub t s) as [p |] eqn:E; [| reflexivity].
  destruct (find_sub_Some _ _ _ E) as (pre & post & E' & _).
  now elim (H pre post).
Qed.

Lemma memmove_length (b b' : buffer) (dst src n : nat) :
  memmove b dst src n = Some b' -> length b' = length b.
Proof.
  unfold memmove.
  destruct ((src + n <=? length b) && (dst + n <=? length b)) eqn:E; [| discriminate].
  apply andb_true_iff in E as [E1 E2].
  apply Nat.leb_le in E1, E2.
  intros [= <-].
  rewrite !length_app, !length_firstn, !length_skipn. lia.
Qed.

Lemma memcpy_length (b b' src : buffer) (dst n : nat) :
  memcpy b dst src n = Some b' -> length b' = length b.
Proof.
  unfold memcpy.
  destruct ((n <=? length src) && (dst + n <=? length b)) eqn:E; [| discriminate].
  apply andb_true_iff in E as [E1 E2].
  apply Nat.leb_le in E1, E2.
  intros [= <-].
  rewrite !length_app, !length_firstn, !length_skipn. lia.
Qed.

Lemma firstn_app_exact {A} (l1 l2 : list A) : firstn (length l1) (l1 ++ l2) = l1.
Proof. now rewrite firstn_app, Nat.sub_diag, firstn_all, app_nil_r. Qed.

Lemma skipn_app_exact {A} (l1 l2 : list A) : skipn (length l1) (l1 ++ l2) = l2.
Proof. now rewrite skipn_app, Nat.sub_diag, skipn_all. Qed.

(** What the routine does to a page that holds [pre ++ t ++ post]. *)
Lemma replaceTag_found (pre t post v junk jt jv : list ascii) :
  nul_free (pre ++ t ++ post) -> nul_free v ->
  find_sub t (pre ++ t ++ post) = Some (length pre) ->
  let html := (pre ++ t ++ post) ++ NUL :: junk in
  replaceTag html (t ++ NUL :: jt) (v ++ NUL :: jv) =
  if length pre + length v + length post + 1 <=? length html
  then Some (pre ++ v ++ post ++
             NUL :: skipn (length pre + length v + length post + 1) html)
  else None.
Proof.
  intros Fs Fv Hfind html.
  assert (Ft : nul_free t).
  { apply nul_free_app in Fs as [_ Fs]. now apply nul_free_app in Fs as [Fs _]. }
  assert (Fpost : nul_free post).
  { apply nul_free_app in Fs as [_ Fs]. now apply nul_free_app in Fs as [_ Fs]. }
  assert (Lh : length html = length pre + length t + length post + 1 + length junk).
  { unfold html. rewrite !length_app. simpl. lia. }
  unfold replaceTag, strstr.
  unfold html at 1. rewrite (c_str_app_nul _ junk Fs). simpl.
  rewrite (c_str_app_nul _ jt Ft). simpl. rewrite Hfind.
  rewrite (strlen_app_nul _ jt Ft), (strlen_app_nul _ jv Fv). simpl.
  assert (Etail : skipn (length pre + length t) html = post ++ NUL :: junk).
  { unfold html. rewrite <- !app_assoc.
    replace (pre ++ t ++ post ++ NUL :: junk) with ((pre ++ t) ++ post ++ NUL :: junk)
      by now rewrite <- app_assoc.
    rewrite <- (length_app pre t). apply skipn_app_exact. }
  rewrite Etail, (strlen_app_nul _ junk Fpost). simpl.
  unfold memmove.
  replace (length pre + length t + (length post + 1) <=? length html) with true
    by (symmetry; apply Nat.leb_le; lia).
  simpl.
  replace (length pre + length v + (length post + 1))
    with (length pre + length v + length post + 1) by lia.
  destruct (length pre + length v + length post + 1 <=? length html) eqn:Ecap;
    [| reflexivity].
  apply Nat.leb_le in Ecap. simpl.
  rewrite Etail.
  replace (firstn (length post + 1) (post ++ NUL :: junk)) with (post ++ [NUL]).
  2:{ replace (post ++ NUL :: junk) with ((post ++ [NUL]) ++ junk)
        by (rewrite <- app_assoc; reflexivity).
      replace (length post + 1) with (length (post ++ [NUL]))
        by (rewrite length_app; reflexivity).
      now rewrite firstn_app_exact. }
  set (html1 := firstn (length pre + length v) html ++
                (post ++ [NUL]) ++ skipn (length pre + length v + length post + 1) html).
  assert (L1 : length (firstn (length pre + length v) html) = length pre + length v).
  { rewrite length_firstn. lia. }
  assert (Lh1 : length html1 = length html).
  { unfold html1. rewrite !length_app, L1, length_skipn. simpl. lia. }
  unfold memcpy.
  replace (length v <=? length (v ++ NUL :: jv)) with true
    by (symmetry; apply Nat.leb_le; rewrite length_app; lia).
  replace (length pre + length v <=? length html1) with true
    by (symmetry; apply Nat.leb_le; lia).
  simpl. f_equal.
  rewrite firstn_app_exact.
  assert (E1 : firstn (length pre) html1 = pre).
  { unfold html1. rewrite firstn_app, L1.
    replace (length pre - (length pre + length v)) with 0 by lia.
    rewrite firstn_O, app_nil_r, firstn_firstn.
    replace (Nat.min (length pre) (length pre + length v)) with (length pre) by lia.
    unfold html. rewrite <- !app_assoc. apply firstn_app_exact. }
  assert (E2 : skipn (length pre + length v) html1 =
               (post ++ [NUL]) ++ skipn (length pre + length v + length post + 1) html).
  { unfold html1. rewrite <- L1 at 1. apply skipn_app_exact. }
  rewrite E1, E2. rewrite <- !app_assoc. reflexivity.
Qed.

Lemma find_sub_Some_first_occ (t s : list ascii) (p : nat) :
  find_sub t s = Some p ->
  first_occ t s (firstn p s) (skipn (p + length t) s).
Proof.
  intros E. destruct (find_sub_Some _ _ _ E) as (pre & post & -> & L).
  subst p. split.
  - rewrite firstn_app_exact. f_equal.
    replace (pre ++ t ++ post) with ((pre ++ t) ++ post)
      by now rewrite <- app_assoc.
    rewrite <- length_app. now rewrite skipn_app_exact.
  - intros pre' post' E'. rewrite firstn_app_exact.
    destruct (find_sub_le t pre' post') as (q & Eq & Lq).
    rewrite <- E', E in Eq. injection Eq as <-. exact Lq.
Qed.

Lemma find_sub_None_no_occ (t s : list ascii) :
  find_sub t s = None -> no_occ t s.
Proof.
  intros E pre post ->.
  destruct (find_sub_le t pre post) as (q & Eq & _). congruence.
Qed.

Lemma rep_replaceTag (h tag val : buffer) : rep h tag val = replaceTag h tag val.
Proof. reflexivity. Qed.

(** The routine when the tag is absent. *)
Lemma replaceTag_absent (html tag val : buffer) (s t : list ascii) :
  c_str html = Some s -> c_str tag = Some t -> find_sub t s = None ->
  replaceTag html tag val = Some html.
Proof.
  intros Hs Ht Hf. unfold replaceTag, strstr. rewrite Hs, Ht. simpl.
  now rewrite Hf.
Qed.

(** One substitution in a page with room for it: no access leaves the
    block, the block keeps its size, and the text grows by at most the
    length of the value less that of the tag. *)
Lemma replaceTag_grows (html tag val : buffer) (L lt lv : nat) :
  strlen html = Some L -> strlen tag = Some lt -> strlen val = Some lv ->
  L + (lv - lt) + 1 <= length html ->
  exists html' L',
    replaceTag html tag val = Some html' /\
    length html' = length html /\
    strlen html' = Some L' /\ L' <= L + (lv - lt).
Proof.
  intros HL Ht Hv Hcap.
  destruct (strlen_Some _ _ HL) as (s & junk & -> & Fs & <-).
  destruct (strlen_Some _ _ Ht) as (t & jt & -> & Ft & <-).
  destruct (strlen_Some _ _ Hv) as (v & jv & -> & Fv & <-).
  destruct (find_sub t s) as [p |] eqn:Ef.
  - destruct (find_sub_Some _ _ _ Ef) as (pre & post & -> & <-).
    pose proof (replaceTag_found pre t post v junk jt jv Fs Fv Ef) as R.
    cbv zeta in R. rewrite R.
    rewrite !length_app in Hcap. simpl in Hcap.
    replace (length pre + length v + length post + 1 <=?
             length ((pre ++ t ++ post) ++ NUL :: junk)) with true.
    2:{ symmetry. apply Nat.leb_le. rewrite !length_app. simpl. lia. }
    eexists. exists (length pre + length v + length post).
    split; [reflexivity |]. split; [| split].
    + rewrite !length_app. simpl. rewrite length_skipn, !length_app. simpl.
      lia.
    + replace (pre ++ v ++ post ++ NUL :: _) with ((pre ++ v ++ post) ++
        NUL :: skipn (length pre + length v + length post + 1)
                     ((pre ++ t ++ post) ++ NUL :: junk))
        by now rewrite <- !app_assoc.
      rewrite strlen_app_nul; [now rewrite !length_app, Nat.add_assoc |].
      apply nul_free_app in Fs as [F1 F2]. apply nul_free_app in F2 as [_ F3].
      apply nul_free_app. split; [assumption |].
      apply nul_free_app. now split.
    + rewrite !length_app. lia.
  - exists (s ++ NUL :: junk), (length s). split; [| split; [| split]].
    + eapply replaceTag_absent; eauto using c_str_app_nul.
    + reflexivity.
    + now apply strlen_app_nul.
    + lia.
Qed.

End CStrFacts.

(* ================================================================== *)
(** * The substitution routine of the settings page *)
(* ================================================================== *)

Import CStr CStrFacts.

(** C1, as amended.  [replaceTag] (and [rep], the same routine in
    OLED13_NTP_V1.ino) on a terminated page, with a terminated tag and a
    terminated value: when the tag occurs and the block has room for the
    result (the new text and its terminator), the page afterwards holds the
    text before the first occurrence, then the value, then the text that
    followed the occurrence, terminated, in a block of the same size; when
    the tag does not occur the page is unchanged.  When the tag occurs and
    the block has no room for the result, the routine writes outside the
    block. *)
Theorem replaceTag_in_place :
  forall (html tag val : buffer) (s t v : list ascii),
    c_str html = Some s -> c_str tag = Some t -> c_str val = Some v ->
    (forall pre post,
        first_occ t s pre post ->
        length pre + length v + length post + 1 <= length html ->
        exists html',
          replaceTag html tag val = Some html' /\
          rep html tag val = Some html' /\
          length html' = length html /\
          c_str html' = Some (pre ++ v ++ post)) /\
    (forall pre post,
        first_occ t s pre post ->
        length html < length pre + length v + length post + 1 ->
        replaceTag html tag val = None /\ rep html tag val = None) /\
    (no_occ t s ->
        replaceTag html tag val = Some html /\ rep html tag val = Some html).
Proof.
  intros html tag val s t v Hs Ht Hv.
  destruct (c_str_Some _ _ Hs) as (junk & -> & Fs).
  destruct (c_str_Some _ _ Ht) as (jt & -> & Ft).
  destruct (c_str_Some _ _ Hv) as (jv & -> & Fv).
  assert (Found : forall pre post, first_occ t s pre post ->
            replaceTag (s ++ NUL :: junk) (t ++ NUL :: jt) (v ++ NUL :: jv) =
            if length pre + length v + length post + 1 <=?
               length (s ++ NUL :: junk)
            then Some (pre ++ v ++ post ++
                       NUL :: skipn (length pre + length v + length post + 1)
                                    (s ++ NUL :: junk))
            else None).
  { intros pre post Hocc. pose proof (find_sub_first_occ _ _ _ _ Hocc) as Ef.
    destruct Hocc as [-> _].
    exact (replaceTag_found pre t post v junk jt jv Fs Fv Ef). }
  split; [| split].
  - intros pre post Hocc Hcap. change rep with replaceTag. rewrite (Found _ _ Hocc).
    apply Nat.leb_le in Hcap. rewrite Hcap.
    eexists; split; [reflexivity |]; split; [reflexivity |]; split.
    + apply Nat.leb_le in Hcap. set (page := s ++ NUL :: junk) in *.
      rewrite !length_app. simpl. rewrite length_skipn. lia.
    + replace (pre ++ v ++ post ++ NUL :: _) with ((pre ++ v ++ post) ++
        NUL :: skipn (length pre + length v + length post + 1)
                     (s ++ NUL :: junk))
        by now rewrite <- !app_assoc.
      apply c_str_app_nul. destruct Hocc as [-> _].
      apply nul_free_app in Fs as [F1 F2]. apply nul_free_app in F2 as [_ F3].
      apply nul_free_app; split; [assumption |].
      apply nul_free_app; now split.
  - intros pre post Hocc Hcap. change rep with replaceTag. rewrite (Found _ _ Hocc).
    replace (_ <=? _) with false; [now split |].
    symmetry. apply Nat.leb_gt. exact Hcap.
  - intros Hno. change rep with replaceTag.
    assert (E : replaceTag (s ++ NUL :: junk) (t ++ NUL :: jt) (v ++ NUL :: jv) =
                Some (s ++ NUL :: junk)).
    { eapply replaceTag_absent; eauto using find_sub_no_occ. }
    now rewrite E.
Qed.

(** A page of six characters in a block of 6 + 200 bytes, as
    [handleSettings] allocates it, and a value of 206 characters.  The tag
    occurs, but the routine leaves the block; and the block could not hold
    the substituted text, which takes 207 bytes with its terminator. *)
Lemma replaceTag_overflows_block :
  let html := list_ascii_of_string "{{TZ}}" ++ NUL :: repeat "?"%char 199 in
  let tag := lit "{{TZ}}" in
  let val := repeat "x"%char 206 ++ [NUL] in
  length html = 6 + 200 /\
  c_str html = Some (list_ascii_of_string "{{TZ}}") /\
  c_str tag = Some (list_ascii_of_string "{{TZ}}") /\
  c_str val = Some (repeat "x"%char 206) /\
  first_occ (list_ascii_of_string "{{TZ}}") (list_ascii_of_string "{{TZ}}")
            [] [] /\
  replaceTag html tag val = None /\
  (forall html' : buffer,
      length html' = length html ->
      c_str html' <> Some ([] ++ repeat "x"%char 206 ++ [])) /\
  ~ (exists html',
        replaceTag html tag val = Some html' /\
        c_str html' = Some ([] ++ repeat "x"%char 206 ++ [])).
Proof.
  cbv zeta. repeat split; try (vm_compute; reflexivity).
  - intros pre' post' _. simpl. lia.
  - intros html' Hlen Hc. apply c_str_strlen, strlen_bound in Hc.
    rewrite Hlen in Hc. vm_compute in Hc. lia.
  - intros (html' & E & _). vm_compute in E. discriminate E.
Qed.

Lemma replaceTag_in_place_witness :
  (exists html',
      replaceTag (lit "<b>{{TZ}}</b>" ++ repeat "?"%char 4)
                 (lit "{{TZ}}") (lit "ICT-7") = Some html' /\
      rep (lit "<b>{{TZ}}</b>" ++ repeat "?"%char 4)
          (lit "{{TZ}}") (lit "ICT-7") = Some html' /\
      length html' = 18 /\
      c_str html' = Some (list_ascii_of_string "<b>ICT-7</b>")) /\
  replaceTag (lit "<b>{{TZ}}</b>") (lit "{{SSID}}") (lit "home") =
    Some (lit "<b>{{TZ}}</b>").
Proof.
  split.
  - refine (proj1 (replaceTag_in_place
                     (lit "<b>{{TZ}}</b>" ++ repeat "?"%char 4)
                     (lit "{{TZ}}") (lit "ICT-7")
                     (list_ascii_of_string "<b>{{TZ}}</b>")
                     (list_ascii_of_string "{{TZ}}")
                     (list_ascii_of_string "ICT-7")
                     eq_refl eq_refl eq_refl)
                  (list_ascii_of_string "<b>") (list_ascii_of_string "</b>")
                  _ _).
    + exact (find_sub_Some_first_occ
               (list_ascii_of_string "{{TZ}}")
               (list_ascii_of_string "<b>{{TZ}}</b>") 3 eq_refl).
    + simpl. lia.
  - refine (proj1 (proj2 (proj2 (replaceTag_in_place
                     (lit "<b>{{TZ}}</b>") (lit "{{SSID}}") (lit "home")
                     (list_ascii_of_string "<b>{{TZ}}</b>")
                     (list_ascii_of_string "{{SSID}}")
                     (list_ascii_of_string "home")
                     eq_refl eq_refl eq_refl)) _)).
    exact (find_sub_None_no_occ
             (list_ascii_of_string "{{SSID}}")
             (list_ascii_of_string "<b>{{TZ}}</b>") eq_refl).
Defined.

(* ================================================================== *)
(** * The settings page stays inside its block *)
(* ================================================================== *)

Module PageFacts.
Import Arduino.

(** The block of [handleSettings] once the template is copied in. *)
Lemma page_init (T : buffer) (n k : nat) (fill : nat -> ascii) :
  strlen T = Some n -> 1 <= k ->
  exists page,
    memcpy (map fill (seq 0 (n + k))) 0 T (n + 1) = Some page /\
    length page = n + k /\ strlen page = Some n.
Proof.
  intros HT Hk. pose proof (strlen_bound _ _ HT) as Hb.
  destruct (strlen_Some _ _ HT) as (s & r & -> & Fs & <-).
  unfold memcpy. rewrite length_map, length_seq.
  replace (length s + 1 <=? length (s ++ NUL :: r)) with true
    by (symmetry; apply Nat.leb_le; lia).
  replace (0 + (length s + 1) <=? length s + k) with true
    by (symmetry; apply Nat.leb_le; lia).
  simpl. eexists; split; [reflexivity |].
  replace (firstn (length s + 1) (s ++ NUL :: r)) with (s ++ [NUL]).
  2:{ replace (s ++ NUL :: r) with ((s ++ [NUL]) ++ r)
        by (rewrite <- app_assoc; reflexivity).
      replace (length s + 1) with (length (s ++ [NUL]))
        by (rewrite length_app; reflexivity).
      now rewrite firstn_app_exact. }
  split.
  - rewrite !length_app, length_skipn, length_map, length_seq. simpl. lia.
  - rewrite <- app_assoc. simpl. now apply strlen_app_nul.
Qed.

Lemma digit_char_not_nul (d : Z) : (0 <= d < 10)%Z -> digit_char d <> NUL.
Proof.
  intros H.
  assert (C : (d = 0 \/ d = 1 \/ d = 2 \/ d = 3 \/ d = 4 \/ d = 5 \/ d = 6 \/
               d = 7 \/ d = 8 \/ d = 9)%Z) by lia.
  repeat (destruct C as [-> | C]; [discriminate |]). subst d. discriminate.
Qed.

Lemma dec_digits_nul_free (fuel : nat) (n : Z) (acc : list ascii) :
  nul_free acc -> nul_free (dec_digits fuel n acc).
Proof.
  revert n acc; induction fuel as [| f IH]; intros n acc F; simpl.
  - exact F.
  - assert (F' : nul_free (digit_char (n mod 10) :: acc)).
    { apply nul_free_cons; split; [| exact F].
      apply digit_char_not_nul. apply Z.mod_pos_bound. lia. }
    destruct (n / 10 =? 0)%Z; [exact F' | now apply IH].
Qed.

(** [snprintf] with a size of 6 leaves at most five digits. *)
Lemma snprintf_d_fits (n : Z) : fits (snprintf_d 6 n) 5.
Proof.
  unfold snprintf_d, fits.
  set (s := firstn (6 - 1) (dec_digits 20 n [])).
  assert (Ls : length s <= 5) by (unfold s; rewrite length_firstn; lia).
  assert (Fs : nul_free s).
  { intros I. apply (dec_digits_nul_free 20 n [] (fun H => H)).
    rewrite <- (firstn_skipn (6 - 1)). apply in_or_app. now left. }
  exists (length s). split; [| exact Ls].
  destruct (6 - length s) as [| m] eqn:E; [lia |].
  simpl. now apply strlen_app_nul.
Qed.

End PageFacts.

Import Arduino PageFacts.

(** One [replaceTag] line of [handleSettings]: the page [p] holds [L]
    characters in a block [cap] bytes long, the value holds at most [vmax]
    characters and the tag [lt]. *)
Ltac substitute_tag Hval tag lt vmax :=
  let p := fresh "page" in
  let L := fresh "L" in
  let E := fresh "E" in
  let Hl := fresh "Hlen" in
  let Hs := fresh "Hstr" in
  let B := fresh "B" in
  let nv := fresh "nv" in
  let Ev := fresh "Ev" in
  let Bv := fresh "Bv" in
  destruct Hval as (nv & Ev & Bv);
  match goal with
  | Hlen : length ?page0 = _, Hstr : strlen ?page0 = Some ?L0 |- _ =>
      destruct (replaceTag_grows page0 (lit tag) _ L0 lt nv Hstr eq_refl Ev)
        as (p & L & E & Hl & Hs & B);
      [ rewrite Hlen; lia
      | change rep with replaceTag; rewrite E; cbn [bind];
        rewrite Hlen in Hl;
        assert (L <= L0 + (vmax - lt)) by lia;
        clear E B Ev Bv Hlen Hstr ]
  end.

(** C2.  With every string of the configuration terminated inside its
    array, [handleSettings] never leaves the block it allocates: each
    substitution succeeds, the page afterwards is at most 113 characters
    longer than the template (284 in ESP01_OLED_V2.ino), which is less than
    the 200 (300) bytes added to the block, and the page is sent whole. *)
Theorem handleSettings_within_block :
  (forall (SETTINGS_HTML : buffer) (pgmLen : nat) (fill : nat -> ascii)
          (cfg : HW630.DevConfig),
      strlen SETTINGS_HTML = Some pgmLen ->
      fits (HW630.ssid cfg) 32 -> fits (HW630.pass cfg) 64 ->
      fits (HW630.tzInfo cfg) 39 ->
      exists page n,
        HW630.settings_page SETTINGS_HTML (Some fill) cfg = Some (Some page) /\
        length page = pgmLen + 200 /\
        strlen page = Some n /\ n <= pgmLen + 113 /\
        HW630.handleSettings SETTINGS_HTML (Some fill) cfg =
          Some [send 200 (Some "text/html"%string) (BPage (firstn n page))]) /\
  (forall (SETTINGS_HTML : buffer) (pgmLen : nat) (fill : nat -> ascii)
          (cfg : ESP01.DevConfig),
      strlen SETTINGS_HTML = Some pgmLen ->
      fits (ESP01.ssid cfg) 32 -> fits (ESP01.pass cfg) 64 ->
      fits (ESP01.tzInfo cfg) 39 -> fits (ESP01.mqttHost cfg) 64 ->
      fits (ESP01.mqttUser cfg) 32 -> fits (ESP01.mqttPass cfg) 64 ->
      fits (ESP01.mqttTopic cfg) 64 ->
      exists page n,
        ESP01.settings_page SETTINGS_HTML (Some fill) cfg = Some (Some page) /\
        length page = pgmLen + 300 /\
        strlen page = Some n /\ n <= pgmLen + 284 /\
        ESP01.handleSettings SETTINGS_HTML (Some fill) cfg =
          Some [send 200 (Some "text/html"%string) (BPage (firstn n page))]) /\
  (forall (SETTINGS_HTML : buffer) (len : nat) (fill : nat -> ascii)
          (cfg : OLED13.DevConfig),
      strlen SETTINGS_HTML = Some len ->
      fits (OLED13.ssid cfg) 32 -> fits (OLED13.pass cfg) 64 ->
      fits (OLED13.tz cfg) 39 ->
      exists p n,
        OLED13.settings_page SETTINGS_HTML (Some fill) cfg = Some (Some p) /\
        length p = len + 200 /\
        strlen p = Some n /\ n <= len + 113 /\
        OLED13.handleSettings SETTINGS_HTML (Some fill) cfg =
          Some [send 200 (Some "text/html"%string) (BPage (firstn n p))]).
Proof.
  split; [| split].
  - intros T n fill cfg HT Hssid Hpass Htz.
    unfold HW630.handleSettings, HW630.settings_page.
    rewrite HT. cbn [bind malloc].
    destruct (page_init T n 200 fill HT) as (p0 & E0 & Hlen & Hstr); [lia |].
    rewrite E0. cbn [bind]. clear E0.
    substitute_tag Hssid "{{SSID}}"%string 8 32.
    substitute_tag Hpass "{{PASS}}"%string 8 64.
    substitute_tag Htz "{{TZ}}"%string 6 39.
    match goal with
    | Hlen : length ?pg = _, Hstr : strlen ?pg = Some ?L |- _ =>
        exists pg, L; unfold c_str; rewrite Hstr; cbn [bind];
        repeat split; try assumption; lia
    end.
  - intros T n fill cfg HT Hssid Hpass Htz Hhost Huser Hmpass Htopic.
    unfold ESP01.handleSettings, ESP01.settings_page.
    rewrite HT. cbn [bind malloc].
    destruct (page_init T n 300 fill HT) as (p0 & E0 & Hlen & Hstr); [lia |].
    rewrite E0. cbn [bind]. clear E0. cbv zeta.
    pose proof (snprintf_d_fits (u16 (ESP01.mqttPort cfg))) as Hport.
    substitute_tag Hssid "{{SSID}}"%string 8 32.
    substitute_tag Hpass "{{PASS}}"%string 8 64.
    substitute_tag Htz "{{TZ}}"%string 6 39.
    substitute_tag Hhost "{{MQTT_HOST}}"%string 13 64.
    substitute_tag Hport "{{MQTT_PORT}}"%string 13 5.
    substitute_tag Huser "{{MQTT_USER}}"%string 13 32.
    substitute_tag Hmpass "{{MQTT_PASS}}"%string 13 64.
    substitute_tag Htopic "{{MQTT_TOPIC}}"%string 14 64.
    match goal with
    | Hlen : length ?pg = _, Hstr : strlen ?pg = Some ?L |- _ =>
        exists pg, L; unfold c_str; rewrite Hstr; cbn [bind];
        repeat split; try assumption; lia
    end.
  - intros T n fill cfg HT Hssid Hpass Htz.
    unfold OLED13.handleSettings, OLED13.settings_page.
    rewrite HT. cbn [bind malloc].
    destruct (page_init T n 200 fill HT) as (p0 & E0 & Hlen & Hstr); [lia |].
    rewrite E0. cbn [bind]. clear E0.
    substitute_tag Hssid "{{SSID}}"%string 8 32.
    substitute_tag Hpass "{{PASS}}"%string 8 64.
    substitute_tag Htz "{{TZ}}"%string 6 39.
    match goal with
    | Hlen : length ?pg = _, Hstr : strlen ?pg = Some ?L |- _ =>
        exists pg, L; unfold c_str; rewrite Hstr; cbn [bind];
        repeat split; try assumption; lia
    end.
Qed.

Lemma handleSettings_within_block_witness :
  (exists page n,
      HW630.settings_page Samples.settings_html (Some Samples.heap_fill)
                          Samples.hw630_cfg = Some (Some page) /\
      length page = 70 + 200 /\
      strlen page = Some n /\ n <= 70 + 113 /\
      HW630.handleSettings Samples.settings_html (Some Samples.heap_fill)
                           Samples.hw630_cfg =
        Some [send 200 (Some "text/html"%string) (BPage (firstn n page))]) /\
  (exists page n,
      ESP01.settings_page Samples.settings_html_mqtt (Some Samples.heap_fill)
                          Samples.esp01_cfg = Some (Some page) /\
      length page = 95 + 300 /\
      strlen page = Some n /\ n <= 95 + 284 /\
      ESP01.handleSettings Samples.settings_html_mqtt (Some Samples.heap_fill)
                           Samples.esp01_cfg =
        Some [send 200 (Some "text/html"%string) (BPage (firstn n page))]) /\
  (exists p n,
      OLED13.settings_page Samples.settings_html (Some Samples.heap_fill)
                           Samples.oled13_cfg = Some (Some p) /\
      length p = 70 + 200 /\
      strlen p = Some n /\ n <= 70 + 113 /\
      OLED13.handleSettings Samples.settings_html (Some Samples.heap_fill)
                            Samples.oled13_cfg =
        Some [send 200 (Some "text/html"%string) (BPage (firstn n p))]).
Proof.
  split; [| split].
  - apply (proj1 handleSettings_within_block).
    + reflexivity.
    + exists 4; split; [reflexivity | lia].
    + exists 6; split; [reflexivity | lia].
    + exists 5; split; [reflexivity | lia].
  - apply (proj1 (proj2 handleSettings_within_block)).
    + reflexivity.
    + exists 4; split; [reflexivity | lia].
    + exists 6; split; [reflexivity | lia].
    + exists 5; split; [reflexivity | lia].
    + exists 12; split; [reflexivity | lia].
    + exists 5; split; [reflexivity | lia].
    + exists 2; split; [reflexivity | lia].
    + exists 9; split; [reflexivity | lia].
  - apply (proj2 (proj2 handleSettings_within_block)).
    + reflexivity.
    + exists 4; split; [reflexivity | lia].
    + exists 6; split; [reflexivity | lia].
    + exists 5; split; [reflexivity | lia].
Defined.

(* ================================================================== *)
(** * The magic byte and the defaults *)
(* ================================================================== *)

(** C3, as amended.  [loadConfig] ([loadCfg]) reads the stored record; when
    its magic byte differs from [EEPROM_MAGIC] the configuration is zeroed
    and the defaults are installed: the magic byte and the timezone "ICT-7",
    in ESP01_OLED_V2.ino and ESP32_OLED_V1.ino also the port 1883 and the
    default topic, and in ESP32_OLED_V1.ino also [ledBlink = 1], these
    defaults being written to EEPROM at once; when the magic byte matches,
    the stored record becomes the configuration as it is. *)
Theorem loadConfig_magic_gate :
  (forall e : HW630.DevConfig,
      (HW630.magic e <> HW630.EEPROM_MAGIC ->
       HW630.loadConfig e =
         HW630.mk_cfg 0xBE (repeat NUL 33) (repeat NUL 65)
                      (list_ascii_of_string "ICT-7" ++ repeat NUL 35)) /\
      (HW630.magic e = HW630.EEPROM_MAGIC -> HW630.loadConfig e = e)) /\
  (forall e : ESP01.DevConfig,
      (ESP01.magic e <> ESP01.EEPROM_MAGIC ->
       ESP01.loadConfig e =
         ESP01.mk_cfg 0xCD (repeat NUL 33) (repeat NUL 65) (repeat NUL 65)
                      1883 (repeat NUL 33) (repeat NUL 65)
                      (list_ascii_of_string "ntp/esp01" ++ repeat NUL 56)
                      (list_ascii_of_string "ICT-7" ++ repeat NUL 35)) /\
      (ESP01.magic e = ESP01.EEPROM_MAGIC -> ESP01.loadConfig e = e)) /\
  (forall e : OLED13.DevConfig,
      (OLED13.magic e <> OLED13.EEPROM_MAGIC ->
       OLED13.loadCfg e =
         OLED13.mk_cfg 0xE7 (repeat NUL 33) (repeat NUL 65)
                       (list_ascii_of_string "ICT-7" ++ repeat NUL 35)) /\
      (OLED13.magic e = OLED13.EEPROM_MAGIC -> OLED13.loadCfg e = e)) /\
  (forall e : ESP32.DevConfig,
      (ESP32.magic e <> ESP32.EEPROM_MAGIC ->
       let d :=
         ESP32.mk_cfg 0xE7 (repeat NUL 33) (repeat NUL 65)
                      (list_ascii_of_string "ICT-7" ++ repeat NUL 35)
                      (repeat NUL 65) 1883 (repeat NUL 33) (repeat NUL 65)
                      (list_ascii_of_string "esp32/oled/time" ++ repeat NUL 50)
                      1 in
       ESP32.loadConfig e = (d, d)) /\
      (ESP32.magic e = ESP32.EEPROM_MAGIC -> ESP32.loadConfig e = (e, e))).
Proof.
  repeat split; intros H.
  - unfold HW630.loadConfig. apply Z.eqb_neq in H. now rewrite H.
  - unfold HW630.loadConfig. apply Z.eqb_eq in H. now rewrite H.
  - unfold ESP01.loadConfig. apply Z.eqb_neq in H. now rewrite H.
  - unfold ESP01.loadConfig. apply Z.eqb_eq in H. now rewrite H.
  - unfold OLED13.loadCfg. apply Z.eqb_neq in H. now rewrite H.
  - unfold OLED13.loadCfg. apply Z.eqb_eq in H. now rewrite H.
  - unfold ESP32.loadConfig. apply Z.eqb_neq in H. now rewrite H.
  - unfold ESP32.loadConfig. apply Z.eqb_eq in H. now rewrite H.
Qed.

(** On erased flash ESP32_OLED_V1.ino does not end with the listed
    defaults: [ledBlink] is 1. *)
Lemma loadConfig_ESP32_sets_ledBlink :
  ESP32.magic Samples.esp32_blank <> ESP32.EEPROM_MAGIC /\
  fst (ESP32.loadConfig Samples.esp32_blank) <> ESP32.listed_defaults /\
  ESP32.ledBlink (fst (ESP32.loadConfig Samples.esp32_blank)) = 1%Z /\
  ESP32.ledBlink ESP32.listed_defaults = 0%Z.
Proof.
  split; [discriminate |]. split; [| split; reflexivity].
  intros E. apply (f_equal ESP32.ledBlink) in E. discriminate E.
Qed.

Lemma loadConfig_magic_gate_witness :
  HW630.loadConfig Samples.hw630_blank =
    HW630.mk_cfg 0xBE (repeat NUL 33) (repeat NUL 65)
                 (list_ascii_of_string "ICT-7" ++ repeat NUL 35) /\
  HW630.loadConfig Samples.hw630_cfg = Samples.hw630_cfg /\
  ESP01.loadConfig Samples.esp01_cfg = Samples.esp01_cfg /\
  ESP32.ledBlink (fst (ESP32.loadConfig Samples.esp32_blank)) = 1%Z /\
  ESP32.loadConfig Samples.esp32_cfg = (Samples.esp32_cfg, Samples.esp32_cfg).
Proof.
  split; [| split; [| split; [| split]]].
  - apply (proj1 (proj1 loadConfig_magic_gate Samples.hw630_blank)).
    discriminate.
  - apply (proj2 (proj1 loadConfig_magic_gate Samples.hw630_cfg)).
    reflexivity.
  - apply (proj2 (proj1 (proj2 loadConfig_magic_gate) Samples.esp01_cfg)).
    reflexivity.
  - rewrite (proj1 (proj2 (proj2 (proj2 loadConfig_magic_gate))
                      Samples.esp32_blank)); [reflexivity | discriminate].
  - apply (proj2 (proj2 (proj2 (proj2 loadConfig_magic_gate))
                    Samples.esp32_cfg)).
    reflexivity.
Defined.

(* ================================================================== *)
(** * Waiting for the station link *)
(* ================================================================== *)

Module BootFacts.

Open Scope Z_scope.

Lemma u32_small (z : Z) : 0 <= z < 4294967296 -> u32 z = z.
Proof. intros H. unfold u32. apply Z.mod_small. exact H. Qed.

(** The difference of two readings of [millis()] is the time between them,
    whatever the uptime, as long as it is below 2^32 ms. *)
Lemma u32_elapsed (a d : Z) : u32 (u32 (a + d) - u32 a) = u32 d.
Proof.
  unfold u32. rewrite Zminus_mod_idemp_l, Zminus_mod_idemp_r.
  f_equal. lia.
Qed.

Lemma u32_le (a b : Z) : a <= b -> u32 (u32 b - u32 a) <= b - a.
Proof.
  intros H. replace b with (a + (b - a)) at 1 by lia.
  rewrite u32_elapsed. unfold u32.
  apply Z.mod_le; lia.
Qed.

Lemma first_char_empty (b : buffer) :
  is_nul (nth 0 b NUL) = true <-> text_of b = [].
Proof.
  destruct b as [| c b]; simpl.
  - split; reflexivity.
  - destruct (is_nul c); split; intros H; try reflexivity; discriminate.
Qed.

(** The wait loop of [wifiConnect], entered [k] delays after the start
    [t0]: it ends at the first poll that finds the link up, or at the poll
    15000 ms after the start. *)
Lemma wifiConnect_wait_spec (link : Z -> bool) (t0 : Z) (n : nat) :
  forall (k : nat) (fuel : nat),
    (k + n = 60)%nat -> (n < fuel)%nat ->
    exists j : nat,
      (k <= j <= 60)%nat /\
      HW630.wifiConnect_wait fuel (u32 t0)
        (mk_world (t0 + 250 * Z.of_nat k) link) =
        Some (mk_world (t0 + 250 * Z.of_nat j) link) /\
      (forall i : nat, (k <= i < j)%nat -> link (t0 + 250 * Z.of_nat i) = false) /\
      (link (t0 + 250 * Z.of_nat j) = true \/ j = 60%nat).
Proof.
  induction n as [| n IH]; intros k fuel Hk Hf.
  - exists k. split; [lia |].
    assert (E : u32 (millis (mk_world (t0 + 250 * Z.of_nat k) link) - u32 t0)
                = 15000).
    { unfold millis, millis_of. cbn [uptime]. rewrite u32_elapsed.
      rewrite u32_small; lia. }
    destruct fuel as [| fuel]; [lia |]. cbn [HW630.wifiConnect_wait].
    rewrite E. rewrite andb_false_r.
    split; [reflexivity |]. split; [intros i Hi; lia | right; lia].
  - destruct fuel as [| fuel]; [lia |]. cbn [HW630.wifiConnect_wait].
    assert (E : u32 (millis (mk_world (t0 + 250 * Z.of_nat k) link) - u32 t0)
                = 250 * Z.of_nat k).
    { unfold millis, millis_of. cbn [uptime]. rewrite u32_elapsed.
      rewrite u32_small; lia. }
    rewrite E. unfold WL_CONNECTED at 1. cbn [uptime link_up].
    destruct (link (t0 + 250 * Z.of_nat k)) eqn:El.
    + exists k. cbn [negb andb]. split; [lia |]. split; [reflexivity |].
      split; [intros i Hi; lia | now left].
    + replace (250 * Z.of_nat k <? 15000) with true
        by (symmetry; apply Z.ltb_lt; lia).
      cbn [negb andb]. unfold delay. cbn [uptime link_up].
      replace (t0 + 250 * Z.of_nat k + 250) with (t0 + 250 * Z.of_nat (S k))
        by lia.
      destruct (IH (S k) fuel) as (j & Hj & Ew & Hdown & Hend); [lia | lia |].
      exists j. split; [lia |]. split; [exact Ew |]. split; [| exact Hend].
      intros i Hi. destruct (Nat.eq_dec i k) as [-> | Hne]; [exact El |].
      apply Hdown. lia.
Qed.


(** The whole wait of [wifiConnect] and the test that follows it. *)
Lemma wifiConnect_wait_result (fuel : nat) (w : World) :
  (61 <= fuel)%nat ->
  exists w',
    HW630.wifiConnect_wait fuel (millis w) w = Some w' /\
    link_up w' = link_up w /\
    uptime w <= uptime w' <= uptime w + 15000 /\
    (WL_CONNECTED w' = false <->
     forall k, 0 <= k <= 60 -> link_up w (uptime w + 250 * k) = false).
Proof.
  intros Hf. destruct w as [t0 link].
  destruct (wifiConnect_wait_spec link t0 60 0 fuel) as (j & Hj & E & Hdown & Hend);
    [reflexivity | lia |].
  exists (mk_world (t0 + 250 * Z.of_nat j) link).
  unfold millis, millis_of. cbn [uptime link_up].
  replace (t0 + 250 * Z.of_nat 0) with t0 in E by lia.
  split; [exact E |]. split; [reflexivity |]. split; [lia |].
  unfold WL_CONNECTED. cbn [uptime link_up]. split.
  - intros Hoff k Hk.
    destruct (Z_lt_le_dec k (Z.of_nat j)) as [Hlt | Hge].
    + replace k with (Z.of_nat (Z.to_nat k)) by lia. apply Hdown. lia.
    + destruct Hend as [Hup | ->]; [congruence |].
      replace k with (Z.of_nat 60) by lia. exact Hoff.
  - intros Hall. apply Hall. lia.
Qed.

Lemma ESP01_wait_same : ESP01.wifiConnect_wait = HW630.wifiConnect_wait.
Proof. reflexivity. Qed.

Lemma OLED13_wait_same : OLED13.wifiConnect_wait = HW630.wifiConnect_wait.
Proof. reflexivity. Qed.

(** The wait loop of [connectWiFi], entered after [k] attempts. *)
Lemma connectWiFi_wait_spec (link : Z -> bool) (t0 : Z) (n : nat) :
  forall (k : nat) (fuel : nat),
    (k + n = 30)%nat -> (n < fuel)%nat ->
    exists j : nat,
      (k <= j <= 30)%nat /\
      ESP32.connectWiFi_wait fuel (Z.of_nat k)
        (mk_world (t0 + 500 * Z.of_nat k) link) =
        Some (mk_world (t0 + 500 * Z.of_nat j) link) /\
      (forall i : nat, (k <= i < j)%nat -> link (t0 + 500 * Z.of_nat i) = false) /\
      (link (t0 + 500 * Z.of_nat j) = true \/ j = 30%nat).
Proof.
  induction n as [| n IH]; intros k fuel Hk Hf.
  - exists k. split; [lia |].
    destruct fuel as [| fuel]; [lia |]. cbn [ESP32.connectWiFi_wait].
    replace (Z.of_nat k <? 30) with false by (symmetry; apply Z.ltb_ge; lia).
    rewrite andb_false_r.
    split; [reflexivity |]. split; [intros i Hi; lia | right; lia].
  - destruct fuel as [| fuel]; [lia |]. cbn [ESP32.connectWiFi_wait].
    unfold WL_CONNECTED at 1. cbn [uptime link_up].
    destruct (link (t0 + 500 * Z.of_nat k)) eqn:El.
    + exists k. cbn [negb andb]. split; [lia |]. split; [reflexivity |].
      split; [intros i Hi; lia | now left].
    + replace (Z.of_nat k <? 30) with true by (symmetry; apply Z.ltb_lt; lia).
      cbn [negb andb]. unfold delay. cbn [uptime link_up].
      replace (t0 + 500 * Z.of_nat k + 500) with (t0 + 500 * Z.of_nat (S k))
        by lia.
      replace (Z.of_nat k + 1) with (Z.of_nat (S k)) by lia.
      destruct (IH (S k) fuel) as (j & Hj & Ew & Hdown & Hend); [lia | lia |].
      exists j. split; [lia |]. split; [exact Ew |]. split; [| exact Hend].
      intros i Hi. destruct (Nat.eq_dec i k) as [-> | Hne]; [exact El |].
      apply Hdown. lia.
Qed.

Lemma connectWiFi_wait_result (fuel : nat) (w : World) :
  (31 <= fuel)%nat ->
  exists w',
    ESP32.connectWiFi_wait fuel 0 w = Some w' /\
    link_up w' = link_up w /\
    uptime w <= uptime w' <= uptime w + 15000 /\
    (WL_CONNECTED w' = false <->
     forall k, 0 <= k <= 30 -> link_up w (uptime w + 500 * k) = false).
Proof.
  intros Hf. destruct w as [t0 link].
  destruct (connectWiFi_wait_spec link t0 30 0 fuel) as (j & Hj & E & Hdown & Hend);
    [reflexivity | lia |].
  exists (mk_world (t0 + 500 * Z.of_nat j) link).
  cbn [uptime link_up].
  replace (t0 + 500 * Z.of_nat 0) with t0 in E by lia.
  change (Z.of_nat 0) with 0 in E.
  split; [exact E |]. split; [reflexivity |]. split; [lia |].
  unfold WL_CONNECTED. cbn [uptime link_up]. split.
  - intros Hoff k Hk.
    destruct (Z_lt_le_dec k (Z.of_nat j)) as [Hlt | Hge].
    + replace k with (Z.of_nat (Z.to_nat k)) by lia. apply Hdown. lia.
    + destruct Hend as [Hup | ->]; [congruence |].
      replace k with (Z.of_nat 30) by lia. exact Hoff.
  - intros Hall. apply Hall. lia.
Qed.

Close Scope Z_scope.

End BootFacts.

Import BootFacts.

Lemma strlen_text_of (b : buffer) (n : nat) :
  strlen b = Some n -> length (text_of b) = n.
Proof.
  revert n; induction b as [| c b IH]; intros n; simpl; [discriminate |].
  destruct (is_nul c); [now intros [= <-] |].
  destruct (strlen b) as [m |]; simpl; [| discriminate].
  intros [= <-]. simpl. f_equal. now apply IH.
Qed.

Lemma strlen_pos_text (b : buffer) (n : nat) :
  strlen b = Some n ->
  exists has, ESP32.strlen_pos b = Some has /\
              (has = false <-> text_of b = []).
Proof.
  intros H. unfold ESP32.strlen_pos. rewrite H. cbn [bind].
  eexists; split; [reflexivity |].
  apply strlen_text_of in H. rewrite <- H.
  destruct (text_of b); simpl; split; intros E; try reflexivity; discriminate.
Qed.

(* ================================================================== *)
(** * What a pass of the main loop keeps *)
(* ================================================================== *)

Module LoopFacts.

Lemma bind_Some {A B} (m : option A) (k : A -> option B) (b : B) :
  bind m k = Some b -> exists a, m = Some a /\ k a = Some b.
Proof. destruct m as [a |]; [now exists a | discriminate]. Qed.

(** ** 8266_HW_630.ino *)

Lemma HW630_oledUpdate_frame (m1 m2 rssi : Z) (s : HW630.State) :
  let s' := fst (HW630.oledUpdate m1 m2 rssi s) in
  HW630.cfg s' = HW630.cfg s /\ HW630.ntpData s' = HW630.ntpData s /\
  HW630.apMode s' = HW630.apMode s /\ HW630.routes s' = HW630.routes s.
Proof.
  unfold HW630.oledUpdate.
  destruct (u32 (m1 - HW630.lastOledUpdate s) <? 500)%Z; [now cbn |].
  cbv zeta.
  destruct (negb (HW630.synced (HW630.ntpData (HW630.set_lastOledUpdate m2 s))));
    now cbn.
Qed.

Lemma HW630_handleClient_running (T : buffer) heap rq (s s' : HW630.State) ops :
  HW630.handleClient T heap rq s = Some (ops, HW630.Running s') -> s' = s.
Proof.
  unfold HW630.handleClient.
  destruct (HW630.lookup_route rq (HW630.routes s)) as [[] |];
    try (intros [= _ <-]; reflexivity); try discriminate.
  intros H. apply bind_Some in H as (o & _ & [= _ <-]). reflexivity.
Qed.

Lemma HW630_loop_frame (T : buffer) i (s s' : HW630.State) ev :
  HW630.loop T i s = Some (ev, HW630.Running s') ->
  HW630.cfg s' = HW630.cfg s /\ HW630.apMode s' = HW630.apMode s /\
  HW630.routes s' = HW630.routes s /\
  HW630.ntpData s' = HW630.ntpData (HW630.loop_ntp i s).
Proof.
  unfold HW630.loop. cbv zeta.
  pose proof (HW630_oledUpdate_frame (HW630.in_millis1 i) (HW630.in_millis2 i)
                (HW630.in_rssi i) (HW630.loop_ntp i s)) as F.
  destruct (HW630.oledUpdate _ _ _ _) as [s1 draw]. cbn [fst] in F.
  destruct F as (Fc & Fn & Fa & Fr).
  assert (G : HW630.cfg (HW630.loop_ntp i s) = HW630.cfg s /\
              HW630.apMode (HW630.loop_ntp i s) = HW630.apMode s /\
              HW630.routes (HW630.loop_ntp i s) = HW630.routes s).
  { unfold HW630.loop_ntp. now destruct (negb (HW630.apMode s)). }
  destruct G as (Gc & Ga & Gr).
  destruct (HW630.in_request i) as [rq |].
  - intros H. apply bind_Some in H as ([ops o] & Hc & [= _ ->]).
    apply HW630_handleClient_running in Hc. subst s1.
    repeat split; congruence.
  - intros [= _ <-]. repeat split; congruence.
Qed.

Lemma HW630_setup_unsynced fuel e w s w' ops :
  HW630.setup fuel e w = Some (s, w', ops) ->
  HW630.synced (HW630.ntpData s) = false.
Proof.
  unfold HW630.setup. cbv zeta. intros H.
  apply bind_Some in H as ([[ok w1] o1] & _ & H).
  destruct ok; injection H as <- _ _; reflexivity.
Qed.

(** In access-point mode the clock is never read, so the snapshot stays
    unsynced. *)
Lemma HW630_ap_unsynced (T : buffer) (s : HW630.State) :
  HW630.reachable T s ->
  HW630.apMode s = true -> HW630.synced (HW630.ntpData s) = false.
Proof.
  induction 1 as [fuel e w s w' ops Hs | i s ev s' _ IH Hl]; intros Hap.
  - eapply HW630_setup_unsynced; eauto.
  - apply HW630_loop_frame in Hl as (_ & Ha & _ & Hn).
    rewrite Hn. unfold HW630.loop_ntp. rewrite Ha in Hap. rewrite Hap.
    cbn [negb]. now apply IH.
Qed.

(** ** ESP01_OLED_V2.ino *)

Lemma ESP01_oledUpdate_frame (m1 m2 : Z) (s : ESP01.State) :
  let s' := fst (ESP01.oledUpdate m1 m2 s) in
  ESP01.cfg s' = ESP01.cfg s /\ ESP01.ntpData s' = ESP01.ntpData s /\
  ESP01.apMode s' = ESP01.apMode s /\ ESP01.routes s' = ESP01.routes s /\
  ESP01.lastMqttPub s' = ESP01.lastMqttPub s /\
  ESP01.lastMqttReconnect s' = ESP01.lastMqttReconnect s.
Proof.
  unfold ESP01.oledUpdate.
  destruct (u32 (m1 - ESP01.lastOledUpdate s) <? 500)%Z; [now cbn |].
  cbv zeta.
  destruct (negb (ESP01.synced (ESP01.ntpData (ESP01.set_lastOledUpdate m2 s))));
    now cbn.
Qed.

Lemma ESP01_handleClient_running (T : buffer) heap rq (s s' : ESP01.State) ops :
  ESP01.handleClient T heap rq s = Some (ops, ESP01.Running s') -> s' = s.
Proof.
  unfold ESP01.handleClient.
  destruct (ESP01.lookup_route rq (ESP01.routes s)) as [[] |];
    try (intros [= _ <-]; reflexivity); try discriminate.
  intros H. apply bind_Some in H as (o & _ & [= _ <-]). reflexivity.
Qed.

Lemma ESP01_mqttReconnect_frame (c : bool) (m1 m2 : Z) (s : ESP01.State) :
  let s' := fst (ESP01.mqttReconnect c m1 m2 s) in
  ESP01.cfg s' = ESP01.cfg s /\ ESP01.ntpData s' = ESP01.ntpData s /\
  ESP01.apMode s' = ESP01.apMode s /\ ESP01.routes s' = ESP01.routes s /\
  ESP01.lastMqttPub s' = ESP01.lastMqttPub s.
Proof.
  unfold ESP01.mqttReconnect.
  destruct (is_nul _); [now cbn |]. destruct c; [now cbn |].
  destruct (_ <? _)%Z; now cbn.
Qed.

Lemma ESP01_loop_mqtt_frame i (s : ESP01.State) :
  let s' := fst (ESP01.loop_mqtt i s) in
  ESP01.cfg s' = ESP01.cfg s /\ ESP01.ntpData s' = ESP01.ntpData s /\
  ESP01.apMode s' = ESP01.apMode s /\ ESP01.routes s' = ESP01.routes s.
Proof.
  unfold ESP01.loop_mqtt.
  destruct (negb (ESP01.apMode s) && _); [| now cbn].
  pose proof (ESP01_mqttReconnect_frame (ESP01.in_connected_r i)
                (ESP01.in_millis_r1 i) (ESP01.in_millis_r2 i) s) as F.
  destruct (ESP01.mqttReconnect _ _ _ s) as [s1 ops1]. cbn [fst] in F.
  destruct F as (Fc & Fn & Fa & Fr & _).
  destruct (_ && _); cbn; repeat split; assumption.
Qed.

Lemma ESP01_loop_frame (T : buffer) i (s s' : ESP01.State) ev :
  ESP01.loop T i s = Some (ev, ESP01.Running s') ->
  ESP01.cfg s' = ESP01.cfg s /\ ESP01.apMode s' = ESP01.apMode s /\
  ESP01.routes s' = ESP01.routes s /\
  ESP01.ntpData s' = ESP01.ntpData (ESP01.loop_ntp i s).
Proof.
  unfold ESP01.loop. cbv zeta.
  pose proof (ESP01_oledUpdate_frame (ESP01.in_millis1 i) (ESP01.in_millis2 i)
                (ESP01.loop_ntp i s)) as F.
  destruct (ESP01.oledUpdate _ _ _) as [s1 draw]. cbn [fst] in F.
  destruct F as (Fc & Fn & Fa & Fr & _).
  assert (G : ESP01.cfg (ESP01.loop_ntp i s) = ESP01.cfg s /\
              ESP01.apMode (ESP01.loop_ntp i s) = ESP01.apMode s /\
              ESP01.routes (ESP01.loop_ntp i s) = ESP01.routes s).
  { unfold ESP01.loop_ntp. now destruct (negb (ESP01.apMode s)). }
  destruct G as (Gc & Ga & Gr).
  intros H. apply bind_Some in H as ([ops o] & Hc & H). cbn [fst snd] in H.
  destruct o as [s2 | e]; [| discriminate].
  assert (s2 = s1) as ->.
  { destruct (ESP01.in_request i) as [rq |].
    - now apply ESP01_handleClient_running in Hc.
    - now injection Hc as _ <-. }
  pose proof (ESP01_loop_mqtt_frame i s1) as M.
  destruct (ESP01.loop_mqtt i s1) as [s3 pub]. cbn [fst] in M.
  destruct M as (Mc & Mn & Ma & Mr).
  injection H as _ <-. repeat split; congruence.
Qed.

Lemma ESP01_setup_unsynced fuel e w s w' ops :
  ESP01.setup fuel e w = Some (s, w', ops) ->
  ESP01.synced (ESP01.ntpData s) = false.
Proof.
  unfold ESP01.setup. cbv zeta. intros H.
  apply bind_Some in H as ([[ok w1] o1] & _ & H).
  destruct ok; injection H as <- _ _; reflexivity.
Qed.

Lemma ESP01_ap_unsynced (T : buffer) (s : ESP01.State) :
  ESP01.reachable T s ->
  ESP01.apMode s = true -> ESP01.synced (ESP01.ntpData s) = false.
Proof.
  induction 1 as [fuel e w s w' ops Hs | i s ev s' _ IH Hl]; intros Hap.
  - eapply ESP01_setup_unsynced; eauto.
  - apply ESP01_loop_frame in Hl as (_ & Ha & _ & Hn).
    rewrite Hn. unfold ESP01.loop_ntp. rewrite Ha in Hap. rewrite Hap.
    cbn [negb]. now apply IH.
Qed.

(** ** OLED13_NTP_V1.ino *)

Lemma OLED13_oledUpdate_frame (m1 m2 : Z) (s : OLED13.State) :
  let s' := fst (OLED13.oledUpdate m1 m2 s) in
  OLED13.cfg s' = OLED13.cfg s /\ OLED13.ntp s' = OLED13.ntp s /\
  OLED13.apMode s' = OLED13.apMode s /\ OLED13.routes s' = OLED13.routes s.
Proof.
  unfold OLED13.oledUpdate.
  destruct (u32 (m1 - OLED13.lastOled s) <? 500)%Z; [now cbn |].
  cbv zeta.
  destruct (negb (OLED13.ntpSynced (OLED13.ntp (OLED13.set_lastOled m2 s))));
    now cbn.
Qed.

Lemma OLED13_handleClient_running (T : buffer) heap rq (s s' : OLED13.State) ops :
  OLED13.handleClient T heap rq s = Some (ops, OLED13.Running s') -> s' = s.
Proof.
  unfold OLED13.handleClient.
  destruct (OLED13.lookup_route rq (OLED13.routes s)) as [[] |];
    try (intros [= _ <-]; reflexivity); try discriminate.
  intros H. apply bind_Some in H as (o & _ & [= _ <-]). reflexivity.
Qed.

Lemma OLED13_loop_frame (T : buffer) i (s s' : OLED13.State) ev :
  OLED13.loop T i s = Some (ev, OLED13.Running s') ->
  OLED13.cfg s' = OLED13.cfg s /\ OLED13.apMode s' = OLED13.apMode s /\
  OLED13.routes s' = OLED13.routes s /\
  OLED13.ntp s' = OLED13.ntp (OLED13.loop_ntp i s).
Proof.
  unfold OLED13.loop. cbv zeta.
  pose proof (OLED13_oledUpdate_frame (OLED13.in_millis1 i)
                (OLED13.in_millis2 i) (OLED13.loop_ntp i s)) as F.
  destruct (OLED13.oledUpdate _ _ _) as [s1 draw]. cbn [fst] in F.
  destruct F as (Fc & Fn & Fa & Fr).
  assert (G : OLED13.cfg (OLED13.loop_ntp i s) = OLED13.cfg s /\
              OLED13.apMode (OLED13.loop_ntp i s) = OLED13.apMode s /\
              OLED13.routes (OLED13.loop_ntp i s) = OLED13.routes s).
  { unfold OLED13.loop_ntp. now destruct (negb (OLED13.apMode s)). }
  destruct G as (Gc & Ga & Gr).
  destruct (OLED13.in_request i) as [rq |].
  - intros H. apply bind_Some in H as ([ops o] & Hc & [= _ ->]).
    apply OLED13_handleClient_running in Hc. subst s1.
    repeat split; congruence.
  - intros [= _ <-]. repeat split; congruence.
Qed.

Lemma OLED13_setup_unsynced fuel e w s w' ops :
  OLED13.setup fuel e w = Some (s, w', ops) ->
  OLED13.ntpSynced (OLED13.ntp s) = false.
Proof.
  unfold OLED13.setup. cbv zeta. intros H.
  apply bind_Some in H as ([[ok w1] o1] & _ & H).
  destruct ok; injection H as <- _ _; reflexivity.
Qed.

Lemma OLED13_ap_unsynced (T : buffer) (s : OLED13.State) :
  OLED13.reachable T s ->
  OLED13.apMode s = true -> OLED13.ntpSynced (OLED13.ntp s) = false.
Proof.
  induction 1 as [fuel e w s w' ops Hs | i s ev s' _ IH Hl]; intros Hap.
  - eapply OLED13_setup_unsynced; eauto.
  - apply OLED13_loop_frame in Hl as (_ & Ha & _ & Hn).
    rewrite Hn. unfold OLED13.loop_ntp. rewrite Ha in Hap. rewrite Hap.
    cbn [negb]. now apply IH.
Qed.

(** ** ESP32_OLED_V1.ino *)

Lemma ESP32_mqttReconnect_frame (c : bool) (m1 m2 : Z) (s s' : ESP32.State) ops :
  ESP32.mqttReconnect c m1 m2 s = Some (s', ops) ->
  s' = s \/ s' = ESP32.set_lastTry m2 s.
Proof.
  unfold ESP32.mqttReconnect.
  destruct c; [intros [= <- _]; now left |].
  destruct (_ <? _)%Z; [intros [= <- _]; now left |].
  cbv zeta. intros H. apply bind_Some in H as (h & _ & [= <- _]). now right.
Qed.

Lemma ESP32_loop_net_frame i (s s' : ESP32.State) ops :
  ESP32.loop_net i s = Some (s', ops) ->
  ESP32.cfg s' = ESP32.cfg s /\ ESP32.apMode s' = ESP32.apMode s /\
  ESP32.mqttEnabled s' = ESP32.mqttEnabled s /\
  ESP32.lastMqtt s' = ESP32.lastMqtt s /\ ESP32.routes s' = ESP32.routes s.
Proof.
  unfold ESP32.loop_net.
  destruct (ESP32.apMode s) eqn:Ea; [intros [= <- _]; now rewrite Ea |].
  destruct (ESP32.mqttEnabled s) eqn:Em;
    [| intros [= <- _]; now rewrite Ea, Em].
  intros H. apply bind_Some in H as ([s1 o1] & H1 & [= <- _]). cbn [fst].
  destruct (negb (ESP32.in_connected1 i)).
  - apply ESP32_mqttReconnect_frame in H1 as [-> | ->];
      cbn; now rewrite ?Ea, ?Em.
  - injection H1 as <- _. now rewrite Ea, Em.
Qed.

Lemma ESP32_handleClient_running rq (s s' : ESP32.State) ops :
  ESP32.handleClient rq s = (ops, ESP32.Running s') -> s' = s.
Proof.
  unfold ESP32.handleClient.
  destruct (ESP32.lookup_route rq (ESP32.routes s)) as [[] |];
    try (intros [= _ <-]; reflexivity); discriminate.
Qed.

Lemma ESP32_updateOLED_frame (m1 m2 : Z) ti c (s : ESP32.State) :
  let s' := fst (ESP32.updateOLED m1 m2 ti c s) in
  ESP32.cfg s' = ESP32.cfg s /\ ESP32.apMode s' = ESP32.apMode s /\
  ESP32.mqttEnabled s' = ESP32.mqttEnabled s /\
  ESP32.lastMqtt s' = ESP32.lastMqtt s.
Proof.
  unfold ESP32.updateOLED.
  destruct (_ <? _)%Z; [now cbn |]. cbv zeta.
  destruct (ESP32.apMode (ESP32.set_lastOled m2 s)); [now cbn |].
  destruct ti as [t |]; [| now cbn].
  destruct (_ =? _)%Z; now cbn.
Qed.

Lemma ESP32_blinkLED_frame (m1 m2 : Z) (s : ESP32.State) :
  let s' := fst (ESP32.blinkLED m1 m2 s) in
  ESP32.cfg s' = ESP32.cfg s /\ ESP32.apMode s' = ESP32.apMode s /\
  ESP32.mqttEnabled s' = ESP32.mqttEnabled s /\
  ESP32.lastMqtt s' = ESP32.lastMqtt s.
Proof.
  unfold ESP32.blinkLED.
  destruct (_ =? _)%Z; [now cbn |].
  destruct (_ <? _)%Z; now cbn.
Qed.

Lemma ESP32_loop_publish_frame i (s : ESP32.State) :
  let s' := fst (ESP32.loop_publish i s) in
  ESP32.cfg s' = ESP32.cfg s /\ ESP32.apMode s' = ESP32.apMode s /\
  ESP32.mqttEnabled s' = ESP32.mqttEnabled s.
Proof.
  unfold ESP32.loop_publish.
  destruct (_ && _); [| now cbn].
  destruct (_ <? _)%Z; [| now cbn]. cbv zeta.
  destruct (ESP32.in_local_p i); now cbn.
Qed.

Lemma ESP32_loop_frame i (s s' : ESP32.State) ev :
  ESP32.loop i s = Some (ev, ESP32.Running s') ->
  ESP32.cfg s' = ESP32.cfg s /\ ESP32.apMode s' = ESP32.apMode s /\
  ESP32.mqttEnabled s' = ESP32.mqttEnabled s.
Proof.
  unfold ESP32.loop. intros H.
  apply bind_Some in H as ([s1 net] & Hn & H).
  apply ESP32_loop_net_frame in Hn as (Nc & Na & Nm & _).
  destruct (match ESP32.in_request i with
            | Some rq => ESP32.handleClient rq s1
            | None => ([], ESP32.Running s1)
            end) as [http o] eqn:Eh.
  destruct o as [s2 | e]; [| discriminate].
  assert (s2 = s1) as ->.
  { destruct (ESP32.in_request i) as [rq |].
    - now apply ESP32_handleClient_running in Eh.
    - now injection Eh as _ <-. }
  pose proof (ESP32_updateOLED_frame (ESP32.in_millis_o1 i) (ESP32.in_millis_o2 i)
                (ESP32.in_local_o i) (ESP32.in_connected_o i) s1) as U.
  destruct (ESP32.updateOLED _ _ _ _ s1) as [s3 draw]. cbn [fst] in U.
  destruct U as (Uc & Ua & Um & _).
  pose proof (ESP32_blinkLED_frame (ESP32.in_millis_l1 i) (ESP32.in_millis_l2 i)
                s3) as B.
  destruct (ESP32.blinkLED _ _ s3) as [s4 led]. cbn [fst] in B.
  destruct B as (Bc & Ba & Bm & _).
  pose proof (ESP32_loop_publish_frame i s4) as P.
  destruct (ESP32.loop_publish i s4) as [s5 pub]. cbn [fst] in P.
  destruct P as (Pc & Pa & Pm).
  injection H as _ <-. repeat split; congruence.
Qed.

Lemma ESP32_setup_mqtt fuel c0 e w s w' e' ops :
  ESP32.setup fuel c0 e w = Some (s, w', e', ops) ->
  ESP32.mqttEnabled s = true ->
  ESP32.apMode s = false /\
  ESP32.strlen_pos (ESP32.mqttServer (ESP32.cfg s)) = Some true.
Proof.
  unfold ESP32.setup.
  destruct (ESP32.loadConfig e) as [c e1]. cbv zeta.
  change (ESP32.cfg (ESP32.set_cfg c ESP32.boot_state)) with c.
  intros H.
  apply bind_Some in H as (has_ssid & _ & H).
  apply bind_Some in H as ([[ok w1] ops1] & _ & H).
  apply bind_Some in H as ([s1 ops2] & H1 & H).
  injection H as <- _ _ _.
  destruct ok.
  - change (ESP32.cfg (ESP32.set_apMode false
                         (ESP32.set_cfg c ESP32.boot_state))) with c in H1.
    apply bind_Some in H1 as (has_mqtt & Hm & H1).
    destruct has_mqtt.
    + apply bind_Some in H1 as ([s2 mops] & Hr & [= <- _]).
      unfold ESP32.setupMQTT in Hr.
      apply bind_Some in Hr as ([s3 rops] & Hr & [= <- _]). cbn [fst].
      apply ESP32_mqttReconnect_frame in Hr as [-> | ->]; intros _;
        split; try reflexivity; exact Hm.
    + injection H1 as <- _. discriminate.
  - injection H1 as <- _. discriminate.
Qed.

(** MQTT is enabled only in station mode with a server name. *)
Lemma ESP32_mqtt_enabled (s : ESP32.State) :
  ESP32.reachable s ->
  ESP32.mqttEnabled s = true ->
  ESP32.apMode s = false /\
  ESP32.strlen_pos (ESP32.mqttServer (ESP32.cfg s)) = Some true.
Proof.
  induction 1 as [fuel c0 e w s w' e' ops Hs | i s ev s' _ IH Hl]; intros Hm.
  - eapply ESP32_setup_mqtt; eauto.
  - apply ESP32_loop_frame in Hl as (Hc & Ha & He).
    rewrite Hc, Ha. apply IH. congruence.
Qed.

End LoopFacts.

(* ================================================================== *)
(** * Access point or station: one decision, at boot *)
(* ================================================================== *)

Import LoopFacts.

(** The boot of an ESP8266 sketch, [wait] being its copy of the wait
    loop. *)
Ltac boot_8266 setup wifiConnect wait ssid_of :=
  let fuel := fresh "fuel" in
  let e := fresh "e" in
  let w := fresh "w" in
  let Hfuel := fresh "Hfuel" in
  let Hempty := fresh "Hempty" in
  let w2 := fresh "w2" in
  let Ewait := fresh "Ewait" in
  let Hlink := fresh "Hlink" in
  let Hup := fresh "Hup" in
  let Hoff := fresh "Hoff" in
  let Hne := fresh "Hne" in
  let Hconn := fresh "Hconn" in
  let Habs := fresh "Habs" in
  let Htext := fresh "Htext" in
  intros fuel e w Hfuel;
  unfold setup, wifiConnect; cbv zeta;
  match goal with
  | |- context [is_nul (nth 0 ?ssid NUL)] =>
      destruct (is_nul (nth 0 ssid NUL)) eqn:Hempty
  end;
  [ cbn [bind];
    change (is_nul (nth 0 (ssid_of e) NUL) = true) in Hempty;
    cbv beta in Hempty;
    pose proof (proj1 (first_char_empty _) Hempty) as Htext;
    do 3 eexists;
    split; [reflexivity |]; split; [reflexivity |];
    split; [split; [intros _; left; exact Htext | reflexivity] |];
    split; [reflexivity |];
    split; [rewrite Htext; reflexivity | reflexivity]
  | change wait with HW630.wifiConnect_wait;
    match goal with
    | |- context [HW630.wifiConnect_wait fuel (millis ?w1) ?w1] =>
        destruct (wifiConnect_wait_result fuel w1 Hfuel)
          as (w2 & Ewait & Hlink & Hup & Hoff)
    end;
    rewrite Ewait; cbn [bind];
    change (is_nul (nth 0 (ssid_of e) NUL) = false) in Hempty;
    cbv beta in Hempty;
    assert (Hne : ~ text_of (ssid_of e) = [])
      by (cbv beta; intros Habs; apply first_char_empty in Habs; congruence);
    cbv beta in Hne;
    cbn [uptime link_up delay] in Hoff;
    destruct (WL_CONNECTED w2) eqn:Hconn;
    [ do 3 eexists;
      split; [reflexivity |]; split; [reflexivity |];
      split; [split; [discriminate |];
              intros [Habs | Habs]; [now elim Hne |];
              apply Hoff in Habs; discriminate |];
      split; [reflexivity |];
      split; [| reflexivity];
      match goal with
      | |- context [match text_of ?b with [] => _ | _ :: _ => _ end] =>
          destruct (text_of b); [now elim Hne | reflexivity]
      end
    | do 3 eexists;
      split; [reflexivity |]; split; [reflexivity |];
      split; [split; [intros _; right; now apply Hoff | reflexivity] |];
      split; [reflexivity |];
      split; [| reflexivity];
      match goal with
      | |- context [match text_of ?b with [] => _ | _ :: _ => _ end] =>
          destruct (text_of b); [now elim Hne | reflexivity]
      end ] ].

(** [mqttReconnect] of ESP32_OLED_V1.ino with a terminated user name: it
    returns, and touches [lastTry] only. *)
Lemma ESP32_mqttReconnect_total (connected : bool) (m1 m2 : Z) (s : ESP32.State) :
  fits (ESP32.mqttUser (ESP32.cfg s)) 32 ->
  exists ops,
    (ESP32.mqttReconnect connected m1 m2 s = Some (s, ops) \/
     ESP32.mqttReconnect connected m1 m2 s = Some (ESP32.set_lastTry m2 s, ops)).
Proof.
  intros (n & Hn & _). unfold ESP32.mqttReconnect.
  destruct connected; [exists []; now left |].
  destruct (u32 (m1 - ESP32.lastTry s) <? 10000)%Z; [exists []; now left |].
  cbv zeta. unfold ESP32.strlen_pos.
  change (ESP32.cfg (ESP32.set_lastTry m2 s)) with (ESP32.cfg s).
  rewrite Hn. cbn [bind]. eexists. right. reflexivity.
Qed.

Lemma ESP32_apMode_writes_mqtt (l : list MqttOp) (rest : list ESP32.BootOp) :
  ESP32.apMode_writes (map ESP32.boot_mqtt l ++ rest) = ESP32.apMode_writes rest.
Proof. induction l as [| op l IH]; [reflexivity | exact IH]. Qed.

(** C4.  At boot each sketch loads its configuration and then writes
    [apMode] exactly once.  It writes [true] (access point) when the stored
    SSID is empty or no poll of the station link finds it up: the ESP8266
    sketches poll every 250 ms from the start of the attempt until 15000 ms
    have passed, ESP32_OLED_V1.ino polls before each of its 30 waits of
    500 ms and once after the last.  Otherwise it writes [false]
    (station).  The calls of the boot are those of the mode: the station
    attempt unless the SSID is empty, then either the access point of the
    sketch with its name, the DNS server and the routes of the portal, or
    the time zone, OTA and the routes of the dashboard (in
    ESP32_OLED_V1.ino also MQTT, when a server is configured), and nothing
    else.  No pass of [loop] changes [apMode] afterwards. *)
Theorem boot_mode :
  (forall (fuel : nat) (e : HW630.DevConfig) (w : World),
      (61 <= fuel)%nat ->
      exists s w' ops,
        HW630.setup fuel e w = Some (s, w', ops) /\
        HW630.cfg s = HW630.loadConfig e /\
        (HW630.apMode s = true <->
         text_of (HW630.ssid (HW630.loadConfig e)) = [] \/
         forall k, (0 <= k <= 60)%Z ->
                   link_up w (uptime w + 200 + 250 * k)%Z = false) /\
        HW630.apMode_writes ops = [HW630.apMode s] /\
        ops =
          match text_of (HW630.ssid (HW630.loadConfig e)) with
          | [] => []
          | _ :: _ =>
              [HW630.WiFi_mode_STA;
               HW630.WiFi_begin (HW630.ssid (HW630.loadConfig e))
                              (HW630.pass (HW630.loadConfig e))]
          end
          ++ (if HW630.apMode s
              then [HW630.write_apMode true; HW630.WiFi_mode_AP;
                    HW630.WiFi_softAP "ESP8266_LCD"; HW630.dnsServer_start;
                    HW630.server_begin]
              else [HW630.write_apMode false;
                    HW630.configTime (HW630.tzInfo (HW630.loadConfig e));
                    HW630.server_begin; HW630.ArduinoOTA_begin "ESP8266_LCD"]) /\
        HW630.routes s =
          if HW630.apMode s
          then [("/"%string, None, HW630.h_handlePortal);
                ("/save"%string, Some HTTP_POST, HW630.h_handlePortalSave);
                ("/settings"%string, Some HTTP_GET, HW630.h_handleSettings);
                ("/settings"%string, Some HTTP_POST,
                 HW630.h_handleSettingsSave);
                ("/api/data"%string, None, HW630.h_handleAPI)]
          else [("/"%string, None, HW630.h_handleRoot);
                ("/settings"%string, Some HTTP_GET, HW630.h_handleSettings);
                ("/settings"%string, Some HTTP_POST,
                 HW630.h_handleSettingsSave);
                ("/api/data"%string, None, HW630.h_handleAPI)]) /\
  (forall (fuel : nat) (e : ESP01.DevConfig) (w : World),
      (61 <= fuel)%nat ->
      exists s w' ops,
        ESP01.setup fuel e w = Some (s, w', ops) /\
        ESP01.cfg s = ESP01.loadConfig e /\
        (ESP01.apMode s = true <->
         text_of (ESP01.ssid (ESP01.loadConfig e)) = [] \/
         forall k, (0 <= k <= 60)%Z ->
                   link_up w (uptime w + 200 + 200 + 250 * k)%Z = false) /\
        ESP01.apMode_writes ops = [ESP01.apMode s] /\
        ops =
          match text_of (ESP01.ssid (ESP01.loadConfig e)) with
          | [] => []
          | _ :: _ =>
              [ESP01.WiFi_mode_STA;
               ESP01.WiFi_begin (ESP01.ssid (ESP01.loadConfig e))
                              (ESP01.pass (ESP01.loadConfig e))]
          end
          ++ (if ESP01.apMode s
              then [ESP01.write_apMode true; ESP01.WiFi_mode_AP;
                    ESP01.WiFi_softAP "ESP01_Clock"; ESP01.dnsServer_start;
                    ESP01.server_begin]
              else [ESP01.write_apMode false;
                    ESP01.configTime (ESP01.tzInfo (ESP01.loadConfig e));
                    ESP01.server_begin; ESP01.ArduinoOTA_begin "ESP01_LCD"]) /\
        ESP01.routes s =
          if ESP01.apMode s
          then [("/"%string, None, ESP01.h_handlePortal);
                ("/save"%string, Some HTTP_POST, ESP01.h_handlePortalSave);
                ("/settings"%string, Some HTTP_GET, ESP01.h_handleSettings);
                ("/settings"%string, Some HTTP_POST,
                 ESP01.h_handleSettingsSave);
                ("/api/data"%string, None, ESP01.h_handleAPI)]
          else [("/"%string, None, ESP01.h_handleRoot);
                ("/settings"%string, Some HTTP_GET, ESP01.h_handleSettings);
                ("/settings"%string, Some HTTP_POST,
                 ESP01.h_handleSettingsSave);
                ("/api/data"%string, None, ESP01.h_handleAPI)]) /\
  (forall (fuel : nat) (e : OLED13.DevConfig) (w : World),
      (61 <= fuel)%nat ->
      exists s w' ops,
        OLED13.setup fuel e w = Some (s, w', ops) /\
        OLED13.cfg s = OLED13.loadCfg e /\
        (OLED13.apMode s = true <->
         text_of (OLED13.ssid (OLED13.loadCfg e)) = [] \/
         forall k, (0 <= k <= 60)%Z ->
                   link_up w (uptime w + 200 + 100 + 250 * k)%Z = false) /\
        OLED13.apMode_writes ops = [OLED13.apMode s] /\
        ops =
          match text_of (OLED13.ssid (OLED13.loadCfg e)) with
          | [] => []
          | _ :: _ =>
              [OLED13.WiFi_mode_STA;
               OLED13.WiFi_begin (OLED13.ssid (OLED13.loadCfg e))
                              (OLED13.pass (OLED13.loadCfg e))]
          end
          ++ (if OLED13.apMode s
              then [OLED13.write_apMode true; OLED13.WiFi_mode_AP;
                    OLED13.WiFi_softAP "OLED13_Setup"; OLED13.dnsServer_start;
                    OLED13.server_begin]
              else [OLED13.write_apMode false;
                    OLED13.configTime (OLED13.tz (OLED13.loadCfg e));
                    OLED13.server_begin; OLED13.ArduinoOTA_begin "OLED13"]) /\
        OLED13.routes s =
          if OLED13.apMode s
          then [("/"%string, None, OLED13.h_handlePortal);
                ("/save"%string, Some HTTP_POST, OLED13.h_handlePortalSave);
                ("/settings"%string, Some HTTP_GET, OLED13.h_handleSettings);
                ("/settings"%string, Some HTTP_POST,
                 OLED13.h_handleSettingsSave);
                ("/api/data"%string, None, OLED13.h_handleAPI)]
          else [("/"%string, None, OLED13.h_handleRoot);
                ("/settings"%string, Some HTTP_GET, OLED13.h_handleSettings);
                ("/settings"%string, Some HTTP_POST,
                 OLED13.h_handleSettingsSave);
                ("/api/data"%string, None, OLED13.h_handleAPI)]) /\
  (forall (fuel : nat) (connected : bool) (e : ESP32.DevConfig) (w : World),
      (31 <= fuel)%nat ->
      fits (ESP32.ssid (fst (ESP32.loadConfig e))) 32 ->
      fits (ESP32.mqttServer (fst (ESP32.loadConfig e))) 64 ->
      fits (ESP32.mqttUser (fst (ESP32.loadConfig e))) 32 ->
      exists s w' e' ops calls,
        ESP32.setup fuel connected e w = Some (s, w', e', ops) /\
        ESP32.cfg s = fst (ESP32.loadConfig e) /\
        (ESP32.apMode s = true <->
         text_of (ESP32.ssid (fst (ESP32.loadConfig e))) = [] \/
         forall k, (0 <= k <= 30)%Z ->
                   link_up w (uptime w + 500 * k)%Z = false) /\
        ESP32.apMode_writes ops = [ESP32.apMode s] /\
        ops =
          match text_of (ESP32.ssid (fst (ESP32.loadConfig e))) with
          | [] => []
          | _ :: _ =>
              [ESP32.WiFi_mode_STA;
               ESP32.WiFi_begin (ESP32.ssid (fst (ESP32.loadConfig e)))
                                (ESP32.pass (fst (ESP32.loadConfig e)))]
          end
          ++ (if ESP32.apMode s
              then [ESP32.write_apMode true; ESP32.WiFi_mode_AP;
                    ESP32.WiFi_softAP "ESP32_OLCD" "12345678";
                    ESP32.dnsServer_start]
              else [ESP32.write_apMode false; ESP32.setupOTA;
                    ESP32.configTime_setenv_TZ
                      (ESP32.tzInfo (fst (ESP32.loadConfig e)))]
                   ++ (if ESP32.mqttEnabled s
                       then ESP32.write_mqttEnabled true
                            :: map ESP32.boot_mqtt calls
                       else []))
          ++ [ESP32.server_begin] /\
        (ESP32.mqttEnabled s = true <->
         ESP32.apMode s = false /\
         text_of (ESP32.mqttServer (fst (ESP32.loadConfig e))) <> [])) /\
  (forall T i s ev s',
      HW630.loop T i s = Some (ev, HW630.Running s') ->
      HW630.apMode s' = HW630.apMode s) /\
  (forall T i s ev s',
      ESP01.loop T i s = Some (ev, ESP01.Running s') ->
      ESP01.apMode s' = ESP01.apMode s) /\
  (forall T i s ev s',
      OLED13.loop T i s = Some (ev, OLED13.Running s') ->
      OLED13.apMode s' = OLED13.apMode s) /\
  (forall i s ev s',
      ESP32.loop i s = Some (ev, ESP32.Running s') ->
      ESP32.apMode s' = ESP32.apMode s).
Proof.
  split; [| split; [| split; [| split; [| split; [| split; [| split]]]]]];
    [ | | | | intros T i s ev s' H; now apply HW630_loop_frame in H
          | intros T i s ev s' H; now apply ESP01_loop_frame in H
          | intros T i s ev s' H; now apply OLED13_loop_frame in H
          | intros i s ev s' H; now apply ESP32_loop_frame in H ].
  - boot_8266 HW630.setup HW630.wifiConnect HW630.wifiConnect_wait
              (fun e => HW630.ssid (HW630.loadConfig e)).
  - boot_8266 ESP01.setup ESP01.wifiConnect ESP01.wifiConnect_wait
              (fun e => ESP01.ssid (ESP01.loadConfig e)).
  - boot_8266 OLED13.setup OLED13.wifiConnect OLED13.wifiConnect_wait
              (fun e => OLED13.ssid (OLED13.loadCfg e)).
  - intros fuel connected e w Hfuel Hssid Hsrv Huser.
    unfold ESP32.setup.
    destruct (ESP32.loadConfig e) as [c e'] eqn:Eload. cbn [fst] in *.
    cbv zeta. change (ESP32.cfg (ESP32.set_cfg c ESP32.boot_state)) with c.
    destruct Hssid as (n1 & Hn1 & _). destruct Hsrv as (n2 & Hn2 & _).
    destruct (strlen_pos_text _ _ Hn1) as (has_ssid & E1 & Hhas1).
    destruct (strlen_pos_text _ _ Hn2) as (has_mqtt & E2 & Hhas2).
    rewrite E1. cbn [bind].
    destruct has_ssid.
    + assert (Hne : ~ text_of (ESP32.ssid c) = [])
        by (intros Habs; apply Hhas1 in Habs; discriminate).
      unfold ESP32.connectWiFi.
      destruct (connectWiFi_wait_result fuel w Hfuel)
        as (w2 & Ewait & Hlink & Hup & Hoff).
      rewrite Ewait. cbn [bind].
      destruct (WL_CONNECTED w2) eqn:Hconn.
      * change (ESP32.cfg (ESP32.set_apMode false
                             (ESP32.set_cfg c ESP32.boot_state))) with c.
        rewrite E2. cbn [bind].
        destruct has_mqtt.
        -- assert (Hsrv : ~ text_of (ESP32.mqttServer c) = [])
             by (intros Habs; apply Hhas2 in Habs; discriminate).
           unfold ESP32.setupMQTT.
           destruct (ESP32_mqttReconnect_total connected (millis w2) (millis w2)
                       (ESP32.set_mqttEnabled true
                          (ESP32.set_apMode false
                             (ESP32.set_cfg c ESP32.boot_state))))
             as (mops & [Er | Er]); [exact Huser | |];
             rewrite Er; cbn [bind fst snd];
             do 5 eexists;
             (split; [reflexivity |]; split; [reflexivity |]; split;
              [split; [discriminate |];
               intros [Habs | Habs]; [now elim Hne |];
               apply Hoff in Habs; discriminate |];
              split; [cbn [app ESP32.apMode_writes map];
                      now rewrite ESP32_apMode_writes_mqtt |];
              split; [destruct (text_of (ESP32.ssid c));
                      [now elim Hne | reflexivity] |];
              split; [intros _; split; [reflexivity | exact Hsrv]
                     | reflexivity]).
        -- do 4 eexists. exists [].
           split; [reflexivity |]. split; [reflexivity |].
           split; [split; [discriminate |];
                   intros [Habs | Habs]; [now elim Hne |];
                   apply Hoff in Habs; discriminate |].
           split; [reflexivity |].
           split; [destruct (text_of (ESP32.ssid c));
                   [now elim Hne | reflexivity] |].
           split; [discriminate |].
           intros [_ Hsrv]. elim Hsrv. now apply Hhas2.
      * do 4 eexists. exists [].
        split; [reflexivity |]. split; [reflexivity |].
        split; [split; [intros _; right; now apply Hoff | reflexivity] |].
        split; [reflexivity |].
        split; [destruct (text_of (ESP32.ssid c));
                [now elim Hne | reflexivity] |].
        split; [discriminate | intros [Habs _]; discriminate Habs].
    + pose proof (proj1 Hhas1 eq_refl) as Htext.
      do 4 eexists. exists [].
      split; [reflexivity |]. split; [reflexivity |].
      split; [split; [intros _; left; exact Htext | reflexivity] |].
      split; [reflexivity |].
      split; [rewrite Htext; reflexivity |].
      split; [discriminate | intros [Habs _]; discriminate Habs].
Qed.

Lemma boot_mode_witness :
  ((61 <= 61)%nat /\
   exists s w' ops,
     HW630.setup 61 Samples.hw630_cfg
       (Samples.world_up_at 3000) = Some (s, w', ops) /\
     HW630.cfg s = HW630.loadConfig Samples.hw630_cfg /\
     (HW630.apMode s = true <->
      text_of (HW630.ssid (HW630.loadConfig Samples.hw630_cfg)) = [] \/
      forall k, (0 <= k <= 60)%Z ->
                link_up (Samples.world_up_at 3000)
                  (uptime (Samples.world_up_at 3000) + 200 + 250 * k)%Z = false) /\
     HW630.apMode_writes ops = [HW630.apMode s] /\
     ops =
       match text_of (HW630.ssid (HW630.loadConfig Samples.hw630_cfg)) with
       | [] => []
       | _ :: _ =>
           [HW630.WiFi_mode_STA;
            HW630.WiFi_begin (HW630.ssid (HW630.loadConfig Samples.hw630_cfg))
                           (HW630.pass (HW630.loadConfig Samples.hw630_cfg))]
       end
       ++ (if HW630.apMode s
           then [HW630.write_apMode true; HW630.WiFi_mode_AP;
                 HW630.WiFi_softAP "ESP8266_LCD"; HW630.dnsServer_start;
                 HW630.server_begin]
           else [HW630.write_apMode false;
                 HW630.configTime (HW630.tzInfo (HW630.loadConfig Samples.hw630_cfg));
                 HW630.server_begin; HW630.ArduinoOTA_begin "ESP8266_LCD"]) /\
     HW630.routes s =
       if HW630.apMode s
       then [("/"%string, None, HW630.h_handlePortal);
             ("/save"%string, Some HTTP_POST, HW630.h_handlePortalSave);
             ("/settings"%string, Some HTTP_GET, HW630.h_handleSettings);
             ("/settings"%string, Some HTTP_POST,
              HW630.h_handleSettingsSave);
             ("/api/data"%string, None, HW630.h_handleAPI)]
       else [("/"%string, None, HW630.h_handleRoot);
             ("/settings"%string, Some HTTP_GET, HW630.h_handleSettings);
             ("/settings"%string, Some HTTP_POST,
              HW630.h_handleSettingsSave);
             ("/api/data"%string, None, HW630.h_handleAPI)]) /\
  ((31 <= 31)%nat /\
   fits (ESP32.ssid (fst (ESP32.loadConfig Samples.esp32_cfg))) 32 /\
   fits (ESP32.mqttServer (fst (ESP32.loadConfig Samples.esp32_cfg))) 64 /\
   fits (ESP32.mqttUser (fst (ESP32.loadConfig Samples.esp32_cfg))) 32 /\
   exists s w' e' ops calls,
     ESP32.setup 31 false Samples.esp32_cfg
       (Samples.world_up_at 3000) = Some (s, w', e', ops) /\
     ESP32.cfg s = fst (ESP32.loadConfig Samples.esp32_cfg) /\
     (ESP32.apMode s = true <->
      text_of (ESP32.ssid (fst (ESP32.loadConfig Samples.esp32_cfg))) = [] \/
      forall k, (0 <= k <= 30)%Z ->
                link_up (Samples.world_up_at 3000)
                  (uptime (Samples.world_up_at 3000) + 500 * k)%Z = false) /\
     ESP32.apMode_writes ops = [ESP32.apMode s] /\
     ops =
       match text_of (ESP32.ssid (fst (ESP32.loadConfig Samples.esp32_cfg))) with
       | [] => []
       | _ :: _ =>
           [ESP32.WiFi_mode_STA;
            ESP32.WiFi_begin (ESP32.ssid (fst (ESP32.loadConfig Samples.esp32_cfg)))
                             (ESP32.pass (fst (ESP32.loadConfig Samples.esp32_cfg)))]
       end
       ++ (if ESP32.apMode s
           then [ESP32.write_apMode true; ESP32.WiFi_mode_AP;
                 ESP32.WiFi_softAP "ESP32_OLCD" "12345678";
                 ESP32.dnsServer_start]
           else [ESP32.write_apMode false; ESP32.setupOTA;
                 ESP32.configTime_setenv_TZ
                   (ESP32.tzInfo (fst (ESP32.loadConfig Samples.esp32_cfg)))]
                ++ (if ESP32.mqttEnabled s
                    then ESP32.write_mqttEnabled true
                         :: map ESP32.boot_mqtt calls
                    else []))
       ++ [ESP32.server_begin] /\
     (ESP32.mqttEnabled s = true <->
      ESP32.apMode s = false /\
      text_of (ESP32.mqttServer (fst (ESP32.loadConfig Samples.esp32_cfg))) <> [])).
Proof.
  split.
  - split; [lia |].
    apply (proj1 boot_mode 61 Samples.hw630_cfg (Samples.world_up_at 3000)).
    lia.
  - assert (H1 : fits (ESP32.ssid (fst (ESP32.loadConfig Samples.esp32_cfg))) 32)
      by (exists 4; split; [reflexivity | lia]).
    assert (H2 : fits (ESP32.mqttServer
                         (fst (ESP32.loadConfig Samples.esp32_cfg))) 64)
      by (exists 12; split; [reflexivity | lia]).
    assert (H3 : fits (ESP32.mqttUser
                         (fst (ESP32.loadConfig Samples.esp32_cfg))) 32)
      by (exists 5; split; [reflexivity | lia]).
    split; [lia |]. split; [exact H1 |]. split; [exact H2 |].
    split; [exact H3 |].
    apply (proj1 (proj2 (proj2 (proj2 boot_mode))) 31 false Samples.esp32_cfg
                 (Samples.world_up_at 3000)); [lia | exact H1 | exact H2
                                               | exact H3].
Defined.


(* ================================================================== *)
(** * The display: one redraw per 500 ms, three screens *)
(* ================================================================== *)

Module DisplayFacts.
Import BootFacts.

Open Scope Z_scope.

(** A reading of [millis()] taken less than 500 ms after the uptime [T]
    whose reading is stored: the difference the sketches compute is below
    500, also when the counter wrapped in between. *)
Lemma reading_within (T U : Z) : T <= U < T + 500 -> u32 (u32 U - u32 T) < 500.
Proof. intros H. pose proof (u32_le T U). lia. Qed.

Lemma HW630_throttled (s : HW630.State) (m1 m2 rssi : Z) :
  u32 (m1 - HW630.lastOledUpdate s) < 500 ->
  HW630.oledUpdate m1 m2 rssi s = (s, []).
Proof.
  intros H. unfold HW630.oledUpdate. apply Z.ltb_lt in H. now rewrite H.
Qed.

Lemma HW630_bar_not_text (bars i : Z) (rest : list OledOp) :
  first_drawn (HW630.draw_bar bars i :: rest) = first_drawn rest.
Proof. unfold HW630.draw_bar. cbv zeta. now destruct (i <? bars). Qed.

Lemma HW630_redraw (s : HW630.State) (m1 m2 rssi : Z) :
  500 <= u32 (m1 - HW630.lastOledUpdate s) ->
  HW630.lastOledUpdate (fst (HW630.oledUpdate m1 m2 rssi s)) = m2 /\
  layout_of (snd (HW630.oledUpdate m1 m2 rssi s)) =
    Some (if HW630.synced (HW630.ntpData s) then ClockLayout
          else if HW630.apMode s then SetupLayout else SyncingLayout).
Proof.
  intros H. unfold HW630.oledUpdate. apply Z.ltb_ge in H. rewrite H.
  cbv zeta.
  change (HW630.ntpData (HW630.set_lastOledUpdate m2 s)) with (HW630.ntpData s).
  change (HW630.apMode (HW630.set_lastOledUpdate m2 s)) with (HW630.apMode s).
  destruct (HW630.synced (HW630.ntpData s)); cbn [negb].
  - split; [reflexivity |]. destruct (HW630.apMode s); [reflexivity |].
    cbn [negb map app snd]. unfold layout_of.
    change (first_drawn (oled_clear :: ?r)) with (first_drawn r).
    now rewrite !HW630_bar_not_text.
  - split; [reflexivity |]. destruct (HW630.apMode s); reflexivity.
Qed.

Lemma ESP01_throttled (s : ESP01.State) (m1 m2 : Z) :
  u32 (m1 - ESP01.lastOledUpdate s) < 500 ->
  ESP01.oledUpdate m1 m2 s = (s, []).
Proof.
  intros H. unfold ESP01.oledUpdate. apply Z.ltb_lt in H. now rewrite H.
Qed.

Lemma ESP01_redraw (s : ESP01.State) (m1 m2 : Z) :
  500 <= u32 (m1 - ESP01.lastOledUpdate s) ->
  ESP01.lastOledUpdate (fst (ESP01.oledUpdate m1 m2 s)) = m2 /\
  layout_of (snd (ESP01.oledUpdate m1 m2 s)) =
    Some (if ESP01.synced (ESP01.ntpData s) then ClockLayout
          else if ESP01.apMode s then SetupLayout else SyncingLayout).
Proof.
  intros H. unfold ESP01.oledUpdate. apply Z.ltb_ge in H. rewrite H.
  cbv zeta.
  change (ESP01.ntpData (ESP01.set_lastOledUpdate m2 s)) with (ESP01.ntpData s).
  change (ESP01.apMode (ESP01.set_lastOledUpdate m2 s)) with (ESP01.apMode s).
  destruct (ESP01.synced (ESP01.ntpData s)); cbn [negb].
  - split; [reflexivity |]. destruct (ESP01.apMode s); reflexivity.
  - split; [reflexivity |]. destruct (ESP01.apMode s); reflexivity.
Qed.

Lemma OLED13_throttled (s : OLED13.State) (m1 m2 : Z) :
  u32 (m1 - OLED13.lastOled s) < 500 ->
  OLED13.oledUpdate m1 m2 s = (s, []).
Proof.
  intros H. unfold OLED13.oledUpdate. apply Z.ltb_lt in H. now rewrite H.
Qed.

Lemma OLED13_redraw (s : OLED13.State) (m1 m2 : Z) :
  500 <= u32 (m1 - OLED13.lastOled s) ->
  OLED13.lastOled (fst (OLED13.oledUpdate m1 m2 s)) = m2 /\
  layout_of (OLED13.oled_ops (snd (OLED13.oledUpdate m1 m2 s))) =
    Some (if OLED13.ntpSynced (OLED13.ntp s) then ClockLayout
          else if OLED13.apMode s then SetupLayout else SyncingLayout).
Proof.
  intros H. unfold OLED13.oledUpdate. apply Z.ltb_ge in H. rewrite H.
  cbv zeta.
  change (OLED13.ntp (OLED13.set_lastOled m2 s)) with (OLED13.ntp s).
  change (OLED13.apMode (OLED13.set_lastOled m2 s)) with (OLED13.apMode s).
  destruct (OLED13.ntpSynced (OLED13.ntp s)); cbn [negb].
  - split; reflexivity.
  - split; [reflexivity |]. destruct (OLED13.apMode s); reflexivity.
Qed.

Lemma ESP32_throttled (s : ESP32.State) (m1 m2 : Z) ti c :
  u32 (m1 - ESP32.lastOled s) < 500 ->
  ESP32.updateOLED m1 m2 ti c s = (s, []).
Proof.
  intros H. unfold ESP32.updateOLED. apply Z.ltb_lt in H. now rewrite H.
Qed.

Lemma ESP32_redraw (s : ESP32.State) (m1 m2 : Z) ti c :
  500 <= u32 (m1 - ESP32.lastOled s) ->
  let r := ESP32.updateOLED m1 m2 ti c s in
  ESP32.lastOled (fst r) = m2 /\
  match ESP32.apMode s, ti with
  | true, _ => ESP32.layout_of (snd r) = Some SetupLayout
  | false, None => ESP32.layout_of (snd r) = Some SyncingLayout
  | false, Some t =>
      if tm_sec t =? ESP32.lastSec s then snd r = []
      else ESP32.layout_of (snd r) = Some ClockLayout
  end.
Proof.
  intros H. unfold ESP32.updateOLED. apply Z.ltb_ge in H. rewrite H.
  cbv zeta.
  change (ESP32.apMode (ESP32.set_lastOled m2 s)) with (ESP32.apMode s).
  change (ESP32.lastSec (ESP32.set_lastOled m2 s)) with (ESP32.lastSec s).
  destruct (ESP32.apMode s); [split; reflexivity |].
  destruct ti as [t |]; [| split; reflexivity].
  destruct (tm_sec t =? ESP32.lastSec s); split; reflexivity.
Qed.

Close Scope Z_scope.

End DisplayFacts.

Import LoopFacts DisplayFacts.

(** The state in which [loop] calls [oledUpdate]: a clock snapshot is
    synced only in station mode. *)
Lemma HW630_loop_ntp_inv (T : buffer) (s : HW630.State) i :
  HW630.reachable T s ->
  HW630.apMode (HW630.loop_ntp i s) = true ->
  HW630.synced (HW630.ntpData (HW630.loop_ntp i s)) = false.
Proof.
  intros R. unfold HW630.loop_ntp. destruct (HW630.apMode s) eqn:Ea; cbn.
  - intros _. now apply (HW630_ap_unsynced T).
  - congruence.
Qed.

Lemma ESP01_loop_ntp_inv (T : buffer) (s : ESP01.State) i :
  ESP01.reachable T s ->
  ESP01.apMode (ESP01.loop_ntp i s) = true ->
  ESP01.synced (ESP01.ntpData (ESP01.loop_ntp i s)) = false.
Proof.
  intros R. unfold ESP01.loop_ntp. destruct (ESP01.apMode s) eqn:Ea; cbn.
  - intros _. now apply (ESP01_ap_unsynced T).
  - congruence.
Qed.

Lemma OLED13_loop_ntp_inv (T : buffer) (s : OLED13.State) i :
  OLED13.reachable T s ->
  OLED13.apMode (OLED13.loop_ntp i s) = true ->
  OLED13.ntpSynced (OLED13.ntp (OLED13.loop_ntp i s)) = false.
Proof.
  intros R. unfold OLED13.loop_ntp. destruct (OLED13.apMode s) eqn:Ea; cbn.
  - intros _. now apply (OLED13_ap_unsynced T).
  - congruence.
Qed.

(** C5.  [oledUpdate] ([updateOLED]) does nothing, display or state, when
    the reading of [millis()] is less than 500 above the stored one, that
    is when it is called less than 500 ms after the uptime stored by the
    previous redraw.  Otherwise it stores the new reading and, where [loop]
    calls it in a session, draws one of three screens, each of them whole,
    from clearing the display to showing it: the setup screen in
    access-point mode, the syncing screen in station mode before the clock
    is synced, the clock screen afterwards, with the calls and texts given
    below and no other.  In ESP32_OLED_V1.ino "synced" is the success of
    [getLocalTime], and the clock screen is drawn only when the second has
    changed. *)
Theorem display_throttle_and_layout :
  (* 8266_HW_630.ino *)
  ((forall s m1 m2 rssi,
       (u32 (m1 - HW630.lastOledUpdate s) < 500)%Z ->
       HW630.oledUpdate m1 m2 rssi s = (s, [])) /\
   (forall s T U m2 rssi,
       HW630.lastOledUpdate s = u32 T -> (T <= U < T + 500)%Z ->
       HW630.oledUpdate (u32 U) m2 rssi s = (s, [])) /\
   (forall s m1 m2 rssi,
       (500 <= u32 (m1 - HW630.lastOledUpdate s))%Z ->
       HW630.lastOledUpdate (fst (HW630.oledUpdate m1 m2 rssi s)) = m2) /\
   (forall T s i,
       HW630.reachable T s ->
       let s1 := HW630.loop_ntp i s in
       (500 <= u32 (HW630.in_millis1 i - HW630.lastOledUpdate s1))%Z ->
       layout_of (snd (HW630.oledUpdate (HW630.in_millis1 i)
                         (HW630.in_millis2 i) (HW630.in_rssi i) s1)) =
         Some (if HW630.apMode s1 then SetupLayout
               else if HW630.synced (HW630.ntpData s1) then ClockLayout
               else SyncingLayout)) /\
   (forall T s i,
       HW630.reachable T s ->
       let s1 := HW630.loop_ntp i s in
       let d := HW630.ntpData s1 in
       (500 <= u32 (HW630.in_millis1 i - HW630.lastOledUpdate s1))%Z ->
       snd (HW630.oledUpdate (HW630.in_millis1 i) (HW630.in_millis2 i)
                             (HW630.in_rssi i) s1) =
         if HW630.apMode s1 then
           [oled_clear; oled_setFont ArialMT_Plain_16;
            oled_setTextAlignment_CENTER;
            oled_drawString 64 8 (TLit "WiFi Setup");
            oled_setFont ArialMT_Plain_10;
            oled_drawString 64 30 (TLit "Connect to:");
            oled_drawString 64 44 (TLit "ESP8266_LCD");
            oled_display]
         else if HW630.synced d then
           oled_clear
           :: map (HW630.draw_bar (HW630.rssi_bars (HW630.in_rssi i)))
                  [0; 1; 2; 3]%Z
           ++ [oled_setFont ArialMT_Plain_24; oled_setTextAlignment_CENTER;
               oled_drawString 64 2
                 (TFmt 9 "%02d:%02d:%02d"
                       [AInt (HW630.hour d); AInt (HW630.minute d);
                        AInt (HW630.second d)]);
               oled_setFont ArialMT_Plain_10;
               oled_drawString 64 32
                 (TFmt 20 "%s %02d %s %04d"
                       [ADay (HW630.wday d); AInt (HW630.day d);
                        AMonth (HW630.month d - 1); AInt (HW630.year d)]);
               oled_drawString 64 50
                 (TFmt 28 "%s  %ddBm" [ALocalIP; ARssi]);
               oled_display]
         else
           [oled_clear; oled_setFont ArialMT_Plain_16;
            oled_setTextAlignment_CENTER;
            oled_drawString 64 12 (TLit "Syncing NTP...");
            oled_setFont ArialMT_Plain_10;
            oled_drawString 64 36 (TArg ALocalIP);
            oled_display])) /\
  (* ESP01_OLED_V2.ino *)
  ((forall s m1 m2,
       (u32 (m1 - ESP01.lastOledUpdate s) < 500)%Z ->
       ESP01.oledUpdate m1 m2 s = (s, [])) /\
   (forall s T U m2,
       ESP01.lastOledUpdate s = u32 T -> (T <= U < T + 500)%Z ->
       ESP01.oledUpdate (u32 U) m2 s = (s, [])) /\
   (forall s m1 m2,
       (500 <= u32 (m1 - ESP01.lastOledUpdate s))%Z ->
       ESP01.lastOledUpdate (fst (ESP01.oledUpdate m1 m2 s)) = m2) /\
   (forall T s i,
       ESP01.reachable T s ->
       let s1 := ESP01.loop_ntp i s in
       (500 <= u32 (ESP01.in_millis1 i - ESP01.lastOledUpdate s1))%Z ->
       layout_of (snd (ESP01.oledUpdate (ESP01.in_millis1 i)
                         (ESP01.in_millis2 i) s1)) =
         Some (if ESP01.apMode s1 then SetupLayout
               else if ESP01.synced (ESP01.ntpData s1) then ClockLayout
               else SyncingLayout)) /\
   (forall T s i,
       ESP01.reachable T s ->
       let s1 := ESP01.loop_ntp i s in
       let d := ESP01.ntpData s1 in
       (500 <= u32 (ESP01.in_millis1 i - ESP01.lastOledUpdate s1))%Z ->
       snd (ESP01.oledUpdate (ESP01.in_millis1 i) (ESP01.in_millis2 i) s1) =
         if ESP01.apMode s1 then
           [oled_clear; oled_setFont ArialMT_Plain_16;
            oled_setTextAlignment_CENTER;
            oled_drawString 64 10 (TLit "WiFi Setup");
            oled_setFont ArialMT_Plain_10;
            oled_drawString 64 35 (TLit "Connect to:");
            oled_drawString 64 48 (TLit "ESP01_Clock");
            oled_display]
         else if ESP01.synced d then
           [oled_clear;
            oled_setFont ArialMT_Plain_24; oled_setTextAlignment_CENTER;
            oled_drawString 64 2
              (TFmt 9 "%02d:%02d:%02d"
                    [AInt (ESP01.hour d); AInt (ESP01.minute d);
                     AInt (ESP01.second d)]);
            oled_setFont ArialMT_Plain_10;
            oled_drawString 64 32
              (TFmt 20 "%s %02d %s %04d"
                    [ADay (ESP01.wday d); AInt (ESP01.day d);
                     AMonth (ESP01.month d - 1); AInt (ESP01.year d)]);
            oled_setFont ArialMT_Plain_10; oled_setTextAlignment_CENTER;
            oled_drawString 64 50 (TArg ALocalIP);
            oled_display]
         else
           [oled_clear; oled_setFont ArialMT_Plain_16;
            oled_setTextAlignment_CENTER;
            oled_drawString 64 16 (TLit "Syncing NTP...");
            oled_setFont ArialMT_Plain_10;
            oled_drawString 64 40 (TArg ALocalIP);
            oled_display])) /\
  (* OLED13_NTP_V1.ino *)
  ((forall s m1 m2,
       (u32 (m1 - OLED13.lastOled s) < 500)%Z ->
       OLED13.oledUpdate m1 m2 s = (s, [])) /\
   (forall s T U m2,
       OLED13.lastOled s = u32 T -> (T <= U < T + 500)%Z ->
       OLED13.oledUpdate (u32 U) m2 s = (s, [])) /\
   (forall s m1 m2,
       (500 <= u32 (m1 - OLED13.lastOled s))%Z ->
       OLED13.lastOled (fst (OLED13.oledUpdate m1 m2 s)) = m2) /\
   (forall T s i,
       OLED13.reachable T s ->
       let s1 := OLED13.loop_ntp i s in
       (500 <= u32 (OLED13.in_millis1 i - OLED13.lastOled s1))%Z ->
       layout_of (OLED13.oled_ops
                    (snd (OLED13.oledUpdate (OLED13.in_millis1 i)
                            (OLED13.in_millis2 i) s1))) =
         Some (if OLED13.apMode s1 then SetupLayout
               else if OLED13.ntpSynced (OLED13.ntp s1) then ClockLayout
               else SyncingLayout)) /\
   (forall T s i,
       OLED13.reachable T s ->
       let s1 := OLED13.loop_ntp i s in
       let d := OLED13.ntp s1 in
       (500 <= u32 (OLED13.in_millis1 i - OLED13.lastOled s1))%Z ->
       snd (OLED13.oledUpdate (OLED13.in_millis1 i) (OLED13.in_millis2 i)
                              s1) =
         if OLED13.apMode s1 then
           map OLED13.Oled
             [oled_clear; oled_setFont ArialMT_Plain_16;
              oled_setTextAlignment_CENTER;
              oled_drawString 64 10 (TLit "WiFi Setup");
              oled_setFont ArialMT_Plain_10;
              oled_drawString 64 36 (TLit "AP: OLED13_Setup");
              oled_display]
         else if OLED13.ntpSynced d then
           map OLED13.Oled
             [oled_clear;
              oled_setFont ArialMT_Plain_24; oled_setTextAlignment_CENTER;
              oled_drawString 64 5
                (TFmt 20 "%02d:%02d:%02d"
                      [AInt (OLED13.ntpH d); AInt (OLED13.ntpM d);
                       AInt (OLED13.ntpS d)]);
              oled_setFont ArialMT_Plain_16;
              oled_drawString 64 40
                (TFmt 20 "%s %d %s %d"
                      [ADay (OLED13.ntpWday d); AInt (OLED13.ntpDay d);
                       AMonth (OLED13.ntpMon d - 1);
                       AInt (OLED13.ntpYear d)]);
              oled_display]
           ++ [OLED13.digitalWrite_LED (negb (OLED13.ledState s1))]
         else
           map OLED13.Oled
             [oled_clear; oled_setFont ArialMT_Plain_16;
              oled_setTextAlignment_CENTER;
              oled_drawString 64 10 (TLit "Syncing NTP...");
              oled_setFont ArialMT_Plain_10;
              oled_drawString 64 36 (TArg ALocalIP);
              oled_display])) /\
  (* ESP32_OLED_V1.ino *)
  ((forall s m1 m2 ti c,
       (u32 (m1 - ESP32.lastOled s) < 500)%Z ->
       ESP32.updateOLED m1 m2 ti c s = (s, [])) /\
   (forall s T U m2 ti c,
       ESP32.lastOled s = u32 T -> (T <= U < T + 500)%Z ->
       ESP32.updateOLED (u32 U) m2 ti c s = (s, [])) /\
   (forall s m1 m2 ti c,
       (500 <= u32 (m1 - ESP32.lastOled s))%Z ->
       let r := ESP32.updateOLED m1 m2 ti c s in
       ESP32.lastOled (fst r) = m2 /\
       match ESP32.apMode s, ti with
       | true, _ => ESP32.layout_of (snd r) = Some SetupLayout
       | false, None => ESP32.layout_of (snd r) = Some SyncingLayout
       | false, Some t =>
           if (tm_sec t =? ESP32.lastSec s)%Z then snd r = []
           else ESP32.layout_of (snd r) = Some ClockLayout
       end) /\
   (forall s m1 m2 ti c,
       (500 <= u32 (m1 - ESP32.lastOled s))%Z ->
       snd (ESP32.updateOLED m1 m2 ti c s) =
         if ESP32.apMode s then
           [ESP32.clearDisplay; ESP32.setTextSize 1; ESP32.setCursor 0 0;
            ESP32.println (TLit "== SETUP MODE ==");
            ESP32.println (TLit "");
            ESP32.println (TLit "WiFi: ESP32_OLCD");
            ESP32.println (TLit "Pass: 12345678");
            ESP32.println (TLit "");
            ESP32.print (TLit "IP: ");
            ESP32.println (TArg ASoftAPIP);
            ESP32.println (TLit "Open browser to setup");
            ESP32.display]
         else
           match ti with
           | None =>
               [ESP32.clearDisplay; ESP32.setTextSize 1;
                ESP32.setCursor 0 24;
                ESP32.println (TLit "Waiting NTP sync...");
                ESP32.display]
           | Some t =>
               if (tm_sec t =? ESP32.lastSec s)%Z then []
               else
                 [ESP32.clearDisplay;
                  ESP32.setTextSize 2; ESP32.setCursor 4 2;
                  ESP32.print (TStrftime 9 "%H:%M:%S" t);
                  ESP32.setTextSize 1; ESP32.setCursor 4 24;
                  ESP32.print (TStrftime 20 "%a %d %b %Y" t);
                  ESP32.drawLine 0 35 128 35;
                  ESP32.setCursor 0 39; ESP32.print (TLit "IP: ");
                  ESP32.print (TArg ALocalIP);
                  ESP32.setCursor 0 49; ESP32.print (TLit "MQTT: ");
                  ESP32.print (TLit (if ESP32.mqttEnabled s
                                     then (if c then "Connected"
                                           else "Disconnected")
                                     else "Off"));
                  ESP32.setCursor 0 57;
                  ESP32.print (TFmt 0 "Heap: %dKB" [AHeapKB]);
                  ESP32.display]
           end)).
Proof.
  split; [| split; [| split]].
  - split; [exact HW630_throttled |]. split; [| split; [| split]].
    + intros s T U m2 rssi Hlast HU. apply HW630_throttled.
      rewrite Hlast. now apply reading_within.
    + intros s m1 m2 rssi H. now apply HW630_redraw.
    + intros T s i R s1 H.
      rewrite (proj2 (HW630_redraw s1 _ (HW630.in_millis2 i)
                        (HW630.in_rssi i) H)).
      pose proof (HW630_loop_ntp_inv T s i R) as Inv. fold s1 in Inv.
      destruct (HW630.apMode s1); [now rewrite Inv | reflexivity].
    + intros T s i R s1 d H.
      pose proof (HW630_loop_ntp_inv T s i R) as Inv. fold s1 in Inv.
      subst d. clearbody s1. unfold HW630.oledUpdate.
      apply Z.ltb_ge in H. rewrite H. cbv zeta.
      change (HW630.ntpData (HW630.set_lastOledUpdate (HW630.in_millis2 i) s1))
        with (HW630.ntpData s1).
      change (HW630.apMode (HW630.set_lastOledUpdate (HW630.in_millis2 i) s1))
        with (HW630.apMode s1).
      destruct (HW630.apMode s1);
        [rewrite (Inv eq_refl); reflexivity |].
      destruct (HW630.synced (HW630.ntpData s1)); reflexivity.
  - split; [exact ESP01_throttled |]. split; [| split; [| split]].
    + intros s T U m2 Hlast HU. apply ESP01_throttled.
      rewrite Hlast. now apply reading_within.
    + intros s m1 m2 H. now apply ESP01_redraw.
    + intros T s i R s1 H.
      rewrite (proj2 (ESP01_redraw s1 _ (ESP01.in_millis2 i) H)).
      pose proof (ESP01_loop_ntp_inv T s i R) as Inv. fold s1 in Inv.
      destruct (ESP01.apMode s1); [now rewrite Inv | reflexivity].
    + intros T s i R s1 d H.
      pose proof (ESP01_loop_ntp_inv T s i R) as Inv. fold s1 in Inv.
      subst d. clearbody s1. unfold ESP01.oledUpdate.
      apply Z.ltb_ge in H. rewrite H. cbv zeta.
      change (ESP01.ntpData (ESP01.set_lastOledUpdate (ESP01.in_millis2 i) s1))
        with (ESP01.ntpData s1).
      change (ESP01.apMode (ESP01.set_lastOledUpdate (ESP01.in_millis2 i) s1))
        with (ESP01.apMode s1).
      destruct (ESP01.apMode s1);
        [rewrite (Inv eq_refl); reflexivity |].
      destruct (ESP01.synced (ESP01.ntpData s1)); reflexivity.
  - split; [exact OLED13_throttled |]. split; [| split; [| split]].
    + intros s T U m2 Hlast HU. apply OLED13_throttled.
      rewrite Hlast. now apply reading_within.
    + intros s m1 m2 H. now apply OLED13_redraw.
    + intros T s i R s1 H.
      rewrite (proj2 (OLED13_redraw s1 _ (OLED13.in_millis2 i) H)).
      pose proof (OLED13_loop_ntp_inv T s i R) as Inv. fold s1 in Inv.
      destruct (OLED13.apMode s1); [now rewrite Inv | reflexivity].
    + intros T s i R s1 d H.
      pose proof (OLED13_loop_ntp_inv T s i R) as Inv. fold s1 in Inv.
      subst d. clearbody s1. unfold OLED13.oledUpdate.
      apply Z.ltb_ge in H. rewrite H. cbv zeta.
      change (OLED13.ntp (OLED13.set_lastOled (OLED13.in_millis2 i) s1))
        with (OLED13.ntp s1).
      change (OLED13.apMode (OLED13.set_lastOled (OLED13.in_millis2 i) s1))
        with (OLED13.apMode s1).
      destruct (OLED13.apMode s1);
        [rewrite (Inv eq_refl); reflexivity |].
      destruct (OLED13.ntpSynced (OLED13.ntp s1)); reflexivity.
  - split; [exact ESP32_throttled |]. split; [| split].
    + intros s T U m2 ti c Hlast HU. apply ESP32_throttled.
      rewrite Hlast. now apply reading_within.
    + intros s m1 m2 ti c H. now apply ESP32_redraw.
    + intros s m1 m2 ti c H. unfold ESP32.updateOLED.
      apply Z.ltb_ge in H. rewrite H. cbv zeta.
      change (ESP32.apMode (ESP32.set_lastOled m2 s)) with (ESP32.apMode s).
      destruct (ESP32.apMode s); [reflexivity |].
      destruct ti as [t |]; [| reflexivity].
      change (ESP32.lastSec (ESP32.set_lastOled m2 s))
        with (ESP32.lastSec s).
      destruct (tm_sec t =? ESP32.lastSec s)%Z; [reflexivity |].
      cbn [snd].
      change (ESP32.mqttEnabled
                (ESP32.set_lastSec (tm_sec t) (ESP32.set_lastOled m2 s)))
        with (ESP32.mqttEnabled s).
      destruct (ESP32.mqttEnabled s); [destruct c |]; reflexivity.
Qed.

Lemma hw630_booted_reachable (T : buffer) : HW630.reachable T Samples.hw630_booted.
Proof.
  unfold Samples.hw630_booted.
  destruct (HW630.setup 61 Samples.hw630_cfg (Samples.world_up_at 3000))
    as [[[s w'] ops] |] eqn:E.
  - exact (HW630.reach_setup T _ _ _ _ _ _ E).
  - vm_compute in E. discriminate E.
Defined.

Lemma display_throttle_and_layout_witness :
  ((500 <= u32 (HW630.in_millis1 (Samples.hw630_pass 4000) -
               HW630.lastOledUpdate
                 (HW630.loop_ntp (Samples.hw630_pass 4000)
                                 Samples.hw630_booted)))%Z /\
   layout_of
     (snd (HW630.oledUpdate (u32 4000) (u32 4000) (-60)
             (HW630.loop_ntp (Samples.hw630_pass 4000) Samples.hw630_booted)))
   = Some ClockLayout /\
   snd (HW630.oledUpdate (u32 4000) (u32 4000) (-60)
          (HW630.loop_ntp (Samples.hw630_pass 4000) Samples.hw630_booted)) =
     [oled_clear;
      oled_fillRect 112 9 3 3; oled_fillRect 116 6 3 6;
      oled_fillRect 120 3 3 9; oled_drawRect 124 0 3 12;
      oled_setFont ArialMT_Plain_24; oled_setTextAlignment_CENTER;
      oled_drawString 64 2
        (TFmt 9 "%02d:%02d:%02d" [AInt 10; AInt 20; AInt 30]);
      oled_setFont ArialMT_Plain_10;
      oled_drawString 64 32
        (TFmt 20 "%s %02d %s %04d" [ADay 5; AInt 17; AMonth 4; AInt 2024]);
      oled_drawString 64 50 (TFmt 28 "%s  %ddBm" [ALocalIP; ARssi]);
      oled_display]) /\
  ((1000 <= 1300 < 1000 + 500)%Z /\
   ESP32.updateOLED (u32 1300) (u32 1300) None false
     (ESP32.set_lastOled (u32 1000) ESP32.boot_state) =
   (ESP32.set_lastOled (u32 1000) ESP32.boot_state, [])) /\
  ((500 <= u32 (1500 - ESP32.lastOled ESP32.boot_state))%Z /\
   snd (ESP32.updateOLED 1500 1500 None false ESP32.boot_state) =
     [ESP32.clearDisplay; ESP32.setTextSize 1; ESP32.setCursor 0 24;
      ESP32.println (TLit "Waiting NTP sync..."); ESP32.display]).
Proof.
  split; [| split].
  - assert (H : (500 <= u32 (HW630.in_millis1 (Samples.hw630_pass 4000) -
                            HW630.lastOledUpdate
                              (HW630.loop_ntp (Samples.hw630_pass 4000)
                                              Samples.hw630_booted)))%Z)
      by (vm_compute; discriminate).
    split; [exact H |]. split.
    + exact (proj1 (proj2 (proj2 (proj2 (proj1 display_throttle_and_layout))))
                   Samples.settings_html Samples.hw630_booted
                   (Samples.hw630_pass 4000)
                   (hw630_booted_reachable Samples.settings_html) H).
    + exact (proj2 (proj2 (proj2 (proj2 (proj1 display_throttle_and_layout))))
                   Samples.settings_html Samples.hw630_booted
                   (Samples.hw630_pass 4000)
                   (hw630_booted_reachable Samples.settings_html) H).
  - assert (H : (1000 <= 1300 < 1000 + 500)%Z) by lia.
    split; [exact H |].
    exact (proj1 (proj2 (proj2 (proj2 (proj2 display_throttle_and_layout))))
                 (ESP32.set_lastOled (u32 1000) ESP32.boot_state)
                 1000%Z 1300%Z (u32 1300) None false eq_refl H).
  - assert (H : (500 <= u32 (1500 - ESP32.lastOled ESP32.boot_state))%Z)
      by (vm_compute; discriminate).
    split; [exact H |].
    exact (proj2 (proj2 (proj2 (proj2 (proj2 (proj2
             display_throttle_and_layout)))))
                 ESP32.boot_state 1500%Z 1500%Z None false H).
Defined.

(* ================================================================== *)
(** * The telemetry publisher *)
(* ================================================================== *)

Module PublishFacts.

Open Scope Z_scope.

Lemma ESP01_mqttReconnect_ops (c : bool) (m1 m2 : Z) (s : ESP01.State)
      (topic : buffer) (payload : Text) :
  ~ In (mqtt_publish topic payload) (snd (ESP01.mqttReconnect c m1 m2 s)).
Proof.
  unfold ESP01.mqttReconnect.
  destruct (is_nul _); [intros [] |]. destruct c; [intros [] |].
  destruct (_ <? _); [intros [] |]. cbv zeta. cbn [snd].
  destruct (negb _); intros [H | [H | []]]; discriminate.
Qed.

Lemma ESP01_mqttPublish_ops (c : bool) (s : ESP01.State)
      (topic : buffer) (payload : Text) :
  In (mqtt_publish topic payload) (ESP01.mqttPublish c s) ->
  text_of (ESP01.mqttHost (ESP01.cfg s)) <> [] /\ c = true /\
  ESP01.synced (ESP01.ntpData s) = true /\
  topic = ESP01.mqttTopic (ESP01.cfg s) /\
  payload =
    TJson 128
      [("time"%string,
        ("%02d:%02d:%02d"%string,
         [AInt (ESP01.hour (ESP01.ntpData s));
          AInt (ESP01.minute (ESP01.ntpData s));
          AInt (ESP01.second (ESP01.ntpData s))]));
       ("date"%string,
        ("%04d-%02d-%02d"%string,
         [AInt (ESP01.year (ESP01.ntpData s));
          AInt (ESP01.month (ESP01.ntpData s));
          AInt (ESP01.day (ESP01.ntpData s))]))].
Proof.
  unfold ESP01.mqttPublish.
  destruct (is_nul _) eqn:Eh; [intros [] |].
  destruct c; [| intros []]. cbn [negb].
  destruct (ESP01.synced _) eqn:Es; [| intros []]. cbn [negb]. cbv zeta.
  intros [H | []]. injection H as <- <-.
  repeat split.
  intros Habs. apply first_char_empty in Habs. congruence.
Qed.

(** The MQTT block of [loop] in ESP01_OLED_V2.ino: what a publication
    requires and what it leaves. *)
Lemma ESP01_loop_mqtt_publish i (s : ESP01.State)
      (topic : buffer) (payload : Text) :
  In (mqtt_publish topic payload) (snd (ESP01.loop_mqtt i s)) ->
  ESP01.apMode s = false /\
  text_of (ESP01.mqttHost (ESP01.cfg s)) <> [] /\
  ESP01.in_connected_p i = true /\
  ESP01.synced (ESP01.ntpData s) = true /\
  60000 < u32 (ESP01.in_millis_p1 i - ESP01.lastMqttPub s) /\
  topic = ESP01.mqttTopic (ESP01.cfg s) /\
  ESP01.lastMqttPub (fst (ESP01.loop_mqtt i s)) = ESP01.in_millis_p2 i /\
  ESP01.mqttPublish (ESP01.in_connected_p i) s = [mqtt_publish topic payload].
Proof.
  unfold ESP01.loop_mqtt.
  destruct (ESP01.apMode s) eqn:Ea; [intros [] |]. cbn [negb andb].
  destruct (negb _); [| intros []].
  pose proof (ESP01_mqttReconnect_frame (ESP01.in_connected_r i)
                (ESP01.in_millis_r1 i) (ESP01.in_millis_r2 i) s) as F.
  pose proof (ESP01_mqttReconnect_ops (ESP01.in_connected_r i)
                (ESP01.in_millis_r1 i) (ESP01.in_millis_r2 i) s topic payload)
    as N.
  destruct (ESP01.mqttReconnect _ _ _ s) as [s1 ops1]. cbn [fst snd] in F, N.
  destruct F as (Fc & Fn & _ & _ & Fp).
  rewrite Fp, Fn.
  destruct (60000 <? _) eqn:Et; cbn [andb].
  - destruct (ESP01.synced (ESP01.ntpData s)) eqn:Es.
    + cbn [snd fst]. intros H.
      apply in_app_or in H as [H | H]; [now elim N |].
      apply in_app_or in H as [[H | []] | H]; [discriminate |].
      pose proof H as H'.
      apply ESP01_mqttPublish_ops in H as (Hh & Hc & _ & Ht & Hp).
      rewrite Fc in Hh, Ht. apply Z.ltb_lt in Et.
      repeat split; try assumption.
      revert H'. unfold ESP01.mqttPublish. rewrite Fc, Fn, Es, Hc.
      destruct (is_nul _); [intros [] |]. cbn [negb]. cbv zeta.
      intros [<- | []]. reflexivity.
    + cbn [snd]. intros H.
      apply in_app_or in H as [H | [H | []]]; [now elim N | discriminate].
  - cbn [snd]. intros H.
    apply in_app_or in H as [H | [H | []]]; [now elim N | discriminate].
Qed.

Lemma ESP01_publish_in_loop (T : buffer) i (s : ESP01.State) ev o
      (topic : buffer) (payload : Text) :
  ESP01.loop T i s = Some (ev, o) ->
  In (ESP01.Mqtt (mqtt_publish topic payload)) ev ->
  exists s1 s',
    o = ESP01.Running s' /\
    ESP01.cfg s1 = ESP01.cfg s /\ ESP01.apMode s1 = ESP01.apMode s /\
    ESP01.ntpData s1 = ESP01.ntpData (ESP01.loop_ntp i s) /\
    ESP01.lastMqttPub s1 = ESP01.lastMqttPub s /\
    s' = fst (ESP01.loop_mqtt i s1) /\
    In (mqtt_publish topic payload) (snd (ESP01.loop_mqtt i s1)).
Proof.
  unfold ESP01.loop. cbv zeta.
  pose proof (ESP01_oledUpdate_frame (ESP01.in_millis1 i) (ESP01.in_millis2 i)
                (ESP01.loop_ntp i s)) as F.
  destruct (ESP01.oledUpdate _ _ _) as [s1 draw]. cbn [fst] in F.
  destruct F as (Fc & Fn & Fa & _ & Fp & _).
  assert (G : ESP01.cfg (ESP01.loop_ntp i s) = ESP01.cfg s /\
              ESP01.apMode (ESP01.loop_ntp i s) = ESP01.apMode s /\
              ESP01.lastMqttPub (ESP01.loop_ntp i s) = ESP01.lastMqttPub s).
  { unfold ESP01.loop_ntp. now destruct (negb (ESP01.apMode s)). }
  destruct G as (Gc & Ga & Gp).
  intros H Hin. apply bind_Some in H as ([ops o1] & Hc & H). cbn [fst snd] in H.
  assert (NoO : forall x l, ~ In (ESP01.Mqtt x) (map ESP01.Oled l)).
  { intros x l Hx. apply in_map_iff in Hx as (y & Hy & _). discriminate. }
  assert (NoH : forall x l, ~ In (ESP01.Mqtt x) (map ESP01.Http l)).
  { intros x l Hx. apply in_map_iff in Hx as (y & Hy & _). discriminate. }
  destruct o1 as [s2 | e].
  - assert (s2 = s1) as ->.
    { destruct (ESP01.in_request i) as [rq |].
      - now apply ESP01_handleClient_running in Hc.
      - now injection Hc as _ <-. }
    destruct (ESP01.loop_mqtt i s1) as [s3 pub] eqn:Em.
    injection H as <- <-.
    apply in_app_or in Hin as [Hin | Hin]; [now elim (NoO _ _ Hin) |].
    apply in_app_or in Hin as [Hin | Hin]; [now elim (NoH _ _ Hin) |].
    apply in_map_iff in Hin as (x & [= ->] & Hx).
    exists s1, s3. rewrite Em. cbn [fst snd].
    repeat split; try congruence; exact Hx.
  - injection H as <- <-.
    apply in_app_or in Hin as [Hin | Hin]; [now elim (NoO _ _ Hin) |].
    now elim (NoH _ _ Hin).
Qed.

(** ** ESP32_OLED_V1.ino *)

Lemma ESP32_mqttReconnect_ops (c : bool) (m1 m2 : Z) (s s' : ESP32.State) ops
      (topic : buffer) (payload : Text) :
  ESP32.mqttReconnect c m1 m2 s = Some (s', ops) ->
  ~ In (mqtt_publish topic payload) ops.
Proof.
  unfold ESP32.mqttReconnect.
  destruct c; [intros [= _ <-] [] |].
  destruct (_ <? _); [intros [= _ <-] [] |]. cbv zeta.
  intros H. apply bind_Some in H as (h & _ & [= _ <-]).
  destruct h; intros [H | []]; discriminate.
Qed.

Lemma ESP32_loop_net_ops i (s s' : ESP32.State) ops
      (topic : buffer) (payload : Text) :
  ESP32.loop_net i s = Some (s', ops) ->
  ~ In (mqtt_publish topic payload) ops.
Proof.
  unfold ESP32.loop_net.
  destruct (ESP32.apMode s); [intros [= _ <-] [] |].
  destruct (ESP32.mqttEnabled s); [| intros [= _ <-] []].
  intros H. apply bind_Some in H as ([s1 o1] & H1 & [= _ <-]). cbn [snd].
  intros Hin. apply in_app_or in Hin as [Hin | [Hin | []]]; [| discriminate].
  destruct (negb _).
  - now apply (ESP32_mqttReconnect_ops _ _ _ _ _ _ topic payload H1).
  - injection H1 as _ <-. destruct Hin.
Qed.

Lemma ESP32_loop_publish_ops i (s : ESP32.State)
      (topic : buffer) (payload : Text) :
  In (mqtt_publish topic payload) (snd (ESP32.loop_publish i s)) ->
  ESP32.mqttEnabled s = true /\ ESP32.in_connected_p i = true /\
  ESP32.apMode s = false /\
  60000 < u32 (ESP32.in_millis_p1 i - ESP32.lastMqtt s) /\
  topic = ESP32.mqttTopic (ESP32.cfg s) /\
  (exists ti, ESP32.in_local_p i = Some ti /\
              payload = TStrftime 32 "%Y-%m-%d %H:%M:%S" ti) /\
  ESP32.lastMqtt (fst (ESP32.loop_publish i s)) = ESP32.in_millis_p2 i.
Proof.
  unfold ESP32.loop_publish.
  destruct (ESP32.mqttEnabled s); [| intros []].
  destruct (ESP32.in_connected_p i); [| intros []].
  destruct (ESP32.apMode s); [intros [] |]. cbn [negb andb].
  destruct (60000 <? _) eqn:Et; [| intros []]. cbv zeta.
  destruct (ESP32.in_local_p i) as [ti |]; [| intros []].
  cbn [snd fst]. intros [H | []]. injection H as <- <-.
  apply Z.ltb_lt in Et. repeat split; try assumption.
  now exists ti.
Qed.

Lemma ESP32_publish_in_loop i (s : ESP32.State) ev o
      (topic : buffer) (payload : Text) :
  ESP32.loop i s = Some (ev, o) ->
  In (ESP32.Mqtt (mqtt_publish topic payload)) ev ->
  exists s1 s',
    o = ESP32.Running s' /\
    ESP32.cfg s1 = ESP32.cfg s /\ ESP32.apMode s1 = ESP32.apMode s /\
    ESP32.mqttEnabled s1 = ESP32.mqttEnabled s /\
    ESP32.lastMqtt s1 = ESP32.lastMqtt s /\
    s' = fst (ESP32.loop_publish i s1) /\
    In (mqtt_publish topic payload) (snd (ESP32.loop_publish i s1)).
Proof.
  unfold ESP32.loop. intros H Hin.
  apply bind_Some in H as ([s1 net] & Hn & H).
  pose proof (ESP32_loop_net_ops _ _ _ _ topic payload Hn) as NoN.
  apply ESP32_loop_net_frame in Hn as (Nc & Na & Nm & Nl & _).
  assert (NoO : forall x l, ~ In (ESP32.Mqtt x) (map ESP32.Oled l)).
  { intros x l Hx. apply in_map_iff in Hx as (y & Hy & _). discriminate. }
  assert (NoH : forall x l, ~ In (ESP32.Mqtt x) (map ESP32.Http l)).
  { intros x l Hx. apply in_map_iff in Hx as (y & Hy & _). discriminate. }
  assert (InM : forall x l, In (ESP32.Mqtt x) (map ESP32.Mqtt l) -> In x l).
  { intros x l Hx. apply in_map_iff in Hx as (y & [= ->] & Hy). exact Hy. }
  destruct (match ESP32.in_request i with
            | Some rq => ESP32.handleClient rq s1
            | None => ([], ESP32.Running s1)
            end) as [http o1] eqn:Eh.
  destruct o1 as [s2 | e].
  - assert (s2 = s1) as ->.
    { destruct (ESP32.in_request i) as [rq |].
      - now apply ESP32_handleClient_running in Eh.
      - now injection Eh as _ <-. }
    pose proof (ESP32_updateOLED_frame (ESP32.in_millis_o1 i)
                  (ESP32.in_millis_o2 i) (ESP32.in_local_o i)
                  (ESP32.in_connected_o i) s1) as U.
    destruct (ESP32.updateOLED _ _ _ _ s1) as [s3 draw]. cbn [fst] in U.
    destruct U as (Uc & Ua & Um & Ul).
    pose proof (ESP32_blinkLED_frame (ESP32.in_millis_l1 i)
                  (ESP32.in_millis_l2 i) s3) as B.
    assert (NoL : forall x, ~ In (ESP32.Mqtt x)
                              (snd (ESP32.blinkLED (ESP32.in_millis_l1 i)
                                      (ESP32.in_millis_l2 i) s3))).
    { intros x. unfold ESP32.blinkLED. destruct (_ =? _); [intros [] |].
      destruct (_ <? _); [intros [] |]. cbv zeta. cbn [snd].
      intros [Hx | []]. discriminate. }
    destruct (ESP32.blinkLED _ _ s3) as [s4 led]. cbn [fst snd] in B, NoL.
    destruct B as (Bc & Ba & Bm & Bl).
    destruct (ESP32.loop_publish i s4) as [s5 pub] eqn:Ep.
    injection H as <- <-.
    apply in_app_or in Hin as [Hin | Hin]; [now elim NoN; apply InM |].
    apply in_app_or in Hin as [Hin | Hin]; [now elim (NoH _ _ Hin) |].
    apply in_app_or in Hin as [Hin | Hin]; [now elim (NoO _ _ Hin) |].
    apply in_app_or in Hin as [Hin | Hin]; [now elim (NoL _ Hin) |].
    apply InM in Hin.
    exists s4, s5. rewrite Ep. cbn [fst snd].
    repeat split; try congruence; exact Hin.
  - injection H as <- <-.
    apply in_app_or in Hin as [Hin | Hin]; [now elim NoN; apply InM |].
    now elim (NoH _ _ Hin).
Qed.

Close Scope Z_scope.

End PublishFacts.


Import PublishFacts.

Lemma strlen_pos_true_text (b : buffer) :
  ESP32.strlen_pos b = Some true -> text_of b <> [].
Proof.
  unfold ESP32.strlen_pos. destruct (strlen b) as [n |] eqn:E; [| discriminate].
  cbn [bind]. intros [= Hn]. apply Nat.ltb_lt in Hn.
  apply strlen_text_of in E. intros Habs. rewrite Habs in E. simpl in E. lia.
Qed.

(** More than 60000 between two readings of [millis()] means more than
    60 s between the uptimes they were taken at. *)
Lemma interval_elapsed (Tlast Tnow : Z) :
  (Tlast <= Tnow)%Z -> (60000 < u32 (u32 Tnow - u32 Tlast))%Z ->
  (60000 < Tnow - Tlast)%Z.
Proof. intros H1 H2. pose proof (u32_le Tlast Tnow H1). lia. Qed.

(** When the guards hold and the pass is not cut short by a restart, the
    publication takes place. *)
Lemma ESP01_publishes (T : buffer) i (s s' : ESP01.State) ev :
  ESP01.loop T i s = Some (ev, ESP01.Running s') ->
  ESP01.apMode s = false ->
  text_of (ESP01.mqttHost (ESP01.cfg s)) <> [] ->
  ESP01.in_connected_p i = true ->
  ESP01.synced (ESP01.ntpData (ESP01.loop_ntp i s)) = true ->
  (60000 < u32 (ESP01.in_millis_p1 i - ESP01.lastMqttPub s))%Z ->
  exists payload,
    In (ESP01.Mqtt (mqtt_publish (ESP01.mqttTopic (ESP01.cfg s)) payload)) ev.
Proof.
  unfold ESP01.loop. cbv zeta.
  pose proof (ESP01_oledUpdate_frame (ESP01.in_millis1 i) (ESP01.in_millis2 i)
                (ESP01.loop_ntp i s)) as F.
  destruct (ESP01.oledUpdate _ _ _) as [s1 draw]. cbn [fst] in F.
  destruct F as (Fc & Fn & Fa & _ & Fp & _).
  assert (G : ESP01.cfg (ESP01.loop_ntp i s) = ESP01.cfg s /\
              ESP01.apMode (ESP01.loop_ntp i s) = ESP01.apMode s /\
              ESP01.lastMqttPub (ESP01.loop_ntp i s) = ESP01.lastMqttPub s).
  { unfold ESP01.loop_ntp. now destruct (negb (ESP01.apMode s)). }
  destruct G as (Gc & Ga & Gp).
  intros H Ha Hh Hc Hs Ht.
  apply bind_Some in H as ([ops o1] & Hcl & H). cbn [fst snd] in H.
  destruct o1 as [s2 | e]; [| discriminate].
  assert (s2 = s1) as ->.
  { destruct (ESP01.in_request i) as [rq |].
    - now apply ESP01_handleClient_running in Hcl.
    - now injection Hcl as _ <-. }
  destruct (ESP01.loop_mqtt i s1) as [s3 pub] eqn:Em.
  injection H as <- _.
  assert (Hnul : is_nul (nth 0 (ESP01.mqttHost (ESP01.cfg s)) NUL) = false).
  { destruct (is_nul _) eqn:E; [| reflexivity].
    apply first_char_empty in E. now elim Hh. }
  unfold ESP01.loop_mqtt in Em.
  rewrite Fa, Ga, Ha, Fc, Gc, Hnul in Em. cbn [negb andb] in Em.
  pose proof (ESP01_mqttReconnect_frame (ESP01.in_connected_r i)
                (ESP01.in_millis_r1 i) (ESP01.in_millis_r2 i) s1) as R.
  destruct (ESP01.mqttReconnect _ _ _ s1) as [s4 ops1]. cbn [fst] in R.
  destruct R as (Rc & Rn & _ & _ & Rp).
  rewrite Rp, Fp, Gp, Rn, Fn, Hs in Em.
  apply Z.ltb_lt in Ht. rewrite Ht in Em. cbn [andb] in Em.
  injection Em as _ <-.
  unfold ESP01.mqttPublish. rewrite Rc, Fc, Gc, Hnul, Hc, Rn, Fn, Hs.
  cbn [negb]. cbv zeta. eexists.
  apply in_or_app. right. apply in_or_app. right.
  apply in_map. apply in_or_app. right. right. left. reflexivity.
Qed.

Lemma ESP32_publishes i (s s' : ESP32.State) ev ti :
  ESP32.loop i s = Some (ev, ESP32.Running s') ->
  ESP32.mqttEnabled s = true -> ESP32.apMode s = false ->
  ESP32.in_connected_p i = true ->
  (60000 < u32 (ESP32.in_millis_p1 i - ESP32.lastMqtt s))%Z ->
  ESP32.in_local_p i = Some ti ->
  In (ESP32.Mqtt (mqtt_publish (ESP32.mqttTopic (ESP32.cfg s))
                               (TStrftime 32 "%Y-%m-%d %H:%M:%S" ti))) ev.
Proof.
  unfold ESP32.loop. intros H Hm Ha Hc Ht Hti.
  apply bind_Some in H as ([s1 net] & Hn & H).
  apply ESP32_loop_net_frame in Hn as (Nc & Na & Nm & Nl & _).
  destruct (match ESP32.in_request i with
            | Some rq => ESP32.handleClient rq s1
            | None => ([], ESP32.Running s1)
            end) as [http o1] eqn:Eh.
  destruct o1 as [s2 | e]; [| discriminate].
  assert (s2 = s1) as ->.
  { destruct (ESP32.in_request i) as [rq |].
    - now apply ESP32_handleClient_running in Eh.
    - now injection Eh as _ <-. }
  pose proof (ESP32_updateOLED_frame (ESP32.in_millis_o1 i)
                (ESP32.in_millis_o2 i) (ESP32.in_local_o i)
                (ESP32.in_connected_o i) s1) as U.
  destruct (ESP32.updateOLED _ _ _ _ s1) as [s3 draw]. cbn [fst] in U.
  destruct U as (Uc & Ua & Um & Ul).
  pose proof (ESP32_blinkLED_frame (ESP32.in_millis_l1 i)
                (ESP32.in_millis_l2 i) s3) as B.
  destruct (ESP32.blinkLED _ _ s3) as [s4 led]. cbn [fst] in B.
  destruct B as (Bc & Ba & Bm & Bl).
  destruct (ESP32.loop_publish i s4) as [s5 pub] eqn:Ep.
  injection H as <- _.
  unfold ESP32.loop_publish in Ep.
  rewrite Bm, Um, Nm, Hm, Hc, Ba, Ua, Na, Ha in Ep. cbn [negb andb] in Ep.
  rewrite Bl, Ul, Nl in Ep. apply Z.ltb_lt in Ht. rewrite Ht, Hti in Ep.
  cbv zeta in Ep. injection Ep as _ <-.
  change (ESP32.cfg (ESP32.set_lastMqtt (ESP32.in_millis_p2 i) s4))
    with (ESP32.cfg s4).
  rewrite Bc, Uc, Nc.
  apply in_or_app. right. apply in_or_app. right. apply in_or_app. right.
  apply in_or_app. right. left. reflexivity.
Qed.

(** C6.  In ESP01_OLED_V2.ino and ESP32_OLED_V1.ino a pass of [loop]
    publishes only in station mode, with an MQTT host configured, with the
    client connected, and (ESP01) with the clock synced, (ESP32) with
    [getLocalTime] succeeding; it publishes the time snapshot to the
    configured topic, only when the reading of [millis()] is more than 60000
    above the stored one, that is more than 60 s after the uptime stored
    last, and it then stores the new reading.  So no pass publishes in
    access-point mode or without a host.  Conversely a pass that meets
    these conditions and is not cut short by a restart does publish. *)
Theorem publish_guarded :
  (forall T i s ev o topic payload,
      ESP01.loop T i s = Some (ev, o) ->
      In (ESP01.Mqtt (mqtt_publish topic payload)) ev ->
      ESP01.apMode s = false /\
      text_of (ESP01.mqttHost (ESP01.cfg s)) <> [] /\
      ESP01.in_connected_p i = true /\
      ESP01.synced (ESP01.ntpData (ESP01.loop_ntp i s)) = true /\
      (60000 < u32 (ESP01.in_millis_p1 i - ESP01.lastMqttPub s))%Z /\
      (forall Tlast Tnow,
          ESP01.lastMqttPub s = u32 Tlast -> ESP01.in_millis_p1 i = u32 Tnow ->
          (Tlast <= Tnow)%Z -> (60000 < Tnow - Tlast)%Z) /\
      topic = ESP01.mqttTopic (ESP01.cfg s) /\
      (let d := ESP01.ntpData (ESP01.loop_ntp i s) in
       payload =
         TJson 128
           [("time"%string,
             ("%02d:%02d:%02d"%string,
              [AInt (ESP01.hour d); AInt (ESP01.minute d);
               AInt (ESP01.second d)]));
            ("date"%string,
             ("%04d-%02d-%02d"%string,
              [AInt (ESP01.year d); AInt (ESP01.month d);
               AInt (ESP01.day d)]))]) /\
      exists s', o = ESP01.Running s' /\
                 ESP01.lastMqttPub s' = ESP01.in_millis_p2 i) /\
  (forall T i s s' ev,
      ESP01.loop T i s = Some (ev, ESP01.Running s') ->
      ESP01.apMode s = false ->
      text_of (ESP01.mqttHost (ESP01.cfg s)) <> [] ->
      ESP01.in_connected_p i = true ->
      ESP01.synced (ESP01.ntpData (ESP01.loop_ntp i s)) = true ->
      (60000 < u32 (ESP01.in_millis_p1 i - ESP01.lastMqttPub s))%Z ->
      exists payload,
        In (ESP01.Mqtt (mqtt_publish (ESP01.mqttTopic (ESP01.cfg s)) payload))
           ev) /\
  (forall i s ev o topic payload,
      ESP32.reachable s ->
      ESP32.loop i s = Some (ev, o) ->
      In (ESP32.Mqtt (mqtt_publish topic payload)) ev ->
      ESP32.apMode s = false /\
      text_of (ESP32.mqttServer (ESP32.cfg s)) <> [] /\
      ESP32.in_connected_p i = true /\
      (60000 < u32 (ESP32.in_millis_p1 i - ESP32.lastMqtt s))%Z /\
      (forall Tlast Tnow,
          ESP32.lastMqtt s = u32 Tlast -> ESP32.in_millis_p1 i = u32 Tnow ->
          (Tlast <= Tnow)%Z -> (60000 < Tnow - Tlast)%Z) /\
      topic = ESP32.mqttTopic (ESP32.cfg s) /\
      (exists ti, ESP32.in_local_p i = Some ti /\
                  payload = TStrftime 32 "%Y-%m-%d %H:%M:%S" ti) /\
      exists s', o = ESP32.Running s' /\
                 ESP32.lastMqtt s' = ESP32.in_millis_p2 i) /\
  (forall i s s' ev ti,
      ESP32.loop i s = Some (ev, ESP32.Running s') ->
      ESP32.mqttEnabled s = true -> ESP32.apMode s = false ->
      ESP32.in_connected_p i = true ->
      (60000 < u32 (ESP32.in_millis_p1 i - ESP32.lastMqtt s))%Z ->
      ESP32.in_local_p i = Some ti ->
      In (ESP32.Mqtt (mqtt_publish (ESP32.mqttTopic (ESP32.cfg s))
                                   (TStrftime 32 "%Y-%m-%d %H:%M:%S" ti))) ev).
Proof.
  split; [| split; [exact ESP01_publishes | split; [| exact ESP32_publishes]]].
  - intros T i s ev o topic payload Hl Hin.
    destruct (ESP01_publish_in_loop _ _ _ _ _ _ _ Hl Hin)
      as (s1 & s' & -> & Hc & Ha & Hn & Hp & -> & Hpub).
    pose proof Hpub as Hpub'.
    apply ESP01_loop_mqtt_publish in Hpub
      as (Pa & Ph & Pc & Ps & Pt & Ptopic & Plast & Pone).
    assert (Hpay := ESP01_mqttPublish_ops (ESP01.in_connected_p i) s1
                      topic payload).
    rewrite Pone in Hpay. specialize (Hpay (or_introl eq_refl)).
    destruct Hpay as (_ & _ & _ & _ & Hpay).
    rewrite Hc in Ph, Ptopic. rewrite Ha in Pa. rewrite Hn in Ps, Hpay.
    rewrite Hp in Pt.
    repeat split; try assumption.
    + intros Tlast Tnow E1 E2 Hle. apply interval_elapsed; [exact Hle |].
      now rewrite <- E1, <- E2.
    + eexists; split; [reflexivity | exact Plast].
  - intros i s ev o topic payload R Hl Hin.
    destruct (ESP32_publish_in_loop _ _ _ _ _ _ Hl Hin)
      as (s1 & s' & -> & Hc & Ha & Hm & Hp & -> & Hpub).
    apply ESP32_loop_publish_ops in Hpub
      as (Pm & Pc & Pa & Pt & Ptopic & Ppay & Plast).
    rewrite Hm in Pm. destruct (ESP32_mqtt_enabled s R Pm) as (Ia & Is).
    rewrite Hc in Ptopic. rewrite Hp in Pt.
    repeat split; try assumption.
    + now apply strlen_pos_true_text.
    + intros Tlast Tnow E1 E2 Hle. apply interval_elapsed; [exact Hle |].
      now rewrite <- E1, <- E2.
    + eexists; split; [reflexivity | exact Plast].
Qed.

Lemma esp32_booted_reachable : ESP32.reachable Samples.esp32_booted.
Proof.
  unfold Samples.esp32_booted.
  destruct (ESP32.setup 31 false Samples.esp32_cfg (Samples.world_up_at 3000))
    as [[[[s w'] e'] ops] |] eqn:E.
  - exact (ESP32.reach_setup _ _ _ _ _ _ _ _ E).
  - vm_compute in E. discriminate E.
Defined.

Lemma publish_guarded_witness :
  (exists ev o payload,
      ESP01.loop Samples.settings_html (Samples.esp01_pass 61000)
                 Samples.esp01_booted = Some (ev, o) /\
      In (ESP01.Mqtt (mqtt_publish (ESP01.mqttTopic Samples.esp01_cfg) payload))
         ev /\
      ESP01.apMode Samples.esp01_booted = false /\
      (60000 < u32 (ESP01.in_millis_p1 (Samples.esp01_pass 61000) -
                    ESP01.lastMqttPub Samples.esp01_booted))%Z /\
      exists s', o = ESP01.Running s' /\
                 ESP01.lastMqttPub s' =
                   ESP01.in_millis_p2 (Samples.esp01_pass 61000)) /\
  (exists ev o payload,
      ESP32.loop (Samples.esp32_pass 61000) Samples.esp32_booted =
        Some (ev, o) /\
      In (ESP32.Mqtt (mqtt_publish (ESP32.mqttTopic Samples.esp32_cfg) payload))
         ev /\
      ESP32.apMode Samples.esp32_booted = false /\
      text_of (ESP32.mqttServer (ESP32.cfg Samples.esp32_booted)) <> [] /\
      exists s', o = ESP32.Running s' /\
                 ESP32.lastMqtt s' =
                   ESP32.in_millis_p2 (Samples.esp32_pass 61000)).
Proof.
  split.
  - destruct (ESP01.loop Samples.settings_html (Samples.esp01_pass 61000)
                         Samples.esp01_booted) as [[ev o] |] eqn:Hl.
    + pose proof Hl as Hl'. vm_compute in Hl'. injection Hl' as <- <-.
      match type of Hl with
      | _ = Some (?ev, ?o) =>
          assert (Hin : In (ESP01.Mqtt
                              (mqtt_publish
                                 (ESP01.mqttTopic Samples.esp01_cfg)
                                 (TJson 128
                                    [("time"%string,
                                      ("%02d:%02d:%02d"%string,
                                       [AInt 10; AInt 20; AInt 30]));
                                     ("date"%string,
                                      ("%04d-%02d-%02d"%string,
                                       [AInt 2024; AInt 5; AInt 17]))])))
                           ev)
            by (vm_compute; repeat (first [left; reflexivity | right]));
          exists ev, o
      end.
      eexists.
      destruct (proj1 publish_guarded _ _ _ _ _ _ _ Hl Hin)
        as (Pa & _ & _ & _ & Pt & _ & _ & _ & Ps).
      split; [reflexivity |]. split; [exact Hin |].
      split; [exact Pa |]. split; [exact Pt | exact Ps].
    + vm_compute in Hl. discriminate Hl.
  - destruct (ESP32.loop (Samples.esp32_pass 61000) Samples.esp32_booted)
      as [[ev o] |] eqn:Hl.
    + pose proof Hl as Hl'. vm_compute in Hl'. injection Hl' as <- <-.
      match type of Hl with
      | _ = Some (?ev, ?o) =>
          assert (Hin : In (ESP32.Mqtt
                              (mqtt_publish
                                 (ESP32.mqttTopic Samples.esp32_cfg)
                                 (TStrftime 32 "%Y-%m-%d %H:%M:%S"
                                            Samples.a_tm)))
                           ev)
            by (vm_compute; repeat (first [left; reflexivity | right]));
          exists ev, o
      end.
      eexists.
      destruct (proj1 (proj2 (proj2 publish_guarded)) _ _ _ _ _ _
                      esp32_booted_reachable Hl Hin)
        as (Pa & Ph & _ & _ & _ & _ & _ & Ps).
      split; [reflexivity |]. split; [exact Hin |].
      split; [exact Pa |]. split; [exact Ph | exact Ps].
    + vm_compute in Hl. discriminate Hl.
Defined.

(* ================================================================== *)
(** * Requests that match no route *)
(* ================================================================== *)

Module RouteFacts.

Lemma HW630_setup_routes fuel e w s w' ops :
  HW630.setup fuel e w = Some (s, w', ops) ->
  HW630.routes s =
    if HW630.apMode s
    then [("/"%string, None, HW630.h_handlePortal);
          ("/save"%string, Some HTTP_POST, HW630.h_handlePortalSave);
          ("/settings"%string, Some HTTP_GET, HW630.h_handleSettings);
          ("/settings"%string, Some HTTP_POST, HW630.h_handleSettingsSave);
          ("/api/data"%string, None, HW630.h_handleAPI)]
    else [("/"%string, None, HW630.h_handleRoot);
          ("/settings"%string, Some HTTP_GET, HW630.h_handleSettings);
          ("/settings"%string, Some HTTP_POST, HW630.h_handleSettingsSave);
          ("/api/data"%string, None, HW630.h_handleAPI)].
Proof.
  unfold HW630.setup. cbv zeta. intros H.
  apply bind_Some in H as ([[ok w1] o1] & _ & H).
  destruct ok; injection H as <- _ _; reflexivity.
Qed.

Lemma HW630_routes (T : buffer) (s : HW630.State) :
  HW630.reachable T s ->
  forall rq h, HW630.lookup_route rq (HW630.routes s) = Some h ->
               In (req_path rq) ["/"; "/save"; "/settings"; "/api/data"]%string.
Proof.
  intros R.
  assert (Hr : exists b,
             HW630.routes s =
             if b : bool
             then [("/"%string, None, HW630.h_handlePortal);
                   ("/save"%string, Some HTTP_POST, HW630.h_handlePortalSave);
                   ("/settings"%string, Some HTTP_GET, HW630.h_handleSettings);
                   ("/settings"%string, Some HTTP_POST,
                    HW630.h_handleSettingsSave);
                   ("/api/data"%string, None, HW630.h_handleAPI)]
             else [("/"%string, None, HW630.h_handleRoot);
                   ("/settings"%string, Some HTTP_GET, HW630.h_handleSettings);
                   ("/settings"%string, Some HTTP_POST,
                    HW630.h_handleSettingsSave);
                   ("/api/data"%string, None, HW630.h_handleAPI)]).
  { induction R as [fuel e w s w' ops Hs | i s ev s' _ IH Hl].
    - exists (HW630.apMode s). eapply HW630_setup_routes; eauto.
    - destruct IH as [b Hb]. exists b.
      apply HW630_loop_frame in Hl as (_ & _ & Hr & _). congruence. }
  destruct Hr as [b Hr]. intros rq h. rewrite Hr.
  unfold HW630.lookup_route, HW630.route_matches.
  destruct b; cbn [find];
    repeat match goal with
    | |- context [String.eqb ?a (req_path rq)] =>
        destruct (String.eqb_spec a (req_path rq)) as [<- | _];
        [intros _; cbn; tauto | cbn [andb]]
    end; discriminate.
Qed.

Lemma ESP32_setup_routes fuel c0 e w s w' e' ops :
  ESP32.setup fuel c0 e w = Some (s, w', e', ops) ->
  ESP32.routes s = ESP32.routes (ESP32.setupRoutes ESP32.boot_state).
Proof.
  unfold ESP32.setup.
  destruct (ESP32.loadConfig e) as [c e1]. cbv zeta. intros H.
  apply bind_Some in H as (has_ssid & _ & H).
  apply bind_Some in H as ([[ok w1] ops1] & _ & H).
  apply bind_Some in H as ([s1 ops2] & _ & H).
  injection H as <- _ _ _. reflexivity.
Qed.

Lemma ESP32_loop_routes i (s s' : ESP32.State) ev :
  ESP32.loop i s = Some (ev, ESP32.Running s') ->
  ESP32.routes s' = ESP32.routes s.
Proof.
  unfold ESP32.loop. intros H.
  apply bind_Some in H as ([s1 net] & Hn & H).
  apply ESP32_loop_net_frame in Hn as (_ & _ & _ & _ & Nr).
  destruct (match ESP32.in_request i with
            | Some rq => ESP32.handleClient rq s1
            | None => ([], ESP32.Running s1)
            end) as [http o] eqn:Eh.
  destruct o as [s2 | e]; [| discriminate].
  assert (s2 = s1) as ->.
  { destruct (ESP32.in_request i) as [rq |].
    - now apply ESP32_handleClient_running in Eh.
    - now injection Eh as _ <-. }
  unfold ESP32.updateOLED, ESP32.blinkLED, ESP32.loop_publish in H.
  repeat match type of H with
         | context [if ?c then _ else _] => destruct c; cbv zeta in H
         | context [match ?c with Some _ => _ | None => _ end] =>
             destruct c; cbv zeta in H
         end;
    injection H as _ <-; exact Nr.
Qed.

Lemma ESP32_routes (s : ESP32.State) :
  ESP32.reachable s ->
  forall rq h, ESP32.lookup_route rq (ESP32.routes s) = Some h ->
               In (req_path rq) ["/"; "/settings"; "/api/data"; "/reboot"]%string.
Proof.
  intros R.
  assert (Hr : ESP32.routes s = ESP32.routes (ESP32.setupRoutes ESP32.boot_state)).
  { induction R as [fuel c0 e w s w' e' ops Hs | i s ev s' _ IH Hl].
    - eapply ESP32_setup_routes; eauto.
    - apply ESP32_loop_routes in Hl. congruence. }
  intros rq h. rewrite Hr.
  unfold ESP32.lookup_route, ESP32.route_matches. cbn [ESP32.routes
    ESP32.setupRoutes ESP32.set_routes find].
  repeat match goal with
    | |- context [String.eqb ?a (req_path rq)] =>
        destruct (String.eqb_spec a (req_path rq)) as [<- | _];
        [intros _; cbn; tauto | cbn [andb]]
    end; discriminate.
Qed.

End RouteFacts.

Import RouteFacts.

(** C7.  A request that matches no registered route is answered by the
    not-found handler: in access-point mode a 302 with the header
    [Location: http://192.168.4.1/] (ESP32_OLED_V1.ino:
    [http://192.168.4.1/settings]), in station mode a 404 with the
    plain text "Not Found"; the sketch keeps running with its state
    unchanged.  In a session every request whose path is not one of the
    registered ones is such a request. *)
Theorem not_found_handler :
  (forall T heap rq s,
      HW630.lookup_route rq (HW630.routes s) = None ->
      HW630.handleClient T heap rq s =
        Some (if HW630.apMode s
              then [sendHeader "Location" "http://192.168.4.1/";
                    send 302 None BEmpty]
              else [send 404 (Some "text/plain"%string) (BLit "Not Found")],
              HW630.Running s)) /\
  (forall T s rq,
      HW630.reachable T s ->
      ~ In (req_path rq) ["/"; "/save"; "/settings"; "/api/data"]%string ->
      HW630.lookup_route rq (HW630.routes s) = None) /\
  (forall T heap rq s,
      ESP01.lookup_route rq (ESP01.routes s) = None ->
      ESP01.handleClient T heap rq s =
        Some (if ESP01.apMode s
              then [sendHeader "Location" "http://192.168.4.1/";
                    send 302 None BEmpty]
              else [send 404 (Some "text/plain"%string) (BLit "Not Found")],
              ESP01.Running s)) /\
  (forall T heap rq s,
      OLED13.lookup_route rq (OLED13.routes s) = None ->
      OLED13.handleClient T heap rq s =
        Some (if OLED13.apMode s
              then [sendHeader "Location" "http://192.168.4.1/";
                    send 302 None BEmpty]
              else [send 404 (Some "text/plain"%string) (BLit "Not Found")],
              OLED13.Running s)) /\
  (forall rq s,
      ESP32.lookup_route rq (ESP32.routes s) = None ->
      ESP32.handleClient rq s =
        (if ESP32.apMode s
         then [sendHeader "Location" "http://192.168.4.1/settings";
               send 302 (Some "text/plain"%string) (BLit "")]
         else [send 404 (Some "text/plain"%string) (BLit "Not Found")],
         ESP32.Running s)) /\
  (forall s rq,
      ESP32.reachable s ->
      ~ In (req_path rq) ["/"; "/settings"; "/api/data"; "/reboot"]%string ->
      ESP32.lookup_route rq (ESP32.routes s) = None).
Proof.
  repeat split.
  - intros T heap rq s H. unfold HW630.handleClient. now rewrite H.
  - intros T s rq R Hn.
    destruct (HW630.lookup_route rq (HW630.routes s)) as [h |] eqn:E;
      [| reflexivity].
    elim Hn. exact (HW630_routes T s R rq h E).
  - intros T heap rq s H. unfold ESP01.handleClient. now rewrite H.
  - intros T heap rq s H. unfold OLED13.handleClient. now rewrite H.
  - intros rq s H. unfold ESP32.handleClient. now rewrite H.
  - intros s rq R Hn.
    destruct (ESP32.lookup_route rq (ESP32.routes s)) as [h |] eqn:E;
      [| reflexivity].
    elim Hn. exact (ESP32_routes s R rq h E).
Qed.

Lemma not_found_handler_witness :
  (HW630.lookup_route (mk_req "/favicon.ico" HTTP_GET [])
                      (HW630.routes Samples.hw630_booted) = None /\
   HW630.handleClient Samples.settings_html None
                      (mk_req "/favicon.ico" HTTP_GET []) Samples.hw630_booted =
     Some ([send 404 (Some "text/plain"%string) (BLit "Not Found")],
           HW630.Running Samples.hw630_booted)) /\
  (~ In (req_path (mk_req "/generate_204" HTTP_GET []))
        ["/"; "/settings"; "/api/data"; "/reboot"]%string /\
   ESP32.lookup_route (mk_req "/generate_204" HTTP_GET [])
                      (ESP32.routes Samples.esp32_booted) = None).
Proof.
  split.
  - assert (H : HW630.lookup_route (mk_req "/favicon.ico" HTTP_GET [])
                  (HW630.routes Samples.hw630_booted) = None)
      by (vm_compute; reflexivity).
    split; [exact H |].
    exact (proj1 not_found_handler Samples.settings_html None
                 (mk_req "/favicon.ico" HTTP_GET []) Samples.hw630_booted H).
  - assert (H : ~ In (req_path (mk_req "/generate_204" HTTP_GET []))
                     ["/"; "/settings"; "/api/data"; "/reboot"]%string).
    { cbn. intros [H | [H | [H | [H | []]]]]; discriminate H. }
    split; [exact H |].
    exact (proj2 (proj2 (proj2 (proj2 (proj2 not_found_handler))))
                 Samples.esp32_booted (mk_req "/generate_204" HTTP_GET [])
                 esp32_booted_reachable H).
Defined.

(* ================================================================== *)
(** * Reconnecting to the MQTT broker *)
(* ================================================================== *)

Module ReconnectFacts.

Open Scope Z_scope.

Lemma ESP01_no_attempt (c : bool) (m1 m2 : Z) (s : ESP01.State) :
  text_of (ESP01.mqttHost (ESP01.cfg s)) = [] \/ c = true \/
  u32 (m1 - ESP01.lastMqttReconnect s) < 10000 ->
  ESP01.mqttReconnect c m1 m2 s = (s, []).
Proof.
  unfold ESP01.mqttReconnect. intros [H | [-> | H]].
  - apply first_char_empty in H. now rewrite H.
  - now destruct (is_nul _).
  - apply Z.ltb_lt in H. rewrite H. destruct (is_nul _); [reflexivity |].
    now destruct c.
Qed.

Lemma ESP01_one_attempt (m1 m2 : Z) (s : ESP01.State) :
  text_of (ESP01.mqttHost (ESP01.cfg s)) <> [] ->
  10000 <= u32 (m1 - ESP01.lastMqttReconnect s) ->
  ESP01.mqttReconnect false m1 m2 s =
    (ESP01.set_lastMqttReconnect m2 s, ESP01.attempt s).
Proof.
  intros Hh Ht. unfold ESP01.mqttReconnect, ESP01.attempt.
  destruct (is_nul (nth 0 (ESP01.mqttHost (ESP01.cfg s)) NUL)) eqn:E.
  - apply first_char_empty in E. now elim Hh.
  - apply Z.ltb_ge in Ht. rewrite Ht. cbv zeta.
    change (ESP01.cfg (ESP01.set_lastMqttReconnect m2 s)) with (ESP01.cfg s).
    now destruct (is_nul (nth 0 (ESP01.mqttUser (ESP01.cfg s)) NUL)).
Qed.

Lemma ESP01_retries_all (n : nat) :
  forall (T : Z) (s : ESP01.State),
    text_of (ESP01.mqttHost (ESP01.cfg s)) <> [] ->
    10000 <= u32 (u32 T - ESP01.lastMqttReconnect s) ->
    ESP01.retries n T s = repeat (ESP01.attempt s) n.
Proof.
  induction n as [| n IH]; intros T s Hh Ht; [reflexivity |].
  cbn [ESP01.retries repeat].
  rewrite (ESP01_one_attempt _ (u32 T) s Hh Ht).
  f_equal. rewrite IH; [reflexivity | exact Hh |].
  change (ESP01.lastMqttReconnect (ESP01.set_lastMqttReconnect (u32 T) s))
    with (u32 T).
  rewrite u32_elapsed. rewrite u32_small; lia.
Qed.

Lemma ESP32_strlen_pos_user (b : buffer) (n : nat) :
  strlen b = Some n ->
  ESP32.strlen_pos b = Some (negb (is_nul (nth 0 b NUL))).
Proof.
  intros H. unfold ESP32.strlen_pos. rewrite H. cbn [bind]. f_equal.
  destruct b as [| c b]; [discriminate |]. cbn [nth]. simpl in H.
  destruct (is_nul c); [now injection H as <- |].
  destruct (strlen b); [| discriminate]. now injection H as <-.
Qed.

Lemma ESP32_no_attempt (c : bool) (m1 m2 : Z) (s : ESP32.State) :
  c = true \/ u32 (m1 - ESP32.lastTry s) < 10000 ->
  ESP32.mqttReconnect c m1 m2 s = Some (s, []).
Proof.
  unfold ESP32.mqttReconnect. intros [-> | H]; [reflexivity |].
  apply Z.ltb_lt in H. rewrite H. now destruct c.
Qed.

Lemma ESP32_one_attempt (m1 m2 : Z) (s : ESP32.State) :
  fits (ESP32.mqttUser (ESP32.cfg s)) 32 ->
  10000 <= u32 (m1 - ESP32.lastTry s) ->
  ESP32.mqttReconnect false m1 m2 s =
    Some (ESP32.set_lastTry m2 s, ESP32.attempt s).
Proof.
  intros (n & Hn & _) Ht. unfold ESP32.mqttReconnect, ESP32.attempt.
  apply Z.ltb_ge in Ht. rewrite Ht. cbv zeta.
  change (ESP32.cfg (ESP32.set_lastTry m2 s)) with (ESP32.cfg s).
  rewrite (ESP32_strlen_pos_user _ _ Hn). cbn [bind].
  now destruct (is_nul _).
Qed.

Lemma ESP32_retries_all (n : nat) :
  forall (T : Z) (s : ESP32.State),
    fits (ESP32.mqttUser (ESP32.cfg s)) 32 ->
    10000 <= u32 (u32 T - ESP32.lastTry s) ->
    ESP32.retries n T s = Some (repeat (ESP32.attempt s) n).
Proof.
  induction n as [| n IH]; intros T s Hu Ht; [reflexivity |].
  cbn [ESP32.retries repeat].
  rewrite (ESP32_one_attempt _ (u32 T) s Hu Ht). cbn [bind fst snd].
  rewrite IH; [reflexivity | exact Hu |].
  change (ESP32.lastTry (ESP32.set_lastTry (u32 T) s)) with (u32 T).
  rewrite u32_elapsed. rewrite u32_small; lia.
Qed.

Close Scope Z_scope.

End ReconnectFacts.

Import ReconnectFacts.

(** C8.  [mqttReconnect] does nothing when the client is connected, when no
    host is configured (ESP01_OLED_V2.ino), or when the reading of
    [millis()] is less than 10000 above the one stored at the last
    attempt, that is less than 10 s after it.  Otherwise it stores the new
    reading and makes one attempt: one [connect] call (after [setServer] in
    ESP01_OLED_V2.ino).  The bound is the constant 10000 whatever the
    state: calls 10 s apart that all find the client disconnected all make
    an attempt. *)
Theorem mqttReconnect_fixed_interval :
  (forall c m1 m2 s,
      text_of (ESP01.mqttHost (ESP01.cfg s)) = [] \/ c = true \/
      (u32 (m1 - ESP01.lastMqttReconnect s) < 10000)%Z ->
      ESP01.mqttReconnect c m1 m2 s = (s, [])) /\
  (forall c Tlast Tnow m2 s,
      ESP01.lastMqttReconnect s = u32 Tlast ->
      (Tlast <= Tnow < Tlast + 10000)%Z ->
      ESP01.mqttReconnect c (u32 Tnow) m2 s = (s, [])) /\
  (forall m1 m2 s,
      text_of (ESP01.mqttHost (ESP01.cfg s)) <> [] ->
      (10000 <= u32 (m1 - ESP01.lastMqttReconnect s))%Z ->
      ESP01.mqttReconnect false m1 m2 s =
        (ESP01.set_lastMqttReconnect m2 s, ESP01.attempt s)) /\
  (forall n T s,
      text_of (ESP01.mqttHost (ESP01.cfg s)) <> [] ->
      (10000 <= u32 (u32 T - ESP01.lastMqttReconnect s))%Z ->
      ESP01.retries n T s = repeat (ESP01.attempt s) n) /\
  (forall c m1 m2 s,
      c = true \/ (u32 (m1 - ESP32.lastTry s) < 10000)%Z ->
      ESP32.mqttReconnect c m1 m2 s = Some (s, [])) /\
  (forall c Tlast Tnow m2 s,
      ESP32.lastTry s = u32 Tlast ->
      (Tlast <= Tnow < Tlast + 10000)%Z ->
      ESP32.mqttReconnect c (u32 Tnow) m2 s = Some (s, [])) /\
  (forall m1 m2 s,
      fits (ESP32.mqttUser (ESP32.cfg s)) 32 ->
      (10000 <= u32 (m1 - ESP32.lastTry s))%Z ->
      ESP32.mqttReconnect false m1 m2 s =
        Some (ESP32.set_lastTry m2 s, ESP32.attempt s)) /\
  (forall n T s,
      fits (ESP32.mqttUser (ESP32.cfg s)) 32 ->
      (10000 <= u32 (u32 T - ESP32.lastTry s))%Z ->
      ESP32.retries n T s = Some (repeat (ESP32.attempt s) n)).
Proof.
  repeat split.
  - exact ESP01_no_attempt.
  - intros c Tlast Tnow m2 s Hl Ht. apply ESP01_no_attempt. right. right.
    rewrite Hl. pose proof (u32_le Tlast Tnow). lia.
  - exact ESP01_one_attempt.
  - intros n T s. apply ESP01_retries_all.
  - exact ESP32_no_attempt.
  - intros c Tlast Tnow m2 s Hl Ht. apply ESP32_no_attempt. right.
    rewrite Hl. pose proof (u32_le Tlast Tnow). lia.
  - exact ESP32_one_attempt.
  - intros n T s. apply ESP32_retries_all.
Qed.

Lemma mqttReconnect_fixed_interval_witness :
  (text_of (ESP01.mqttHost (ESP01.cfg Samples.esp01_booted)) <> [] /\
   (10000 <= u32 (u32 20000 -
                  ESP01.lastMqttReconnect Samples.esp01_booted))%Z /\
   ESP01.retries 3 20000 Samples.esp01_booted =
     repeat (ESP01.attempt Samples.esp01_booted) 3) /\
  ((12000 <= 15000 < 12000 + 10000)%Z /\
   ESP32.mqttReconnect false (u32 15000) (u32 15000)
     (ESP32.set_lastTry (u32 12000) Samples.esp32_booted) =
   Some (ESP32.set_lastTry (u32 12000) Samples.esp32_booted, [])).
Proof.
  split.
  - assert (H1 : text_of (ESP01.mqttHost (ESP01.cfg Samples.esp01_booted))
                 <> []) by (vm_compute; discriminate).
    assert (H2 : (10000 <= u32 (u32 20000 -
                                ESP01.lastMqttReconnect Samples.esp01_booted))%Z)
      by (vm_compute; discriminate).
    split; [exact H1 |]. split; [exact H2 |].
    exact (proj1 (proj2 (proj2 (proj2 mqttReconnect_fixed_interval)))
                 3 20000%Z Samples.esp01_booted H1 H2).
  - assert (H : (12000 <= 15000 < 12000 + 10000)%Z) by lia.
    split; [exact H |].
    exact (proj1 (proj2 (proj2 (proj2 (proj2 (proj2
                   mqttReconnect_fixed_interval)))))
                 false 12000%Z 15000%Z (u32 15000)
                 (ESP32.set_lastTry (u32 12000) Samples.esp32_booted)
                 eq_refl H).
Defined.

(* ================================================================== *)
(** * The synced flag only rises *)
(* ================================================================== *)

Module SyncFacts.

Open Scope Z_scope.

Lemma HW630_ntpUpdate_keeps (now : Z) (lt : tm) (d : HW630.NTPData) :
  HW630.synced d = true -> HW630.synced (HW630.ntpUpdate now lt d) = true.
Proof. unfold HW630.ntpUpdate. now destruct (now <? 100000). Qed.

Lemma HW630_pass_keeps (T : buffer) i (s s' : HW630.State) ev :
  HW630.loop T i s = Some (ev, HW630.Running s') ->
  HW630.synced (HW630.ntpData s) = true ->
  HW630.synced (HW630.ntpData s') = true.
Proof.
  intros H Hs. apply HW630_loop_frame in H as (_ & _ & _ & ->).
  unfold HW630.loop_ntp. destruct (negb (HW630.apMode s)); [| exact Hs].
  now apply HW630_ntpUpdate_keeps.
Qed.

Lemma HW630_runs_keep (T : buffer) (s s' : HW630.State) :
  HW630.runs T s s' ->
  HW630.synced (HW630.ntpData s) = true ->
  HW630.synced (HW630.ntpData s') = true.
Proof.
  induction 1 as [s | i s ev s1 s2 Hl _ IH]; intros Hs; [exact Hs |].
  apply IH. eapply HW630_pass_keeps; eauto.
Qed.

Lemma ESP01_ntpUpdate_keeps (now : Z) (lt : tm) (d : ESP01.NTPData) :
  ESP01.synced d = true -> ESP01.synced (ESP01.ntpUpdate now lt d) = true.
Proof. unfold ESP01.ntpUpdate. now destruct (now <? 100000). Qed.

Lemma ESP01_pass_keeps (T : buffer) i (s s' : ESP01.State) ev :
  ESP01.loop T i s = Some (ev, ESP01.Running s') ->
  ESP01.synced (ESP01.ntpData s) = true ->
  ESP01.synced (ESP01.ntpData s') = true.
Proof.
  intros H Hs. apply ESP01_loop_frame in H as (_ & _ & _ & ->).
  unfold ESP01.loop_ntp. destruct (negb (ESP01.apMode s)); [| exact Hs].
  now apply ESP01_ntpUpdate_keeps.
Qed.

Lemma ESP01_runs_keep (T : buffer) (s s' : ESP01.State) :
  ESP01.runs T s s' ->
  ESP01.synced (ESP01.ntpData s) = true ->
  ESP01.synced (ESP01.ntpData s') = true.
Proof.
  induction 1 as [s | i s ev s1 s2 Hl _ IH]; intros Hs; [exact Hs |].
  apply IH. eapply ESP01_pass_keeps; eauto.
Qed.

Lemma OLED13_ntpUpdate_keeps (now : Z) (t : tm) (d : OLED13.NTPData) :
  OLED13.ntpSynced d = true ->
  OLED13.ntpSynced (OLED13.ntpUpdate now t d) = true.
Proof. unfold OLED13.ntpUpdate. now destruct (now <? 100000). Qed.

Lemma OLED13_pass_keeps (T : buffer) i (s s' : OLED13.State) ev :
  OLED13.loop T i s = Some (ev, OLED13.Running s') ->
  OLED13.ntpSynced (OLED13.ntp s) = true ->
  OLED13.ntpSynced (OLED13.ntp s') = true.
Proof.
  intros H Hs. apply OLED13_loop_frame in H as (_ & _ & _ & ->).
  unfold OLED13.loop_ntp. destruct (negb (OLED13.apMode s)); [| exact Hs].
  now apply OLED13_ntpUpdate_keeps.
Qed.

Lemma OLED13_runs_keep (T : buffer) (s s' : OLED13.State) :
  OLED13.runs T s s' ->
  OLED13.ntpSynced (OLED13.ntp s) = true ->
  OLED13.ntpSynced (OLED13.ntp s') = true.
Proof.
  induction 1 as [s | i s ev s1 s2 Hl _ IH]; intros Hs; [exact Hs |].
  apply IH. eapply OLED13_pass_keeps; eauto.
Qed.

Close Scope Z_scope.

End SyncFacts.

Import SyncFacts.

(** C9.  In the three ESP8266 sketches the synced flag is false after
    [setup]; a pass of [loop] leaves the snapshot as it was or as
    [ntpUpdate] makes it; [ntpUpdate] returns the snapshot unchanged when
    the clock reads below 100000 and otherwise a snapshot whose flag is
    true.  So a flag that is true stays true for the rest of the session,
    and from then on every redraw shows the clock screen, never the syncing
    screen. *)
Theorem synced_is_monotone :
  (* 8266_HW_630.ino *)
  ((forall fuel e w s w' ops,
       HW630.setup fuel e w = Some (s, w', ops) ->
       HW630.synced (HW630.ntpData s) = false) /\
   (forall now lt d,
       ((now < 100000)%Z -> HW630.ntpUpdate now lt d = d) /\
       ((100000 <= now)%Z -> HW630.synced (HW630.ntpUpdate now lt d) = true)) /\
   (forall T i s s' ev,
       HW630.loop T i s = Some (ev, HW630.Running s') ->
       HW630.ntpData s' = HW630.ntpData s \/
       HW630.ntpData s' =
         HW630.ntpUpdate (HW630.in_time i) (HW630.in_local i)
                         (HW630.ntpData s)) /\
   (forall T s s',
       HW630.runs T s s' ->
       HW630.synced (HW630.ntpData s) = true ->
       HW630.synced (HW630.ntpData s') = true /\
       forall i,
         (500 <= u32 (HW630.in_millis1 i - HW630.lastOledUpdate s'))%Z ->
         layout_of
           (snd (HW630.oledUpdate (HW630.in_millis1 i) (HW630.in_millis2 i)
                   (HW630.in_rssi i) (HW630.loop_ntp i s'))) =
         Some ClockLayout)) /\
  (* ESP01_OLED_V2.ino *)
  ((forall fuel e w s w' ops,
       ESP01.setup fuel e w = Some (s, w', ops) ->
       ESP01.synced (ESP01.ntpData s) = false) /\
   (forall now lt d,
       ((now < 100000)%Z -> ESP01.ntpUpdate now lt d = d) /\
       ((100000 <= now)%Z -> ESP01.synced (ESP01.ntpUpdate now lt d) = true)) /\
   (forall T i s s' ev,
       ESP01.loop T i s = Some (ev, ESP01.Running s') ->
       ESP01.ntpData s' = ESP01.ntpData s \/
       ESP01.ntpData s' =
         ESP01.ntpUpdate (ESP01.in_time i) (ESP01.in_local i)
                         (ESP01.ntpData s)) /\
   (forall T s s',
       ESP01.runs T s s' ->
       ESP01.synced (ESP01.ntpData s) = true ->
       ESP01.synced (ESP01.ntpData s') = true /\
       forall i,
         (500 <= u32 (ESP01.in_millis1 i - ESP01.lastOledUpdate s'))%Z ->
         layout_of
           (snd (ESP01.oledUpdate (ESP01.in_millis1 i) (ESP01.in_millis2 i)
                   (ESP01.loop_ntp i s'))) =
         Some ClockLayout)) /\
  (* OLED13_NTP_V1.ino *)
  ((forall fuel e w s w' ops,
       OLED13.setup fuel e w = Some (s, w', ops) ->
       OLED13.ntpSynced (OLED13.ntp s) = false) /\
   (forall now t d,
       ((now < 100000)%Z -> OLED13.ntpUpdate now t d = d) /\
       ((100000 <= now)%Z ->
        OLED13.ntpSynced (OLED13.ntpUpdate now t d) = true)) /\
   (forall T i s s' ev,
       OLED13.loop T i s = Some (ev, OLED13.Running s') ->
       OLED13.ntp s' = OLED13.ntp s \/
       OLED13.ntp s' =
         OLED13.ntpUpdate (OLED13.in_time i) (OLED13.in_local i)
                          (OLED13.ntp s)) /\
   (forall T s s',
       OLED13.runs T s s' ->
       OLED13.ntpSynced (OLED13.ntp s) = true ->
       OLED13.ntpSynced (OLED13.ntp s') = true /\
       forall i,
         (500 <= u32 (OLED13.in_millis1 i - OLED13.lastOled s'))%Z ->
         layout_of
           (OLED13.oled_ops
              (snd (OLED13.oledUpdate (OLED13.in_millis1 i)
                      (OLED13.in_millis2 i) (OLED13.loop_ntp i s')))) =
         Some ClockLayout)).
Proof.
  split; [| split].
  - split; [exact HW630_setup_unsynced |]. split; [| split].
    + intros now lt d. unfold HW630.ntpUpdate. split; intros H.
      * apply Z.ltb_lt in H. now rewrite H.
      * apply Z.ltb_ge in H. now rewrite H.
    + intros T i s s' ev H. apply HW630_loop_frame in H as (_ & _ & _ & ->).
      unfold HW630.loop_ntp. destruct (negb (HW630.apMode s)); [now right | now left].
    + intros T s s' R Hs. pose proof (HW630_runs_keep T s s' R Hs) as Hs'.
      split; [exact Hs' |]. intros i Ht.
      assert (Hn : HW630.synced (HW630.ntpData (HW630.loop_ntp i s')) = true).
      { unfold HW630.loop_ntp. destruct (negb (HW630.apMode s')); [| exact Hs'].
        now apply HW630_ntpUpdate_keeps. }
      assert (Hl : HW630.lastOledUpdate (HW630.loop_ntp i s') =
                   HW630.lastOledUpdate s').
      { unfold HW630.loop_ntp. now destruct (negb (HW630.apMode s')). }
      rewrite <- Hl in Ht.
      rewrite (proj2 (HW630_redraw _ _ (HW630.in_millis2 i) (HW630.in_rssi i) Ht)).
      now rewrite Hn.
  - split; [exact ESP01_setup_unsynced |]. split; [| split].
    + intros now lt d. unfold ESP01.ntpUpdate. split; intros H.
      * apply Z.ltb_lt in H. now rewrite H.
      * apply Z.ltb_ge in H. now rewrite H.
    + intros T i s s' ev H. apply ESP01_loop_frame in H as (_ & _ & _ & ->).
      unfold ESP01.loop_ntp. destruct (negb (ESP01.apMode s)); [now right | now left].
    + intros T s s' R Hs. pose proof (ESP01_runs_keep T s s' R Hs) as Hs'.
      split; [exact Hs' |]. intros i Ht.
      assert (Hn : ESP01.synced (ESP01.ntpData (ESP01.loop_ntp i s')) = true).
      { unfold ESP01.loop_ntp. destruct (negb (ESP01.apMode s')); [| exact Hs'].
        now apply ESP01_ntpUpdate_keeps. }
      assert (Hl : ESP01.lastOledUpdate (ESP01.loop_ntp i s') =
                   ESP01.lastOledUpdate s').
      { unfold ESP01.loop_ntp. now destruct (negb (ESP01.apMode s')). }
      rewrite <- Hl in Ht.
      rewrite (proj2 (ESP01_redraw _ _ (ESP01.in_millis2 i) Ht)).
      now rewrite Hn.
  - split; [exact OLED13_setup_unsynced |]. split; [| split].
    + intros now t d. unfold OLED13.ntpUpdate. split; intros H.
      * apply Z.ltb_lt in H. now rewrite H.
      * apply Z.ltb_ge in H. now rewrite H.
    + intros T i s s' ev H. apply OLED13_loop_frame in H as (_ & _ & _ & ->).
      unfold OLED13.loop_ntp. destruct (negb (OLED13.apMode s)); [now right | now left].
    + intros T s s' R Hs. pose proof (OLED13_runs_keep T s s' R Hs) as Hs'.
      split; [exact Hs' |]. intros i Ht.
      assert (Hn : OLED13.ntpSynced (OLED13.ntp (OLED13.loop_ntp i s')) = true).
      { unfold OLED13.loop_ntp. destruct (negb (OLED13.apMode s')); [| exact Hs'].
        now apply OLED13_ntpUpdate_keeps. }
      assert (Hl : OLED13.lastOled (OLED13.loop_ntp i s') = OLED13.lastOled s').
      { unfold OLED13.loop_ntp. now destruct (negb (OLED13.apMode s')). }
      rewrite <- Hl in Ht.
      rewrite (proj2 (OLED13_redraw _ _ (OLED13.in_millis2 i) Ht)).
      now rewrite Hn.
Qed.

Lemma synced_is_monotone_witness :
  ((100000 <= Samples.a_time)%Z /\
   HW630.synced
     (HW630.ntpUpdate Samples.a_time Samples.a_tm
                      (HW630.ntpData HW630.boot_state)) = true) /\
  (HW630.runs Samples.settings_html
              (Samples.hw630_after (Samples.hw630_pass 4000)
                                   Samples.hw630_booted)
              (Samples.hw630_after (Samples.hw630_pass 5000)
                 (Samples.hw630_after (Samples.hw630_pass 4000)
                                      Samples.hw630_booted)) /\
   HW630.synced
     (HW630.ntpData (Samples.hw630_after (Samples.hw630_pass 4000)
                                         Samples.hw630_booted)) = true /\
   HW630.synced
     (HW630.ntpData
        (Samples.hw630_after (Samples.hw630_pass 5000)
           (Samples.hw630_after (Samples.hw630_pass 4000)
                                Samples.hw630_booted))) = true).
Proof.
  split.
  - assert (H : (100000 <= Samples.a_time)%Z) by (vm_compute; discriminate).
    split; [exact H |].
    exact (proj2 (proj1 (proj2 (proj1 synced_is_monotone))
                        Samples.a_time Samples.a_tm
                        (HW630.ntpData HW630.boot_state)) H).
  - assert (R : HW630.runs Samples.settings_html
                  (Samples.hw630_after (Samples.hw630_pass 4000)
                                       Samples.hw630_booted)
                  (Samples.hw630_after (Samples.hw630_pass 5000)
                     (Samples.hw630_after (Samples.hw630_pass 4000)
                                          Samples.hw630_booted))).
    { generalize (Samples.hw630_after (Samples.hw630_pass 4000)
                                      Samples.hw630_booted).
      intros s1. unfold Samples.hw630_after.
      destruct (HW630.loop Samples.settings_html (Samples.hw630_pass 5000) s1)
        as [[ev [s' | e]] |] eqn:E.
      - eapply HW630.runs_loop; [exact E | apply HW630.runs_here].
      - apply HW630.runs_here.
      - apply HW630.runs_here. }
    assert (H : HW630.synced
                  (HW630.ntpData (Samples.hw630_after (Samples.hw630_pass 4000)
                                                      Samples.hw630_booted))
                = true) by (vm_compute; reflexivity).
    split; [exact R |]. split; [exact H |].
    exact (proj1 (proj2 (proj2 (proj2 (proj1 synced_is_monotone)))
                        Samples.settings_html _ _ R H)).
Defined.

(* ================================================================== *)
(** * Saving from the captive portal *)
(* ================================================================== *)

Module SaveFacts.

Lemma ESP01_setup_cfg fuel e w s w' ops :
  ESP01.setup fuel e w = Some (s, w', ops) ->
  ESP01.cfg s = ESP01.loadConfig e.
Proof.
  unfold ESP01.setup. cbv zeta. intros H.
  apply bind_Some in H as ([[ok w1] o1] & _ & H).
  destruct ok; injection H as <- _ _; reflexivity.
Qed.

Lemma OLED13_setup_cfg fuel e w s w' ops :
  OLED13.setup fuel e w = Some (s, w', ops) ->
  OLED13.cfg s = OLED13.loadCfg e.
Proof.
  unfold OLED13.setup. cbv zeta. intros H.
  apply bind_Some in H as ([[ok w1] o1] & _ & H).
  destruct ok; injection H as <- _ _; reflexivity.
Qed.

(** What [handlePortalSave] stores. *)
Lemma ESP01_portal_image (rq : Request) (c : ESP01.DevConfig) :
  fst (ESP01.handlePortalSave rq c) =
    ESP01.mk_cfg ESP01.EEPROM_MAGIC
      (ESP01.arg_or_keep rq "ssid" (ESP01.ssid c) 33)
      (ESP01.arg_or_keep rq "pass" (ESP01.pass c) 65)
      (ESP01.mqttHost c) (ESP01.mqttPort c) (ESP01.mqttUser c)
      (ESP01.mqttPass c) (ESP01.mqttTopic c) (ESP01.tzInfo c).
Proof.
  unfold ESP01.handlePortalSave, ESP01.arg_or_keep. cbv zeta. cbn [fst].
  destruct (hasArg rq "ssid"), (hasArg rq "pass"); reflexivity.
Qed.

Lemma OLED13_portal_image (rq : Request) (c : OLED13.DevConfig) :
  fst (OLED13.handlePortalSave rq c) =
    OLED13.mk_cfg OLED13.EEPROM_MAGIC
      (OLED13.arg_or_keep rq "ssid" (OLED13.ssid c) 33)
      (OLED13.arg_or_keep rq "pass" (OLED13.pass c) 65)
      (OLED13.tz c).
Proof.
  unfold OLED13.handlePortalSave, OLED13.arg_or_keep. cbv zeta. cbn [fst].
  destruct (hasArg rq "ssid"), (hasArg rq "pass"); reflexivity.
Qed.

End SaveFacts.

Import SaveFacts.

(** C10.  [handlePortalSave] of ESP01_OLED_V2.ino and OLED13_NTP_V1.ino
    stores a record that differs from the configuration in the magic byte,
    in [ssid] when the request has that argument and in [pass] when it has
    that one; the timezone and, in ESP01_OLED_V2.ino, the five MQTT settings
    are those of the configuration.  [handleClient] restarts the device
    with that record in EEPROM, and after the next [setup] the
    configuration is that record, so these fields still hold their
    values. *)
Theorem portal_save_keeps_other_fields :
  (forall rq c,
      let c' := fst (ESP01.handlePortalSave rq c) in
      c' = ESP01.mk_cfg ESP01.EEPROM_MAGIC
             (if hasArg rq "ssid"
              then strlcpy (ESP01.ssid c) (String_c_str (arg rq "ssid")) 33
              else ESP01.ssid c)
             (if hasArg rq "pass"
              then strlcpy (ESP01.pass c) (String_c_str (arg rq "pass")) 65
              else ESP01.pass c)
             (ESP01.mqttHost c) (ESP01.mqttPort c) (ESP01.mqttUser c)
             (ESP01.mqttPass c) (ESP01.mqttTopic c) (ESP01.tzInfo c) /\
      (forall T heap s,
          ESP01.cfg s = c ->
          ESP01.lookup_route rq (ESP01.routes s) =
            Some ESP01.h_handlePortalSave ->
          ESP01.handleClient T heap rq s =
            Some (snd (ESP01.handlePortalSave rq c), ESP01.Restarted c')) /\
      (forall fuel w s w' ops,
          ESP01.setup fuel c' w = Some (s, w', ops) ->
          ESP01.cfg s = c' /\
          ESP01.tzInfo (ESP01.cfg s) = ESP01.tzInfo c /\
          ESP01.mqttHost (ESP01.cfg s) = ESP01.mqttHost c /\
          ESP01.mqttPort (ESP01.cfg s) = ESP01.mqttPort c /\
          ESP01.mqttUser (ESP01.cfg s) = ESP01.mqttUser c /\
          ESP01.mqttPass (ESP01.cfg s) = ESP01.mqttPass c /\
          ESP01.mqttTopic (ESP01.cfg s) = ESP01.mqttTopic c)) /\
  (forall rq c,
      let c' := fst (OLED13.handlePortalSave rq c) in
      c' = OLED13.mk_cfg OLED13.EEPROM_MAGIC
             (if hasArg rq "ssid"
              then strlcpy (OLED13.ssid c) (String_c_str (arg rq "ssid")) 33
              else OLED13.ssid c)
             (if hasArg rq "pass"
              then strlcpy (OLED13.pass c) (String_c_str (arg rq "pass")) 65
              else OLED13.pass c)
             (OLED13.tz c) /\
      (forall T heap s,
          OLED13.cfg s = c ->
          OLED13.lookup_route rq (OLED13.routes s) =
            Some OLED13.h_handlePortalSave ->
          OLED13.handleClient T heap rq s =
            Some (snd (OLED13.handlePortalSave rq c), OLED13.Restarted c')) /\
      (forall fuel w s w' ops,
          OLED13.setup fuel c' w = Some (s, w', ops) ->
          OLED13.cfg s = c' /\ OLED13.tz (OLED13.cfg s) = OLED13.tz c)).
Proof.
  split.
  - intros rq c c'. assert (E : c' = _) by apply ESP01_portal_image.
    split; [exact E |]. split.
    + intros T heap s <- Hr. unfold ESP01.handleClient. rewrite Hr.
      subst c'. now destruct (ESP01.handlePortalSave rq (ESP01.cfg s)).
    + clearbody c'. subst c'. intros fuel w s w' ops Hs.
      apply ESP01_setup_cfg in Hs. rewrite Hs.
      unfold ESP01.loadConfig. cbn [ESP01.magic].
      rewrite Z.eqb_refl. cbn [negb].
      repeat split.
  - intros rq c c'. assert (E : c' = _) by apply OLED13_portal_image.
    split; [exact E |]. split.
    + intros T heap s <- Hr. unfold OLED13.handleClient. rewrite Hr.
      subst c'. now destruct (OLED13.handlePortalSave rq (OLED13.cfg s)).
    + clearbody c'. subst c'. intros fuel w s w' ops Hs.
      apply OLED13_setup_cfg in Hs. rewrite Hs.
      unfold OLED13.loadCfg. cbn [OLED13.magic].
      rewrite Z.eqb_refl. cbn [negb].
      repeat split.
Qed.

Lemma portal_save_keeps_other_fields_witness :
  (ESP01.lookup_route Samples.portal_request
                      (ESP01.routes Samples.esp01_portal) =
     Some ESP01.h_handlePortalSave /\
   ESP01.handleClient Samples.settings_html_mqtt None Samples.portal_request
                      Samples.esp01_portal =
     Some (snd (ESP01.handlePortalSave Samples.portal_request
                  (ESP01.cfg Samples.esp01_portal)),
           ESP01.Restarted
             (fst (ESP01.handlePortalSave Samples.portal_request
                     (ESP01.cfg Samples.esp01_portal))))) /\
  (exists s w' ops,
      ESP01.setup 61
        (fst (ESP01.handlePortalSave Samples.portal_request
                (ESP01.cfg Samples.esp01_portal)))
        (Samples.world_up_at 3000) = Some (s, w', ops) /\
      text_of (ESP01.ssid (ESP01.cfg s)) = list_ascii_of_string "cafe" /\
      ESP01.tzInfo (ESP01.cfg s) = ESP01.tzInfo (ESP01.cfg Samples.esp01_portal) /\
      ESP01.mqttPort (ESP01.cfg s) = 1883%Z).
Proof.
  split.
  - assert (H : ESP01.lookup_route Samples.portal_request
                  (ESP01.routes Samples.esp01_portal) =
                Some ESP01.h_handlePortalSave) by (vm_compute; reflexivity).
    split; [exact H |].
    exact (proj1 (proj2 (proj1 portal_save_keeps_other_fields
                           Samples.portal_request
                           (ESP01.cfg Samples.esp01_portal)))
                 Samples.settings_html_mqtt None Samples.esp01_portal
                 eq_refl H).
  - destruct (ESP01.setup 61
                (fst (ESP01.handlePortalSave Samples.portal_request
                        (ESP01.cfg Samples.esp01_portal)))
                (Samples.world_up_at 3000)) as [[[s w'] ops] |] eqn:E.
    + exists s, w', ops. split; [reflexivity |].
      destruct (proj2 (proj2 (proj1 portal_save_keeps_other_fields
                                Samples.portal_request
                                (ESP01.cfg Samples.esp01_portal)))
                      61 (Samples.world_up_at 3000) s w' ops E)
        as (Hc & Htz & _ & Hport & _).
      split; [rewrite Hc; vm_compute; reflexivity |].
      split; [exact Htz |]. rewrite Hport. vm_compute. reflexivity.
    + vm_compute in E. discriminate E.
Defined.

(* ================================================================== *)
(** * What is saved is what the next boot loads *)
(* ================================================================== *)

Module StoreFacts.

Lemma HW630_setup_cfg fuel e w s w' ops :
  HW630.setup fuel e w = Some (s, w', ops) ->
  HW630.cfg s = HW630.loadConfig e.
Proof.
  unfold HW630.setup. cbv zeta. intros H.
  apply bind_Some in H as ([[ok w1] o1] & _ & H).
  destruct ok; injection H as <- _ _; reflexivity.
Qed.

Lemma ESP32_setup_cfg fuel c0 e w s w' e' ops :
  ESP32.setup fuel c0 e w = Some (s, w', e', ops) ->
  (ESP32.cfg s, e') = ESP32.loadConfig e.
Proof.
  unfold ESP32.setup.
  destruct (ESP32.loadConfig e) as [c e1]. cbv zeta. intros H.
  apply bind_Some in H as (has_ssid & _ & H).
  apply bind_Some in H as ([[ok w1] ops1] & _ & H).
  apply bind_Some in H as ([s1 ops2] & Hm & H).
  injection H as <- _ <- _.
  destruct ok.
  - apply bind_Some in Hm as (has_mqtt & _ & Hm). destruct has_mqtt.
    + apply bind_Some in Hm as ([s2 o2] & Hr & Hm).
      injection Hm as <- _. cbn [fst].
      unfold ESP32.setupMQTT in Hr.
      apply bind_Some in Hr as ([s3 o3] & Hr & [= <- _]).
      cbn [fst].
      apply ESP32_mqttReconnect_frame in Hr as [-> | ->]; reflexivity.
    + injection Hm as <- _. reflexivity.
  - injection Hm as <- _. reflexivity.
Qed.

(** The image every restarting handler leaves carries the magic byte. *)
Lemma HW630_restart_magic (T : buffer) heap rq (s : HW630.State) ops e :
  HW630.handleClient T heap rq s = Some (ops, HW630.Restarted e) ->
  HW630.magic e = HW630.EEPROM_MAGIC.
Proof.
  unfold HW630.handleClient.
  destruct (HW630.lookup_route rq (HW630.routes s)) as [[] |];
    try discriminate; try (intros [= _ <-]; reflexivity).
  intros H. apply bind_Some in H as (o & _ & H). discriminate H.
Qed.

Lemma ESP01_restart_magic (T : buffer) heap rq (s : ESP01.State) ops e :
  ESP01.handleClient T heap rq s = Some (ops, ESP01.Restarted e) ->
  ESP01.magic e = ESP01.EEPROM_MAGIC.
Proof.
  unfold ESP01.handleClient.
  destruct (ESP01.lookup_route rq (ESP01.routes s)) as [[] |];
    try discriminate.
  - unfold ESP01.handlePortalSave. cbv zeta.
    intros [= _ <-]. reflexivity.
  - intros H. apply bind_Some in H as (o & _ & H). discriminate H.
  - intros [= _ <-]. reflexivity.
Qed.

Lemma OLED13_restart_magic (T : buffer) heap rq (s : OLED13.State) ops e :
  OLED13.handleClient T heap rq s = Some (ops, OLED13.Restarted e) ->
  OLED13.magic e = OLED13.EEPROM_MAGIC.
Proof.
  unfold OLED13.handleClient.
  destruct (OLED13.lookup_route rq (OLED13.routes s)) as [[] |];
    try discriminate.
  - unfold OLED13.handlePortalSave. cbv zeta.
    intros [= _ <-]. reflexivity.
  - intros H. apply bind_Some in H as (o & _ & H). discriminate H.
  - intros [= _ <-]. reflexivity.
Qed.

Lemma ESP32_restart_magic rq (s : ESP32.State) ops e :
  ESP32.handleClient rq s = (ops, ESP32.Restarted (Some e)) ->
  ESP32.magic e = ESP32.EEPROM_MAGIC.
Proof.
  unfold ESP32.handleClient.
  destruct (ESP32.lookup_route rq (ESP32.routes s)) as [[] |];
    try discriminate.
  intros [= _ <-]. reflexivity.
Qed.

End StoreFacts.

Import StoreFacts.

(** X1.  Whenever a request makes a sketch restart after writing its
    configuration (the settings form or the portal form), the image in
    EEPROM carries the magic byte, so the [loadConfig] of the next boot
    takes it as it is and [setup] runs with exactly the configuration that
    was saved; ESP32_OLED_V1.ino leaves the image in EEPROM untouched in
    that boot. *)
Theorem saved_config_is_loaded :
  (forall T heap rq s ops e,
      HW630.handleClient T heap rq s = Some (ops, HW630.Restarted e) ->
      HW630.loadConfig e = e /\
      forall fuel w s' w' ops',
        HW630.setup fuel e w = Some (s', w', ops') -> HW630.cfg s' = e) /\
  (forall T heap rq s ops e,
      ESP01.handleClient T heap rq s = Some (ops, ESP01.Restarted e) ->
      ESP01.loadConfig e = e /\
      forall fuel w s' w' ops',
        ESP01.setup fuel e w = Some (s', w', ops') -> ESP01.cfg s' = e) /\
  (forall T heap rq s ops e,
      OLED13.handleClient T heap rq s = Some (ops, OLED13.Restarted e) ->
      OLED13.loadCfg e = e /\
      forall fuel w s' w' ops',
        OLED13.setup fuel e w = Some (s', w', ops') -> OLED13.cfg s' = e) /\
  (forall rq s ops e,
      ESP32.handleClient rq s = (ops, ESP32.Restarted (Some e)) ->
      ESP32.loadConfig e = (e, e) /\
      forall fuel c w s' w' e' ops',
        ESP32.setup fuel c e w = Some (s', w', e', ops') ->
        ESP32.cfg s' = e /\ e' = e).
Proof.
  split; [| split; [| split]].
  - intros T heap rq s ops e H. apply HW630_restart_magic in H.
    assert (L : HW630.loadConfig e = e).
    { unfold HW630.loadConfig. rewrite H, Z.eqb_refl. reflexivity. }
    split; [exact L |]. intros fuel w s' w' ops' Hs.
    apply HW630_setup_cfg in Hs. congruence.
  - intros T heap rq s ops e H. apply ESP01_restart_magic in H.
    assert (L : ESP01.loadConfig e = e).
    { unfold ESP01.loadConfig. rewrite H, Z.eqb_refl. reflexivity. }
    split; [exact L |]. intros fuel w s' w' ops' Hs.
    apply ESP01_setup_cfg in Hs. congruence.
  - intros T heap rq s ops e H. apply OLED13_restart_magic in H.
    assert (L : OLED13.loadCfg e = e).
    { unfold OLED13.loadCfg. rewrite H, Z.eqb_refl. reflexivity. }
    split; [exact L |]. intros fuel w s' w' ops' Hs.
    apply OLED13_setup_cfg in Hs. congruence.
  - intros rq s ops e H. apply ESP32_restart_magic in H.
    assert (L : ESP32.loadConfig e = (e, e)).
    { unfold ESP32.loadConfig. rewrite H, Z.eqb_refl. reflexivity. }
    split; [exact L |]. intros fuel c w s' w' e' ops' Hs.
    apply ESP32_setup_cfg in Hs. rewrite L in Hs.
    injection Hs as -> ->. split; reflexivity.
Qed.

Lemma saved_config_is_loaded_witness :
  ESP01.handleClient Samples.settings_html_mqtt None Samples.portal_request
                     Samples.esp01_portal =
    Some (snd (ESP01.handlePortalSave Samples.portal_request
                 (ESP01.cfg Samples.esp01_portal)),
          ESP01.Restarted
            (fst (ESP01.handlePortalSave Samples.portal_request
                    (ESP01.cfg Samples.esp01_portal)))) /\
  ESP01.loadConfig
    (fst (ESP01.handlePortalSave Samples.portal_request
            (ESP01.cfg Samples.esp01_portal))) =
    fst (ESP01.handlePortalSave Samples.portal_request
           (ESP01.cfg Samples.esp01_portal)).
Proof.
  assert (H : ESP01.handleClient Samples.settings_html_mqtt None
                Samples.portal_request Samples.esp01_portal =
              Some (snd (ESP01.handlePortalSave Samples.portal_request
                           (ESP01.cfg Samples.esp01_portal)),
                    ESP01.Restarted
                      (fst (ESP01.handlePortalSave Samples.portal_request
                              (ESP01.cfg Samples.esp01_portal)))))
    by (vm_compute; reflexivity).
  split; [exact H |].
  exact (proj1 (proj1 (proj2 saved_config_is_loaded) _ _ _ _ _ _ H)).
Defined.

(* ================================================================== *)
(** * What the settings forms store *)
(* ================================================================== *)

Module FieldFacts.
Import Fields.

Lemma text_of_nul_free (b : buffer) : nul_free (text_of b).
Proof.
  induction b as [| c b IH]; simpl; [intros [] |].
  destruct (is_nul c) eqn:E; [intros [] |].
  apply nul_free_cons. split; [now apply is_nul_false | exact IH].
Qed.

Lemma text_of_app_nul (s r : list ascii) :
  text_of (s ++ NUL :: r) = text_of s.
Proof.
  induction s as [| c s IH]; simpl; [reflexivity |].
  destruct (is_nul c); [reflexivity | now rewrite IH].
Qed.

Lemma nul_free_firstn (n : nat) (s : list ascii) :
  nul_free s -> nul_free (firstn n s).
Proof.
  intros F H. apply F. rewrite <- (firstn_skipn n s).
  apply in_or_app. now left.
Qed.

(** [strlcpy] leaves the source text cut to [size - 1] characters. *)
Lemma strlcpy_c_str (dst src : buffer) (m : nat) :
  c_str (strlcpy dst src (S m)) = Some (firstn m (text_of src)).
Proof.
  unfold strlcpy. cbv zeta.
  assert (E : firstn (Nat.min (length (text_of src)) m) (text_of src) =
              firstn m (text_of src)).
  { destruct (Nat.min_spec (length (text_of src)) m) as [[H ->] | [H ->]];
      [| reflexivity].
    rewrite !firstn_all2 by lia. reflexivity. }
  rewrite E. apply c_str_app_nul, nul_free_firstn, text_of_nul_free.
Qed.

Lemma strlcpy_length (dst src : buffer) (m : nat) :
  length dst = S m -> length (strlcpy dst src (S m)) = S m.
Proof.
  intros L. unfold strlcpy. cbv zeta.
  rewrite length_app. cbn [length]. rewrite length_firstn, length_skipn. lia.
Qed.

Lemma c_str_fits (b : buffer) (s : list ascii) (cap : nat) :
  c_str b = Some s -> length s <= cap -> fits b cap.
Proof.
  intros H L. exists (length s). split; [| exact L].
  now apply c_str_strlen.
Qed.

Lemma strlcpy_fits (dst src : buffer) (m : nat) :
  fits (strlcpy dst src (S m)) m.
Proof.
  eapply c_str_fits; [apply strlcpy_c_str |].
  rewrite length_firstn. lia.
Qed.

Lemma stored_strlcpy (rq : Request) (name : string) (cap : nat)
  (old : buffer) :
  stored rq name cap old
    (if hasArg rq name
     then strlcpy old (String_c_str (arg rq name)) (S cap) else old).
Proof.
  unfold stored. destruct (hasArg rq name); [| reflexivity].
  split.
  - rewrite strlcpy_c_str. unfold String_c_str.
    now rewrite text_of_app_nul.
  - apply strlcpy_length.
Qed.

Lemma fits_strlcpy_or_keep (rq : Request) (name : string) (cap : nat)
  (old : buffer) :
  fits old cap ->
  fits (if hasArg rq name
        then strlcpy old (String_c_str (arg rq name)) (S cap) else old) cap.
Proof.
  intros F. destruct (hasArg rq name); [apply strlcpy_fits | exact F].
Qed.

(** [loadConfig]: the stored record, or the defaults. *)
Lemma HW630_loadConfig_cases (e : HW630.DevConfig) :
  (HW630.magic e = HW630.EEPROM_MAGIC /\ HW630.loadConfig e = e) \/
  (HW630.magic e <> HW630.EEPROM_MAGIC /\
   HW630.loadConfig e =
     HW630.mk_cfg 0xBE (repeat NUL 33) (repeat NUL 65)
                  (list_ascii_of_string "ICT-7" ++ repeat NUL 35)).
Proof.
  unfold HW630.loadConfig.
  destruct (Z.eqb_spec (HW630.magic e) HW630.EEPROM_MAGIC) as [E | E];
    [left | right]; split; try assumption; reflexivity.
Qed.

Lemma OLED13_loadCfg_cases (e : OLED13.DevConfig) :
  (OLED13.magic e = OLED13.EEPROM_MAGIC /\ OLED13.loadCfg e = e) \/
  (OLED13.magic e <> OLED13.EEPROM_MAGIC /\
   OLED13.loadCfg e =
     OLED13.mk_cfg 0xE7 (repeat NUL 33) (repeat NUL 65)
                   (list_ascii_of_string "ICT-7" ++ repeat NUL 35)).
Proof.
  unfold OLED13.loadCfg.
  destruct (Z.eqb_spec (OLED13.magic e) OLED13.EEPROM_MAGIC) as [E | E];
    [left | right]; split; try assumption; reflexivity.
Qed.

Lemma ESP01_loadConfig_cases (e : ESP01.DevConfig) :
  (ESP01.magic e = ESP01.EEPROM_MAGIC /\ ESP01.loadConfig e = e) \/
  (ESP01.magic e <> ESP01.EEPROM_MAGIC /\
   ESP01.loadConfig e =
     ESP01.mk_cfg 0xCD (repeat NUL 33) (repeat NUL 65) (repeat NUL 65)
                  1883 (repeat NUL 33) (repeat NUL 65)
                  (list_ascii_of_string "ntp/esp01" ++ repeat NUL 56)
                  (list_ascii_of_string "ICT-7" ++ repeat NUL 35)).
Proof.
  unfold ESP01.loadConfig.
  destruct (Z.eqb_spec (ESP01.magic e) ESP01.EEPROM_MAGIC) as [E | E];
    [left | right]; split; try assumption; reflexivity.
Qed.

Lemma ESP32_loadConfig_cases (e : ESP32.DevConfig) :
  (ESP32.magic e = ESP32.EEPROM_MAGIC /\ ESP32.loadConfig e = (e, e)) \/
  (ESP32.magic e <> ESP32.EEPROM_MAGIC /\
   let d :=
     ESP32.mk_cfg 0xE7 (repeat NUL 33) (repeat NUL 65)
                  (list_ascii_of_string "ICT-7" ++ repeat NUL 35)
                  (repeat NUL 65) 1883 (repeat NUL 33) (repeat NUL 65)
                  (list_ascii_of_string "esp32/oled/time" ++ repeat NUL 50)
                  1 in
   ESP32.loadConfig e = (d, d)).
Proof.
  destruct (Z.eqb_spec (ESP32.magic e) ESP32.EEPROM_MAGIC) as [E | E];
    [left | right]; (split; [assumption |]).
  - unfold ESP32.loadConfig. rewrite E. reflexivity.
  - unfold ESP32.loadConfig. apply Z.eqb_neq in E. rewrite E.
    vm_compute. reflexivity.
Qed.

Ltac literal_fits :=
  repeat split; (eexists; split; [reflexivity | cbn; lia]).

End FieldFacts.

Import Fields FieldFacts.

(** X2.  [handleSettingsSave] of 8266_HW_630.ino and OLED13_NTP_V1.ino
    stores, for each of [ssid], [pass] and [tz] that the request carries,
    the value cut to the capacity of the array less one (32, 64 and 39
    characters) and terminated, leaves the arrays of the absent ones as
    they were, and sets the magic byte.  In 8266_HW_630.ino the portal form
    stores exactly the same record. *)
Theorem settings_save_truncates :
  (forall rq c,
      let c' := fst (HW630.handleSettingsSave rq c) in
      HW630.magic c' = HW630.EEPROM_MAGIC /\
      stored rq "ssid" 32 (HW630.ssid c) (HW630.ssid c') /\
      stored rq "pass" 64 (HW630.pass c) (HW630.pass c') /\
      stored rq "tz" 39 (HW630.tzInfo c) (HW630.tzInfo c') /\
      fst (HW630.handlePortalSave rq c) = c') /\
  (forall rq c,
      let c' := fst (OLED13.handleSettingsSave rq c) in
      OLED13.magic c' = OLED13.EEPROM_MAGIC /\
      stored rq "ssid" 32 (OLED13.ssid c) (OLED13.ssid c') /\
      stored rq "pass" 64 (OLED13.pass c) (OLED13.pass c') /\
      stored rq "tz" 39 (OLED13.tz c) (OLED13.tz c')).
Proof.
  split.
  - intros rq c. cbv zeta.
    unfold HW630.handleSettingsSave, HW630.handlePortalSave, HW630.store_args.
    cbn [fst].
    pose proof (stored_strlcpy rq "ssid" 32 (HW630.ssid c)) as Hs.
    pose proof (stored_strlcpy rq "pass" 64 (HW630.pass c)) as Hp.
    pose proof (stored_strlcpy rq "tz" 39 (HW630.tzInfo c)) as Ht.
    destruct (hasArg rq "ssid"), (hasArg rq "pass"), (hasArg rq "tz");
      cbn; repeat split; assumption.
  - intros rq c. cbv zeta.
    unfold OLED13.handleSettingsSave, OLED13.arg_or_keep. cbn.
    repeat split; apply stored_strlcpy.
Qed.

(** X4.  The strings of the configuration stay terminated inside their
    arrays: the defaults that [loadConfig] installs on a wrong magic byte
    are, a stored record that is terminated is loaded terminated, and
    whatever a request carries, the records that the settings form and the
    portal form store are terminated when the configuration was. *)
Theorem config_strings_stay_terminated :
  (forall e, HW630.magic e <> HW630.EEPROM_MAGIC \/ HW630_terminated e ->
             HW630_terminated (HW630.loadConfig e)) /\
  (forall rq c, HW630_terminated c ->
                HW630_terminated (fst (HW630.handleSettingsSave rq c)) /\
                HW630_terminated (fst (HW630.handlePortalSave rq c))) /\
  (forall e, OLED13.magic e <> OLED13.EEPROM_MAGIC \/ OLED13_terminated e ->
             OLED13_terminated (OLED13.loadCfg e)) /\
  (forall rq c, OLED13_terminated c ->
                OLED13_terminated (fst (OLED13.handleSettingsSave rq c)) /\
                OLED13_terminated (fst (OLED13.handlePortalSave rq c))) /\
  (forall e, ESP01.magic e <> ESP01.EEPROM_MAGIC \/ ESP01_terminated e ->
             ESP01_terminated (ESP01.loadConfig e)) /\
  (forall rq c, ESP01_terminated c ->
                ESP01_terminated (fst (ESP01.handleSettingsSave rq c)) /\
                ESP01_terminated (fst (ESP01.handlePortalSave rq c))) /\
  (forall e, ESP32.magic e <> ESP32.EEPROM_MAGIC \/ ESP32_terminated e ->
             ESP32_terminated (fst (ESP32.loadConfig e)) /\
             ESP32_terminated (snd (ESP32.loadConfig e))) /\
  (forall rq c, ESP32_terminated c ->
                ESP32_terminated (fst (ESP32.handleSettingsSave rq c))).
Proof.
  split; [| split; [| split; [| split; [| split; [| split; [| split]]]]]].
  - intros e Hor.
    destruct (HW630_loadConfig_cases e) as [[Hm ->] | [Hm ->]].
    + destruct Hor as [Hn | Ht]; [now elim Hn | exact Ht].
    + literal_fits.
  - intros rq c (H1 & H2 & H3).
    unfold HW630.handleSettingsSave, HW630.handlePortalSave, HW630.store_args.
    cbn [fst].
    pose proof (fits_strlcpy_or_keep rq "ssid" 32 _ H1) as G1.
    pose proof (fits_strlcpy_or_keep rq "pass" 64 _ H2) as G2.
    pose proof (fits_strlcpy_or_keep rq "tz" 39 _ H3) as G3.
    destruct (hasArg rq "ssid"), (hasArg rq "pass"), (hasArg rq "tz");
      cbn; repeat split; assumption.
  - intros e Hor.
    destruct (OLED13_loadCfg_cases e) as [[Hm ->] | [Hm ->]].
    + destruct Hor as [Hn | Ht]; [now elim Hn | exact Ht].
    + literal_fits.
  - intros rq c (H1 & H2 & H3). split.
    + unfold OLED13.handleSettingsSave, OLED13.arg_or_keep. cbn.
      repeat split; now apply fits_strlcpy_or_keep.
    + rewrite OLED13_portal_image. unfold OLED13.arg_or_keep. cbn.
      repeat split; try (now apply fits_strlcpy_or_keep). exact H3.
  - intros e Hor.
    destruct (ESP01_loadConfig_cases e) as [[Hm ->] | [Hm ->]].
    + destruct Hor as [Hn | Ht]; [now elim Hn | exact Ht].
    + literal_fits.
  - intros rq c (H1 & H2 & H3 & H4 & H5 & H6 & H7). split.
    + unfold ESP01.handleSettingsSave, ESP01.arg_or_keep. cbn.
      repeat split; now apply fits_strlcpy_or_keep.
    + rewrite ESP01_portal_image. unfold ESP01.arg_or_keep. cbn.
      repeat split; try (now apply fits_strlcpy_or_keep); assumption.
  - intros e Hor.
    destruct (ESP32_loadConfig_cases e) as [[Hm ->] | [Hm ->]].
    + destruct Hor as [Hn | Ht]; [now elim Hn | split; exact Ht].
    + cbn [fst snd]. split; literal_fits.
  - intros rq c (H1 & H2 & H3 & H4 & H5 & H6 & H7).
    unfold ESP32.handleSettingsSave, ESP32.arg_or_keep. cbn.
    repeat split; now apply fits_strlcpy_or_keep.
Qed.

Lemma config_strings_stay_terminated_witness :
  (HW630.magic Samples.hw630_blank <> HW630.EEPROM_MAGIC /\
   HW630_terminated (HW630.loadConfig Samples.hw630_blank)) /\
  (ESP01_terminated Samples.esp01_cfg /\
   ESP01_terminated
     (fst (ESP01.handleSettingsSave Cases.settings_request
             Samples.esp01_cfg))).
Proof.
  split.
  - assert (H : HW630.magic Samples.hw630_blank <> HW630.EEPROM_MAGIC)
      by (vm_compute; discriminate).
    split; [exact H |].
    exact (proj1 config_strings_stay_terminated Samples.hw630_blank
                 (or_introl H)).
  - assert (H : ESP01_terminated Samples.esp01_cfg).
    { repeat split; (eexists; split; [vm_compute; reflexivity | lia]). }
    split; [exact H |].
    exact (proj1 (proj1 (proj2 (proj2 (proj2 (proj2 (proj2
             config_strings_stay_terminated)))))
             Cases.settings_request Samples.esp01_cfg H)).
Defined.

(* ================================================================== *)
(** * The port number, shown and read back *)
(* ================================================================== *)

Module NumberFacts.

Open Scope Z_scope.

Lemma digit_val_char (d : Z) : 0 <= d < 10 -> digit_val (digit_char d) = Some d.
Proof.
  intros H.
  assert (C : d = 0 \/ d = 1 \/ d = 2 \/ d = 3 \/ d = 4 \/ d = 5 \/ d = 6 \/
              d = 7 \/ d = 8 \/ d = 9) by lia.
  repeat (destruct C as [-> | C]; [reflexivity |]). subst d. reflexivity.
Qed.

Lemma digit_char_plain (d : Z) :
  0 <= d < 10 ->
  is_space (digit_char d) = false /\
  Ascii.eqb (digit_char d) "-"%char = false /\
  Ascii.eqb (digit_char d) "+"%char = false.
Proof.
  intros H.
  assert (C : d = 0 \/ d = 1 \/ d = 2 \/ d = 3 \/ d = 4 \/ d = 5 \/ d = 6 \/
              d = 7 \/ d = 8 \/ d = 9) by lia.
  repeat (destruct C as [-> | C]; [repeat split |]). subst d. repeat split.
Qed.

(** Reading back the digits of [n] appends them to what was read. *)
Lemma digits_val_dec (fuel : nat) :
  forall (n : Z) (acc : list ascii),
    0 <= n < 10 ^ Z.of_nat (S fuel) ->
    exists k : Z,
      0 < k /\ n < 10 ^ k /\
      forall a, digits_val a (dec_digits (S fuel) n acc) =
                digits_val (a * 10 ^ k + n) acc.
Proof.
  induction fuel as [| fuel IH]; intros n acc Hn.
  - exists 1. change (10 ^ Z.of_nat 1) with 10 in Hn.
    split; [lia |]. split; [lia |]. intros a.
    cbn [dec_digits].
    assert (n / 10 = 0) as -> by (apply Z.div_small; lia).
    rewrite Z.mod_small by lia. cbn [Z.eqb digits_val].
    rewrite digit_val_char by lia. f_equal. lia.
  - cbn [dec_digits]. destruct (n / 10 =? 0) eqn:E.
    + apply Z.eqb_eq in E.
      assert (n < 10).
      { pose proof (Z.div_mod n 10 ltac:(lia)).
        pose proof (Z.mod_pos_bound n 10 ltac:(lia)). lia. }
      exists 1. split; [lia |]. split; [lia |]. intros a.
      rewrite Z.mod_small by lia. cbn [digits_val].
      rewrite digit_val_char by lia. f_equal. lia.
    + assert (Hq : 0 <= n / 10 < 10 ^ Z.of_nat (S fuel)).
      { split; [apply Z.div_pos; lia |].
        apply Z.div_lt_upper_bound; [lia |].
        replace (Z.of_nat (S (S fuel))) with (Z.of_nat (S fuel) + 1) in Hn
          by lia.
        rewrite Z.pow_add_r in Hn by lia. lia. }
      destruct (IH (n / 10) (digit_char (n mod 10) :: acc) Hq)
        as (k & Hk & Hlt & Hd).
      exists (k + 1). split; [lia |]. split.
      * rewrite Z.pow_add_r by lia.
        pose proof (Z.div_mod n 10 ltac:(lia)).
        pose proof (Z.mod_pos_bound n 10 ltac:(lia)). lia.
      * intros a. rewrite Hd. cbn [digits_val].
        rewrite digit_val_char by (apply Z.mod_pos_bound; lia).
        f_equal. rewrite Z.pow_add_r by lia.
        pose proof (Z.div_mod n 10 ltac:(lia)). lia.
Qed.

Lemma dec_digits_head (fuel : nat) :
  forall (n : Z) (acc : list ascii),
    exists d rest, 0 <= d < 10 /\ dec_digits (S fuel) n acc = digit_char d :: rest.
Proof.
  induction fuel as [| fuel IH]; intros n acc.
  - cbn [dec_digits]. exists (n mod 10), acc.
    split; [apply Z.mod_pos_bound; lia |]. now destruct (n / 10 =? 0).
  - cbn [dec_digits]. destruct (n / 10 =? 0).
    + exists (n mod 10), acc. split; [apply Z.mod_pos_bound; lia | reflexivity].
    + apply IH.
Qed.

(** [toInt] reads back the decimal digits of a number, up to the largest
    [long]. *)
Lemma toInt_dec_digits (n : Z) :
  0 <= n < 10 ^ 20 -> toInt (dec_digits 20 n []) = Z.min n LONG_MAX.
Proof.
  intros Hn.
  destruct (dec_digits_head 19 n []) as (d & rest & Hd & E).
  destruct (digits_val_dec 19 n [] Hn) as (k & _ & _ & Hk).
  specialize (Hk 0). rewrite E in Hk.
  unfold toInt. rewrite E. cbn [skip_space].
  destruct (digit_char_plain d Hd) as (-> & -> & ->).
  rewrite Hk. cbn [digits_val].
  replace (0 * 10 ^ k + n) with n by lia.
  unfold saturate, LONG_MIN, LONG_MAX. lia.
Qed.

Lemma toInt_range (s : list ascii) : LONG_MIN <= toInt s <= LONG_MAX.
Proof. unfold toInt, saturate, LONG_MIN, LONG_MAX. lia. Qed.

(** Five digits fit in [portStr]. *)
Lemma dec_digits_length (fuel : nat) :
  forall (n : Z) (acc : list ascii) (k : nat),
    0 <= n < 10 ^ Z.of_nat (S k) -> (k <= fuel)%nat ->
    (length (dec_digits (S fuel) n acc) <= S k + length acc)%nat /\
    (length acc < length (dec_digits (S fuel) n acc))%nat.
Proof.
  induction fuel as [| fuel IH]; intros n acc k Hn Hk.
  - assert (k = 0%nat) as -> by lia. change (10 ^ Z.of_nat 1) with 10 in Hn.
    cbn [dec_digits]. destruct (n / 10 =? 0); cbn [length]; lia.
  - cbn [dec_digits]. destruct (n / 10 =? 0) eqn:E; [cbn [length]; lia |].
    apply Z.eqb_neq in E.
    destruct k as [| k].
    { change (10 ^ Z.of_nat 1) with 10 in Hn.
      elim E. apply Z.div_small. lia. }
    assert (Hq : 0 <= n / 10 < 10 ^ Z.of_nat (S k)).
    { split; [apply Z.div_pos; lia |].
      apply Z.div_lt_upper_bound; [lia |].
      replace (Z.of_nat (S (S k))) with (Z.of_nat (S k) + 1) in Hn by lia.
      rewrite Z.pow_add_r in Hn by lia. lia. }
    destruct (IH (n / 10) (digit_char (n mod 10) :: acc) k Hq ltac:(lia))
      as [L1 L2].
    cbn [length dec_digits] in L1, L2. lia.
Qed.

Close Scope Z_scope.

End NumberFacts.

Import NumberFacts.

(** X3.  [handleSettingsSave] of ESP01_OLED_V2.ino and ESP32_OLED_V1.ino
    does the same for its eight strings.  The port becomes the number read
    from its argument, reduced modulo 65536, and stays when the argument is
    absent.  The number read is a [long]: digits that spell a larger number
    read as 2147483647, so that the port stored is 65535.  In
    ESP32_OLED_V1.ino the LED option is the one field that does
    not stay when its argument is absent: it becomes 1 when the request
    carries [led], whatever its value, and 0 otherwise. *)
Theorem mqtt_settings_save :
  (forall rq c,
      let c' := fst (ESP01.handleSettingsSave rq c) in
      ESP01.magic c' = ESP01.EEPROM_MAGIC /\
      stored rq "ssid" 32 (ESP01.ssid c) (ESP01.ssid c') /\
      stored rq "pass" 64 (ESP01.pass c) (ESP01.pass c') /\
      stored rq "tz" 39 (ESP01.tzInfo c) (ESP01.tzInfo c') /\
      stored rq "mqttHost" 64 (ESP01.mqttHost c) (ESP01.mqttHost c') /\
      stored rq "mqttUser" 32 (ESP01.mqttUser c) (ESP01.mqttUser c') /\
      stored rq "mqttPass" 64 (ESP01.mqttPass c) (ESP01.mqttPass c') /\
      stored rq "mqttTopic" 64 (ESP01.mqttTopic c) (ESP01.mqttTopic c') /\
      ESP01.mqttPort c' =
        (if hasArg rq "mqttPort"
         then (toInt (arg rq "mqttPort") mod 65536)%Z
         else ESP01.mqttPort c)) /\
  (forall rq c,
      let c' := fst (ESP32.handleSettingsSave rq c) in
      ESP32.magic c' = ESP32.EEPROM_MAGIC /\
      stored rq "ssid" 32 (ESP32.ssid c) (ESP32.ssid c') /\
      stored rq "pass" 64 (ESP32.pass c) (ESP32.pass c') /\
      stored rq "tz" 39 (ESP32.tzInfo c) (ESP32.tzInfo c') /\
      stored rq "mqsrv" 64 (ESP32.mqttServer c) (ESP32.mqttServer c') /\
      stored rq "mquser" 32 (ESP32.mqttUser c) (ESP32.mqttUser c') /\
      stored rq "mqpass" 64 (ESP32.mqttPass c) (ESP32.mqttPass c') /\
      stored rq "mqtopic" 64 (ESP32.mqttTopic c) (ESP32.mqttTopic c') /\
      ESP32.mqttPort c' =
        (if hasArg rq "mqport"
         then (toInt (arg rq "mqport") mod 65536)%Z
         else ESP32.mqttPort c) /\
      ESP32.ledBlink c' = (if hasArg rq "led" then 1 else 0)%Z) /\
  (forall s, (-2147483648 <= toInt s <= 2147483647)%Z) /\
  (forall n rq c,
      (0 <= n < 10 ^ 20)%Z ->
      hasArg rq "mqttPort" = true ->
      arg rq "mqttPort" = dec_digits 20 n [] ->
      ESP01.mqttPort (fst (ESP01.handleSettingsSave rq c)) =
        (Z.min n 2147483647 mod 65536)%Z) /\
  (forall n rq c,
      (0 <= n < 10 ^ 20)%Z ->
      hasArg rq "mqport" = true ->
      arg rq "mqport" = dec_digits 20 n [] ->
      ESP32.mqttPort (fst (ESP32.handleSettingsSave rq c)) =
        (Z.min n 2147483647 mod 65536)%Z).
Proof.
  split; [| split; [| split; [| split]]].
  - intros rq c. cbv zeta.
    unfold ESP01.handleSettingsSave, ESP01.arg_or_keep. cbn.
    repeat split; try apply stored_strlcpy.
  - intros rq c. cbv zeta.
    unfold ESP32.handleSettingsSave, ESP32.arg_or_keep. cbn.
    repeat split; try apply stored_strlcpy.
  - exact toInt_range.
  - intros n rq c Hn Ha Ev. unfold ESP01.handleSettingsSave. cbn.
    rewrite Ha, Ev, toInt_dec_digits by exact Hn. reflexivity.
  - intros n rq c Hn Ha Ev. unfold ESP32.handleSettingsSave. cbn.
    rewrite Ha, Ev, toInt_dec_digits by exact Hn. reflexivity.
Qed.

Lemma mqtt_settings_save_witness :
  ((0 <= 2147483648 < 10 ^ 20)%Z /\
   hasArg (mk_req "/settings" HTTP_POST
             [("mqttPort"%string, list_ascii_of_string "2147483648")])
          "mqttPort" = true /\
   arg (mk_req "/settings" HTTP_POST
          [("mqttPort"%string, list_ascii_of_string "2147483648")])
       "mqttPort" = dec_digits 20 2147483648 [] /\
   ESP01.mqttPort
     (fst (ESP01.handleSettingsSave
             (mk_req "/settings" HTTP_POST
                [("mqttPort"%string, list_ascii_of_string "2147483648")])
             Samples.esp01_cfg)) = 65535%Z) /\
  ((0 <= 70000 < 10 ^ 20)%Z /\
   ESP32.mqttPort
     (fst (ESP32.handleSettingsSave
             (mk_req "/settings" HTTP_POST
                [("mqport"%string, list_ascii_of_string "70000")])
             Samples.esp32_cfg)) = 4464%Z).
Proof.
  split.
  - assert (H1 : (0 <= 2147483648 < 10 ^ 20)%Z) by lia.
    assert (H2 : hasArg (mk_req "/settings" HTTP_POST
                           [("mqttPort"%string,
                             list_ascii_of_string "2147483648")])
                        "mqttPort" = true) by reflexivity.
    assert (H3 : arg (mk_req "/settings" HTTP_POST
                        [("mqttPort"%string,
                          list_ascii_of_string "2147483648")])
                     "mqttPort" = dec_digits 20 2147483648 [])
      by reflexivity.
    split; [exact H1 |]. split; [exact H2 |]. split; [exact H3 |].
    exact (proj1 (proj2 (proj2 (proj2 mqtt_settings_save)))
                 2147483648%Z _ Samples.esp01_cfg H1 H2 H3).
  - assert (H1 : (0 <= 70000 < 10 ^ 20)%Z) by lia.
    split; [exact H1 |].
    exact (proj2 (proj2 (proj2 (proj2 mqtt_settings_save)))
                 70000%Z
                 (mk_req "/settings" HTTP_POST
                    [("mqport"%string, list_ascii_of_string "70000")])
                 Samples.esp32_cfg H1 eq_refl eq_refl).
Defined.


(** X5.  The MQTT port survives the settings form: [handleSettings] of
    ESP01_OLED_V2.ino formats the port with [%d] into [portStr], which
    holds it whole, and when a request brings these digits back (as the
    decimal digits of the port come back in ESP32_OLED_V1.ino), the port
    that [handleSettingsSave] stores is the same number.  An empty port
    argument stores the port 0. *)
Theorem port_round_trip :
  forall p : Z,
    (0 <= p < 65536)%Z ->
    c_str (snprintf_d 6 p) = Some (dec_digits 20 p []) /\
    (forall rq c,
        hasArg rq "mqttPort" = true ->
        arg rq "mqttPort" = dec_digits 20 p [] ->
        ESP01.mqttPort (fst (ESP01.handleSettingsSave rq c)) = p) /\
    (forall rq c,
        hasArg rq "mqport" = true ->
        arg rq "mqport" = dec_digits 20 p [] ->
        ESP32.mqttPort (fst (ESP32.handleSettingsSave rq c)) = p) /\
    (forall rq c,
        hasArg rq "mqttPort" = true -> arg rq "mqttPort" = [] ->
        ESP01.mqttPort (fst (ESP01.handleSettingsSave rq c)) = 0%Z) /\
    (forall rq c,
        hasArg rq "mqport" = true -> arg rq "mqport" = [] ->
        ESP32.mqttPort (fst (ESP32.handleSettingsSave rq c)) = 0%Z).
Proof.
  intros p Hp.
  assert (R : toInt (dec_digits 20 p []) = p).
  { rewrite toInt_dec_digits by lia. unfold LONG_MAX. lia. }
  assert (S0 : forall s, skip_space s = [] -> toInt s = 0%Z).
  { intros s E. unfold toInt. now rewrite E. }
  split; [| split; [| split; [| split]]].
  - unfold snprintf_d.
    assert (P : (10 ^ Z.of_nat 5 = 100000)%Z) by reflexivity.
    destruct (dec_digits_length 19 p [] 4) as [L _]; [lia | lia |].
    cbn [length] in L.
    rewrite firstn_all2 by (cbn [Nat.sub]; lia).
    destruct (6 - length (dec_digits 20 p [])) as [| k] eqn:E; [lia |].
    cbn [repeat]. apply c_str_app_nul, dec_digits_nul_free. intros [].
  - intros rq c Ha Ev. unfold ESP01.handleSettingsSave. cbn.
    rewrite Ha, Ev, R. unfold u16. apply Z.mod_small.
    change (2 ^ 16)%Z with 65536%Z. lia.
  - intros rq c Ha Ev. unfold ESP32.handleSettingsSave. cbn.
    rewrite Ha, Ev, R. unfold u16. apply Z.mod_small.
    change (2 ^ 16)%Z with 65536%Z. lia.
  - intros rq c Ha Ev. unfold ESP01.handleSettingsSave. cbn.
    rewrite Ha, Ev. reflexivity.
  - intros rq c Ha Ev. unfold ESP32.handleSettingsSave. cbn.
    rewrite Ha, Ev. reflexivity.
Qed.

Lemma port_round_trip_witness :
  (0 <= 8883 < 65536)%Z /\
  c_str (snprintf_d 6 8883) = Some (dec_digits 20 8883 []) /\
  ESP01.mqttPort
    (fst (ESP01.handleSettingsSave (Cases.port_request "mqttPort")
            Samples.esp01_cfg)) = 8883%Z /\
  ESP32.mqttPort
    (fst (ESP32.handleSettingsSave (Cases.port_request "mqport")
            Samples.esp32_cfg)) = 8883%Z.
Proof.
  assert (H : (0 <= 8883 < 65536)%Z) by lia.
  split; [exact H |].
  destruct (port_round_trip 8883 H) as (H1 & H2 & H3 & _).
  split; [exact H1 |]. split.
  - apply H2; reflexivity.
  - apply H3; reflexivity.
Defined.

(* ================================================================== *)
(** * Which requests restart the device *)
(* ================================================================== *)

Module RestartFacts.

(** In a session the routes are those of the mode chosen at boot. *)
Lemma HW630_routes_mode (T : buffer) (s : HW630.State) :
  HW630.reachable T s ->
  HW630.routes s =
    if HW630.apMode s
    then [("/"%string, None, HW630.h_handlePortal);
          ("/save"%string, Some HTTP_POST, HW630.h_handlePortalSave);
          ("/settings"%string, Some HTTP_GET, HW630.h_handleSettings);
          ("/settings"%string, Some HTTP_POST, HW630.h_handleSettingsSave);
          ("/api/data"%string, None, HW630.h_handleAPI)]
    else [("/"%string, None, HW630.h_handleRoot);
          ("/settings"%string, Some HTTP_GET, HW630.h_handleSettings);
          ("/settings"%string, Some HTTP_POST, HW630.h_handleSettingsSave);
          ("/api/data"%string, None, HW630.h_handleAPI)].
Proof.
  induction 1 as [fuel e w s w' ops Hs | i s ev s' _ IH Hl].
  - eapply HW630_setup_routes; eauto.
  - apply HW630_loop_frame in Hl as (_ & Ha & Hr & _). now rewrite Hr, Ha.
Qed.

Lemma ESP01_routes_mode (T : buffer) (s : ESP01.State) :
  ESP01.reachable T s ->
  ESP01.routes s =
    if ESP01.apMode s
    then [("/"%string, None, ESP01.h_handlePortal);
          ("/save"%string, Some HTTP_POST, ESP01.h_handlePortalSave);
          ("/settings"%string, Some HTTP_GET, ESP01.h_handleSettings);
          ("/settings"%string, Some HTTP_POST, ESP01.h_handleSettingsSave);
          ("/api/data"%string, None, ESP01.h_handleAPI)]
    else [("/"%string, None, ESP01.h_handleRoot);
          ("/settings"%string, Some HTTP_GET, ESP01.h_handleSettings);
          ("/settings"%string, Some HTTP_POST, ESP01.h_handleSettingsSave);
          ("/api/data"%string, None, ESP01.h_handleAPI)].
Proof.
  induction 1 as [fuel e w s w' ops Hs | i s ev s' _ IH Hl].
  - unfold ESP01.setup in Hs. cbv zeta in Hs.
    apply bind_Some in Hs as ([[ok w1] o1] & _ & Hs).
    destruct ok; injection Hs as <- _ _; reflexivity.
  - apply ESP01_loop_frame in Hl as (_ & Ha & Hr & _). now rewrite Hr, Ha.
Qed.

Lemma OLED13_routes_mode (T : buffer) (s : OLED13.State) :
  OLED13.reachable T s ->
  OLED13.routes s =
    if OLED13.apMode s
    then [("/"%string, None, OLED13.h_handlePortal);
          ("/save"%string, Some HTTP_POST, OLED13.h_handlePortalSave);
          ("/settings"%string, Some HTTP_GET, OLED13.h_handleSettings);
          ("/settings"%string, Some HTTP_POST, OLED13.h_handleSettingsSave);
          ("/api/data"%string, None, OLED13.h_handleAPI)]
    else [("/"%string, None, OLED13.h_handleRoot);
          ("/settings"%string, Some HTTP_GET, OLED13.h_handleSettings);
          ("/settings"%string, Some HTTP_POST, OLED13.h_handleSettingsSave);
          ("/api/data"%string, None, OLED13.h_handleAPI)].
Proof.
  induction 1 as [fuel e w s w' ops Hs | i s ev s' _ IH Hl].
  - unfold OLED13.setup in Hs. cbv zeta in Hs.
    apply bind_Some in Hs as ([[ok w1] o1] & _ & Hs).
    destruct ok; injection Hs as <- _ _; reflexivity.
  - apply OLED13_loop_frame in Hl as (_ & Ha & Hr & _). now rewrite Hr, Ha.
Qed.

Lemma ESP32_routes_fixed (s : ESP32.State) :
  ESP32.reachable s ->
  ESP32.routes s =
    [("/"%string, Some HTTP_GET, ESP32.h_handleRoot);
     ("/settings"%string, Some HTTP_GET, ESP32.h_handleSettings);
     ("/settings"%string, Some HTTP_POST, ESP32.h_handleSettingsSave);
     ("/api/data"%string, Some HTTP_GET, ESP32.h_handleAPI);
     ("/reboot"%string, Some HTTP_POST, ESP32.h_handleReboot)].
Proof.
  induction 1 as [fuel c0 e w s w' e' ops Hs | i s ev s' _ IH Hl].
  - apply ESP32_setup_routes in Hs. rewrite Hs. reflexivity.
  - apply ESP32_loop_routes in Hl. congruence.
Qed.

End RestartFacts.

Import RestartFacts.

Ltac neq_path :=
  repeat match goal with
    | N : ?p <> ?a |- context [String.eqb ?p ?a] =>
        rewrite (proj2 (String.eqb_neq p a) N)
    | N : ?p <> ?a |- context [String.eqb ?a ?p] =>
        rewrite (proj2 (String.eqb_neq a p) (not_eq_sym N))
    end.

Ltac route_cases path :=
  destruct (String.eqb_spec path "/settings") as [-> | ?];
  [| destruct (String.eqb_spec path "/save") as [-> | ?];
     [| destruct (String.eqb_spec path "/reboot") as [-> | ?];
        [| destruct (String.eqb_spec path "/") as [-> | ?];
           [| destruct (String.eqb_spec path "/api/data") as [-> | ?]]]]];
  neq_path;
  cbn [find method_eqb andb orb fst snd String.eqb Ascii.eqb Bool.eqb
       option_map].

Ltac served :=
  try congruence;
  match goal with
  | |- Some _ = Some _ -> _ => intros [= _ <-]; reflexivity
  | |- (let '(_, _) := ?x in _) = Some _ -> _ =>
      destruct x; intros [= _ <-]; reflexivity
  | |- _ = Some _ -> _ =>
      let H := fresh in
      intros H; apply bind_Some in H as (? & _ & [= _ <-]); reflexivity
  | |- _ => idtac
  end.

(** X6.  In a session a request restarts the device exactly when it is a
    POST to [/settings], or a POST to [/save] while the setup portal is up
    (ESP32_OLED_V1.ino: a POST to [/settings] or to [/reboot]); the record
    written before the restart is the one the form handler builds, and
    [/reboot] writes none.  Every other request, a GET in particular,
    leaves the configuration, EEPROM and the globals as they are. *)
Theorem restart_only_on_post :
  (forall T heap rq s,
      HW630.reachable T s ->
      forall ops o,
        HW630.handleClient T heap rq s = Some (ops, o) ->
        if method_eqb (req_method rq) HTTP_POST &&
           String.eqb (req_path rq) "/settings"
        then o = HW630.Restarted
                   (fst (HW630.handleSettingsSave rq (HW630.cfg s)))
        else if method_eqb (req_method rq) HTTP_POST &&
                String.eqb (req_path rq) "/save" && HW630.apMode s
        then o = HW630.Restarted
                   (fst (HW630.handlePortalSave rq (HW630.cfg s)))
        else o = HW630.Running s) /\
  (forall T heap rq s,
      ESP01.reachable T s ->
      forall ops o,
        ESP01.handleClient T heap rq s = Some (ops, o) ->
        if method_eqb (req_method rq) HTTP_POST &&
           String.eqb (req_path rq) "/settings"
        then o = ESP01.Restarted
                   (fst (ESP01.handleSettingsSave rq (ESP01.cfg s)))
        else if method_eqb (req_method rq) HTTP_POST &&
                String.eqb (req_path rq) "/save" && ESP01.apMode s
        then o = ESP01.Restarted
                   (fst (ESP01.handlePortalSave rq (ESP01.cfg s)))
        else o = ESP01.Running s) /\
  (forall T heap rq s,
      OLED13.reachable T s ->
      forall ops o,
        OLED13.handleClient T heap rq s = Some (ops, o) ->
        if method_eqb (req_method rq) HTTP_POST &&
           String.eqb (req_path rq) "/settings"
        then o = OLED13.Restarted
                   (fst (OLED13.handleSettingsSave rq (OLED13.cfg s)))
        else if method_eqb (req_method rq) HTTP_POST &&
                String.eqb (req_path rq) "/save" && OLED13.apMode s
        then o = OLED13.Restarted
                   (fst (OLED13.handlePortalSave rq (OLED13.cfg s)))
        else o = OLED13.Running s) /\
  (forall rq s,
      ESP32.reachable s ->
      snd (ESP32.handleClient rq s) =
        if method_eqb (req_method rq) HTTP_POST &&
           String.eqb (req_path rq) "/settings"
        then ESP32.Restarted
               (Some (fst (ESP32.handleSettingsSave rq (ESP32.cfg s))))
        else if method_eqb (req_method rq) HTTP_POST &&
                String.eqb (req_path rq) "/reboot"
        then ESP32.Restarted None
        else ESP32.Running s).
Proof.
  split; [| split; [| split]].
  - intros T heap rq s R ops o.
    unfold HW630.handleClient, HW630.lookup_route, HW630.route_matches.
    rewrite (HW630_routes_mode T s R).
    destruct rq as [path m args]. cbn [req_path req_method].
    destruct (HW630.apMode s), m; cbn [find method_eqb andb orb];
      route_cases path; served.
  - intros T heap rq s R ops o.
    unfold ESP01.handleClient, ESP01.lookup_route, ESP01.route_matches.
    rewrite (ESP01_routes_mode T s R).
    destruct rq as [path m args]. cbn [req_path req_method].
    destruct (ESP01.apMode s), m; cbn [find method_eqb andb orb];
      route_cases path; served.
  - intros T heap rq s R ops o.
    unfold OLED13.handleClient, OLED13.lookup_route, OLED13.route_matches.
    rewrite (OLED13_routes_mode T s R).
    destruct rq as [path m args]. cbn [req_path req_method].
    destruct (OLED13.apMode s), m; cbn [find method_eqb andb orb];
      route_cases path; served.
  - intros rq s R.
    unfold ESP32.handleClient, ESP32.lookup_route, ESP32.route_matches.
    rewrite (ESP32_routes_fixed s R).
    destruct rq as [path m args]. cbn [req_path req_method].
    destruct m; cbn [find method_eqb andb orb];
      route_cases path; try congruence; reflexivity.
Qed.

Lemma restart_only_on_post_witness :
  (HW630.reachable Samples.settings_html Samples.hw630_booted /\
   exists ops,
     HW630.handleClient Samples.settings_html None Cases.settings_request
                        Samples.hw630_booted =
       Some (ops,
             HW630.Restarted
               (fst (HW630.handleSettingsSave Cases.settings_request
                       (HW630.cfg Samples.hw630_booted))))) /\
  (ESP32.reachable Samples.esp32_booted /\
   snd (ESP32.handleClient (mk_req "/reboot" HTTP_POST [])
                           Samples.esp32_booted) = ESP32.Restarted None /\
   snd (ESP32.handleClient (mk_req "/reboot" HTTP_GET [])
                           Samples.esp32_booted) =
     ESP32.Running Samples.esp32_booted).
Proof.
  split.
  - split; [apply hw630_booted_reachable |].
    destruct (HW630.handleClient Samples.settings_html None
                Cases.settings_request Samples.hw630_booted)
      as [[ops o] |] eqn:E.
    + exists ops.
      rewrite (proj1 restart_only_on_post Samples.settings_html None
                 Cases.settings_request Samples.hw630_booted
                 (hw630_booted_reachable _) ops o E).
      reflexivity.
    + vm_compute in E. discriminate E.
  - split; [exact esp32_booted_reachable |]. split.
    + exact (proj2 (proj2 (proj2 restart_only_on_post))
                   (mk_req "/reboot" HTTP_POST []) Samples.esp32_booted
                   esp32_booted_reachable).
    + exact (proj2 (proj2 (proj2 restart_only_on_post))
                   (mk_req "/reboot" HTTP_GET []) Samples.esp32_booted
                   esp32_booted_reachable).
Defined.

(* ================================================================== *)
(** * How long a boot takes *)
(* ================================================================== *)

Module DurationFacts.

Open Scope Z_scope.

(** The wait loop of [wifiConnect] as a count of polls that found the link
    down. *)
Lemma wifiConnect_wait_polls (fuel : nat) (w : World) :
  (61 <= fuel)%nat ->
  exists j : nat,
    (j <= 60)%nat /\
    HW630.wifiConnect_wait fuel (millis w) w =
      Some (mk_world (uptime w + 250 * Z.of_nat j) (link_up w)) /\
    (forall i : nat, (i < j)%nat ->
                     link_up w (uptime w + 250 * Z.of_nat i) = false) /\
    (link_up w (uptime w + 250 * Z.of_nat j) = true \/ j = 60%nat).
Proof.
  intros Hf. destruct w as [t0 link].
  destruct (wifiConnect_wait_spec link t0 60 0 fuel)
    as (j & Hj & E & Hdown & Hend); [reflexivity | lia |].
  exists j. unfold millis, millis_of. cbn [uptime link_up].
  replace (t0 + 250 * Z.of_nat 0) with t0 in E by lia.
  split; [lia |]. split; [exact E |]. split; [| exact Hend].
  intros i Hi. apply Hdown. lia.
Qed.

Lemma connectWiFi_wait_polls (fuel : nat) (w : World) :
  (31 <= fuel)%nat ->
  exists j : nat,
    (j <= 30)%nat /\
    ESP32.connectWiFi_wait fuel 0 w =
      Some (mk_world (uptime w + 500 * Z.of_nat j) (link_up w)) /\
    (forall i : nat, (i < j)%nat ->
                     link_up w (uptime w + 500 * Z.of_nat i) = false) /\
    (link_up w (uptime w + 500 * Z.of_nat j) = true \/ j = 30%nat).
Proof.
  intros Hf. destruct w as [t0 link].
  destruct (connectWiFi_wait_spec link t0 30 0 fuel)
    as (j & Hj & E & Hdown & Hend); [reflexivity | lia |].
  exists j. cbn [uptime link_up].
  replace (t0 + 500 * Z.of_nat 0) with t0 in E by lia.
  change (Z.of_nat 0) with 0 in E.
  split; [lia |]. split; [exact E |]. split; [| exact Hend].
  intros i Hi. apply Hdown. lia.
Qed.

Close Scope Z_scope.

End DurationFacts.

Import DurationFacts.

(** The boot of an ESP8266 sketch, [wait] being its copy of the wait
    loop. *)
Ltac boot_time setup wifiConnect wait ssid_of :=
  let fuel := fresh "fuel" in
  let e := fresh "e" in
  let w := fresh "w" in
  let Hfuel := fresh "Hfuel" in
  let Hempty := fresh "Hempty" in
  let j := fresh "j" in
  let Hj := fresh "Hj" in
  let Ewait := fresh "Ewait" in
  let Hdown := fresh "Hdown" in
  let Hend := fresh "Hend" in
  let Hconn := fresh "Hconn" in
  let Habs := fresh "Habs" in
  intros fuel e w Hfuel;
  unfold setup, wifiConnect; cbv zeta;
  match goal with
  | |- context [is_nul (nth 0 ?ssid NUL)] =>
      destruct (is_nul (nth 0 ssid NUL)) eqn:Hempty
  end;
  [ cbn [bind]; exists 0; do 3 eexists;
    split; [reflexivity |]; split; [lia |];
    split; [cbn; lia |];
    split; [intros i Hi; lia |];
    split; [discriminate | reflexivity]
  | change wait with HW630.wifiConnect_wait;
    match goal with
    | |- context [HW630.wifiConnect_wait fuel (millis ?w1) ?w1] =>
        destruct (wifiConnect_wait_polls fuel w1 Hfuel)
          as (j & Hj & Ewait & Hdown & Hend)
    end;
    rewrite Ewait; cbn [bind];
    cbn [uptime link_up delay] in Hdown, Hend;
    unfold WL_CONNECTED; cbn [uptime link_up];
    match goal with
    | |- context [if ?c then Some (true, _, _) else _] =>
        destruct c eqn:Hconn
    end;
    exists j; do 3 eexists;
    (split; [reflexivity |]; split; [exact Hj |];
     split; [cbn; lia |];
     split; [exact Hdown |];
     split; [try discriminate; intros _; exact Hconn |];
     change (is_nul (nth 0 (ssid_of e) NUL) = false) in Hempty;
     cbv beta in Hempty;
     intros Habs; apply first_char_empty in Habs; congruence) ].

(** X7.  [setup] always comes to an end, and the time it spends in
    [delay] is known: the fixed waits of the sketch, 250 ms for every poll
    of [wifiConnect] that finds the station link down (500 ms in
    ESP32_OLED_V1.ino, for a configuration whose strings are terminated),
    and 100 ms more where an ESP8266 sketch opens the access point.  There
    are at most 60 such polls (30), none when the SSID is empty, and the
    wait ends at the first poll that finds the link up: the waits of an
    ESP8266 sketch add up to at most 15.5 s, those of ESP32_OLED_V1.ino to
    at most 17 s. *)
Theorem boot_duration :
  (forall (fuel : nat) (e : HW630.DevConfig) (w : World),
      (61 <= fuel)%nat ->
      exists (j : nat) s w' ops,
        HW630.setup fuel e w = Some (s, w', ops) /\
        (j <= 60)%nat /\
        uptime w' = (uptime w + 200 + 250 * Z.of_nat j
                     + (if HW630.apMode s then 100 else 0))%Z /\
        (forall i : nat, (i < j)%nat ->
            link_up w (uptime w + 200 + 250 * Z.of_nat i)%Z = false) /\
        (HW630.apMode s = false ->
         link_up w (uptime w + 200 + 250 * Z.of_nat j)%Z = true) /\
        (text_of (HW630.ssid (HW630.loadConfig e)) = [] -> j = 0%nat)) /\
  (forall (fuel : nat) (e : ESP01.DevConfig) (w : World),
      (61 <= fuel)%nat ->
      exists (j : nat) s w' ops,
        ESP01.setup fuel e w = Some (s, w', ops) /\
        (j <= 60)%nat /\
        uptime w' = (uptime w + 200 + 200 + 250 * Z.of_nat j
                     + (if ESP01.apMode s then 100 else 0))%Z /\
        (forall i : nat, (i < j)%nat ->
            link_up w (uptime w + 200 + 200 + 250 * Z.of_nat i)%Z = false) /\
        (ESP01.apMode s = false ->
         link_up w (uptime w + 200 + 200 + 250 * Z.of_nat j)%Z = true) /\
        (text_of (ESP01.ssid (ESP01.loadConfig e)) = [] -> j = 0%nat)) /\
  (forall (fuel : nat) (e : OLED13.DevConfig) (w : World),
      (61 <= fuel)%nat ->
      exists (j : nat) s w' ops,
        OLED13.setup fuel e w = Some (s, w', ops) /\
        (j <= 60)%nat /\
        uptime w' = (uptime w + 200 + 100 + 250 * Z.of_nat j
                     + (if OLED13.apMode s then 100 else 0))%Z /\
        (forall i : nat, (i < j)%nat ->
            link_up w (uptime w + 200 + 100 + 250 * Z.of_nat i)%Z = false) /\
        (OLED13.apMode s = false ->
         link_up w (uptime w + 200 + 100 + 250 * Z.of_nat j)%Z = true) /\
        (text_of (OLED13.ssid (OLED13.loadCfg e)) = [] -> j = 0%nat)) /\
  (forall (fuel : nat) (connected : bool) (e : ESP32.DevConfig) (w : World),
      (31 <= fuel)%nat ->
      fits (ESP32.ssid (fst (ESP32.loadConfig e))) 32 ->
      fits (ESP32.mqttServer (fst (ESP32.loadConfig e))) 64 ->
      fits (ESP32.mqttUser (fst (ESP32.loadConfig e))) 32 ->
      exists (j : nat) s w' e' ops,
        ESP32.setup fuel connected e w = Some (s, w', e', ops) /\
        (j <= 30)%nat /\
        uptime w' = (uptime w + 500 * Z.of_nat j + 2000)%Z /\
        (forall i : nat, (i < j)%nat ->
            link_up w (uptime w + 500 * Z.of_nat i)%Z = false) /\
        (ESP32.apMode s = false ->
         link_up w (uptime w + 500 * Z.of_nat j)%Z = true) /\
        (text_of (ESP32.ssid (fst (ESP32.loadConfig e))) = [] -> j = 0%nat)).
Proof.
  split; [| split; [| split]].
  - boot_time HW630.setup HW630.wifiConnect HW630.wifiConnect_wait
              (fun e => HW630.ssid (HW630.loadConfig e)).
  - boot_time ESP01.setup ESP01.wifiConnect ESP01.wifiConnect_wait
              (fun e => ESP01.ssid (ESP01.loadConfig e)).
  - boot_time OLED13.setup OLED13.wifiConnect OLED13.wifiConnect_wait
              (fun e => OLED13.ssid (OLED13.loadCfg e)).
  - intros fuel connected e w Hfuel Hssid Hsrv Huser.
    unfold ESP32.setup.
    destruct (ESP32.loadConfig e) as [c e'] eqn:Eload. cbn [fst] in *.
    cbv zeta. change (ESP32.cfg (ESP32.set_cfg c ESP32.boot_state)) with c.
    destruct Hssid as (n1 & Hn1 & _). destruct Hsrv as (n2 & Hn2 & _).
    destruct (strlen_pos_text _ _ Hn1) as (has_ssid & E1 & Hhas1).
    destruct (strlen_pos_text _ _ Hn2) as (has_mqtt & E2 & Hhas2).
    rewrite E1. cbn [bind].
    destruct has_ssid.
    + assert (Hne : ~ text_of (ESP32.ssid c) = [])
        by (intros Habs; apply Hhas1 in Habs; discriminate).
      unfold ESP32.connectWiFi.
      destruct (connectWiFi_wait_polls fuel w Hfuel)
        as (j & Hj & Ewait & Hdown & Hend).
      rewrite Ewait. cbn [bind]. unfold WL_CONNECTED. cbn [uptime link_up].
      destruct (link_up w (uptime w + 500 * Z.of_nat j)%Z) eqn:Hconn.
      * change (ESP32.cfg (ESP32.set_apMode false
                             (ESP32.set_cfg c ESP32.boot_state))) with c.
        rewrite E2. cbn [bind].
        destruct has_mqtt.
        -- unfold ESP32.setupMQTT.
           match goal with
           | |- context [ESP32.mqttReconnect connected ?m1 ?m2 ?s0] =>
               destruct (ESP32_mqttReconnect_total connected m1 m2 s0)
                 as (mops & [Er | Er]); [exact Huser | |]
           end;
             rewrite Er; cbn [bind fst snd];
             exists j; do 4 eexists;
             (split; [reflexivity |]; split; [exact Hj |];
              split; [reflexivity |]; split; [exact Hdown |];
              split; [intros _; exact Hconn | intros Habs; now elim Hne]).
        -- exists j. do 4 eexists.
           split; [reflexivity |]. split; [exact Hj |].
           split; [reflexivity |]. split; [exact Hdown |].
           split; [intros _; exact Hconn | intros Habs; now elim Hne].
      * exists j. do 4 eexists.
        split; [reflexivity |]. split; [exact Hj |].
        split; [reflexivity |]. split; [exact Hdown |].
        split; [discriminate | intros Habs; now elim Hne].
    + exists 0. do 4 eexists.
      split; [reflexivity |]. split; [lia |].
      split; [cbn; lia |]. split; [intros i Hi; lia |].
      split; [discriminate | reflexivity].
Qed.

Lemma boot_duration_witness :
  (61 <= 61)%nat /\
  exists (j : nat) s w' ops,
    HW630.setup 61 Samples.hw630_cfg (Samples.world_up_at 3000) =
      Some (s, w', ops) /\
    (j <= 60)%nat /\
    uptime w' = (uptime (Samples.world_up_at 3000) + 200 + 250 * Z.of_nat j
                 + (if HW630.apMode s then 100 else 0))%Z /\
    (forall i : nat, (i < j)%nat ->
        link_up (Samples.world_up_at 3000)
                (uptime (Samples.world_up_at 3000) + 200
                 + 250 * Z.of_nat i)%Z = false) /\
    (HW630.apMode s = false ->
     link_up (Samples.world_up_at 3000)
             (uptime (Samples.world_up_at 3000) + 200
              + 250 * Z.of_nat j)%Z = true) /\
    (text_of (HW630.ssid (HW630.loadConfig Samples.hw630_cfg)) = [] ->
     j = 0%nat).
Proof.
  assert (H : (61 <= 61)%nat) by lia.
  split; [exact H |].
  exact (proj1 boot_duration 61 Samples.hw630_cfg (Samples.world_up_at 3000)
               H).
Defined.

(* ================================================================== *)
(** * Signal bars and the LED *)
(* ================================================================== *)

Module LedFacts.

Open Scope Z_scope.



Lemma ESP32_blinkLED_led (m1 m2 : Z) (s : ESP32.State) (b : bool) :
  In (ESP32.digitalWrite_LED b) (snd (ESP32.blinkLED m1 m2 s)) ->
  ESP32.ledBlink (ESP32.cfg s) <> 0 /\
  1000 <= u32 (m1 - ESP32.lastLed s) /\
  b = negb (ESP32.ledState s) /\
  ESP32.ledState (fst (ESP32.blinkLED m1 m2 s)) = b /\
  ESP32.lastLed (fst (ESP32.blinkLED m1 m2 s)) = m2.
Proof.
  unfold ESP32.blinkLED.
  destruct (ESP32.ledBlink (ESP32.cfg s) =? 0) eqn:E0; [intros [] |].
  destruct (u32 (m1 - ESP32.lastLed s) <? 1000) eqn:E; [intros [] |].
  apply Z.eqb_neq in E0. apply Z.ltb_ge in E. cbv zeta. cbn [snd fst].
  intros [[= <-] | []]. repeat split; assumption.
Qed.

(** What the steps of [loop] before [blinkLED] leave of the LED. *)
Lemma ESP32_before_blink i (s s1 : ESP32.State) net :
  ESP32.loop_net i s = Some (s1, net) ->
  ESP32.ledState s1 = ESP32.ledState s /\ ESP32.lastLed s1 = ESP32.lastLed s.
Proof.
  unfold ESP32.loop_net.
  destruct (ESP32.apMode s); [intros [= <- _]; now split |].
  destruct (ESP32.mqttEnabled s); [| intros [= <- _]; now split].
  intros H. apply bind_Some in H as ([s2 o2] & H1 & [= <- _]). cbn [fst].
  destruct (negb (ESP32.in_connected1 i)).
  - apply ESP32_mqttReconnect_frame in H1 as [-> | ->]; now split.
  - injection H1 as <- _. now split.
Qed.

Lemma ESP32_updateOLED_led (m1 m2 : Z) ti c (s : ESP32.State) :
  let s' := fst (ESP32.updateOLED m1 m2 ti c s) in
  ESP32.ledState s' = ESP32.ledState s /\ ESP32.lastLed s' = ESP32.lastLed s.
Proof.
  unfold ESP32.updateOLED.
  destruct (_ <? _)%Z; [now cbn |]. cbv zeta.
  destruct (ESP32.apMode (ESP32.set_lastOled m2 s)); [now cbn |].
  destruct ti as [t |]; [| now cbn].
  destruct (_ =? _)%Z; now cbn.
Qed.

Close Scope Z_scope.

End LedFacts.

Import LedFacts.

(** X8.  The signal bars of 8266_HW_630.ino: the number of bars is between
    0 and 4 and never falls when the signal gets stronger; the four bars
    are drawn left to right with heights 3, 6, 9 and 12 on the base line
    y = 12, the first [rssi_bars] of them filled and the others outlined;
    and [oledUpdate] draws rectangles on the clock screen in station mode
    only, all of them within the 16 by 12 pixels of the top right corner. *)
Theorem signal_bars :
  (forall r1 r2 : Z,
      (r1 <= r2)%Z -> (HW630.rssi_bars r1 <= HW630.rssi_bars r2)%Z) /\
  (forall rssi : Z,
      exists b : nat,
        HW630.rssi_bars rssi = Z.of_nat b /\ b <= 4 /\
        map (HW630.draw_bar (HW630.rssi_bars rssi)) [0; 1; 2; 3]%Z =
          firstn b [oled_fillRect 112 9 3 3; oled_fillRect 116 6 3 6;
                    oled_fillRect 120 3 3 9; oled_fillRect 124 0 3 12]
          ++ skipn b [oled_drawRect 112 9 3 3; oled_drawRect 116 6 3 6;
                      oled_drawRect 120 3 3 9; oled_drawRect 124 0 3 12]) /\
  (forall m1 m2 rssi s x y w h,
      In (oled_fillRect x y w h) (snd (HW630.oledUpdate m1 m2 rssi s)) \/
      In (oled_drawRect x y w h) (snd (HW630.oledUpdate m1 m2 rssi s)) ->
      HW630.apMode s = false /\ HW630.synced (HW630.ntpData s) = true /\
      (112 <= x)%Z /\ (x + w <= 128)%Z /\ (0 <= y)%Z /\ (y + h = 12)%Z).
Proof.
  split; [| split].
  - intros r1 r2 H. unfold HW630.rssi_bars.
    repeat match goal with
           | |- context [(?a <? ?b)%Z] => destruct (Z.ltb_spec a b)
           end; lia.
  - intros rssi. unfold HW630.rssi_bars.
    destruct (-55 <? rssi)%Z; [exists 4; repeat split; lia |].
    destruct (-70 <? rssi)%Z; [exists 3; repeat split; lia |].
    destruct (-80 <? rssi)%Z; [exists 2; repeat split; lia |].
    destruct (-90 <? rssi)%Z; [exists 1; repeat split; lia |].
    exists 0; repeat split; lia.
  - intros m1 m2 rssi s x y w h. unfold HW630.oledUpdate.
    destruct (u32 (m1 - HW630.lastOledUpdate s) <? 500)%Z;
      [intros [[] | []] |].
    cbv zeta.
    change (HW630.ntpData (HW630.set_lastOledUpdate m2 s))
      with (HW630.ntpData s).
    change (HW630.apMode (HW630.set_lastOledUpdate m2 s))
      with (HW630.apMode s).
    destruct (HW630.synced (HW630.ntpData s)), (HW630.apMode s);
      cbn [negb snd app map]; unfold HW630.rssi_bars;
      repeat match goal with
             | |- context [(?a <? rssi)%Z] => destruct (a <? rssi)%Z
             end;
      cbn; intros H;
      repeat match type of H with
             | _ \/ _ => destruct H as [H | H]
             | False => destruct H
             | _ = _ => try discriminate H;
                        injection H as <- <- <- <-; repeat split; lia
             end.
Qed.

Lemma signal_bars_witness :
  ((-80 <= -60)%Z /\ (HW630.rssi_bars (-80) <= HW630.rssi_bars (-60))%Z) /\
  (In (oled_drawRect 124 0 3 12)
      (snd (HW630.oledUpdate 6000 6000 (-60) Cases.hw630_synced)) /\
   HW630.apMode Cases.hw630_synced = false /\
   HW630.synced (HW630.ntpData Cases.hw630_synced) = true).
Proof.
  split.
  - assert (H : (-80 <= -60)%Z) by lia.
    split; [exact H | exact (proj1 signal_bars (-80)%Z (-60)%Z H)].
  - assert (H : In (oled_drawRect 124 0 3 12)
                   (snd (HW630.oledUpdate 6000 6000 (-60)
                           Cases.hw630_synced)))
      by (vm_compute; do 4 right; left; reflexivity).
    split; [exact H |].
    destruct (proj2 (proj2 signal_bars) 6000%Z 6000%Z (-60)%Z
                    Cases.hw630_synced 124%Z 0%Z 3%Z 12%Z (or_intror H))
      as (H1 & H2 & _).
    split; assumption.
Defined.




(** X10.  The LED of ESP32_OLED_V1.ino.  A pass of [loop] writes the LED
    only when the LED option of the configuration is on and 1000 ms have
    passed since the LED was last written, and it writes the opposite of
    the level before; a call of [blinkLED] less than 1000 ms after the
    uptime stored by the last toggle does nothing, also when [millis()]
    has wrapped in between. *)
Theorem led_blink_option :
  (forall i s ev o b,
      ESP32.loop i s = Some (ev, o) ->
      In (ESP32.digitalWrite_LED b) ev ->
      ESP32.ledBlink (ESP32.cfg s) <> 0%Z /\
      (1000 <= u32 (ESP32.in_millis_l1 i - ESP32.lastLed s))%Z /\
      b = negb (ESP32.ledState s)) /\
  (forall s T U m2,
      ESP32.lastLed s = u32 T -> (T <= U < T + 1000)%Z ->
      ESP32.blinkLED (u32 U) m2 s = (s, [])) /\
  (forall s m1 m2,
      ESP32.ledBlink (ESP32.cfg s) <> 0%Z ->
      (1000 <= u32 (m1 - ESP32.lastLed s))%Z ->
      ESP32.blinkLED m1 m2 s =
        (ESP32.set_ledState (negb (ESP32.ledState s))
           (ESP32.set_lastLed m2 s),
         [ESP32.digitalWrite_LED (negb (ESP32.ledState s))])).
Proof.
  split; [| split].
  - intros i s ev o b. unfold ESP32.loop. intros H.
    apply bind_Some in H as ([s1 net] & Hn & H).
    pose proof (ESP32_before_blink i s s1 net Hn) as (L1 & L2).
    apply ESP32_loop_net_frame in Hn as (Nc & _).
    destruct (match ESP32.in_request i with
              | Some rq => ESP32.handleClient rq s1
              | None => ([], ESP32.Running s1)
              end) as [http o'] eqn:Eh.
    destruct o' as [s2 | e].
    + assert (s2 = s1) as ->.
      { destruct (ESP32.in_request i) as [rq |].
        - now apply ESP32_handleClient_running in Eh.
        - now injection Eh as _ <-. }
      pose proof (ESP32_updateOLED_led (ESP32.in_millis_o1 i)
                    (ESP32.in_millis_o2 i) (ESP32.in_local_o i)
                    (ESP32.in_connected_o i) s1) as (U1 & U2).
      pose proof (ESP32_updateOLED_frame (ESP32.in_millis_o1 i)
                    (ESP32.in_millis_o2 i) (ESP32.in_local_o i)
                    (ESP32.in_connected_o i) s1) as (Uc & _).
      destruct (ESP32.updateOLED _ _ _ _ s1) as [s3 draw].
      cbn [fst] in U1, U2, Uc.
      pose proof (ESP32_blinkLED_led (ESP32.in_millis_l1 i)
                    (ESP32.in_millis_l2 i) s3 b) as Hb.
      destruct (ESP32.blinkLED _ _ s3) as [s4 led]. cbn [fst snd] in Hb.
      destruct (ESP32.loop_publish i s4) as [s5 pub].
      injection H as <- _. intros Hin.
      assert (Hl : In (ESP32.digitalWrite_LED b) led).
      { repeat (apply in_app_or in Hin as [Hin | Hin]);
          try exact Hin;
          apply in_map_iff in Hin as (op & Hop & _); discriminate Hop. }
      apply Hb in Hl as (B1 & B2 & B3 & _).
      repeat split; congruence.
    + injection H as <- _. intros Hin.
      apply in_app_or in Hin as [Hin | Hin];
        apply in_map_iff in Hin as (op & Hop & _); discriminate Hop.
  - intros s T U m2 Hlast HU. unfold ESP32.blinkLED.
    destruct (ESP32.ledBlink (ESP32.cfg s) =? 0)%Z; [reflexivity |].
    rewrite Hlast.
    assert (E : (u32 (u32 U - u32 T) < 1000)%Z).
    { replace U with (T + (U - T))%Z at 1 by lia.
      rewrite u32_elapsed. pose proof (u32_small (U - T)). lia. }
    apply Z.ltb_lt in E. now rewrite E.
  - intros s m1 m2 Hon Hel. unfold ESP32.blinkLED.
    apply Z.eqb_neq in Hon. rewrite Hon.
    apply Z.ltb_ge in Hel. rewrite Hel. reflexivity.
Qed.

Lemma led_blink_option_witness :
  (ESP32.lastLed (ESP32.set_lastLed 4294967000 Samples.esp32_booted) =
     u32 4294967000 /\
   (4294967000 <= 4294967500 < 4294967000 + 1000)%Z /\
   ESP32.blinkLED (u32 4294967500) 204
                  (ESP32.set_lastLed 4294967000 Samples.esp32_booted) =
     (ESP32.set_lastLed 4294967000 Samples.esp32_booted, [])) /\
  (ESP32.ledBlink (ESP32.cfg Samples.esp32_booted) <> 0%Z /\
   (1000 <= u32 (5000 - ESP32.lastLed Samples.esp32_booted))%Z /\
   ESP32.blinkLED 5000 5001 Samples.esp32_booted =
     (ESP32.set_ledState (negb (ESP32.ledState Samples.esp32_booted))
        (ESP32.set_lastLed 5001 Samples.esp32_booted),
      [ESP32.digitalWrite_LED (negb (ESP32.ledState Samples.esp32_booted))])).
Proof.
  split.
  - assert (H1 : ESP32.lastLed
                   (ESP32.set_lastLed 4294967000 Samples.esp32_booted) =
                 u32 4294967000) by reflexivity.
    assert (H2 : (4294967000 <= 4294967500 < 4294967000 + 1000)%Z) by lia.
    split; [exact H1 |]. split; [exact H2 |].
    exact (proj1 (proj2 led_blink_option) _ 4294967000%Z 4294967500%Z 204%Z
                 H1 H2).
  - assert (H1 : ESP32.ledBlink (ESP32.cfg Samples.esp32_booted) <> 0%Z)
      by (vm_compute; discriminate).
    assert (H2 : (1000 <= u32 (5000 - ESP32.lastLed Samples.esp32_booted))%Z)
      by (vm_compute; discriminate).
    split; [exact H1 |]. split; [exact H2 |].
    exact (proj2 (proj2 led_blink_option) Samples.esp32_booted 5000%Z 5001%Z
                 H1 H2).
Defined.

(* ================================================================== *)
(** * Facts about formatted output *)
(* ================================================================== *)

Module PrintfFacts.
Import Printf.

Open Scope Z_scope.

Lemma dec_nul_free (n : Z) : nul_free (dec n).
Proof. apply dec_digits_nul_free. intros []. Qed.

(** A number below [10 ^ k] has between 1 and [k] digits. *)
Lemma dec_length (n : Z) (k : nat) :
  0 <= n < 10 ^ Z.of_nat k -> (1 <= k <= 20)%nat ->
  (1 <= length (dec n) <= k)%nat.
Proof.
  intros Hn Hk. destruct k as [| k]; [lia |].
  destruct (dec_digits_length 19 n [] k Hn ltac:(lia)) as [L1 L2].
  unfold dec. cbn [length] in L1, L2. lia.
Qed.

Lemma number_nonneg (zero : bool) (width : nat) (n : Z) :
  0 <= n ->
  number zero width n =
    repeat (if zero then "0"%char else " "%char) (width - length (dec n))
    ++ dec n.
Proof.
  intros Hn. unfold number.
  assert ((n <? 0) = false) as -> by (apply Z.ltb_ge; lia).
  rewrite Z.abs_eq by lia. cbn [length Nat.add app]. now destruct zero.
Qed.

Lemma number_plain (n : Z) : 0 <= n -> number false 0 n = dec n.
Proof. intros Hn. now rewrite number_nonneg. Qed.

Lemma number_length (zero : bool) (width : nat) (n : Z) :
  0 <= n ->
  length (number zero width n) = Nat.max width (length (dec n)).
Proof.
  intros Hn. rewrite number_nonneg by exact Hn.
  rewrite length_app, repeat_length. lia.
Qed.

Lemma nul_free_repeat (c : ascii) (n : nat) :
  c <> NUL -> nul_free (repeat c n).
Proof.
  intros Hc H. apply repeat_spec in H. congruence.
Qed.

Lemma number_nul_free (zero : bool) (width : nat) (n : Z) :
  nul_free (number zero width n).
Proof.
  unfold number.
  assert (S : nul_free (if n <? 0 then ["-"%char] else [])).
  { destruct (n <? 0); [| intros []].
    intros [H | []]. discriminate H. }
  destruct zero; repeat (apply nul_free_app; split);
    try exact S; try apply dec_nul_free;
    apply nul_free_repeat; discriminate.
Qed.

(** Two digits for a number below 100, four for a year of four digits. *)
Lemma number_two (n : Z) : 0 <= n < 100 -> length (number true 2 n) = 2%nat.
Proof.
  intros Hn. rewrite number_length by lia.
  pose proof (dec_length n 2 ltac:(change (10 ^ Z.of_nat 2) with 100; lia)
                ltac:(lia)). lia.
Qed.

Lemma number_four (n : Z) : 0 <= n < 10000 -> length (number true 4 n) = 4%nat.
Proof.
  intros Hn. rewrite number_length by lia.
  pose proof (dec_length n 4 ltac:(change (10 ^ Z.of_nat 4) with 10000; lia)
                ltac:(lia)). lia.
Qed.

Lemma u8_range (z : Z) : 0 <= u8 z < 256.
Proof. unfold u8. apply Z.mod_pos_bound. reflexivity. Qed.

Lemma u32_range (z : Z) : 0 <= u32 z < 4294967296.
Proof. unfold u32. apply Z.mod_pos_bound. reflexivity. Qed.

Lemma c_str_String (s : list ascii) :
  nul_free s -> c_str (String_c_str s) = Some s.
Proof. intros F. unfold String_c_str. now apply c_str_app_nul. Qed.

(** The names of the tables. *)
Lemma entry_name (table : list string) (i : Z) :
  0 <= i < Z.of_nat (length table) ->
  entry table i = Some (lit (nth (Z.to_nat i) table ""%string)).
Proof.
  intros Hi. unfold entry.
  assert ((0 <=? i) && (i <? Z.of_nat (length table)) = true) as ->.
  { apply andb_true_intro. split; [apply Z.leb_le | apply Z.ltb_lt]; lia. }
  rewrite (nth_error_nth' table ""%string) by lia. reflexivity.
Qed.

Lemma day_name (i : Z) :
  0 <= i <= 6 ->
  entry DAYS i = Some (lit (nth (Z.to_nat i) DAYS ""%string)) /\
  c_str (lit (nth (Z.to_nat i) DAYS ""%string)) =
    Some (list_ascii_of_string (nth (Z.to_nat i) DAYS ""%string)) /\
  length (list_ascii_of_string (nth (Z.to_nat i) DAYS ""%string)) = 3%nat /\
  nul_free (list_ascii_of_string (nth (Z.to_nat i) DAYS ""%string)).
Proof.
  intros Hi. split; [apply entry_name; cbn; lia |].
  assert (C : i = 0 \/ i = 1 \/ i = 2 \/ i = 3 \/ i = 4 \/ i = 5 \/ i = 6)
    by lia.
  repeat (destruct C as [-> | C];
          [repeat split; try reflexivity;
           cbn; intros H; repeat (destruct H as [H | H]; [discriminate H |]);
           exact H |]).
  subst i. repeat split; try reflexivity.
  cbn; intros H; repeat (destruct H as [H | H]; [discriminate H |]); exact H.
Qed.

Lemma month_name (i : Z) :
  0 <= i <= 11 ->
  entry MONTHS i = Some (lit (nth (Z.to_nat i) MONTHS ""%string)) /\
  c_str (lit (nth (Z.to_nat i) MONTHS ""%string)) =
    Some (list_ascii_of_string (nth (Z.to_nat i) MONTHS ""%string)) /\
  length (list_ascii_of_string (nth (Z.to_nat i) MONTHS ""%string)) = 3%nat /\
  nul_free (list_ascii_of_string (nth (Z.to_nat i) MONTHS ""%string)).
Proof.
  intros Hi. split; [apply entry_name; cbn; lia |].
  assert (C : i = 0 \/ i = 1 \/ i = 2 \/ i = 3 \/ i = 4 \/ i = 5 \/ i = 6 \/
              i = 7 \/ i = 8 \/ i = 9 \/ i = 10 \/ i = 11) by lia.
  repeat (destruct C as [-> | C];
          [repeat split; try reflexivity;
           cbn; intros H; repeat (destruct H as [H | H]; [discriminate H |]);
           exact H |]).
  subst i. repeat split; try reflexivity.
  cbn; intros H; repeat (destruct H as [H | H]; [discriminate H |]); exact H.
Qed.

(** [snprintf] when the output and its terminator fit. *)
Lemma snprintf_whole (b : buffer) (off : nat) (size : Z) (fmt : list ascii)
  (args : list Val) (out : list ascii) :
  vformat Plain fmt args = Some out ->
  Z.of_nat (length out) < size ->
  (off + length out + 1 <= length b)%nat ->
  snprintf b off size fmt args =
    Some (firstn off b ++ out ++ NUL :: skipn (off + length out + 1) b,
          Z.of_nat (length out)).
Proof.
  intros Hf Hs Hb. unfold snprintf. rewrite Hf. cbn [bind].
  assert ((size =? 0) = false) as -> by (apply Z.eqb_neq; lia).
  assert (Nat.min (length out) (Z.to_nat (size - 1)) = length out) as ->
    by lia.
  assert ((off + length out + 1 <=? length b)%nat = true) as ->
    by (apply Nat.leb_le; lia).
  now rewrite firstn_all.
Qed.

Lemma local_length (size : nat) (junk : nat -> ascii) :
  length (local size junk) = size.
Proof. unfold local. now rewrite length_map, length_seq. Qed.

(** The array after a whole [snprintf] at its start holds the output. *)
Lemma snprintf_array (size : nat) (sz : Z) (junk : nat -> ascii)
  (fmt : list ascii) (args : list Val) (out : list ascii) :
  sz = Z.of_nat size ->
  vformat Plain fmt args = Some out ->
  (length out < size)%nat -> nul_free out ->
  exists b, snprintf (local size junk) 0 sz fmt args =
              Some (b, Z.of_nat (length out)) /\
            c_str b = Some out.
Proof.
  intros -> Hf Hs Hn. eexists. split.
  - apply snprintf_whole; [exact Hf | lia | rewrite local_length; lia].
  - cbn [firstn app]. now apply c_str_app_nul.
Qed.

Close Scope Z_scope.

End PrintfFacts.

(* ================================================================== *)
(** * The status object *)
(* ================================================================== *)

Module StatusFacts.
Import Printf Status PrintfFacts.

Open Scope Z_scope.

(** The formats of [handleAPI], expanded. *)
Lemma fmt_heap_up (h u : Z) :
  vformat Plain (cq "{'heap':%u,'up':%lu") [VInt h; VInt u] =
    Some (cq "{'heap':" ++ number false 0 (u32 h) ++ cq ",'up':"
          ++ number false 0 (u32 u) ++ []).
Proof. reflexivity. Qed.

Lemma fmt_ip (p : buffer) (t : list ascii) :
  c_str p = Some t ->
  vformat Plain (cq ",'ip':'%s'") [VStr p] = Some (cq ",'ip':'" ++ t ++ cq "'").
Proof.
  intros H. cbn. rewrite H. reflexivity.
Qed.

Lemma fmt_tz (p : buffer) (t : list ascii) :
  c_str p = Some t ->
  vformat Plain (cq ",'tz':'%s'") [VStr p] = Some (cq ",'tz':'" ++ t ++ cq "'").
Proof.
  intros H. cbn. rewrite H. reflexivity.
Qed.

Lemma fmt_time (h m s : Z) :
  vformat Plain (cq "%02d:%02d:%02d") [VInt h; VInt m; VInt s] =
    Some (number true 2 h ++ cq ":" ++ number true 2 m ++ cq ":"
          ++ number true 2 s ++ []).
Proof. reflexivity. Qed.

Lemma fmt_date (d y : Z) (mon : buffer) (t : list ascii) :
  c_str mon = Some t ->
  vformat Plain (cq "%02d %s %04d") [VInt d; VStr mon; VInt y] =
    Some (number true 2 d ++ cq " " ++ t ++ cq " " ++ number true 4 y ++ []).
Proof.
  intros H. cbn. rewrite H. reflexivity.
Qed.

Lemma fmt_clock (tb db day : buffer) (t1 t2 t3 : list ascii) :
  c_str tb = Some t1 -> c_str db = Some t2 -> c_str day = Some t3 ->
  vformat Plain (cq ",'time':'%s','date':'%s','day':'%s'")
          [VStr tb; VStr db; VStr day] =
    Some (cq ",'time':'" ++ t1 ++ cq "','date':'" ++ t2 ++ cq "','day':'"
          ++ t3 ++ cq "'").
Proof.
  intros H1 H2 H3. cbn. rewrite H1. cbn. rewrite H2. cbn. rewrite H3.
  reflexivity.
Qed.

Lemma fmt_brace : vformat Plain (cq "}") [] = Some (cq "}").
Proof. reflexivity. Qed.

Lemma holding_length (pre : list ascii) (buf : buffer) :
  (length pre + 1 <= length buf)%nat ->
  length (holding pre buf) = length buf.
Proof.
  intros L. unfold holding. rewrite length_app. cbn [length].
  rewrite length_skipn. lia.
Qed.

Lemma holding_firstn (pre : list ascii) (buf : buffer) :
  firstn (length pre) (holding pre buf) = pre.
Proof. apply firstn_app_exact. Qed.

Lemma holding_c_str (pre : list ascii) (buf : buffer) :
  nul_free pre -> c_str (holding pre buf) = Some pre.
Proof. apply c_str_app_nul. Qed.

(** [append] when the output and its terminator fit behind [pre]. *)
Lemma append_whole (buf : buffer) (pre : list ascii) (fmt : string)
  (args : list Val) (out : list ascii) :
  firstn (length pre) buf = pre ->
  vformat Plain (cq fmt) args = Some out ->
  (length pre + length out + 1 <= length buf)%nat ->
  Z.of_nat (length buf) < 4294967296 ->
  append buf (Z.of_nat (length pre)) fmt args =
    Some (holding (pre ++ out) buf, Z.of_nat (length (pre ++ out))).
Proof.
  intros Hpre Hf Hlen Hbig. unfold append.
  assert ((0 <=? Z.of_nat (length pre)) &&
          (Z.of_nat (length pre) <=? Z.of_nat (length buf)) = true) as ->.
  { apply andb_true_intro. split; [apply Z.leb_le | apply Z.leb_le]; lia. }
  rewrite Nat2Z.id.
  rewrite (snprintf_whole buf (length pre) _ _ args out Hf).
  - cbn [bind fst snd]. unfold holding. rewrite Hpre, length_app.
    rewrite <- app_assoc. repeat f_equal; lia.
  - rewrite u32_small by lia. lia.
  - lia.
Qed.

Lemma append_first (size : nat) (junk : nat -> ascii) (fmt : string)
  (args : list Val) (out : list ascii) :
  vformat Plain (cq fmt) args = Some out ->
  (length out + 1 <= size)%nat -> Z.of_nat size < 4294967296 ->
  append (local size junk) 0 fmt args =
    Some (holding out (local size junk), Z.of_nat (length out)).
Proof.
  intros Hf Hlen Hbig.
  apply (append_whole (local size junk) [] fmt args out);
    rewrite ?local_length; try assumption; reflexivity.
Qed.

(** [buf[len] = c] right behind the text [pre]. *)
Lemma store_behind (buf : buffer) (pre : list ascii) (c : ascii) :
  firstn (length pre) buf = pre -> (length pre < length buf)%nat ->
  store buf (Z.of_nat (length pre)) c =
    Some (pre ++ c :: skipn (length pre + 1) buf).
Proof.
  intros Hpre L. unfold store.
  assert ((0 <=? Z.of_nat (length pre)) &&
          (Z.of_nat (length pre) <? Z.of_nat (length buf)) = true) as ->.
  { apply andb_true_intro. split; [apply Z.leb_le | apply Z.ltb_lt]; lia. }
  now rewrite Nat2Z.id, Hpre.
Qed.

Lemma fits_text (b : buffer) (cap : nat) :
  fits b cap ->
  c_str b = Some (text_of b) /\ (length (text_of b) <= cap)%nat /\
  nul_free (text_of b).
Proof.
  intros (n & Hn & L).
  destruct (strlen_Some _ _ Hn) as (s & r & -> & F & Hl).
  rewrite FieldFacts.text_of_app_nul.
  assert (T : text_of s = s).
  { clear - F. induction s as [| c s IH]; [reflexivity |].
    apply nul_free_cons in F as [Hc Hs]. simpl.
    apply is_nul_false in Hc. rewrite Hc. now rewrite IH. }
  rewrite T. split; [now apply c_str_app_nul |]. split; [lia | exact F].
Qed.

Lemma nul_free_literal (s : list ascii) :
  forallb (fun c => negb (is_nul c)) s = true -> nul_free s.
Proof.
  intros H Hin. rewrite forallb_forall in H. specialize (H _ Hin).
  discriminate H.
Qed.

Close Scope Z_scope.

End StatusFacts.

(* ================================================================== *)
(** * The copy of the time *)
(* ================================================================== *)

Module ClockFacts.
Import Printf.

Open Scope Z_scope.

Lemma valid_tm_ranges (t : tm) :
  valid_tm t = true ->
  0 <= tm_sec t <= 60 /\ 0 <= tm_min t <= 59 /\ 0 <= tm_hour t <= 23 /\
  1 <= tm_mday t <= 31 /\ 0 <= tm_mon t <= 11 /\ 70 <= tm_year t <= 8099 /\
  0 <= tm_wday t <= 6.
Proof.
  unfold valid_tm, in_range. intros H.
  repeat (apply andb_prop in H as [H ?]).
  repeat match goal with
         | H : (_ <=? _) = true |- _ => apply Z.leb_le in H
         end.
  lia.
Qed.

Lemma clock_ok_intro (h m s day mon year wday : Z) :
  0 <= h <= 23 -> 0 <= m <= 59 -> 0 <= s <= 60 -> 1 <= day <= 31 ->
  1 <= mon <= 12 -> 1970 <= year <= 9999 -> 0 <= wday <= 6 ->
  clock_ok h m s day mon year wday = true.
Proof.
  intros. unfold clock_ok, in_range.
  repeat (apply andb_true_intro; split); apply Z.leb_le; lia.
Qed.

Lemma u8_small (z : Z) : 0 <= z < 256 -> u8 z = z.
Proof. intros H. unfold u8. apply Z.mod_small. exact H. Qed.

Lemma u16_small (z : Z) : 0 <= z < 65536 -> u16 z = z.
Proof. intros H. unfold u16. apply Z.mod_small. exact H. Qed.

Close Scope Z_scope.

End ClockFacts.

Import ClockFacts.

(** X11.  [ntpUpdate] copies a broken-down time as it is: with the fields
    of [localtime] in their ranges nothing wraps in the narrow fields of
    the copy, the month counts from 1 and the year is the calendar year.
    Hence the copy is in its calendar ranges whenever it is synced: it is
    after [setup], and each pass of [loop] that is given such a time when
    the clock is set keeps it so.  In particular the day and the month
    always name an entry of the tables [DAYS] and [MONTHS]. *)
Theorem clock_copy_in_range :
  (forall now lt,
      Printf.valid_tm lt = true -> (100000 <= now)%Z ->
      (forall d,
          HW630.ntpUpdate now lt d =
            HW630.mk_ntp (tm_hour lt) (tm_min lt) (tm_sec lt) (tm_mday lt)
                         (tm_mon lt + 1) (tm_year lt + 1900) (tm_wday lt)
                         true) /\
      (forall d,
          ESP01.ntpUpdate now lt d =
            ESP01.mk_ntp (tm_hour lt) (tm_min lt) (tm_sec lt) (tm_mday lt)
                         (tm_mon lt + 1) (tm_year lt + 1900) (tm_wday lt)
                         true) /\
      (forall d,
          OLED13.ntpUpdate now lt d =
            OLED13.mk_ntp (tm_hour lt) (tm_min lt) (tm_sec lt) (tm_mday lt)
                          (tm_mon lt + 1) (tm_wday lt) (tm_year lt + 1900)
                          true)) /\
  (forall fuel e w s w' ops,
      HW630.setup fuel e w = Some (s, w', ops) ->
      HW630_in_range (HW630.ntpData s)) /\
  (forall T i s ev s',
      HW630_in_range (HW630.ntpData s) ->
      ((100000 <= HW630.in_time i)%Z ->
       Printf.valid_tm (HW630.in_local i) = true) ->
      HW630.loop T i s = Some (ev, HW630.Running s') ->
      HW630_in_range (HW630.ntpData s')) /\
  (forall fuel e w s w' ops,
      ESP01.setup fuel e w = Some (s, w', ops) ->
      ESP01_in_range (ESP01.ntpData s)) /\
  (forall T i s ev s',
      ESP01_in_range (ESP01.ntpData s) ->
      ((100000 <= ESP01.in_time i)%Z ->
       Printf.valid_tm (ESP01.in_local i) = true) ->
      ESP01.loop T i s = Some (ev, ESP01.Running s') ->
      ESP01_in_range (ESP01.ntpData s')) /\
  (forall fuel e w s w' ops,
      OLED13.setup fuel e w = Some (s, w', ops) ->
      OLED13_in_range (OLED13.ntp s)) /\
  (forall T i s ev s',
      OLED13_in_range (OLED13.ntp s) ->
      ((100000 <= OLED13.in_time i)%Z ->
       Printf.valid_tm (OLED13.in_local i) = true) ->
      OLED13.loop T i s = Some (ev, OLED13.Running s') ->
      OLED13_in_range (OLED13.ntp s')).
Proof.
  assert (U : forall now lt,
             Printf.valid_tm lt = true -> (100000 <= now)%Z ->
             (now <? 100000)%Z = false /\
             u8 (tm_hour lt) = tm_hour lt /\ u8 (tm_min lt) = tm_min lt /\
             u8 (tm_sec lt) = tm_sec lt /\ u8 (tm_mday lt) = tm_mday lt /\
             u8 (tm_mon lt + 1) = (tm_mon lt + 1)%Z /\
             u16 (tm_year lt + 1900) = (tm_year lt + 1900)%Z /\
             u8 (tm_wday lt) = tm_wday lt /\
             Printf.clock_ok (tm_hour lt) (tm_min lt) (tm_sec lt) (tm_mday lt)
               (tm_mon lt + 1) (tm_year lt + 1900) (tm_wday lt) = true).
  { intros now lt V N. apply valid_tm_ranges in V.
    split; [apply Z.ltb_ge; lia |].
    rewrite !u8_small, u16_small by lia.
    repeat split. apply clock_ok_intro; lia. }
  split; [| split; [| split; [| split; [| split; [| split]]]]].
  - intros now lt V N.
    destruct (U now lt V N) as (E & E1 & E2 & E3 & E4 & E5 & E6 & E7 & _).
    unfold HW630.ntpUpdate, ESP01.ntpUpdate, OLED13.ntpUpdate.
    rewrite E, E1, E2, E3, E4, E5, E6, E7. repeat split.
  - intros fuel e w s w' ops H Hs.
    rewrite (HW630_setup_unsynced _ _ _ _ _ _ H) in Hs. discriminate Hs.
  - intros T i s ev s' Inv Hv Hl.
    apply HW630_loop_frame in Hl as (_ & _ & _ & ->).
    unfold HW630.loop_ntp. destruct (negb (HW630.apMode s)); [| exact Inv].
    cbn [HW630.ntpData HW630.set_ntpData]. unfold HW630.ntpUpdate.
    destruct (HW630.in_time i <? 100000)%Z eqn:E; [exact Inv |].
    apply Z.ltb_ge in E.
    destruct (U _ _ (Hv E) E) as (_ & -> & -> & -> & -> & -> & -> & -> & Ok).
    intros _. exact Ok.
  - intros fuel e w s w' ops H Hs.
    rewrite (ESP01_setup_unsynced _ _ _ _ _ _ H) in Hs. discriminate Hs.
  - intros T i s ev s' Inv Hv Hl.
    apply ESP01_loop_frame in Hl as (_ & _ & _ & ->).
    unfold ESP01.loop_ntp. destruct (negb (ESP01.apMode s)); [| exact Inv].
    cbn [ESP01.ntpData ESP01.set_ntpData]. unfold ESP01.ntpUpdate.
    destruct (ESP01.in_time i <? 100000)%Z eqn:E; [exact Inv |].
    apply Z.ltb_ge in E.
    destruct (U _ _ (Hv E) E) as (_ & -> & -> & -> & -> & -> & -> & -> & Ok).
    intros _. exact Ok.
  - intros fuel e w s w' ops H Hs.
    rewrite (OLED13_setup_unsynced _ _ _ _ _ _ H) in Hs. discriminate Hs.
  - intros T i s ev s' Inv Hv Hl.
    apply OLED13_loop_frame in Hl as (_ & _ & _ & ->).
    unfold OLED13.loop_ntp. destruct (negb (OLED13.apMode s)); [| exact Inv].
    cbn [OLED13.ntp OLED13.set_ntp]. unfold OLED13.ntpUpdate.
    destruct (OLED13.in_time i <? 100000)%Z eqn:E; [exact Inv |].
    apply Z.ltb_ge in E.
    destruct (U _ _ (Hv E) E) as (_ & -> & -> & -> & -> & -> & -> & -> & Ok).
    intros _. exact Ok.
Qed.

Lemma clock_copy_in_range_witness :
  (Printf.valid_tm Samples.a_tm = true /\ (100000 <= Samples.a_time)%Z /\
   forall d,
     HW630.ntpUpdate Samples.a_time Samples.a_tm d =
       HW630.mk_ntp 10 20 30 17 5 2024 5 true) /\
  (HW630_in_range (HW630.ntpData Samples.hw630_booted) /\
   ((100000 <= HW630.in_time (Samples.hw630_pass 5000))%Z ->
    Printf.valid_tm (HW630.in_local (Samples.hw630_pass 5000)) = true) /\
   exists ev,
     HW630.loop Samples.settings_html (Samples.hw630_pass 5000)
                Samples.hw630_booted =
       Some (ev, HW630.Running Cases.hw630_synced) /\
     HW630_in_range (HW630.ntpData Cases.hw630_synced)).
Proof.
  split.
  - assert (H1 : Printf.valid_tm Samples.a_tm = true) by reflexivity.
    assert (H2 : (100000 <= Samples.a_time)%Z) by (vm_compute; discriminate).
    split; [exact H1 |]. split; [exact H2 |].
    exact (proj1 (proj1 clock_copy_in_range Samples.a_time Samples.a_tm
                        H1 H2)).
  - assert (H1 : HW630_in_range (HW630.ntpData Samples.hw630_booted))
      by (intros H; vm_compute in H; discriminate H).
    assert (H2 : (100000 <= HW630.in_time (Samples.hw630_pass 5000))%Z ->
                 Printf.valid_tm (HW630.in_local (Samples.hw630_pass 5000))
                 = true) by (intros _; reflexivity).
    split; [exact H1 |]. split; [exact H2 |].
    unfold Cases.hw630_synced, Samples.hw630_after.
    destruct (HW630.loop Samples.settings_html (Samples.hw630_pass 5000)
                         Samples.hw630_booted) as [[ev [s' | e]] |] eqn:E.
    + exists ev. split; [reflexivity |].
      exact (proj1 (proj2 (proj2 clock_copy_in_range)) _ _ _ _ _ H1 H2 E).
    + vm_compute in E. discriminate E.
    + vm_compute in E. discriminate E.
Defined.

Module StatusProof.
Import Printf Status PrintfFacts StatusFacts.

(** The length of a literal. *)
Ltac literal_lengths :=
  repeat match goal with
    | |- context [length (cq ?s)] =>
        let n := eval vm_compute in (length (cq s)) in
        change (length (cq s)) with n
    | H : context [length (cq ?s)] |- _ =>
        let n := eval vm_compute in (length (cq s)) in
        change (length (cq s)) with n in H
    end.

Ltac lengths :=
  rewrite ?length_app in *; literal_lengths; cbn [length] in *; lia.

Ltac literal_free := apply nul_free_literal; reflexivity.

Ltac free :=
  repeat first
    [ assumption
    | apply number_nul_free
    | apply dec_nul_free
    | literal_free
    | apply nul_free_app; split ].

Lemma clock_ok_ranges (h m s day mon year wday : Z) :
  clock_ok h m s day mon year wday = true ->
  (0 <= h <= 23 /\ 0 <= m <= 59 /\ 0 <= s <= 60 /\ 1 <= day <= 31 /\
   1 <= mon <= 12 /\ 1970 <= year <= 9999 /\ 0 <= wday <= 6)%Z.
Proof.
  unfold clock_ok, in_range. intros H.
  repeat (apply andb_prop in H as [H ?]).
  repeat match goal with
         | H : (_ <=? _)%Z = true |- _ => apply Z.leb_le in H
         end.
  lia.
Qed.

(** The text of the time and of the date. *)
Lemma time_text (h m s : Z) :
  (0 <= h <= 23)%Z -> (0 <= m <= 59)%Z -> (0 <= s <= 60)%Z ->
  let t := number true 2 h ++ cq ":" ++ number true 2 m ++ cq ":"
           ++ number true 2 s in
  length t = 8 /\ nul_free t.
Proof.
  intros Hh Hm Hs t. subst t.
  pose proof (number_two h ltac:(lia)). pose proof (number_two m ltac:(lia)).
  pose proof (number_two s ltac:(lia)).
  split; [lengths |].
  free.
Qed.

Lemma date_text (day mon year : Z) :
  (1 <= day <= 31)%Z -> (1 <= mon <= 12)%Z -> (1970 <= year <= 9999)%Z ->
  let t := number true 2 day ++ cq " " ++ name_of MONTHS (mon - 1) ++ cq " "
           ++ number true 4 year in
  length t = 11 /\ nul_free t.
Proof.
  intros Hd Hm Hy t. subst t. unfold name_of.
  pose proof (number_two day ltac:(lia)).
  pose proof (number_four year ltac:(lia)).
  destruct (month_name (mon - 1) ltac:(lia)) as (_ & _ & Lm & Fm).
  split; [lengths |].
  free.
Qed.

(** The shared statements leave the body of the status object at the start
    of the array, terminated. *)
Lemma status_fields_spec (size : nat) (junk : nat -> ascii) (e : Env)
  (ms : Z) (apMode : bool) (tz : buffer)
  (clock : option (Z * Z * Z * Z * Z * Z * Z)) :
  fits tz 39 -> address_text (localIP e) ->
  match clock with
  | Some (h, m, s, day, mon, year, wday) =>
      clock_ok h m s day mon year wday = true
  | None => True
  end ->
  154 <= size -> (Z.of_nat size < 4294967296)%Z ->
  let t := status_body (getFreeHeap e) ms
             (if apMode then None else Some (localIP e)) (text_of tz) clock in
  exists buf,
    status_fields size junk e ms apMode tz clock
      = Some (buf, Z.of_nat (length t)) /\
    firstn (length t) buf = t /\ length buf = size /\
    nul_free t /\ length t <= 152.
Proof.
  intros Htz (Fip & Lip) Hclock Hsize Hbig t.
  destruct (fits_text _ _ Htz) as (Ctz & Ltz & Ftz).
  pose proof (u32_range (getFreeHeap e)) as Rh.
  assert (Ru : (0 <= u32 ms / 1000 < 10000000)%Z).
  { pose proof (u32_range ms). split; [apply Z.div_pos; lia |].
    apply Z.div_lt_upper_bound; lia. }
  assert (Lh : 1 <= length (dec (u32 (getFreeHeap e))) <= 10).
  { apply dec_length; [| lia]. change (10 ^ Z.of_nat 10)%Z with 10000000000%Z.
    lia. }
  assert (Lu : 1 <= length (dec (u32 ms / 1000)) <= 7).
  { apply dec_length; [| lia]. change (10 ^ Z.of_nat 7)%Z with 10000000%Z.
    lia. }
  unfold status_fields. cbv zeta.
  (* heap and uptime *)
  rewrite (append_first size junk _ _ _ (fmt_heap_up _ _)).
  2:{ rewrite app_nil_r, !number_plain by (apply u32_range).
      rewrite (u32_small (u32 ms / 1000)) by lia. lengths. }
  2:{ lia. }
  cbn [bind].
  rewrite app_nil_r, !number_plain by (apply u32_range).
  rewrite (u32_small (u32 ms / 1000)) by lia.
  set (t1 := cq "{'heap':" ++ dec (u32 (getFreeHeap e)) ++ cq ",'up':"
             ++ dec (u32 ms / 1000)).
  assert (L1 : length t1 <= 31) by (unfold t1; lengths).
  assert (F1 : nul_free t1).
  { unfold t1. free. }
  assert (B1 : firstn (length t1) (holding t1 (local size junk)) = t1)
    by apply holding_firstn.
  assert (N1 : length (holding t1 (local size junk)) = size)
    by (rewrite holding_length; rewrite local_length; lia).
  set (b1 := holding t1 (local size junk)) in *. clearbody b1.
  (* the address *)
  set (t2 := t1 ++ if apMode then []
                   else cq ",'ip':'" ++ localIP e ++ cq "'").
  assert (L2 : length t2 <= 54)
    by (unfold t2; destruct apMode; lengths).
  assert (F2 : nul_free t2).
  { unfold t2. apply nul_free_app. split; [exact F1 |].
    destruct apMode; [intros [] | free]. }
  assert (S2 : exists b2,
             (if negb apMode
              then append b1 (Z.of_nat (length t1)) ",'ip':'%s'"
                     [VStr (String_c_str (localIP e))]
              else Some (b1, Z.of_nat (length t1))) =
               Some (b2, Z.of_nat (length t2)) /\
             firstn (length t2) b2 = t2 /\ length b2 = size).
  { unfold t2. destruct apMode; cbn [negb].
    - exists b1. rewrite app_nil_r. repeat split; assumption.
    - eexists. split; [| split].
      + apply append_whole; [exact B1 | | | lia].
        * apply fmt_ip. now apply c_str_String.
        * lengths.
      + apply holding_firstn.
      + rewrite holding_length; [exact N1 | lengths]. }
  destruct S2 as (b2 & -> & B2 & N2). cbn [bind].
  (* the timezone *)
  rewrite (append_whole b2 t2 _ _ _ B2 (fmt_tz _ _ Ctz)) by lengths.
  cbn [bind].
  set (t3 := t2 ++ cq ",'tz':'" ++ text_of tz ++ cq "'").
  assert (L3 : length t3 <= 101) by (unfold t3; lengths).
  assert (F3 : nul_free t3).
  { unfold t3. free. }
  assert (B3 : firstn (length t3) (holding t3 b2) = t3)
    by apply holding_firstn.
  assert (N3 : length (holding t3 b2) = size)
    by (rewrite holding_length; lia).
  set (b3 := holding t3 b2) in *. clearbody b3.
  assert (E3 : t3 = ((cq "{'heap':" ++ dec (u32 (getFreeHeap e)) ++ cq ",'up':"
                      ++ dec (u32 ms / 1000))
                     ++ match (if apMode then None else Some (localIP e)) with
                        | Some a => cq ",'ip':'" ++ a ++ cq "'"
                        | None => []
                        end)
                    ++ cq ",'tz':'" ++ text_of tz ++ cq "'").
  { unfold t3, t2, t1. now destruct apMode. }
  subst t. unfold status_body. rewrite <- E3.
  clearbody t3. clear E3.
  (* the clock *)
  destruct clock as [[[[[[[h m] sec] day] mon] year] wday] |].
  - apply clock_ok_ranges in Hclock
      as (Hh & Hm & Hs & Hd & Hmon & Hy & Hw).
    destruct (time_text h m sec Hh Hm Hs) as (Lt & Ft).
    destruct (date_text day mon year Hd Hmon Hy) as (Ld & Fd).
    destruct (month_name (mon - 1) ltac:(lia)) as (Em & Cm & Lm & Fm).
    destruct (day_name wday Hw) as (Ew & Cw & Lw & Fw).
    fold (name_of MONTHS (mon - 1)) in Cm, Lm, Fm.
    fold (name_of DAYS wday) in Cw, Lw, Fw.
    cbv zeta in Lt, Ft, Ld, Fd.
    destruct (snprintf_array 9 9 junk _ _ _ eq_refl (fmt_time h m sec))
      as (tb & -> & Ctb);
      [rewrite app_nil_r; lia | rewrite app_nil_r; exact Ft |].
    cbn [bind fst]. rewrite Em. cbn [bind].
    destruct (snprintf_array 16 16 junk _ _ _ eq_refl
                (fmt_date day year _ _ Cm))
      as (db & -> & Cdb);
      [rewrite app_nil_r; lia | rewrite app_nil_r; exact Fd |].
    cbn [bind fst]. rewrite Ew. cbn [bind].
    rewrite app_nil_r in Ctb, Cdb.
    eexists. split; [| split; [| split; [| split]]].
    + apply append_whole; [exact B3 | exact (fmt_clock _ _ _ _ _ _ Ctb Cdb Cw)
                          | lengths | lia].
    + apply holding_firstn.
    + rewrite holding_length; [exact N3 | lengths].
    + free.
    + lengths.
  - exists b3. rewrite app_nil_r. repeat split; try assumption. lia.
Qed.

(** Going through the shared statements stage by stage. *)
Ltac stages H :=
  repeat match type of H with
         | bind ?m _ = Some _ =>
             let E := fresh "E" in
             destruct m as [? |] eqn:E; cbn [bind] in H |- *;
             [| discriminate H]
         | (let '(_, _) := ?p in _) = Some _ =>
             destruct p; cbn [fst snd] in H |- *
         end;
  first [rewrite H | injection H as -> ->].

Lemma HW630_shares junk e ms (s : HW630.State) buf len :
  let d := HW630.ntpData s in
  status_fields 192 junk e ms (HW630.apMode s)
    (HW630.tzInfo (HW630.cfg s))
    (if HW630.synced d
     then Some (HW630.hour d, HW630.minute d, HW630.second d,
                HW630.day d, HW630.month d, HW630.year d, HW630.wday d)
     else None) = Some (buf, len) ->
  HW630_handleAPI junk e ms s =
    (buf <- store buf len "}"%char ;;
     buf <- store buf (len + 1)%Z NUL ;;
     body <- c_str buf ;;
     Some [send 200 (Some "application/json"%string) (BPage body)]).
Proof.
  intros d H. unfold HW630_handleAPI, status_fields in *. cbv zeta in *.
  fold d. destruct (HW630.synced d); stages H; reflexivity.
Qed.

Lemma ESP01_shares junk e ms (s : ESP01.State) buf len :
  let d := ESP01.ntpData s in
  status_fields 256 junk e ms (ESP01.apMode s)
    (ESP01.tzInfo (ESP01.cfg s))
    (if ESP01.synced d
     then Some (ESP01.hour d, ESP01.minute d, ESP01.second d,
                ESP01.day d, ESP01.month d, ESP01.year d, ESP01.wday d)
     else None) = Some (buf, len) ->
  ESP01_handleAPI junk e ms s =
    (r <- append buf len "}" [] ;;
     body <- c_str (fst r) ;;
     Some [send 200 (Some "application/json"%string) (BPage body)]).
Proof.
  intros d H. unfold ESP01_handleAPI, status_fields in *. cbv zeta in *.
  fold d. destruct (ESP01.synced d); stages H; cbn [bind];
    now destruct (append buf len "}" []) as [[? ?] |].
Qed.

Lemma OLED13_shares junk e ms (s : OLED13.State) buf len :
  let d := OLED13.ntp s in
  status_fields 200 junk e ms (OLED13.apMode s)
    (OLED13.tz (OLED13.cfg s))
    (if OLED13.ntpSynced d
     then Some (OLED13.ntpH d, OLED13.ntpM d, OLED13.ntpS d,
                OLED13.ntpDay d, OLED13.ntpMon d, OLED13.ntpYear d,
                OLED13.ntpWday d)
     else None) = Some (buf, len) ->
  OLED13_handleAPI junk e ms s =
    (r <- append buf len "}" [] ;;
     body <- c_str (fst r) ;;
     Some [send 200 (Some "application/json"%string) (BPage body)]).
Proof.
  intros d H. unfold OLED13_handleAPI, status_fields in *. cbv zeta in *.
  fold d. destruct (OLED13.ntpSynced d); stages H; cbn [bind];
    now destruct (append buf len "}" []) as [[? ?] |].
Qed.

(** The closing brace, stored or formatted. *)
Lemma brace_stored (buf : buffer) (t : list ascii) :
  firstn (length t) buf = t -> length t + 2 <= length buf -> nul_free t ->
  (b <- store buf (Z.of_nat (length t)) "}"%char ;;
   b <- store b (Z.of_nat (length t) + 1)%Z NUL ;;
   c_str b) = Some (t ++ cq "}").
Proof.
  intros B L F.
  rewrite (store_behind buf t _ B) by lia. cbn [bind].
  assert (B' : firstn (length (t ++ cq "}"))
                 (t ++ "}"%char :: skipn (length t + 1) buf) = t ++ cq "}").
  { change (t ++ "}"%char :: skipn (length t + 1) buf)
      with (t ++ cq "}" ++ skipn (length t + 1) buf).
    rewrite app_assoc. apply firstn_app_exact. }
  replace (Z.of_nat (length t) + 1)%Z with (Z.of_nat (length (t ++ cq "}")))
    by (rewrite length_app; cbn [length cq]; cbn; lia).
  rewrite (store_behind _ _ NUL B').
  - cbn [bind]. apply c_str_app_nul. free.
  - rewrite !length_app. cbn [length]. rewrite length_skipn.
    change (length (cq "}")) with 1. lia.
Qed.

Lemma brace_formatted (buf : buffer) (t : list ascii) :
  firstn (length t) buf = t -> length t + 2 <= length buf ->
  (Z.of_nat (length buf) < 4294967296)%Z -> nul_free t ->
  (r <- append buf (Z.of_nat (length t)) "}" [] ;; c_str (fst r)) =
    Some (t ++ cq "}").
Proof.
  intros B L Hbig F.
  rewrite (append_whole buf t _ _ _ B fmt_brace);
    [| change (length (cq "}")) with 1; lia | exact Hbig].
  cbn [bind fst]. apply holding_c_str. free.
Qed.

End StatusProof.

Import Printf Status StatusProof.

Lemma an_env_addresses :
  Printf.address_text (Printf.localIP Cases.an_env) /\
  Printf.address_text (Printf.softAPIP Cases.an_env).
Proof.
  split; (split; [apply StatusFacts.nul_free_literal; reflexivity
                 | cbn; lia]).
Qed.

(** X12.  [handleAPI] of the three ESP8266 sketches sends the status
    object whole.  With the timezone terminated inside its array and, once
    the clock is synced, a time and date in their calendar ranges, every
    [snprintf] of the handler stays inside its array and none is cut: the
    body sent is the object with the free heap, the uptime in seconds, the
    address (in station mode), the timezone, and after the sync the time
    as two digits each, the date and the name of the day, closed by a
    brace.  It is at most 153 characters long, in arrays of 192, 256 and
    200 bytes. *)
Theorem status_object :
  (forall junk e ms s,
      fits (HW630.tzInfo (HW630.cfg s)) 39 -> address_text (localIP e) ->
      HW630_in_range (HW630.ntpData s) ->
      let d := HW630.ntpData s in
      let text :=
        status_text (getFreeHeap e) ms
          (if HW630.apMode s then None else Some (localIP e))
          (text_of (HW630.tzInfo (HW630.cfg s)))
          (if HW630.synced d
           then Some (HW630.hour d, HW630.minute d, HW630.second d,
                      HW630.day d, HW630.month d, HW630.year d,
                      HW630.wday d)
           else None) in
      HW630_handleAPI junk e ms s =
        Some [send 200 (Some "application/json"%string) (BPage text)] /\
      length text <= 153) /\
  (forall junk e ms s,
      fits (ESP01.tzInfo (ESP01.cfg s)) 39 -> address_text (localIP e) ->
      ESP01_in_range (ESP01.ntpData s) ->
      let d := ESP01.ntpData s in
      let text :=
        status_text (getFreeHeap e) ms
          (if ESP01.apMode s then None else Some (localIP e))
          (text_of (ESP01.tzInfo (ESP01.cfg s)))
          (if ESP01.synced d
           then Some (ESP01.hour d, ESP01.minute d, ESP01.second d,
                      ESP01.day d, ESP01.month d, ESP01.year d,
                      ESP01.wday d)
           else None) in
      ESP01_handleAPI junk e ms s =
        Some [send 200 (Some "application/json"%string) (BPage text)] /\
      length text <= 153) /\
  (forall junk e ms s,
      fits (OLED13.tz (OLED13.cfg s)) 39 -> address_text (localIP e) ->
      OLED13_in_range (OLED13.ntp s) ->
      let d := OLED13.ntp s in
      let text :=
        status_text (getFreeHeap e) ms
          (if OLED13.apMode s then None else Some (localIP e))
          (text_of (OLED13.tz (OLED13.cfg s)))
          (if OLED13.ntpSynced d
           then Some (OLED13.ntpH d, OLED13.ntpM d, OLED13.ntpS d,
                      OLED13.ntpDay d, OLED13.ntpMon d, OLED13.ntpYear d,
                      OLED13.ntpWday d)
           else None) in
      OLED13_handleAPI junk e ms s =
        Some [send 200 (Some "application/json"%string) (BPage text)] /\
      length text <= 153).
Proof.
  split; [| split].
  - intros junk e ms s Htz Hip Hclock d text.
    destruct (status_fields_spec 192 junk e ms (HW630.apMode s)
                (HW630.tzInfo (HW630.cfg s))
                (if HW630.synced d
                 then Some (HW630.hour d, HW630.minute d, HW630.second d,
                            HW630.day d, HW630.month d, HW630.year d,
                            HW630.wday d)
                 else None) Htz Hip)
      as (buf & E & B & N & F & L); [| lia | reflexivity |].
    { destruct (HW630.synced d) eqn:Es; [exact (Hclock Es) | exact I]. }
    cbv zeta in E, B, F, L.
    rewrite (HW630_shares junk e ms s _ _ E).
    pose proof (brace_stored buf _ B ltac:(lia) F) as S.
    destruct (store buf _ "}"%char) as [b1 |]; [| discriminate S].
    cbn [bind] in S |- *.
    destruct (store b1 _ NUL) as [b2 |]; [| discriminate S].
    cbn [bind] in S |- *. rewrite S. cbn [bind].
    split; [reflexivity |].
    subst text. unfold status_text. rewrite length_app.
    change (length (cq "}")) with 1. lia.
  - intros junk e ms s Htz Hip Hclock d text.
    destruct (status_fields_spec 256 junk e ms (ESP01.apMode s)
                (ESP01.tzInfo (ESP01.cfg s))
                (if ESP01.synced d
                 then Some (ESP01.hour d, ESP01.minute d, ESP01.second d,
                            ESP01.day d, ESP01.month d, ESP01.year d,
                            ESP01.wday d)
                 else None) Htz Hip)
      as (buf & E & B & N & F & L); [| lia | reflexivity |].
    { destruct (ESP01.synced d) eqn:Es; [exact (Hclock Es) | exact I]. }
    cbv zeta in E, B, F, L.
    rewrite (ESP01_shares junk e ms s _ _ E).
    pose proof (brace_formatted buf _ B ltac:(lia) ltac:(lia) F) as S.
    destruct (append buf _ "}" []) as [r |]; [| discriminate S].
    cbn [bind] in S |- *. rewrite S. cbn [bind].
    split; [reflexivity |].
    subst text. unfold status_text. rewrite length_app.
    change (length (cq "}")) with 1. lia.
  - intros junk e ms s Htz Hip Hclock d text.
    destruct (status_fields_spec 200 junk e ms (OLED13.apMode s)
                (OLED13.tz (OLED13.cfg s))
                (if OLED13.ntpSynced d
                 then Some (OLED13.ntpH d, OLED13.ntpM d, OLED13.ntpS d,
                            OLED13.ntpDay d, OLED13.ntpMon d,
                            OLED13.ntpYear d, OLED13.ntpWday d)
                 else None) Htz Hip)
      as (buf & E & B & N & F & L); [| lia | reflexivity |].
    { destruct (OLED13.ntpSynced d) eqn:Es; [exact (Hclock Es) | exact I]. }
    cbv zeta in E, B, F, L.
    rewrite (OLED13_shares junk e ms s _ _ E).
    pose proof (brace_formatted buf _ B ltac:(lia) ltac:(lia) F) as S.
    destruct (append buf _ "}" []) as [r |]; [| discriminate S].
    cbn [bind] in S |- *. rewrite S. cbn [bind].
    split; [reflexivity |].
    subst text. unfold status_text. rewrite length_app.
    change (length (cq "}")) with 1. lia.
Qed.

Lemma status_object_witness :
  fits (HW630.tzInfo (HW630.cfg Cases.hw630_synced)) 39 /\
  Printf.address_text (Printf.localIP Cases.an_env) /\
  HW630_in_range (HW630.ntpData Cases.hw630_synced) /\
  Status.HW630_handleAPI Samples.heap_fill Cases.an_env 5000
                         Cases.hw630_synced =
    Some [send 200 (Some "application/json"%string)
            (BPage (Printf.cq
                      ("{'heap':40000,'up':5,'ip':'192.168.1.23',"
                       ++ "'tz':'ICT-7','time':'10:20:30',"
                       ++ "'date':'17 May 2024','day':'Fri'}")))].
Proof.
  assert (H1 : fits (HW630.tzInfo (HW630.cfg Cases.hw630_synced)) 39)
    by (exists 5; split; [vm_compute; reflexivity | lia]).
  assert (H2 : Printf.address_text (Printf.localIP Cases.an_env))
    by exact (proj1 an_env_addresses).
  assert (H3 : HW630_in_range (HW630.ntpData Cases.hw630_synced))
    by (intros _; vm_compute; reflexivity).
  split; [exact H1 |]. split; [exact H2 |]. split; [exact H3 |].
  rewrite (proj1 (proj1 status_object Samples.heap_fill Cases.an_env 5000%Z
                        Cases.hw630_synced H1 H2 H3)).
  vm_compute. reflexivity.
Defined.

(* ================================================================== *)
(** * The texts on the clock screen *)
(* ================================================================== *)

Module ScreenFacts.
Import Printf PrintfFacts Status StatusFacts StatusProof Fields.

Open Scope Z_scope.

Lemma whole_fmt (e : Env) (m : nat) (fmt : string) (args : list Arg)
  (vs : list Val) (out : list ascii) :
  vals_of e args = Some vs ->
  vformat Plain (list_ascii_of_string fmt) vs = Some out ->
  (length out <= m)%nat ->
  whole e (TFmt (S m) fmt args) = true /\
  render e (TFmt (S m) fmt args) = Some out.
Proof.
  intros Hv Hf L. unfold whole, render. rewrite Hv. cbn [bind]. rewrite Hf.
  cbn [bind]. split; [apply Nat.leb_le; exact L |].
  unfold cut. now rewrite firstn_all2 by lia.
Qed.

Lemma whole_lit (e : Env) (s : string) : whole e (TLit s) = true.
Proof. reflexivity. Qed.

Lemma whole_ip (e : Env) :
  address_text (localIP e) -> whole e (TArg ALocalIP) = true.
Proof.
  intros (F & _). unfold whole, render. cbn [val_of bind].
  now rewrite c_str_String.
Qed.

(** The time, in an array of 9 bytes or more. *)
Lemma whole_time (e : Env) (m : nat) (h mi s : Z) :
  0 <= h <= 23 -> 0 <= mi <= 59 -> 0 <= s <= 60 -> (8 <= m)%nat ->
  let t := TFmt (S m) "%02d:%02d:%02d" [AInt h; AInt mi; AInt s] in
  whole e t = true /\
  render e t = Some (number true 2 h ++ cq ":" ++ number true 2 mi ++ cq ":"
                     ++ number true 2 s) /\
  length (number true 2 h ++ cq ":" ++ number true 2 mi ++ cq ":"
          ++ number true 2 s) = 8%nat.
Proof.
  intros Hh Hm Hs Hsz t.
  destruct (time_text h mi s Hh Hm Hs) as (L & _). cbv zeta in L.
  destruct (whole_fmt e m "%02d:%02d:%02d" [AInt h; AInt mi; AInt s] _ _
              eq_refl (fmt_time h mi s)) as (W & R).
  - rewrite app_nil_r. lia.
  - rewrite app_nil_r in R. repeat split; assumption.
Qed.

Lemma fmt_date_long (d y : Z) (day mon : buffer) (t1 t2 : list ascii) :
  c_str day = Some t1 -> c_str mon = Some t2 ->
  vformat Plain (list_ascii_of_string "%s %02d %s %04d")
          [VStr day; VInt d; VStr mon; VInt y] =
    Some (t1 ++ cq " " ++ number true 2 d ++ cq " " ++ t2 ++ cq " "
          ++ number true 4 y ++ []).
Proof.
  intros H1 H2. cbn. rewrite H1. cbn. rewrite H2. reflexivity.
Qed.

Lemma fmt_date_plain (d y : Z) (day mon : buffer) (t1 t2 : list ascii) :
  c_str day = Some t1 -> c_str mon = Some t2 ->
  vformat Plain (list_ascii_of_string "%s %d %s %d")
          [VStr day; VInt d; VStr mon; VInt y] =
    Some (t1 ++ cq " " ++ number false 0 d ++ cq " " ++ t2 ++ cq " "
          ++ number false 0 y ++ []).
Proof.
  intros H1 H2. cbn. rewrite H1. cbn. rewrite H2. reflexivity.
Qed.

Lemma fmt_rssi (r : Z) (ip : buffer) (t : list ascii) :
  c_str ip = Some t ->
  vformat Plain (list_ascii_of_string "%s  %ddBm") [VStr ip; VInt r] =
    Some (t ++ cq "  " ++ number false 0 r ++ cq "dBm").
Proof.
  intros H1. cbn. rewrite H1. reflexivity.
Qed.

Lemma vals_date (e : Env) (w d mon y : Z) :
  0 <= w <= 6 -> 1 <= mon <= 12 ->
  vals_of e [ADay w; AInt d; AMonth (mon - 1); AInt y] =
    Some [VStr (lit (nth (Z.to_nat w) DAYS ""%string)); VInt d;
          VStr (lit (nth (Z.to_nat (mon - 1)) MONTHS ""%string)); VInt y].
Proof.
  intros Hw Hm.
  destruct (day_name w Hw) as (Ew & _).
  destruct (month_name (mon - 1) ltac:(lia)) as (Em & _).
  cbn [vals_of val_of]. rewrite Ew, Em. reflexivity.
Qed.

(** The date line of 8266_HW_630.ino and ESP01_OLED_V2.ino. *)
Lemma whole_date_long (e : Env) (w d mon y : Z) :
  0 <= w <= 6 -> 1 <= d <= 31 -> 1 <= mon <= 12 -> 1970 <= y <= 9999 ->
  whole e (TFmt 20 "%s %02d %s %04d"
                [ADay w; AInt d; AMonth (mon - 1); AInt y]) = true.
Proof.
  intros Hw Hd Hm Hy.
  destruct (day_name w Hw) as (_ & Cw & Lw & _).
  destruct (month_name (mon - 1) ltac:(lia)) as (_ & Cm & Lm & _).
  pose proof (number_two d ltac:(lia)).
  pose proof (number_four y ltac:(lia)).
  eapply whole_fmt;
    [apply vals_date; assumption | apply (fmt_date_long _ _ _ _ _ _ Cw Cm) |].
  lengths.
Qed.

(** The date line of OLED13_NTP_V1.ino. *)
Lemma whole_date_plain (e : Env) (w d mon y : Z) :
  0 <= w <= 6 -> 1 <= d <= 31 -> 1 <= mon <= 12 -> 1970 <= y <= 9999 ->
  whole e (TFmt 20 "%s %d %s %d"
                [ADay w; AInt d; AMonth (mon - 1); AInt y]) = true.
Proof.
  intros Hw Hd Hm Hy.
  destruct (day_name w Hw) as (_ & Cw & Lw & _).
  destruct (month_name (mon - 1) ltac:(lia)) as (_ & Cm & Lm & _).
  assert (Ld : (length (number false 0 d) <= 2)%nat).
  { rewrite number_plain by lia.
    apply (dec_length d 2); [change (10 ^ Z.of_nat 2) with 100 |]; lia. }
  assert (Ly : (length (number false 0 y) <= 4)%nat).
  { rewrite number_plain by lia.
    apply (dec_length y 4); [change (10 ^ Z.of_nat 4) with 10000 |]; lia. }
  eapply whole_fmt;
    [apply vals_date; assumption | apply (fmt_date_plain _ _ _ _ _ _ Cw Cm) |].
  lengths.
Qed.

(** The address and signal line of 8266_HW_630.ino. *)
Lemma whole_rssi (e : Env) :
  address_text (localIP e) -> -1000 < RSSI e < 10000 ->
  whole e (TFmt 28 "%s  %ddBm" [ALocalIP; ARssi]) = true.
Proof.
  intros (F & L) Hr.
  assert (Ln : (length (number false 0 (RSSI e)) <= 4)%nat).
  { unfold number. cbn [repeat Nat.sub app].
    destruct (RSSI e <? 0) eqn:E.
    - apply Z.ltb_lt in E.
      pose proof (dec_length (Z.abs (RSSI e)) 3
                    ltac:(change (10 ^ Z.of_nat 3) with 1000; lia)
                    ltac:(lia)).
      cbn [length app]. lia.
    - apply Z.ltb_ge in E.
      pose proof (dec_length (Z.abs (RSSI e)) 4
                    ltac:(change (10 ^ Z.of_nat 4) with 10000; lia)
                    ltac:(lia)).
      cbn [length app]. lia. }
  eapply whole_fmt;
    [reflexivity | apply fmt_rssi; now apply c_str_String |].
  lengths.
Qed.

Close Scope Z_scope.

End ScreenFacts.

Import ScreenFacts.

(** A drawing call of a redraw, one after the other. *)
Ltac each_drawn H :=
  repeat match type of H with
         | In _ (_ ++ _) => apply in_app_or in H as [H | H]
         | In _ (map (HW630.draw_bar _) _) =>
             apply in_map_iff in H as (? & H & _);
             unfold HW630.draw_bar in H; cbv zeta in H;
             match type of H with
             | (if ?c then _ else _) = _ => destruct c; discriminate H
             end
         | In (OLED13.Oled _) (map OLED13.Oled _) =>
             let E := fresh "E" in
             apply in_map_iff in H as (? & E & H); injection E as ->
         | In _ (if ?c then _ else _) => destruct c
         | In _ (_ :: _) => destruct H as [H | H]
         | In _ [] => destruct H
         | False => destruct H
         end.

(** X13.  No text of the display is cut or read out of bounds.  With the
    copy of the time in its calendar ranges, an address of at most 15
    characters and a signal strength of at most four characters, every
    string that [oledUpdate] of the three ESP8266 sketches draws is
    formatted whole inside the array given to [snprintf], the names of the
    day and the month are read inside their tables, and the time reads as
    eight characters, two digits for each of hour, minute and second. *)
Theorem clock_screen_texts :
  (forall e m1 m2 rssi s x y t,
      HW630_in_range (HW630.ntpData s) ->
      Printf.address_text (Printf.localIP e) ->
      (-1000 < Printf.RSSI e < 10000)%Z ->
      In (oled_drawString x y t) (snd (HW630.oledUpdate m1 m2 rssi s)) ->
      Printf.whole e t = true /\
      forall size args,
        t = TFmt size "%02d:%02d:%02d" args ->
        exists text, Printf.render e t = Some text /\ length text = 8) /\
  (forall e m1 m2 s x y t,
      ESP01_in_range (ESP01.ntpData s) ->
      Printf.address_text (Printf.localIP e) ->
      In (oled_drawString x y t) (snd (ESP01.oledUpdate m1 m2 s)) ->
      Printf.whole e t = true /\
      forall size args,
        t = TFmt size "%02d:%02d:%02d" args ->
        exists text, Printf.render e t = Some text /\ length text = 8) /\
  (forall e m1 m2 s x y t,
      OLED13_in_range (OLED13.ntp s) ->
      Printf.address_text (Printf.localIP e) ->
      In (OLED13.Oled (oled_drawString x y t))
         (snd (OLED13.oledUpdate m1 m2 s)) ->
      Printf.whole e t = true /\
      forall size args,
        t = TFmt size "%02d:%02d:%02d" args ->
        exists text, Printf.render e t = Some text /\ length text = 8).
Proof.
  split; [| split].
  - intros e m1 m2 rssi s x y t Inv Hip Hr. unfold HW630.oledUpdate.
    destruct (u32 (m1 - HW630.lastOledUpdate s) <? 500)%Z; [intros [] |].
    cbv zeta.
    change (HW630.ntpData (HW630.set_lastOledUpdate m2 s))
      with (HW630.ntpData s).
    destruct (HW630.synced (HW630.ntpData s)) eqn:Es; cbn [negb snd].
    + apply clock_ok_ranges in Inv
        as (Hh & Hm & Hs & Hd & Hmon & Hy & Hw); [| exact Es].
      destruct (whole_time e 8 _ _ _ Hh Hm Hs (le_n 8)) as (W & R & L).
      intros H. each_drawn H; try discriminate H; injection H as <- <- <-;
        (split; [first [exact W | now apply whole_date_long
                       | now apply whole_rssi]
                | intros size args E;
                  first [discriminate E
                        | injection E as <- <-; eexists; split; eassumption]]).
    + intros H. each_drawn H; try discriminate H; injection H as <- <- <-;
        (split; [first [apply whole_lit | now apply whole_ip]
                | discriminate]).
  - intros e m1 m2 s x y t Inv Hip. unfold ESP01.oledUpdate.
    destruct (u32 (m1 - ESP01.lastOledUpdate s) <? 500)%Z; [intros [] |].
    cbv zeta.
    change (ESP01.ntpData (ESP01.set_lastOledUpdate m2 s))
      with (ESP01.ntpData s).
    destruct (ESP01.synced (ESP01.ntpData s)) eqn:Es; cbn [negb snd].
    + apply clock_ok_ranges in Inv
        as (Hh & Hm & Hs & Hd & Hmon & Hy & Hw); [| exact Es].
      destruct (whole_time e 8 _ _ _ Hh Hm Hs (le_n 8)) as (W & R & L).
      intros H. each_drawn H; try discriminate H; injection H as <- <- <-;
        (split; [first [exact W | now apply whole_date_long
                       | now apply whole_ip]
                | intros size args E;
                  first [discriminate E
                        | injection E as <- <-; eexists; split; eassumption]]).
    + intros H. each_drawn H; try discriminate H; injection H as <- <- <-;
        (split; [first [apply whole_lit | now apply whole_ip]
                | discriminate]).
  - intros e m1 m2 s x y t Inv Hip. unfold OLED13.oledUpdate.
    destruct (u32 (m1 - OLED13.lastOled s) <? 500)%Z; [intros [] |].
    cbv zeta.
    change (OLED13.ntp (OLED13.set_lastOled m2 s)) with (OLED13.ntp s).
    destruct (OLED13.ntpSynced (OLED13.ntp s)) eqn:Es; cbn [negb snd].
    + apply clock_ok_ranges in Inv
        as (Hh & Hm & Hs & Hd & Hmon & Hy & Hw); [| exact Es].
      destruct (whole_time e 19 _ _ _ Hh Hm Hs ltac:(lia)) as (W & R & L).
      intros H. each_drawn H; try discriminate H; injection H as <- <- <-;
        (split; [first [exact W | now apply whole_date_plain]
                | intros size args E;
                  first [discriminate E
                        | injection E as <- <-; eexists; split; eassumption]]).
    + intros H. each_drawn H; try discriminate H; injection H as <- <- <-;
        (split; [first [apply whole_lit | now apply whole_ip]
                | discriminate]).
Qed.

Lemma clock_screen_texts_witness :
  HW630_in_range (HW630.ntpData Cases.hw630_synced) /\
  Printf.address_text (Printf.localIP Cases.an_env) /\
  (-1000 < Printf.RSSI Cases.an_env < 10000)%Z /\
  In (oled_drawString 64 2
        (TFmt 9 "%02d:%02d:%02d" [AInt 10; AInt 20; AInt 30]))
     (snd (HW630.oledUpdate 6000 6000 (-60) Cases.hw630_synced)) /\
  Printf.whole Cases.an_env
    (TFmt 9 "%02d:%02d:%02d" [AInt 10; AInt 20; AInt 30]) = true /\
  exists text,
    Printf.render Cases.an_env
      (TFmt 9 "%02d:%02d:%02d" [AInt 10; AInt 20; AInt 30]) = Some text /\
    length text = 8.
Proof.
  assert (H1 : HW630_in_range (HW630.ntpData Cases.hw630_synced))
    by (intros _; vm_compute; reflexivity).
  assert (H2 : Printf.address_text (Printf.localIP Cases.an_env))
    by exact (proj1 an_env_addresses).
  assert (H3 : (-1000 < Printf.RSSI Cases.an_env < 10000)%Z) by (cbn; lia).
  assert (H4 : In (oled_drawString 64 2
                     (TFmt 9 "%02d:%02d:%02d" [AInt 10; AInt 20; AInt 30]))
                  (snd (HW630.oledUpdate 6000 6000 (-60)
                          Cases.hw630_synced)))
    by (vm_compute; do 7 right; left; reflexivity).
  split; [exact H1 |]. split; [exact H2 |]. split; [exact H3 |].
  split; [exact H4 |].
  destruct (proj1 clock_screen_texts Cases.an_env 6000%Z 6000%Z (-60)%Z
                  Cases.hw630_synced 64%Z 2%Z _ H1 H2 H3 H4) as (W & R).
  split; [exact W | exact (R 9 _ eq_refl)].
Defined.

(* ================================================================== *)
(** * The MQTT payload *)
(* ================================================================== *)

Module PayloadFacts.
Import Printf PrintfFacts Status StatusFacts StatusProof Fields.

Open Scope Z_scope.

Lemma fmt_payload (h m s y mo d : Z) :
  vformat Plain
    ("{"%char :: members_fmt true
        [("time"%string, ("%02d:%02d:%02d"%string,
                          [AInt h; AInt m; AInt s]));
         ("date"%string, ("%04d-%02d-%02d"%string,
                          [AInt y; AInt mo; AInt d]))] ++ ["}"%char])
    [VInt h; VInt m; VInt s; VInt y; VInt mo; VInt d] =
    Some (cq "{'time':'" ++ number true 2 h ++ cq ":" ++ number true 2 m
          ++ cq ":" ++ number true 2 s ++ cq "','date':'"
          ++ number true 4 y ++ cq "-" ++ number true 2 mo ++ cq "-"
          ++ number true 2 d ++ cq "'}").
Proof. reflexivity. Qed.

Close Scope Z_scope.

End PayloadFacts.

Import PayloadFacts.

(** X14.  The payload [mqttPublish] of ESP01_OLED_V2.ino hands to the
    client is never cut: with the copy of the time in its calendar ranges
    it is the 39 characters [{"time":"HH:MM:SS","date":"YYYY-MM-DD"}],
    formatted in an array of 128 bytes, and it goes to the configured
    topic. *)
Theorem publish_payload :
  forall e connected s topic payload,
    ESP01_in_range (ESP01.ntpData s) ->
    In (mqtt_publish topic payload) (ESP01.mqttPublish connected s) ->
    let d := ESP01.ntpData s in
    let text :=
      Printf.cq "{'time':'" ++ Printf.number true 2 (ESP01.hour d)
      ++ Printf.cq ":" ++ Printf.number true 2 (ESP01.minute d)
      ++ Printf.cq ":" ++ Printf.number true 2 (ESP01.second d)
      ++ Printf.cq "','date':'" ++ Printf.number true 4 (ESP01.year d)
      ++ Printf.cq "-" ++ Printf.number true 2 (ESP01.month d)
      ++ Printf.cq "-" ++ Printf.number true 2 (ESP01.day d)
      ++ Printf.cq "'}" in
    topic = ESP01.mqttTopic (ESP01.cfg s) /\
    Printf.whole e payload = true /\
    Printf.render e payload = Some text /\
    length text = 39.
Proof.
  intros e connected s topic payload Inv. unfold ESP01.mqttPublish.
  destruct (is_nul _); [intros [] |].
  destruct (negb connected); [intros [] |].
  destruct (ESP01.synced (ESP01.ntpData s)) eqn:Es; [| intros []].
  cbn [negb]. cbv zeta. intros [H | []]. injection H as <- <-.
  apply StatusProof.clock_ok_ranges in Inv
    as (Hh & Hm & Hs & Hd & Hmon & Hy & Hw); [| exact Es].
  pose proof (PrintfFacts.number_two (ESP01.hour (ESP01.ntpData s))
                ltac:(lia)) as L1.
  pose proof (PrintfFacts.number_two (ESP01.minute (ESP01.ntpData s))
                ltac:(lia)) as L2.
  pose proof (PrintfFacts.number_two (ESP01.second (ESP01.ntpData s))
                ltac:(lia)) as L3.
  pose proof (PrintfFacts.number_four (ESP01.year (ESP01.ntpData s))
                ltac:(lia)) as L4.
  pose proof (PrintfFacts.number_two (ESP01.month (ESP01.ntpData s))
                ltac:(lia)) as L5.
  pose proof (PrintfFacts.number_two (ESP01.day (ESP01.ntpData s))
                ltac:(lia)) as L6.
  assert (L : length
                (Printf.cq "{'time':'"
                 ++ Printf.number true 2 (ESP01.hour (ESP01.ntpData s))
                 ++ Printf.cq ":"
                 ++ Printf.number true 2 (ESP01.minute (ESP01.ntpData s))
                 ++ Printf.cq ":"
                 ++ Printf.number true 2 (ESP01.second (ESP01.ntpData s))
                 ++ Printf.cq "','date':'"
                 ++ Printf.number true 4 (ESP01.year (ESP01.ntpData s))
                 ++ Printf.cq "-"
                 ++ Printf.number true 2 (ESP01.month (ESP01.ntpData s))
                 ++ Printf.cq "-"
                 ++ Printf.number true 2 (ESP01.day (ESP01.ntpData s))
                 ++ Printf.cq "'}") = 39) by StatusProof.lengths.
  split; [reflexivity |].
  unfold Printf.whole, Printf.render.
  cbn [Printf.members_args flat_map snd app Printf.vals_of Printf.val_of bind].
  rewrite fmt_payload. cbn [bind].
  split; [apply Nat.leb_le; lia |]. split; [| exact L].
  unfold Printf.cut. now rewrite firstn_all2 by lia.
Qed.

Lemma publish_payload_witness :
  ESP01_in_range (ESP01.ntpData Cases.esp01_synced) /\
  In (mqtt_publish (ESP01.mqttTopic (ESP01.cfg Cases.esp01_synced))
        (TJson 128
           [("time"%string,
             ("%02d:%02d:%02d"%string, [AInt 10; AInt 20; AInt 30]));
            ("date"%string,
             ("%04d-%02d-%02d"%string, [AInt 2024; AInt 5; AInt 17]))]))
     (ESP01.mqttPublish true Cases.esp01_synced) /\
  Printf.render Cases.an_env
    (TJson 128
       [("time"%string,
         ("%02d:%02d:%02d"%string, [AInt 10; AInt 20; AInt 30]));
        ("date"%string,
         ("%04d-%02d-%02d"%string, [AInt 2024; AInt 5; AInt 17]))]) =
    Some (Printf.cq "{'time':'10:20:30','date':'2024-05-17'}").
Proof.
  assert (H1 : ESP01_in_range (ESP01.ntpData Cases.esp01_synced))
    by (intros _; vm_compute; reflexivity).
  assert (H2 : In (mqtt_publish
                     (ESP01.mqttTopic (ESP01.cfg Cases.esp01_synced))
                     (TJson 128
                        [("time"%string,
                          ("%02d:%02d:%02d"%string,
                           [AInt 10; AInt 20; AInt 30]));
                         ("date"%string,
                          ("%04d-%02d-%02d"%string,
                           [AInt 2024; AInt 5; AInt 17]))]))
                  (ESP01.mqttPublish true Cases.esp01_synced))
    by (vm_compute; left; reflexivity).
  split; [exact H1 |]. split; [exact H2 |].
  destruct (publish_payload Cases.an_env true Cases.esp01_synced _ _ H1 H2)
    as (_ & _ & R & _).
  rewrite R. vm_compute. reflexivity.
Defined.

(* ================================================================== *)
(** * The progress bar of an update *)
(* ================================================================== *)

(** X15.  The progress screen that ESP32_OLED_V1.ino draws during an
    update over the air.  For a transfer that has a size, has not gone
    past it, and is short enough that [progress * 100] does not wrap
    (less than 42 949 673 bytes), the percentage shown is the rounded down
    share of the bytes received, between 0 and 100, the filled bar is at
    most 126 pixels wide and lies inside the outline drawn around it, and
    at the end of the transfer the screen shows 100 and a full bar.  A
    total of 0 divides by zero. *)
Theorem ota_progress_bar :
  (forall progress total : Z,
      (0 < total < 4294967296)%Z -> (0 <= progress <= total)%Z ->
      (progress * 100 < 4294967296)%Z ->
      let pct := (progress * 100 / total)%Z in
      let w := (126 * pct / 100)%Z in
      OTA.onProgress progress total =
        Some [OTA.fillRect 0 48 128 16 OTA.SSD1306_BLACK;
              OTA.setCursor 0 48;
              OTA.printf "Progress: %d%%" [pct];
              OTA.drawRect 0 58 128 6 OTA.SSD1306_WHITE;
              OTA.fillRect 1 59 w 4 OTA.SSD1306_WHITE;
              OTA.display] /\
      (0 <= pct <= 100)%Z /\ (0 <= w <= 126)%Z /\
      OTA.inside 1 59 w 4 0 58 128 6 = true /\
      (progress = total -> pct = 100%Z /\ w = 126%Z) /\
      Printf.vformat Printf.Plain (list_ascii_of_string "Progress: %d%%")
                     [Printf.VInt pct] =
        Some (list_ascii_of_string "Progress: " ++ Printf.dec pct
              ++ list_ascii_of_string "%")) /\
  (forall progress : Z, OTA.onProgress progress 0 = None).
Proof.
  split; [| reflexivity].
  intros progress total Ht Hp Hov pct w.
  assert (Hpct : (0 <= pct <= 100)%Z).
  { subst pct. split; [apply Z.div_pos; lia |].
    apply Z.div_le_upper_bound; lia. }
  assert (Hw : (0 <= w <= 126)%Z).
  { subst w. split; [apply Z.div_pos; lia |].
    apply Z.div_le_upper_bound; lia. }
  split; [| split; [exact Hpct | split; [exact Hw | split; [| split]]]].
  - unfold OTA.onProgress.
    rewrite (u32_small total) by lia.
    assert ((total =? 0)%Z = false) as -> by (apply Z.eqb_neq; lia).
    rewrite (u32_small progress) by lia.
    rewrite (u32_small (progress * 100)) by lia.
    fold pct. unfold OTA.to_int.
    rewrite (u32_small pct) by lia.
    assert ((pct <? 2 ^ 31)%Z = true) as ->
      by (apply Z.ltb_lt; change (2 ^ 31)%Z with 2147483648%Z; lia).
    rewrite Z.quot_div_nonneg by lia. reflexivity.
  - unfold OTA.inside.
    repeat (apply andb_true_intro; split); apply Z.leb_le; lia.
  - intros ->. subst w pct.
    rewrite (Z.mul_comm total 100), Z.div_mul by lia. split; reflexivity.
  - rewrite <- (PrintfFacts.number_plain pct) by lia. reflexivity.
Qed.

Lemma ota_progress_bar_witness :
  (0 < 1024000 < 4294967296)%Z /\ (0 <= 512000 <= 1024000)%Z /\
  (512000 * 100 < 4294967296)%Z /\
  OTA.onProgress 512000 1024000 =
    Some [OTA.fillRect 0 48 128 16 OTA.SSD1306_BLACK;
          OTA.setCursor 0 48;
          OTA.printf "Progress: %d%%" [50%Z];
          OTA.drawRect 0 58 128 6 OTA.SSD1306_WHITE;
          OTA.fillRect 1 59 63 4 OTA.SSD1306_WHITE;
          OTA.display].
Proof.
  assert (H1 : (0 < 1024000 < 4294967296)%Z) by lia.
  assert (H2 : (0 <= 512000 <= 1024000)%Z) by lia.
  assert (H3 : (512000 * 100 < 4294967296)%Z) by lia.
  split; [exact H1 |]. split; [exact H2 |]. split; [exact H3 |].
  exact (proj1 (proj1 ota_progress_bar 512000%Z 1024000%Z H1 H2 H3)).
Defined.

(* ================================================================== *)
(** * The texts of ESP32_OLED_V1.ino *)
(* ================================================================== *)

Module StrftimeFacts.
Import Printf PrintfFacts Status StatusFacts StatusProof ClockFacts.

Open Scope Z_scope.

Lemma vstrftime_time (ti : tm) :
  vstrftime false (list_ascii_of_string "%H:%M:%S") ti =
    Some (number true 2 (tm_hour ti) ++ cq ":" ++ number true 2 (tm_min ti)
          ++ cq ":" ++ number true 2 (tm_sec ti) ++ []).
Proof. reflexivity. Qed.

Lemma vstrftime_date (ti : tm) :
  0 <= tm_wday ti <= 6 -> 0 <= tm_mon ti <= 11 ->
  vstrftime false (list_ascii_of_string "%a %d %b %Y") ti =
    Some (name_of DAYS (tm_wday ti) ++ cq " " ++ number true 2 (tm_mday ti)
          ++ cq " " ++ name_of MONTHS (tm_mon ti) ++ cq " "
          ++ number false 0 (tm_year ti + 1900) ++ []).
Proof.
  intros Hw Hm.
  destruct (day_name _ Hw) as (Ew & Cw & _).
  destruct (month_name _ Hm) as (Em & Cm & _).
  cbn. rewrite Ew. cbn [bind]. rewrite Cw. cbn. rewrite Em. cbn [bind].
  rewrite Cm. reflexivity.
Qed.

Lemma vstrftime_stamp (ti : tm) :
  vstrftime false (list_ascii_of_string "%Y-%m-%d %H:%M:%S") ti =
    Some (number false 0 (tm_year ti + 1900) ++ cq "-"
          ++ number true 2 (tm_mon ti + 1) ++ cq "-"
          ++ number true 2 (tm_mday ti) ++ cq " "
          ++ number true 2 (tm_hour ti) ++ cq ":"
          ++ number true 2 (tm_min ti) ++ cq ":"
          ++ number true 2 (tm_sec ti) ++ []).
Proof. reflexivity. Qed.

(** The lengths of the pieces for a time in its ranges. *)
Lemma tm_lengths (ti : tm) :
  valid_tm ti = true ->
  length (number true 2 (tm_hour ti)) = 2%nat /\
  length (number true 2 (tm_min ti)) = 2%nat /\
  length (number true 2 (tm_sec ti)) = 2%nat /\
  length (number true 2 (tm_mday ti)) = 2%nat /\
  length (number true 2 (tm_mon ti + 1)) = 2%nat /\
  (length (number false 0 (tm_year ti + 1900)) <= 4)%nat /\
  length (name_of DAYS (tm_wday ti)) = 3%nat /\
  length (name_of MONTHS (tm_mon ti)) = 3%nat /\
  nul_free (name_of DAYS (tm_wday ti)) /\
  nul_free (name_of MONTHS (tm_mon ti)).
Proof.
  intros V. apply valid_tm_ranges in V as (Hs & Hm & Hh & Hd & Hmo & Hy & Hw).
  destruct (day_name _ Hw) as (_ & _ & Lw & Fw).
  destruct (month_name _ Hmo) as (_ & _ & Lm & Fm).
  repeat split; try (apply number_two; lia); try assumption.
  rewrite number_plain by lia.
  apply (dec_length (tm_year ti + 1900) 4);
    [change (10 ^ Z.of_nat 4) with 10000 |]; lia.
Qed.

(** [strftime] into an array that is large enough. *)
Lemma strftime_into_whole (b : buffer) (fmt : string) (ti : tm)
  (out : list ascii) :
  vstrftime false (list_ascii_of_string fmt) ti = Some out ->
  (length out + 1 <= length b)%nat -> nul_free out ->
  exists b', strftime_into b fmt ti = Some b' /\ c_str b' = Some out.
Proof.
  intros Hf L F. unfold strftime_into, strftime. rewrite Hf. cbn [bind].
  assert ((length out + 1 <=? length b)%nat = true) as ->
    by (apply Nat.leb_le; exact L).
  cbn [bind]. eexists. split; [reflexivity |]. now apply c_str_app_nul.
Qed.

Lemma uptime_parts_spec (ms : Z) :
  let '(d, h, m, sec) := uptime_parts ms in
  u32 ms / 1000 = d * 86400 + h * 3600 + m * 60 + sec /\
  0 <= d <= 49 /\ 0 <= h < 24 /\ 0 <= m < 60 /\ 0 <= sec < 60.
Proof.
  unfold uptime_parts. cbv zeta.
  pose proof (u32_range ms) as R.
  set (s0 := u32 ms / 1000).
  assert (H0 : 0 <= s0 < 4294968).
  { subst s0. split; [apply Z.div_pos; lia |].
    apply Z.div_lt_upper_bound; lia. }
  pose proof (Z.div_mod s0 86400 ltac:(lia)) as D1.
  pose proof (Z.mod_pos_bound s0 86400 ltac:(lia)) as B1.
  set (s1 := s0 mod 86400) in *.
  pose proof (Z.div_mod s1 3600 ltac:(lia)) as D2.
  pose proof (Z.mod_pos_bound s1 3600 ltac:(lia)) as B2.
  set (s2 := s1 mod 3600) in *.
  pose proof (Z.div_mod s2 60 ltac:(lia)) as D3.
  pose proof (Z.mod_pos_bound s2 60 ltac:(lia)) as B3.
  assert (0 <= s0 / 86400 < 50).
  { split; [apply Z.div_pos; lia |]. apply Z.div_lt_upper_bound; lia. }
  assert (0 <= s1 / 3600 < 24).
  { split; [apply Z.div_pos; lia |]. apply Z.div_lt_upper_bound; lia. }
  assert (0 <= s2 / 60 < 60).
  { split; [apply Z.div_pos; lia |]. apply Z.div_lt_upper_bound; lia. }
  repeat split; lia.
Qed.

Lemma fmt_uptime (d h m : Z) :
  vformat Plain (cq "%ud %uh %um") [VInt d; VInt h; VInt m] =
    Some (number false 0 (u32 d) ++ cq "d " ++ number false 0 (u32 h)
          ++ cq "h " ++ number false 0 (u32 m) ++ cq "m").
Proof. reflexivity. Qed.

Lemma fmt_json (t1 t2 t3 t4 t5 : list ascii) (b1 b2 b3 b4 b5 : buffer)
  (kb : Z) :
  c_str b1 = Some t1 -> c_str b2 = Some t2 -> c_str b3 = Some t3 ->
  c_str b4 = Some t4 -> c_str b5 = Some t5 ->
  vformat Plain
    (cq ("{'time':'%s','date':'%s','ip':'%s',"
         ++ "'mqtt':'%s','heap':'%d KB','uptime':'%s'}"))
    [VStr b1; VStr b2; VStr b3; VStr b4; VInt kb; VStr b5] =
    Some (cq "{'time':'" ++ t1 ++ cq "','date':'" ++ t2 ++ cq "','ip':'"
          ++ t3 ++ cq "','mqtt':'" ++ t4 ++ cq "','heap':'"
          ++ number false 0 kb ++ cq " KB','uptime':'" ++ t5 ++ cq "'}").
Proof.
  intros H1 H2 H3 H4 H5.
  cbn. rewrite H1. cbn. rewrite H2. cbn. rewrite H3. cbn. rewrite H4.
  cbn. rewrite H5. reflexivity.
Qed.

Close Scope Z_scope.

End StrftimeFacts.

Import StrftimeFacts.

(** X16.  [handleAPI] of ESP32_OLED_V1.ino.  The uptime is split into
    days, hours and minutes that add up, with the seconds left over, to
    the uptime in seconds, the hours below 24 and the minutes below 60.
    With addresses of at most 15 characters and, when the time is known, a
    broken-down time in its ranges, no [strftime] and no [snprintf] of the
    handler is cut or leaves its array: the body sent is the object with
    the time, the date, the address of the mode the sketch is in, the
    state of MQTT, the free heap in KB and the uptime, at most 132
    characters in an array of 256, the time and the date being dashes
    while the time is not known. *)
Theorem esp32_status_object :
  (forall ms,
      let '(d, h, m, sec) := Status.uptime_parts ms in
      (u32 ms / 1000 = d * 86400 + h * 3600 + m * 60 + sec)%Z /\
      (0 <= d <= 49)%Z /\ (0 <= h < 24)%Z /\ (0 <= m < 60)%Z /\
      (0 <= sec < 60)%Z) /\
  (forall junk e ms ti (connected : bool) s,
      Printf.address_text (Printf.localIP e) ->
      Printf.address_text (Printf.softAPIP e) ->
      match ti with
      | Some t => Printf.valid_tm t = true
      | None => True
      end ->
      let '(d, h, m, _) := Status.uptime_parts ms in
      let body :=
        Printf.cq "{'time':'"
        ++ match ti with
           | Some t => Printf.number true 2 (tm_hour t) ++ Printf.cq ":"
                       ++ Printf.number true 2 (tm_min t) ++ Printf.cq ":"
                       ++ Printf.number true 2 (tm_sec t)
           | None => Printf.cq "--:--:--"
           end
        ++ Printf.cq "','date':'"
        ++ match ti with
           | Some t => Status.name_of Printf.DAYS (tm_wday t)
                       ++ Printf.cq " "
                       ++ Printf.number true 2 (tm_mday t) ++ Printf.cq " "
                       ++ Status.name_of Printf.MONTHS (tm_mon t)
                       ++ Printf.cq " " ++ Printf.dec (tm_year t + 1900)
           | None => Printf.cq "---"
           end
        ++ Printf.cq "','ip':'"
        ++ (if ESP32.apMode s then Printf.softAPIP e else Printf.localIP e)
        ++ Printf.cq "','mqtt':'"
        ++ Printf.cq (if ESP32.mqttEnabled s
                      then (if connected then "Connected"
                            else "Disconnected")
                      else "Off")%string
        ++ Printf.cq "','heap':'"
        ++ Printf.dec (u32 (Printf.getFreeHeap e) / 1024)
        ++ Printf.cq " KB','uptime':'"
        ++ (Printf.dec d ++ Printf.cq "d " ++ Printf.dec h ++ Printf.cq "h "
            ++ Printf.dec m ++ Printf.cq "m")
        ++ Printf.cq "'}" in
      Status.ESP32_handleAPI junk e ms ti connected s =
        Some [send 200 (Some "application/json"%string) (BPage body)] /\
      length body <= 132).
Proof.
  split; [exact uptime_parts_spec |].
  intros junk e ms ti connected s Hip Hap Hti.
  pose proof (uptime_parts_spec ms) as Hup.
  unfold Status.ESP32_handleAPI.
  destruct (Status.uptime_parts ms) as [[[d h] m] sec].
  destruct Hup as (_ & Hd & Hh & Hm & _).
  cbv zeta.
  (* the time and the date *)
  set (time := match ti with
               | Some t => Printf.number true 2 (tm_hour t) ++ Printf.cq ":"
                           ++ Printf.number true 2 (tm_min t)
                           ++ Printf.cq ":" ++ Printf.number true 2 (tm_sec t)
               | None => Printf.cq "--:--:--"
               end).
  set (date := match ti with
               | Some t => Status.name_of Printf.DAYS (tm_wday t)
                           ++ Printf.cq " "
                           ++ Printf.number true 2 (tm_mday t)
                           ++ Printf.cq " "
                           ++ Status.name_of Printf.MONTHS (tm_mon t)
                           ++ Printf.cq " " ++ Printf.dec (tm_year t + 1900)
               | None => Printf.cq "---"
               end).
  assert (S1 : exists tb db,
             match ti with
             | Some ti =>
                 timeBuf <- Status.strftime_into
                              (Status.array_init 9 "--:--:--") "%H:%M:%S" ti ;;
                 dateBuf <- Status.strftime_into
                              (Status.array_init 20 "---") "%a %d %b %Y" ti ;;
                 Some (timeBuf, dateBuf)
             | None => Some (Status.array_init 9 "--:--:--",
                             Status.array_init 20 "---")
             end = Some (tb, db) /\
             c_str tb = Some time /\ c_str db = Some date /\
             length time = 8 /\ length date <= 15 /\
             nul_free time /\ nul_free date).
  { subst time date. destruct ti as [t |].
    - destruct (tm_lengths t Hti)
        as (L1 & L2 & L3 & L4 & L5 & L6 & L7 & L8 & F7 & F8).
      apply ClockFacts.valid_tm_ranges in Hti
        as (Hs & Hmi & Hho & Hda & Hmo & Hy & Hw).
      rewrite PrintfFacts.number_plain in L6 by lia.
      assert (Ft : nul_free
                     (Printf.number true 2 (tm_hour t) ++ Printf.cq ":"
                      ++ Printf.number true 2 (tm_min t) ++ Printf.cq ":"
                      ++ Printf.number true 2 (tm_sec t))) by StatusProof.free.
      assert (Fd : nul_free
                     (Status.name_of Printf.DAYS (tm_wday t) ++ Printf.cq " "
                      ++ Printf.number true 2 (tm_mday t) ++ Printf.cq " "
                      ++ Status.name_of Printf.MONTHS (tm_mon t)
                      ++ Printf.cq " " ++ Printf.dec (tm_year t + 1900)))
        by StatusProof.free.
      destruct (strftime_into_whole (Status.array_init 9 "--:--:--")
                  "%H:%M:%S" t _ (vstrftime_time t))
        as (tb & -> & Ctb);
        [rewrite app_nil_r; change (length (Status.array_init 9 "--:--:--"))
           with 9; StatusProof.lengths
        | rewrite app_nil_r; exact Ft |].
      cbn [bind].
      destruct (strftime_into_whole (Status.array_init 20 "---")
                  "%a %d %b %Y" t _ (vstrftime_date t Hw Hmo))
        as (db & -> & Cdb);
        [rewrite app_nil_r, PrintfFacts.number_plain by lia;
         change (length (Status.array_init 20 "---")) with 20;
         StatusProof.lengths
        | rewrite app_nil_r, PrintfFacts.number_plain by lia; exact Fd |].
      cbn [bind]. rewrite app_nil_r in Ctb, Cdb.
      rewrite PrintfFacts.number_plain in Cdb by lia.
      exists tb, db. repeat split; try assumption; StatusProof.lengths.
    - do 2 eexists. split; [reflexivity |].
      repeat split; try reflexivity; try (cbn; lia);
        apply StatusFacts.nul_free_literal; reflexivity. }
  destruct S1 as (tb & db & -> & Ctb & Cdb & Lt & Ld & Ft & Fd).
  cbn [bind].
  (* the uptime *)
  assert (Lup : length (Printf.dec d) <= 2 /\ length (Printf.dec h) <= 2 /\
                length (Printf.dec m) <= 2).
  { repeat split; apply (PrintfFacts.dec_length _ 2);
      try (change (10 ^ Z.of_nat 2)%Z with 100%Z); lia. }
  destruct Lup as (Ld1 & Lh1 & Lm1).
  set (up := Printf.dec d ++ Printf.cq "d " ++ Printf.dec h ++ Printf.cq "h "
             ++ Printf.dec m ++ Printf.cq "m").
  assert (Lu : length up <= 11) by (subst up; StatusProof.lengths).
  assert (Fu : nul_free up) by (subst up; StatusProof.free).
  assert (Eu : Printf.vformat Printf.Plain (Printf.cq "%ud %uh %um")
                 [Printf.VInt d; Printf.VInt h; Printf.VInt m] = Some up).
  { rewrite fmt_uptime. rewrite !u32_small by lia.
    rewrite !PrintfFacts.number_plain by lia. reflexivity. }
  destruct (PrintfFacts.snprintf_array 32 32 junk _ _ _ eq_refl Eu)
    as (ub & -> & Cub); [lia | exact Fu |].
  cbn [bind fst].
  (* the object *)
  set (ip := if ESP32.apMode s then Printf.softAPIP e else Printf.localIP e).
  assert (Hi : nul_free ip /\ length ip <= 15)
    by (subst ip; destruct (ESP32.apMode s); assumption).
  destruct Hi as (Fi & Li).
  set (mq := (if ESP32.mqttEnabled s
             then (if connected then "Connected" else "Disconnected")
             else "Off")%string).
  assert (Hq : c_str (if ESP32.mqttEnabled s
                      then (if connected then lit "Connected"
                            else lit "Disconnected")
                      else lit "Off") = Some (Printf.cq mq) /\
               length (Printf.cq mq) <= 12 /\ nul_free (Printf.cq mq)).
  { subst mq. destruct (ESP32.mqttEnabled s); [destruct connected |];
      (split; [reflexivity |]; split; [cbn; lia |];
       apply StatusFacts.nul_free_literal; reflexivity). }
  destruct Hq as (Cq & Lq & Fq).
  pose proof (PrintfFacts.u32_range (Printf.getFreeHeap e)) as Rh.
  assert (Rk : (0 <= u32 (Printf.getFreeHeap e) / 1024 < 10000000)%Z).
  { split; [apply Z.div_pos; lia |]. apply Z.div_lt_upper_bound; lia. }
  assert (Lk : 1 <= length (Printf.dec (u32 (Printf.getFreeHeap e) / 1024))
               <= 7).
  { apply PrintfFacts.dec_length;
      [change (10 ^ Z.of_nat 7)%Z with 10000000%Z |]; lia. }
  pose proof (fmt_json _ _ _ _ _ _ _ _ _ _
                (u32 (Printf.getFreeHeap e) / 1024) Ctb Cdb
                (PrintfFacts.c_str_String ip Fi) Cq Cub) as Ej.
  rewrite PrintfFacts.number_plain in Ej by lia.
  match type of Ej with
  | _ = Some ?out =>
      assert (Lo : length out <= 132) by StatusProof.lengths;
      assert (Fo : nul_free out) by StatusProof.free;
      set (body := out) in *
  end.
  destruct (PrintfFacts.snprintf_array 256 256 junk _ _ _ eq_refl Ej)
    as (jb & -> & Cjb); [lia | exact Fo |].
  cbn [bind fst]. rewrite Cjb. cbn [bind].
  split; [reflexivity | exact Lo].
Qed.

Lemma esp32_status_object_witness :
  Printf.address_text (Printf.localIP Cases.an_env) /\
  Printf.address_text (Printf.softAPIP Cases.an_env) /\
  Printf.valid_tm Samples.a_tm = true /\
  Status.ESP32_handleAPI Samples.heap_fill Cases.an_env 123456789
                         (Some Samples.a_tm) true Samples.esp32_booted =
    Some [send 200 (Some "application/json"%string)
            (BPage (Printf.cq
                      ("{'time':'10:20:30','date':'Fri 17 May 2024',"
                       ++ "'ip':'192.168.1.23','mqtt':'Connected',"
                       ++ "'heap':'39 KB','uptime':'1d 10h 17m'}")))].
Proof.
  assert (H1 : Printf.address_text (Printf.localIP Cases.an_env))
    by exact (proj1 an_env_addresses).
  assert (H2 : Printf.address_text (Printf.softAPIP Cases.an_env))
    by exact (proj2 an_env_addresses).
  assert (H3 : Printf.valid_tm Samples.a_tm = true) by reflexivity.
  split; [exact H1 |]. split; [exact H2 |]. split; [exact H3 |].
  pose proof (proj2 esp32_status_object Samples.heap_fill Cases.an_env
                    123456789%Z (Some Samples.a_tm) true
                    Samples.esp32_booted H1 H2 H3) as H.
  change (Status.uptime_parts 123456789) with (1, 10, 17, 36)%Z in H.
  cbv beta iota in H. rewrite (proj1 H). vm_compute. reflexivity.
Defined.

(** X17.  The texts ESP32_OLED_V1.ino formats with [strftime] are never
    cut.  With the broken-down time in its ranges and addresses of at most
    15 characters, every text [updateOLED] prints is formatted whole, the
    time as the eight characters [HH:MM:SS] in an array of 9, the date in
    an array of 20 with the names read inside their tables; and what
    [loop] publishes goes to the configured topic and is the time stamp
    [YYYY-MM-DD HH:MM:SS], at most 19 characters in an array of 32. *)
Theorem esp32_clock_texts :
  (forall e m1 m2 ti (connected : bool) s t,
      match ti with
      | Some t => Printf.valid_tm t = true
      | None => True
      end ->
      Printf.address_text (Printf.localIP e) ->
      Printf.address_text (Printf.softAPIP e) ->
      In (ESP32.print t) (snd (ESP32.updateOLED m1 m2 ti connected s)) \/
      In (ESP32.println t) (snd (ESP32.updateOLED m1 m2 ti connected s)) ->
      Printf.whole e t = true /\
      forall size t',
        t = TStrftime size "%H:%M:%S" t' ->
        Printf.render e t =
          Some (Printf.number true 2 (tm_hour t') ++ Printf.cq ":"
                ++ Printf.number true 2 (tm_min t') ++ Printf.cq ":"
                ++ Printf.number true 2 (tm_sec t')) /\
        length (Printf.number true 2 (tm_hour t') ++ Printf.cq ":"
                ++ Printf.number true 2 (tm_min t') ++ Printf.cq ":"
                ++ Printf.number true 2 (tm_sec t')) = 8) /\
  (forall e i s topic payload,
      match ESP32.in_local_p i with
      | Some t => Printf.valid_tm t = true
      | None => True
      end ->
      In (mqtt_publish topic payload) (snd (ESP32.loop_publish i s)) ->
      topic = ESP32.mqttTopic (ESP32.cfg s) /\
      exists t,
        ESP32.in_local_p i = Some t /\
        let text :=
          Printf.dec (tm_year t + 1900) ++ Printf.cq "-"
          ++ Printf.number true 2 (tm_mon t + 1) ++ Printf.cq "-"
          ++ Printf.number true 2 (tm_mday t) ++ Printf.cq " "
          ++ Printf.number true 2 (tm_hour t) ++ Printf.cq ":"
          ++ Printf.number true 2 (tm_min t) ++ Printf.cq ":"
          ++ Printf.number true 2 (tm_sec t) in
        Printf.render e payload = Some text /\ length text <= 19).
Proof.
  split.
  - intros e m1 m2 ti connected s t Hti Hip Hap. unfold ESP32.updateOLED.
    destruct (u32 (m1 - ESP32.lastOled s) <? 500)%Z; [intros [[] | []] |].
    cbv zeta.
    destruct (ESP32.apMode (ESP32.set_lastOled m2 s)).
    { cbn [snd]. intros [H | H]; each_drawn H; try discriminate H;
        injection H as <-;
        (split; [first [apply ScreenFacts.whole_lit | idtac] | discriminate]).
      destruct Hap as (F & _). unfold Printf.whole, Printf.render.
      cbn [Printf.val_of bind]. now rewrite PrintfFacts.c_str_String. }
    destruct ti as [ti |].
    2:{ cbn [snd]. intros [H | H]; each_drawn H; try discriminate H;
          injection H as <-; (split; [apply ScreenFacts.whole_lit
                                     | discriminate]). }
    destruct (tm_sec ti =? _)%Z; [intros [[] | []] |].
    cbv zeta. cbn [snd].
    destruct (tm_lengths ti Hti)
      as (L1 & L2 & L3 & L4 & L5 & L6 & L7 & L8 & F7 & F8).
    apply ClockFacts.valid_tm_ranges in Hti
      as (Hs & Hmi & Hho & Hda & Hmo & Hy & Hw).
    assert (Lt : length (Printf.number true 2 (tm_hour ti) ++ Printf.cq ":"
                         ++ Printf.number true 2 (tm_min ti) ++ Printf.cq ":"
                         ++ Printf.number true 2 (tm_sec ti)) = 8)
      by StatusProof.lengths.
    assert (Rt : Printf.render e (TStrftime 9 "%H:%M:%S" ti) =
                 Some (Printf.number true 2 (tm_hour ti) ++ Printf.cq ":"
                       ++ Printf.number true 2 (tm_min ti) ++ Printf.cq ":"
                       ++ Printf.number true 2 (tm_sec ti))).
    { unfold Printf.render, Printf.strftime. rewrite vstrftime_time.
      cbn [bind]. rewrite app_nil_r. rewrite Lt. reflexivity. }
    assert (Wd : Printf.whole e (TStrftime 20 "%a %d %b %Y" ti) = true).
    { unfold Printf.whole, Printf.render, Printf.strftime.
      rewrite (vstrftime_date ti Hw Hmo). cbn [bind]. rewrite app_nil_r.
      match goal with
      | |- context [(length ?o + 1 <=? 20)] =>
          assert ((length o + 1 <=? 20) = true) as ->
            by (apply Nat.leb_le; StatusProof.lengths)
      end.
      reflexivity. }
    intros [H | H]; each_drawn H; try discriminate H; injection H as <-.
    all: try (split; [first [apply ScreenFacts.whole_lit
                            | now apply ScreenFacts.whole_ip
                            | exact Wd
                            | reflexivity]
                     | discriminate]).
    + split; [unfold Printf.whole; now rewrite Rt |].
      intros size t' E. injection E as <- <-. split; assumption.
    + destruct (ESP32.mqttEnabled _); [destruct connected |];
        (split; [reflexivity | discriminate]).
  - intros e i s topic payload Hti. unfold ESP32.loop_publish.
    destruct (_ && _ && _); [| intros []].
    destruct (60000 <? _)%Z; [| intros []].
    cbv zeta. destruct (ESP32.in_local_p i) as [ti |]; [| intros []].
    cbn [snd]. intros [H | []]. injection H as <- <-.
    split; [reflexivity |]. exists ti. split; [reflexivity |]. cbv zeta.
    destruct (tm_lengths ti Hti)
      as (L1 & L2 & L3 & L4 & L5 & L6 & L7 & L8 & F7 & F8).
    apply ClockFacts.valid_tm_ranges in Hti
      as (Hs & Hmi & Hho & Hda & Hmo & Hy & Hw).
    rewrite PrintfFacts.number_plain in L6 by lia.
    assert (L : length
                  (Printf.dec (tm_year ti + 1900) ++ Printf.cq "-"
                   ++ Printf.number true 2 (tm_mon ti + 1) ++ Printf.cq "-"
                   ++ Printf.number true 2 (tm_mday ti) ++ Printf.cq " "
                   ++ Printf.number true 2 (tm_hour ti) ++ Printf.cq ":"
                   ++ Printf.number true 2 (tm_min ti) ++ Printf.cq ":"
                   ++ Printf.number true 2 (tm_sec ti)) <= 19)
      by StatusProof.lengths.
    split; [| exact L].
    unfold Printf.render, Printf.strftime. rewrite vstrftime_stamp.
    cbn [bind]. rewrite app_nil_r, PrintfFacts.number_plain by lia.
    match goal with
    | |- context [(length ?o + 1 <=? 32)] =>
        assert ((length o + 1 <=? 32) = true) as ->
          by (apply Nat.leb_le; lia)
    end.
    reflexivity.
Qed.

Lemma esp32_clock_texts_witness :
  Printf.valid_tm Samples.a_tm = true /\
  In (mqtt_publish (ESP32.mqttTopic (ESP32.cfg Samples.esp32_booted))
                   (TStrftime 32 "%Y-%m-%d %H:%M:%S" Samples.a_tm))
     (snd (ESP32.loop_publish (Samples.esp32_pass 70000)
                              Samples.esp32_booted)) /\
  Printf.render Cases.an_env
    (TStrftime 32 "%Y-%m-%d %H:%M:%S" Samples.a_tm) =
    Some (list_ascii_of_string "2024-05-17 10:20:30").
Proof.
  assert (H1 : Printf.valid_tm Samples.a_tm = true) by reflexivity.
  assert (H2 : In (mqtt_publish
                     (ESP32.mqttTopic (ESP32.cfg Samples.esp32_booted))
                     (TStrftime 32 "%Y-%m-%d %H:%M:%S" Samples.a_tm))
                  (snd (ESP32.loop_publish (Samples.esp32_pass 70000)
                                           Samples.esp32_booted)))
    by (vm_compute; left; reflexivity).
  split; [exact H1 |]. split; [exact H2 |].
  destruct (proj2 esp32_clock_texts Cases.an_env (Samples.esp32_pass 70000)
                  Samples.esp32_booted _ _ H1 H2)
    as (_ & t & Et & R & _).
  injection Et as <-. rewrite R. vm_compute. reflexivity.
Defined.
